(** * EventStreamML: the structured generative output layer and its configuration

    A shallow embedding of
    - [EventStream/EventStreamTransformer/config.py]
      ([StructuredEventStreamTransformerConfig.__init__], [expand_attention_types_params],
       the event-type defaults of [set_to_dataset]) and
    - [EventStream/EventStreamTransformer/model.py]
      ([StructuredEventStreamGenerativeOutputLayer]: [__init__], [get_TTE_outputs],
       [get_classification_outputs], [get_regression_outputs],
       [get_event_type_mask_per_measurement], [forward]).

    Conventions.
    - A Python exception is a value of [exn]; a call that may raise returns [result A].
    - A [dict] with string keys is an association list in insertion order, as Python
      iterates it; [dict_set] overwrites in place or appends.
    - A tensor is a nested list, outermost dimension first.  Integer tensors hold [Z].
    - Floating-point scalars are abstract ([Scalar]); the numeric kernels that live in
      torch or in modules of the repository that are not part of the two files above
      (the linear layers, the distributions, the loss criteria, [weighted_loss],
      [safe_weighted_avg], the TTE and regression heads) are fields of [Kernels].
      Each of them may raise, so each returns a [result].
    - Integer tensors are int64: a subtraction on them wraps ([wrap64]).  The integers
      of a configuration are taken to fit 64 bits. *)

From Stdlib Require Import List String ZArith Bool Lia Floats.
Import ListNotations.
Local Open Scope string_scope.
Local Open Scope Z_scope.

Set Implicit Arguments.

(* ===================================================================== *)
(** ** Python values, exceptions, dictionaries *)
(* ===================================================================== *)

Module Py.

Inductive exn : Type :=
| KeyError (key : string)
| IndexError
| AssertionError
| ValueError (msg : string)
| TypeError
| AttributeError
| NameError (name : string)
| ZeroDivisionError
| RuntimeError.

Definition result (A : Type) : Type := (exn + A)%type.

Definition ret {A} (x : A) : result A := inr x.
Definition raise {A} (e : exn) : result A := inl e.

Definition bind {A B} (c : result A) (k : A -> result B) : result B :=
  match c with
  | inl e => inl e
  | inr x => k x
  end.

Definition py_assert (b : bool) : result unit :=
  if b then ret tt else raise AssertionError.

Definition is_ok {A} (c : result A) : bool :=
  match c with inr _ => true | inl _ => false end.

(** [for x in xs: body], threading the loop state and stopping at the first raise. *)
Fixpoint for_each {A St} (xs : list A) (body : A -> St -> result St) (st : St)
  : result St :=
  match xs with
  | [] => ret st
  | x :: rest => bind (body x st) (for_each rest body)
  end.

(** [for x in xs: check x] for a body without state. *)
Definition for_all_do {A} (xs : list A) (check : A -> result unit) : result unit :=
  for_each xs (fun x _ => check x) tt.

(** A comprehension [[f x for x in xs]] whose element expression may raise. *)
Fixpoint map_result {A B} (f : A -> result B) (xs : list A) : result (list B) :=
  match xs with
  | [] => ret []
  | x :: rest =>
      bind (f x) (fun y => bind (map_result f rest) (fun ys => ret (y :: ys)))
  end.

(** Values that may sit in a configuration list: atoms, and tuples or lists of
    atoms.  Members of a [StrEnum] are their (lower-case) strings. *)
Inductive atom : Type :=
| AStr (s : string)
| AInt (z : Z)
| ANone.

Inductive value : Type :=
| VAtom (a : atom)
| VTuple (items : list atom)
| VList (items : list atom).

Definition atom_eqb (a b : atom) : bool :=
  match a, b with
  | AStr s, AStr t => String.eqb s t
  | AInt x, AInt y => Z.eqb x y
  | ANone, ANone => true
  | _, _ => false
  end.

Definition str_in (s : string) (l : list string) : bool :=
  existsb (String.eqb s) l.

(** *** dict: insertion-ordered association list keyed by strings *)

Definition dict (V : Type) : Type := list (string * V).

Fixpoint dict_get {V} (d : dict V) (k : string) : option V :=
  match d with
  | [] => None
  | (k', v) :: rest => if String.eqb k k' then Some v else dict_get rest k
  end.

(** [d[k]] *)
Definition dict_item {V} (d : dict V) (k : string) : result V :=
  match dict_get d k with
  | Some v => ret v
  | None => raise (KeyError k)
  end.

Definition dict_mem {V} (d : dict V) (k : string) : bool :=
  match dict_get d k with Some _ => true | None => false end.

(** [d[k] = v] *)
Fixpoint dict_set {V} (d : dict V) (k : string) (v : V) : dict V :=
  match d with
  | [] => [(k, v)]
  | (k', v') :: rest =>
      if String.eqb k k' then (k', v) :: rest else (k', v') :: dict_set rest k v
  end.

(** [d.update(e)] *)
Definition dict_update {V} (d e : dict V) : dict V :=
  fold_left (fun acc kv => dict_set acc (fst kv) (snd kv)) e d.

Definition dict_keys {V} (d : dict V) : list string := map fst d.
Definition dict_values {V} (d : dict V) : list V := map snd d.

(** Python's [seq[start:stop]] with its treatment of negative and
    out-of-range bounds. *)
Definition slice_bound (len i : Z) : Z :=
  if i <? 0 then Z.max (i + len) 0 else Z.min i len.

Definition slice {A} (start stop : Z) (l : list A) : list A :=
  let len := Z.of_nat (List.length l) in
  let a := slice_bound len start in
  let b := slice_bound len stop in
  firstn (Z.to_nat (b - a)) (skipn (Z.to_nat a) l).

(** [range(1, n)] *)
Definition range_from_1 (n : nat) : list nat := seq 1 (n - 1).

End Py.

Import Py.

Declare Scope py_scope.
Notation "x <- c ;; k" := (bind c (fun x => k))
  (at level 61, c at next level, right associativity) : py_scope.
Notation "c ;;; k" := (bind c (fun _ => k))
  (at level 61, right associativity) : py_scope.
Local Open Scope py_scope.

(* ===================================================================== *)
(** ** Enumerations *)
(* ===================================================================== *)

(** Modelled from the spec: [DataModality] is declared in
    [EventStreamData/types.py]; the three generative modes the output layer
    distinguishes are the ones of the specification's [MeasurementSpec]. *)
Inductive DataModality : Type :=
| SINGLE_LABEL_CLASSIFICATION
| MULTI_LABEL_CLASSIFICATION
| MULTIVARIATE_REGRESSION.

Definition DataModality_eqb (a b : DataModality) : bool :=
  match a, b with
  | SINGLE_LABEL_CLASSIFICATION, SINGLE_LABEL_CLASSIFICATION
  | MULTI_LABEL_CLASSIFICATION, MULTI_LABEL_CLASSIFICATION
  | MULTIVARIATE_REGRESSION, MULTIVARIATE_REGRESSION => true
  | _, _ => false
  end.

(** Modelled from the spec: [MeasIndexGroupOptions] is declared in
    [EventStreamData/data_embedding_layer.py]; its members are the value kinds of
    the specification's [DependencyGraphLevel]. *)
Inductive MeasIndexGroupOptions : Type :=
| CATEGORICAL_ONLY
| CATEGORICAL_AND_NUMERICAL
| NUMERICAL_ONLY.

Module MeasIndexGroup.
Definition values : list string :=
  ["categorical_only"; "categorical_and_numerical"; "numerical_only"].

(** The member an object compares equal to, as a [match] value pattern finds it. *)
Definition of_atom (a : atom) : option MeasIndexGroupOptions :=
  match a with
  | AStr s =>
      if String.eqb s "categorical_and_numerical" then Some CATEGORICAL_AND_NUMERICAL
      else if String.eqb s "categorical_only" then Some CATEGORICAL_ONLY
      else if String.eqb s "numerical_only" then Some NUMERICAL_ONLY
      else None
  | _ => None
  end.

Definition to_atom (m : MeasIndexGroupOptions) : atom :=
  match m with
  | CATEGORICAL_ONLY => AStr "categorical_only"
  | CATEGORICAL_AND_NUMERICAL => AStr "categorical_and_numerical"
  | NUMERICAL_ONLY => AStr "numerical_only"
  end.

(** [mode in MeasIndexGroupOptions.values()] *)
Definition mem (a : atom) : bool :=
  match a with
  | AStr s => str_in s values
  | _ => false
  end.
End MeasIndexGroup.

Module StructuredEventProcessingMode.
Definition CONDITIONALLY_INDEPENDENT : string := "conditionally_independent".
Definition NESTED_ATTENTION : string := "nested_attention".
Definition values : list string := [CONDITIONALLY_INDEPENDENT; NESTED_ATTENTION].
End StructuredEventProcessingMode.

Module TimeToEventGenerationHeadType.
Definition EXPONENTIAL : string := "exponential".
Definition LOG_NORMAL_MIXTURE : string := "log_normal_mixture".
Definition values : list string := [EXPONENTIAL; LOG_NORMAL_MIXTURE].
End TimeToEventGenerationHeadType.


(* ===================================================================== *)
(** ** config.py: StructuredEventStreamTransformerConfig *)
(* ===================================================================== *)

(** The keyword arguments of [__init__] that the constructor inspects.  An optional
    argument is an [option]; Python's [float] is a binary64 number.  An entry of
    [seq_attention_types] is [[names, count]]. *)
Module Args.
Record t : Type := {
  vocab_sizes_by_measurement : option (dict Z);
  vocab_offsets_by_measurement : option (dict Z);
  measurements_idxmap : option (dict Z);
  measurements_per_generative_mode : option (list (DataModality * list string));
  event_types_per_measurement : option (dict (list string));
  event_types_idxmap : option (dict Z);
  measurements_per_dep_graph_level : option (list (list value));
  max_seq_len : Z;
  categorical_embedding_dim : option Z;
  numerical_embedding_dim : option Z;
  structured_event_processing_mode : string;
  hidden_size : option Z;
  head_dim : option Z;
  num_hidden_layers : Z;
  num_attention_heads : Z;
  seq_attention_types : option (list (list string * Z));
  seq_window_size : Z;
  dep_graph_attention_types : option (list (list string * Z));
  dep_graph_window_size : option Z;
  do_full_block_in_dep_graph_attention : option bool;
  do_full_block_in_seq_attention : option bool;
  do_add_temporal_position_embeddings_to_data_embeddings : option bool;
  TTE_generation_layer_type : string;
  TTE_lognormal_generation_num_components : option Z;
  mean_log_inter_event_time_min : option float;
  std_log_inter_event_time_min : option float;
  is_encoder_decoder : bool
}.
End Args.

Module Config.

(** The attributes of a configuration object that the constructor sets and the
    model reads.  [event_types_per_measurement] is optional because
    [get_event_type_mask_per_measurement] tests it against [None]. *)
Record t : Type := {
  event_types_per_measurement : option (dict (list string));
  event_types_idxmap : dict Z;
  structured_event_processing_mode : string;
  seq_attention_layers : list string;
  dep_graph_attention_layers : option (list string);
  TTE_generation_layer_type : string;
  TTE_lognormal_generation_num_components : option Z;
  mean_log_inter_event_time_min : option float;
  std_log_inter_event_time_min : option float;
  max_seq_len : Z;
  vocab_sizes_by_measurement : dict Z;
  vocab_offsets_by_measurement : dict Z;
  measurements_idxmap : dict Z;
  measurements_per_generative_mode : list (DataModality * list string);
  measurements_per_dep_graph_level : option (list (list value));
  vocab_size : Z;
  head_dim : Z;
  hidden_size : Z;
  num_attention_heads : Z;
  num_hidden_layers : Z
}.

Definition is_none {A} (o : option A) : bool :=
  match o with None => true | Some _ => false end.

Definition or_default {A} (o : option A) (d : A) : A :=
  match o with None => d | Some x => x end.

(** [MANDATORY_PRESENT_PARAMS] and [MANDATORY_ABSENT_PARAMS] *)
Definition MANDATORY_PRESENT_by_mode (mode : string) : list string :=
  if String.eqb mode StructuredEventProcessingMode.NESTED_ATTENTION then
    ["do_full_block_in_seq_attention"; "do_full_block_in_dep_graph_attention";
     "do_add_temporal_position_embeddings_to_data_embeddings"]
  else [].

Definition MANDATORY_ABSENT_by_mode (mode : string) : list string :=
  if String.eqb mode StructuredEventProcessingMode.CONDITIONALLY_INDEPENDENT then
    ["measurements_per_dep_graph_level"; "do_full_block_in_seq_attention";
     "do_full_block_in_dep_graph_attention"; "dep_graph_attention_types";
     "dep_graph_window_size"; "do_add_temporal_position_embeddings_to_data_embeddings"]
  else [].

Definition MANDATORY_PRESENT_by_tte_head (head : string) : list string :=
  if String.eqb head TimeToEventGenerationHeadType.LOG_NORMAL_MIXTURE then
    ["TTE_lognormal_generation_num_components"]
  else [].

Definition MANDATORY_ABSENT_by_tte_head (head : string) : list string :=
  if String.eqb head TimeToEventGenerationHeadType.EXPONENTIAL then
    ["TTE_lognormal_generation_num_components"; "mean_log_inter_event_time_min";
     "std_log_inter_event_time_min"]
  else [].

(** The two loops [for name, val in params.items()]; a parameter is given by its
    name and whether its value is [None]. *)
Definition check_params (present absent : list string) (params : list (string * bool))
  : result unit :=
  for_all_do params (fun p =>
    let name := fst p in
    let val_is_none := snd p in
    if str_in name present && val_is_none
    then raise (ValueError (name ++ " should not be `None`"))
    else if str_in name absent && negb val_is_none
    then raise (ValueError (name ++ " should be `None`"))
    else ret tt).

(** The body of [match meas_index] for one entry of a level. *)
Definition check_meas_index (meas_index : value) : result unit :=
  match meas_index with
  | VAtom (AStr _) => ret tt
  | VTuple [name; mode] | VList [name; mode] =>
      py_assert (match name with AStr _ => true | _ => false end) ;;;
      py_assert (MeasIndexGroup.mem mode)
  | _ => raise (ValueError "Invalid `measurements_per_dep_graph_level` entry")
  end.

Definition check_measurements_per_dep_graph_level (levels : list (list value))
  : result unit :=
  for_all_do levels (fun group => for_all_do group check_meas_index).

(** [expand_attention_types_params] *)
Definition expand_attention_types_params (attention_types : list (list string * Z))
  : list string :=
  flat_map (fun item => List.concat (repeat (fst item) (Z.to_nat (snd item)))) attention_types.

(** [StructuredEventStreamTransformerConfig.__init__], up to the call of the
    constructor of [PretrainedConfig], which is taken to return. *)
Definition init (a : Args.t) : result t :=
  let vocab_sizes_by_measurement := or_default (Args.vocab_sizes_by_measurement a) [] in
  let vocab_offsets_by_measurement := or_default (Args.vocab_offsets_by_measurement a) [] in
  let measurements_idxmap := or_default (Args.measurements_idxmap a) [] in
  let measurements_per_generative_mode :=
    or_default (Args.measurements_per_generative_mode a) [] in
  let event_types_per_measurement := or_default (Args.event_types_per_measurement a) [] in
  let event_types_idxmap := or_default (Args.event_types_idxmap a) [] in
  let mode := Args.structured_event_processing_mode a in
  let levels := Args.measurements_per_dep_graph_level a in
  let num_hidden_layers := Args.num_hidden_layers a in
  let num_attention_heads := Args.num_attention_heads a in
  let tte := Args.TTE_generation_layer_type a in
  (match Args.categorical_embedding_dim a with
   | Some c =>
       py_assert (c >? 0) ;;;
       match Args.numerical_embedding_dim a with
       | None => raise AssertionError
       | Some n => py_assert (n >? 0)
       end
   | None => ret tt
   end) ;;;
  (* the message of this ValueError names an undefined variable *)
  (if negb (str_in mode StructuredEventProcessingMode.values)
   then raise (NameError "structured_event_procvessing_mode") else ret tt) ;;;
  check_params (MANDATORY_PRESENT_by_mode mode) (MANDATORY_ABSENT_by_mode mode)
    [("measurements_per_dep_graph_level", is_none levels);
     ("do_full_block_in_seq_attention", is_none (Args.do_full_block_in_seq_attention a));
     ("do_full_block_in_dep_graph_attention",
        is_none (Args.do_full_block_in_dep_graph_attention a));
     ("dep_graph_attention_types", is_none (Args.dep_graph_attention_types a));
     ("dep_graph_window_size", is_none (Args.dep_graph_window_size a));
     ("do_add_temporal_position_embeddings_to_data_embeddings",
        is_none (Args.do_add_temporal_position_embeddings_to_data_embeddings a))] ;;;
  (match levels with
   | Some groups =>
       if String.eqb mode "nested_attention"
       then check_measurements_per_dep_graph_level groups
       else ret tt
   | None => ret tt
   end) ;;;
  dims <-
    (match Args.hidden_size a, Args.head_dim a with
     | None, None => raise (ValueError "Must specify at least one of hidden size or head dim!")
     | None, Some hd => ret (hd * num_attention_heads, hd)
     | Some hs, None =>
         if num_attention_heads =? 0 then raise ZeroDivisionError
         else ret (hs, hs / num_attention_heads)
     | Some hs, Some hd => ret (hs, hd)
     end) ;;
  let hidden_size := fst dims in
  let head_dim := snd dims in
  (if negb (head_dim * num_attention_heads =? hidden_size)
   then raise (ValueError "hidden_size must be divisible by num_attention_heads")
   else ret tt) ;;;
  (if num_hidden_layers <=? 0
   then raise (ValueError "num_hidden_layers must be > 0!") else ret tt) ;;;
  seq_attention_types <-
    (match Args.seq_attention_types a with
     | None =>
         py_assert (num_hidden_layers mod 2 =? 0) ;;;
         ret [(["local"; "global"], num_hidden_layers / 2)]
     | Some types => ret types
     end) ;;
  let seq_attention_layers := expand_attention_types_params seq_attention_types in
  (if negb (Z.of_nat (List.length seq_attention_layers) =? num_hidden_layers)
   then raise (ValueError "Configuration for module is incorrect.") else ret tt) ;;;
  dep_graph_attention_layers <-
    (if negb (String.eqb mode "conditionally_independent") then
       let dep_graph_attention_types :=
         or_default (Args.dep_graph_attention_types a) [(["global"], num_hidden_layers)] in
       let layers := expand_attention_types_params dep_graph_attention_types in
       if negb (Z.of_nat (List.length layers) =? num_hidden_layers)
       then raise (ValueError "Configuration for module is incorrect.")
       else ret (Some layers)
     else ret None) ;;
  (if negb (str_in tte TimeToEventGenerationHeadType.values)
   then raise (ValueError "Invalid option for `TTE_generation_layer_type`.")
   else ret tt) ;;;
  check_params (MANDATORY_PRESENT_by_tte_head tte) (MANDATORY_ABSENT_by_tte_head tte)
    [("TTE_lognormal_generation_num_components",
        is_none (Args.TTE_lognormal_generation_num_components a));
     ("mean_log_inter_event_time_min", is_none (Args.mean_log_inter_event_time_min a));
     ("std_log_inter_event_time_min", is_none (Args.std_log_inter_event_time_min a))] ;;;
  norm <-
    (if String.eqb tte TimeToEventGenerationHeadType.LOG_NORMAL_MIXTURE then
       match Args.TTE_lognormal_generation_num_components a with
       | None => raise TypeError
       | Some n =>
           if n <=? 0
           then raise (ValueError "`TTE_lognormal_generation_num_components` should be >0")
           else ret (Some (or_default (Args.mean_log_inter_event_time_min a) 0%float),
                     Some (or_default (Args.std_log_inter_event_time_min a) 1%float))
       end
     else ret (Args.mean_log_inter_event_time_min a,
               Args.std_log_inter_event_time_min a)) ;;
  py_assert (negb (Args.is_encoder_decoder a)) ;;;
  ret {|
    event_types_per_measurement := Some event_types_per_measurement;
    event_types_idxmap := event_types_idxmap;
    structured_event_processing_mode := mode;
    seq_attention_layers := seq_attention_layers;
    dep_graph_attention_layers := dep_graph_attention_layers;
    TTE_generation_layer_type := tte;
    TTE_lognormal_generation_num_components :=
      Args.TTE_lognormal_generation_num_components a;
    mean_log_inter_event_time_min := fst norm;
    std_log_inter_event_time_min := snd norm;
    max_seq_len := Args.max_seq_len a;
    vocab_sizes_by_measurement := vocab_sizes_by_measurement;
    vocab_offsets_by_measurement := vocab_offsets_by_measurement;
    measurements_idxmap := measurements_idxmap;
    measurements_per_generative_mode := measurements_per_generative_mode;
    measurements_per_dep_graph_level := levels;
    vocab_size := Z.max (fold_left Z.add (dict_values vocab_sizes_by_measurement) 0) 1;
    head_dim := head_dim;
    hidden_size := hidden_size;
    num_attention_heads := num_attention_heads;
    num_hidden_layers := num_hidden_layers
  |}.

(** The list [set_to_dataset] stores in [event_types_per_measurement] for a
    dynamic measurement whose dataset configuration has [present_in_event_types]:
    every event type of the dataset when it is [None]. *)
Definition event_types_for (present_in_event_types : option (list string))
  (dataset_event_types_idxmap : dict Z) : list string :=
  match present_in_event_types with
  | None => dict_keys dataset_event_types_idxmap
  | Some l => l
  end.

End Config.


(* ===================================================================== *)
(** ** Tensors, batches and the numeric kernels *)
(* ===================================================================== *)

Definition tensor1 (A : Type) : Type := list A.
Definition tensor2 (A : Type) : Type := list (list A).
Definition tensor3 (A : Type) : Type := list (list (list A)).
Definition tensor4 (A : Type) : Type := list (list (list (list A))).

Module Tensor.

Definition zip_with {A B C} (f : A -> B -> C) (x : list A) (y : list B) : list C :=
  map (fun p => f (fst p) (snd p)) (combine x y).

Definition zip_with2 {A B C} (f : A -> B -> C) : tensor2 A -> tensor2 B -> tensor2 C :=
  zip_with (zip_with f).

Definition zip_with3 {A B C} (f : A -> B -> C) : tensor3 A -> tensor3 B -> tensor3 C :=
  zip_with (zip_with2 f).

Definition map2 {A B} (f : A -> B) : tensor2 A -> tensor2 B := map (map f).
Definition map3 {A B} (f : A -> B) : tensor3 A -> tensor3 B := map (map2 f).

(** [t.any()] over a whole tensor *)
Definition any2 {A} (p : A -> bool) (t : tensor2 A) : bool := existsb (existsb p) t.

(** [x[1:]] and [x[:-1]] along the last dimension of a row *)
Definition drop_first {A} (row : list A) : list A := tl row.
Definition drop_last {A} (row : list A) : list A := removelast row.

(** [x[-1]]: the last entry, which does not exist in an empty dimension *)
Definition last_item {A} (row : list A) : result A :=
  match rev row with
  | [] => raise IndexError
  | x :: _ => ret x
  end.

(** [x[0]] *)
Definition first_item {A} (row : list A) : result A :=
  match row with
  | [] => raise IndexError
  | x :: _ => ret x
  end.

(** [x[i]] for a non-negative index *)
Definition item {A} (row : list A) (i : nat) : result A :=
  match nth_error row i with
  | None => raise IndexError
  | Some x => ret x
  end.

(** The number of [True] entries of a mask row: the value of [mask.float().sum(-1)],
    which is exact for every length below 2^24. *)
Definition count_true (row : list bool) : nat := List.length (filter (fun b => b) row).

Definition same_shape2 {A B} (x : tensor2 A) (y : tensor2 B) : bool :=
  (List.length x =? List.length y)%nat
  && forallb (fun p => (List.length (fst p) =? List.length (snd p))%nat) (combine x y).

End Tensor.

(* ===================================================================== *)
(** ** config.py: StructuredEventStreamTransformerConfig.set_to_dataset *)
(* ===================================================================== *)

(** An [EventStreamPytorchDataset], by the attributes [set_to_dataset] reads. *)
Module Dataset.

(** An element of a task vocabulary: a Python bool, int or str. *)
Inductive label : Type :=
| LBool (b : bool)
| LInt (z : Z)
| LStr (s : string).

(** Python's [==] on labels, which is also the equality of dictionary keys:
    [True == 1] and [False == 0]. *)
Definition label_eqb (a b : label) : bool :=
  match a, b with
  | LStr s, LStr t => String.eqb s t
  | LStr _, _ | _, LStr _ => false
  | LBool x, LBool y => Bool.eqb x y
  | LBool x, LInt z | LInt z, LBool x => z =? (if x then 1 else 0)
  | LInt x, LInt y => x =? y
  end.

(** A measurement configuration; [is_dynamic] is the value of
    [cfg.temporality == TemporalityType.DYNAMIC]. *)
Record MeasurementConfig : Type := {
  is_dropped : bool;
  is_dynamic : bool;
  present_in_event_types : option (list string)
}.

Record t : Type := {
  measurements_idxmap : dict Z;
  measurements_per_generative_mode : list (DataModality * list string);
  event_types_idxmap : dict Z;
  measurement_configs : dict MeasurementConfig;
  measurement_vocab_offsets : dict Z;
  measurement_vocabs : dict (list string);
  total_vocab_size : Z;
  max_seq_len : Z;
  do_normalize_log_inter_event_times : bool;
  mean_log_inter_event_time_min : option float;
  std_log_inter_event_time_min : option float;
  has_task : bool;
  tasks : list string;
  task_types : dict string;
  task_vocabs : dict (list label)
}.

End Dataset.

(** The attributes of the fine-tuning task that [set_to_dataset] assigns; [None] is
    an attribute that holds [None]. *)
Module Task.

Record t : Type := {
  finetuning_task : option string;
  id2label : option (list (Z * Dataset.label));
  label2id : option (list (Dataset.label * Z));
  num_labels : option Z;
  problem_type : option string
}.

(** [d[v] = i] on a dictionary keyed by labels *)
Fixpoint label_dict_set (d : list (Dataset.label * Z)) (v : Dataset.label) (i : Z)
  : list (Dataset.label * Z) :=
  match d with
  | [] => [(v, i)]
  | (v', i') :: rest =>
      if Dataset.label_eqb v v' then (v', i) :: rest
      else (v', i') :: label_dict_set rest v i
  end.

Fixpoint label_dict_get (d : list (Dataset.label * Z)) (v : Dataset.label) : option Z :=
  match d with
  | [] => None
  | (v', i) :: rest => if Dataset.label_eqb v v' then Some i else label_dict_get rest v
  end.

(** [{i: v for i, v in enumerate(vocab)}] *)
Definition enumerate (vocab : list Dataset.label) : list (Z * Dataset.label) :=
  combine (map Z.of_nat (seq 0 (List.length vocab))) vocab.

(** [{v: i for i, v in id2label.items()}] *)
Definition invert (id2label : list (Z * Dataset.label)) : list (Dataset.label * Z) :=
  fold_left (fun acc iv => label_dict_set acc (snd iv) (fst iv)) id2label [].

End Task.

Module SetToDataset.

(** Lines 617-626: the event types of [event_type] and of every dynamic measurement
    that is not dropped. *)
Definition event_types_per_measurement_of (d : Dataset.t) : dict (list string) :=
  fold_left
    (fun etpm entry =>
       let cfg := snd entry in
       if Dataset.is_dropped cfg || negb (Dataset.is_dynamic cfg) then etpm
       else dict_set etpm (fst entry)
              (Config.event_types_for (Dataset.present_in_event_types cfg)
                 (Dataset.event_types_idxmap d)))
    (Dataset.measurement_configs d)
    [("event_type", dict_keys (Dataset.event_types_idxmap d))].

(** Lines 630-636: the size of every vocabulary, and 1 for a measurement with an
    offset and no vocabulary. *)
Definition vocab_sizes_by_measurement_of (d : Dataset.t) : dict Z :=
  let sizes :=
    dict_update [("event_type", Z.of_nat (List.length (Dataset.event_types_idxmap d)))]
      (map (fun kv => (fst kv, Z.of_nat (List.length (snd kv))))
         (Dataset.measurement_vocabs d)) in
  fold_left (fun sizes k => dict_set sizes k 1)
    (filter (fun k => negb (dict_mem sizes k))
       (dict_keys (Dataset.measurement_vocab_offsets d)))
    sizes.

(** Lines 613-649: the attributes of the configuration after the assignments. *)
Definition set_registry (c : Config.t) (d : Dataset.t) : Config.t :=
  let log_normal :=
    String.eqb (Config.TTE_generation_layer_type c)
      TimeToEventGenerationHeadType.LOG_NORMAL_MIXTURE in
  {|
    Config.event_types_per_measurement := Some (event_types_per_measurement_of d);
    Config.event_types_idxmap := Dataset.event_types_idxmap d;
    Config.structured_event_processing_mode := Config.structured_event_processing_mode c;
    Config.seq_attention_layers := Config.seq_attention_layers c;
    Config.dep_graph_attention_layers := Config.dep_graph_attention_layers c;
    Config.TTE_generation_layer_type := Config.TTE_generation_layer_type c;
    Config.TTE_lognormal_generation_num_components :=
      Config.TTE_lognormal_generation_num_components c;
    Config.mean_log_inter_event_time_min :=
      if log_normal
      then (if Dataset.do_normalize_log_inter_event_times d then Some 0%float
            else Dataset.mean_log_inter_event_time_min d)
      else Config.mean_log_inter_event_time_min c;
    Config.std_log_inter_event_time_min :=
      if log_normal
      then (if Dataset.do_normalize_log_inter_event_times d then Some 1%float
            else Dataset.std_log_inter_event_time_min d)
      else Config.std_log_inter_event_time_min c;
    Config.max_seq_len := Dataset.max_seq_len d;
    Config.vocab_sizes_by_measurement := vocab_sizes_by_measurement_of d;
    Config.vocab_offsets_by_measurement := Dataset.measurement_vocab_offsets d;
    Config.measurements_idxmap := Dataset.measurements_idxmap d;
    Config.measurements_per_generative_mode := Dataset.measurements_per_generative_mode d;
    Config.measurements_per_dep_graph_level := Config.measurements_per_dep_graph_level c;
    Config.vocab_size := Dataset.total_vocab_size d;
    Config.head_dim := Config.head_dim c;
    Config.hidden_size := Config.hidden_size c;
    Config.num_attention_heads := Config.num_attention_heads c;
    Config.num_hidden_layers := Config.num_hidden_layers c
  |}.

(** Lines 653-664: one task. *)
Definition set_single_task (t : Task.t) (d : Dataset.t) : result Task.t :=
  finetuning_task <- Tensor.first_item (Dataset.tasks d) ;;
  task_type <- dict_item (Dataset.task_types d) finetuning_task ;;
  if String.eqb task_type "binary_classification"
     || String.eqb task_type "multi_class_classification"
  then
    vocab <- dict_item (Dataset.task_vocabs d) finetuning_task ;;
    let id2label := Task.enumerate vocab in
    ret {| Task.finetuning_task := Some finetuning_task;
           Task.id2label := Some id2label;
           Task.label2id := Some (Task.invert id2label);
           Task.num_labels := Some (Z.of_nat (List.length id2label));
           Task.problem_type := Some "single_label_classification" |}
  else if String.eqb task_type "regression"
  then
    ret {| Task.finetuning_task := Some finetuning_task;
           Task.id2label := Task.id2label t;
           Task.label2id := Task.label2id t;
           Task.num_labels := Some 1;
           Task.problem_type := Some "regression" |}
  else
    ret {| Task.finetuning_task := Some finetuning_task;
           Task.id2label := Task.id2label t;
           Task.label2id := Task.label2id t;
           Task.num_labels := Task.num_labels t;
           Task.problem_type := Task.problem_type t |}.

(** Lines 651-669: the task attributes. *)
Definition set_task (t : Task.t) (d : Dataset.t) : result Task.t :=
  if negb (Dataset.has_task d) then ret t
  else if (List.length (Dataset.tasks d) =? 1)%nat then set_single_task t d
  else if forallb (fun ty => String.eqb ty "binary_classification")
            (dict_values (Dataset.task_types d))
  then
    ret {| Task.finetuning_task := Task.finetuning_task t;
           Task.id2label := Task.id2label t;
           Task.label2id := Task.label2id t;
           Task.num_labels := Some (Z.of_nat (List.length (Dataset.tasks d)));
           Task.problem_type := Some "multi_label_classification" |}
  else if forallb (fun ty => String.eqb ty "regression")
            (dict_values (Dataset.task_types d))
  then
    ret {| Task.finetuning_task := Task.finetuning_task t;
           Task.id2label := Task.id2label t;
           Task.label2id := Task.label2id t;
           Task.num_labels := Some (Z.of_nat (List.length (Dataset.tasks d)));
           Task.problem_type := Some "regression" |}
  else ret t.

Definition set_to_dataset (c : Config.t) (t : Task.t) (pytorch_dataset : Dataset.t)
  : result (Config.t * Task.t) :=
  let c' := set_registry c pytorch_dataset in
  t' <- set_task t pytorch_dataset ;;
  ret (c', t').

End SetToDataset.

(** Floating-point scalars.  [fsum] and [fmean] are torch's reductions of one
    dimension; Python's builtin [sum] is the left fold [py_sum] below. *)
Class Scalar : Type := {
  F : Type;
  fzero : F;
  fone : F;
  fadd : F -> F -> F;
  fsub : F -> F -> F;
  fmul : F -> F -> F;
  fdiv : F -> F -> F;
  fneg : F -> F;
  fsum : list F -> F;
  fmean : list F -> F;
  of_count : nat -> F;
  isnan : F -> bool
}.

Section WithScalar.
Context {SC : Scalar}.

(** [b.float()] *)
Definition bool_to_float (b : bool) : F := if b then fone else fzero.

(** [sum(values)]: Python's builtin, a left fold from the integer 0. *)
Definition py_sum (values : list F) : F := fold_left fadd values fzero.

(** An [EventStreamPytorchBatch], by the keys the output layer reads.  The tensors of
    one batch share their leading dimensions B (sequences), S (events) and K (slots);
    B is positive. *)
Record Batch : Type := {
  dynamic_indices : tensor3 Z;
  dynamic_measurement_indices : tensor3 Z;
  dynamic_values : tensor3 F;
  dynamic_values_mask : tensor3 bool;
  event_mask : tensor2 bool;
  time : tensor2 F
}.

(** Labels returned per classification measurement. *)
Inductive ClassificationLabels : Type :=
| LongLabels (labels : tensor2 Z)
| FloatLabels (labels : tensor3 F).

(** [torch.nn.CrossEntropyLoss(reduction='none')] and
    [torch.nn.BCEWithLogitsLoss(reduction='none')] *)
Inductive Criterion : Type :=
| CrossEntropy
| BCEWithLogits.

(** What the output layer calls but does not define: torch modules, distributions
    and criteria, the heads of [generative_layers.py], the helpers of [utils.py], and
    the text an f-string prints for a batch.  Every call may raise (a shape that does
    not fit, an argument a distribution does not accept, a label out of range). *)
Record Kernels : Type := {
  (** the distribution the TTE head predicts from one hidden vector, and the
      log-density of one duration under it *)
  TTE_dist_t : Type;
  TTE_layer_forward : list F -> result TTE_dist_t;
  TTE_log_prob : TTE_dist_t -> F -> result F;
  (** [torch.nn.Linear(hidden_size, vocab_size)] on one hidden vector *)
  ClassificationLayer : list F -> result (list F);
  (** [torch.distributions.Categorical(logits=scores)] and
      [torch.distributions.Bernoulli(logits=scores)] *)
  classification_dist_t : Type;
  Categorical : tensor3 F -> result classification_dist_t;
  Bernoulli : tensor3 F -> result classification_dist_t;
  (** a criterion called with scores [B,S,W] (transposed by the caller for class
      indices) and with labels [B,S] or [B,S,W] *)
  criterion_on_indices : Criterion -> tensor3 F -> tensor2 Z -> result (tensor2 F);
  criterion_on_targets : Criterion -> tensor3 F -> tensor3 F -> result (tensor3 F);
  weighted_loss : tensor2 F -> tensor2 bool -> result F;
  (** the first component of what [safe_weighted_avg] returns *)
  safe_weighted_avg : tensor3 F -> tensor3 bool -> result (tensor2 F);
  (** [GaussianIndexedRegressionLayer] of a measurement, called with [X] and [I] *)
  regression_dist_t : Type;
  regression_layer_forward :
    string -> tensor3 F -> option (tensor3 Z) -> result regression_dist_t;
  regression_log_prob : regression_dist_t -> tensor3 F -> result (tensor3 F);
  batch_repr : Batch -> string
}.

End WithScalar.

Arguments Batch : clear implicits.
Arguments Batch {SC}.
Arguments Kernels : clear implicits.
Arguments Kernels {SC}.


(* ===================================================================== *)
(** ** model.py: StructuredEventStreamGenerativeOutputLayer.__init__ *)
(* ===================================================================== *)

Module Layer.

Inductive TTEHead : Type :=
| LogNormalMixtureTTELayer (num_components : option Z)
    (mean_log_inter_time std_log_inter_time : option float)
| ExponentialTTELayer.

(** The attributes [__init__] sets.  A regression layer is recorded by its
    [n_regression_targets]. *)
Record t : Type := {
  config : Config.t;
  TTE_layer : TTEHead;
  classification_criteria : dict Criterion;
  regression_layers : dict Z;
  classification_mode_per_measurement : dict DataModality
}.

Definition modality_name (m : DataModality) : string :=
  match m with
  | SINGLE_LABEL_CLASSIFICATION => "single_label_classification"
  | MULTI_LABEL_CLASSIFICATION => "multi_label_classification"
  | MULTIVARIATE_REGRESSION => "multivariate_regression"
  end.

Fixpoint modes_get (d : list (DataModality * list string)) (k : DataModality)
  : option (list string) :=
  match d with
  | [] => None
  | (k', v) :: rest => if DataModality_eqb k k' then Some v else modes_get rest k
  end.

(** [config.measurements_per_generative_mode[k]] *)
Definition modes_item (d : list (DataModality * list string)) (k : DataModality)
  : result (list string) :=
  match modes_get d k with
  | Some v => ret v
  | None => raise (KeyError (modality_name k))
  end.

(** [for measurement in measurements: criteria[measurement] = c] *)
Definition set_all {V} (d : dict V) (measurements : list string) (c : V) : dict V :=
  fold_left (fun acc m => dict_set acc m c) measurements d.

(** The inner loop of lines 75-77: assert the measurement is new, then record it. *)
Definition add_modes (generative_mode : DataModality) (measurements : list string)
  (d : dict DataModality) : result (dict DataModality) :=
  for_each measurements
    (fun measurement acc =>
       py_assert (negb (dict_mem acc measurement)) ;;;
       ret (dict_set acc measurement generative_mode))
    d.

(** Lines 72-77. *)
Definition build_classification_mode_per_measurement
  (modes : list (DataModality * list string)) : result (dict DataModality) :=
  for_each modes
    (fun entry acc =>
       let generative_mode := fst entry in
       let measurements := snd entry in
       if DataModality_eqb generative_mode MULTIVARIATE_REGRESSION then ret acc
       else add_modes generative_mode measurements acc)
    [].

(** Lines 40-70: the TTE head, the criteria and the regression layers. *)
Definition build_heads (config : Config.t)
  : result (TTEHead * dict Criterion * dict Z) :=
  let modes := Config.measurements_per_generative_mode config in
  let tte_type := Config.TTE_generation_layer_type config in
  TTE_layer <-
    (if String.eqb tte_type TimeToEventGenerationHeadType.LOG_NORMAL_MIXTURE then
       ret (LogNormalMixtureTTELayer
              (Config.TTE_lognormal_generation_num_components config)
              (Config.mean_log_inter_event_time_min config)
              (Config.std_log_inter_event_time_min config))
     else if String.eqb tte_type TimeToEventGenerationHeadType.EXPONENTIAL then
       ret ExponentialTTELayer
     else raise (ValueError "Invalid option for `config.TTE_generation_layer_type`.")) ;;
  single <- modes_item modes SINGLE_LABEL_CLASSIFICATION ;;
  let criteria := set_all [] single CrossEntropy in
  multi <- modes_item modes MULTI_LABEL_CLASSIFICATION ;;
  let criteria := set_all criteria multi BCEWithLogits in
  regression <- modes_item modes MULTIVARIATE_REGRESSION ;;
  layers <-
    for_each regression
      (fun measurement acc =>
         n <- dict_item (Config.vocab_sizes_by_measurement config) measurement ;;
         ret (dict_set acc measurement n))
      [] ;;
  ret (TTE_layer, criteria, layers).

(** [StructuredEventStreamGenerativeOutputLayer.__init__] *)
Definition init (config : Config.t) : result t :=
  heads <- build_heads config ;;
  modes <-
    build_classification_mode_per_measurement
      (Config.measurements_per_generative_mode config) ;;
  ret {|
    config := config;
    TTE_layer := fst (fst heads);
    classification_criteria := snd (fst heads);
    regression_layers := snd heads;
    classification_mode_per_measurement := modes
  |}.

End Layer.


(* ===================================================================== *)
(** ** model.py: the methods of the output layer *)
(* ===================================================================== *)

Section Methods.
Context {SC : Scalar}.
Variable K : Kernels.
Variable self : Layer.t.

Let cfg : Config.t := Layer.config self.

(** *** get_TTE_outputs *)

(** [batch['event_mask'][:, 1:] & batch['event_mask'][:, :-1]] *)
Definition TTE_obs_mask_of (batch : Batch) : tensor2 bool :=
  map (fun row => Tensor.zip_with andb (Tensor.drop_first row) (Tensor.drop_last row))
      (event_mask batch).

(** [batch['time'].diff()] *)
Definition TTE_delta_of (batch : Batch) : tensor2 F :=
  map (fun row => Tensor.zip_with fsub (Tensor.drop_first row) (Tensor.drop_last row))
      (time batch).

(** [torch.where(TTE_obs_mask, TTE_delta, torch.ones_like(TTE_delta))] *)
Definition TTE_true_of (batch : Batch) : tensor2 F :=
  Tensor.zip_with2 (fun (m : bool) d => if m then d else fone)
    (TTE_obs_mask_of batch) (TTE_delta_of batch).

(** [torch.cat((t, fill_like(t[:, -1]).unsqueeze(-1)), dim=-1)]: indexing the last
    column raises when the rows are empty. *)
Definition append_column {A} (fill : A) (t : tensor2 A) : result (tensor2 A) :=
  map_result (fun row => _ <- Tensor.last_item row ;; ret (row ++ [fill])%list) t.

(** [TTE_dist.log_prob(TTE_true_exp)], position by position; the two shapes have to
    agree (broadcasting of dimensions of size one is not modelled). *)
Definition TTE_log_likelihood (TTE_dist : tensor2 (TTE_dist_t K)) (x : tensor2 F)
  : result (tensor2 F) :=
  if Tensor.same_shape2 TTE_dist x
  then map_result
         (fun rows =>
            map_result (fun p => TTE_log_prob K (fst p) (snd p))
              (combine (fst rows) (snd rows)))
         (combine TTE_dist x)
  else raise RuntimeError.

(** [(TTE_LL * mask.float()).sum(-1) / mask.float().sum(-1)] for one sequence *)
Definition TTE_LL_of_patient (ll : list F) (mask : list bool) : F :=
  fdiv (fsum (Tensor.zip_with fmul ll (map bool_to_float mask)))
       (of_count (Tensor.count_true mask)).

Record TTE_outputs : Type := {
  TTE_LL_overall : F;
  TTE_dist : tensor2 (TTE_dist_t K);
  TTE_true : tensor2 F
}.

Definition get_TTE_outputs (batch : Batch) (encoded : tensor3 F) : result TTE_outputs :=
  TTE_dist <- map_result (map_result (TTE_layer_forward K)) encoded ;;
  let TTE_obs_mask := TTE_obs_mask_of batch in
  let TTE_true := TTE_true_of batch in
  TTE_true_exp <- append_column fone TTE_true ;;
  TTE_obs_mask_exp <- append_column false TTE_obs_mask ;;
  TTE_LL <- TTE_log_likelihood TTE_dist TTE_true_exp ;;
  if Tensor.any2 (fun _ : bool => false) TTE_obs_mask_exp then
    raise (ValueError ("NaNs in TTE_obs_mask_exp: " ++ batch_repr K batch))
  else if Tensor.any2 isnan TTE_true_exp then
    raise (ValueError ("NaNs in TTE_true_exp: " ++ batch_repr K batch))
  else if Tensor.any2 isnan TTE_LL then
    raise (ValueError ("NaNs in TTE_LL: " ++ batch_repr K batch))
  else if existsb (fun row => (Tensor.count_true row =? 0)%nat) TTE_obs_mask_exp then
    raise (ValueError ("No observed time-to-event for >= 1 patient in batch: "
                       ++ batch_repr K batch))
  else
    let TTE_LL_per_patient := Tensor.zip_with TTE_LL_of_patient TTE_LL TTE_obs_mask_exp in
    ret {| TTE_LL_overall := fmean TTE_LL_per_patient;
           TTE_dist := TTE_dist;
           TTE_true := TTE_true |}.

(** *** get_event_type_mask_per_measurement *)

(** Arithmetic of [torch.long] tensors wraps at 64 bits. *)
Definition wrap64 (z : Z) : Z := (z + 2 ^ 63) mod 2 ^ 64 - 2 ^ 63.

(** [torch.where(event_type_mask, batch['dynamic_indices'] - offset, -1)] *)
Definition batch_event_type_indices_of (batch : Batch) (event_type_idx offset : Z)
  : tensor3 Z :=
  Tensor.zip_with3
    (fun measurement_index index =>
       if measurement_index =? event_type_idx then wrap64 (index - offset) else -1)
    (dynamic_measurement_indices batch) (dynamic_indices batch).

(** [torch.any(torch.stack([(indices == i) for i in valid], 0), dim=0).any(-1)];
    stacking an empty list raises. *)
Definition event_type_mask_of (indices : tensor3 Z) (valid : list Z)
  : result (tensor2 bool) :=
  match valid with
  | [] => raise RuntimeError
  | _ => ret (Tensor.map2
                (fun slots => existsb (fun x => existsb (fun i => x =? i) valid) slots)
                indices)
  end.

Definition get_event_type_mask_per_measurement (batch : Batch)
  : result (option (dict (tensor2 bool))) :=
  match Config.event_types_per_measurement cfg with
  | None => ret None
  | Some event_types_per_measurement =>
      event_type_idx <- dict_item (Config.measurements_idxmap cfg) "event_type" ;;
      offset <- dict_item (Config.vocab_offsets_by_measurement cfg) "event_type" ;;
      let batch_event_type_indices :=
        batch_event_type_indices_of batch event_type_idx offset in
      out_masks <-
        for_each event_types_per_measurement
          (fun entry out_masks =>
             let measurement := fst entry in
             valid_event_types <- dict_item event_types_per_measurement measurement ;;
             valid_event_type_indices <-
               map_result (dict_item (Config.event_types_idxmap cfg)) valid_event_types ;;
             mask <- event_type_mask_of batch_event_type_indices valid_event_type_indices ;;
             ret (dict_set out_masks measurement mask))
          [] ;;
      ret (Some out_masks)
  end.

(** *** get_classification_outputs *)

(** [min(...)] of a generator, which raises on an empty one *)
Definition py_min (l : list Z) : result Z :=
  match l with
  | [] => raise (ValueError "min() arg is an empty sequence")
  | x :: rest => ret (fold_left Z.min rest x)
  end.

(** Lines 223-226: the end of a measurement's slice of the vocabulary. *)
Definition vocab_end_of (vocab_start : Z) : result Z :=
  py_min (filter (fun o => o >? vocab_start)
            (dict_values (Config.vocab_offsets_by_measurement cfg)
               ++ [Config.vocab_size cfg])%list).

(** [mask & batch['event_mask']], or the event mask alone without event-type masks *)
Definition event_mask_for (batch : Batch)
  (event_type_mask_per_measurement : option (dict (tensor2 bool)))
  (measurement : string) : result (tensor2 bool) :=
  match event_type_mask_per_measurement with
  | Some masks =>
      m <- dict_item masks measurement ;;
      ret (Tensor.zip_with2 andb m (event_mask batch))
  | None => ret (event_mask batch)
  end.

(** [zeros(1 + width).scatter(index, 1)] for one event; an index outside
    [0, width] raises. *)
Definition scatter_ones (width : nat) (index : list Z) : result (list F) :=
  if forallb (fun i => (0 <=? i) && (i <=? Z.of_nat width)) index
  then ret (map (fun j => if existsb (Z.eqb (Z.of_nat j)) index then fone else fzero)
              (seq 0 (S width)))
  else raise RuntimeError.

Definition single_label_labels (dynamic_indices : tensor3 Z) (tensor_idx : tensor3 bool)
  (vocab_start : Z) : tensor2 Z :=
  Tensor.zip_with2
    (fun indices idx =>
       let events_with_label := existsb (fun b => b) idx in
       wrap64
         ((fold_left Z.add
             (Tensor.zip_with (fun i (b : bool) => i * (if b then 1 else 0)) indices idx) 0
           - vocab_start)
          * (if events_with_label then 1 else 0)))
    dynamic_indices tensor_idx.

Definition multi_label_labels (scores : tensor3 F) (dynamic_indices : tensor3 Z)
  (tensor_idx : tensor3 bool) (vocab_start : Z) : result (tensor3 F) :=
  let data_labels_or_zero :=
    Tensor.zip_with3 (fun (b : bool) i => if b then wrap64 (i - vocab_start + 1) else 0)
      tensor_idx dynamic_indices in
  map_result
    (fun rows =>
       map_result
         (fun p =>
            labels <- scatter_ones (List.length (fst p)) (snd p) ;;
            ret (tl labels))
         (combine (fst rows) (snd rows)))
    (combine scores data_labels_or_zero).

Definition classification_outputs : Type :=
  (dict F * dict (classification_dist_t K) * dict ClassificationLabels)%type.

(** The body of the loop over [classification_mode_per_measurement.items()]. *)
Definition classify_measurement (batch : Batch) (classification_scores : tensor3 F)
  (valid_measurements : list string)
  (event_type_mask_per_measurement : option (dict (tensor2 bool)))
  (entry : string * DataModality) (acc : classification_outputs)
  : result classification_outputs :=
  let measurement := fst entry in
  let classification_mode := snd entry in
  if negb (str_in measurement valid_measurements) then ret acc else
  event_mask <- event_mask_for batch event_type_mask_per_measurement measurement ;;
  measurement_idx <- dict_item (Config.measurements_idxmap cfg) measurement ;;
  vocab_start <- dict_item (Config.vocab_offsets_by_measurement cfg) measurement ;;
  vocab_end <- vocab_end_of vocab_start ;;
  let scores := Tensor.map2 (slice vocab_start vocab_end) classification_scores in
  let tensor_idx :=
    Tensor.map3 (fun i => i =? measurement_idx) (dynamic_measurement_indices batch) in
  out <-
    match classification_mode with
    | SINGLE_LABEL_CLASSIFICATION =>
        let events_with_label := Tensor.map2 (existsb (fun b => b)) tensor_idx in
        let labels := single_label_labels (dynamic_indices batch) tensor_idx vocab_start in
        criterion <- dict_item (Layer.classification_criteria self) measurement ;;
        loss_per_event <- criterion_on_indices K criterion scores labels ;;
        dists <- Categorical K scores ;;
        ret (loss_per_event, Tensor.zip_with2 andb event_mask events_with_label,
             dists, LongLabels labels)
    | MULTI_LABEL_CLASSIFICATION =>
        labels <- multi_label_labels scores (dynamic_indices batch) tensor_idx vocab_start ;;
        criterion <- dict_item (Layer.classification_criteria self) measurement ;;
        loss_per_label <- criterion_on_targets K criterion scores labels ;;
        dists <- Bernoulli K scores ;;
        ret (Tensor.map2 fmean loss_per_label, event_mask,
             dists, FloatLabels labels)
    | MULTIVARIATE_REGRESSION => raise (ValueError "")
    end ;;
  let loss_per_event := fst (fst (fst out)) in
  let event_mask := snd (fst (fst out)) in
  let dists := snd (fst out) in
  let labels := snd out in
  loss_overall <- weighted_loss K loss_per_event event_mask ;;
  ret (dict_set (fst (fst acc)) measurement loss_overall,
       dict_set (snd (fst acc)) measurement dists,
       dict_set (snd acc) measurement labels).

Definition get_classification_outputs (batch : Batch) (encoded : tensor3 F)
  (valid_measurements : list string)
  (event_type_mask_per_measurement : option (dict (tensor2 bool)))
  : result classification_outputs :=
  match valid_measurements with
  | [] => ret ([], [], [])
  | _ =>
      classification_scores <- map_result (map_result (ClassificationLayer K)) encoded ;;
      for_each (Layer.classification_mode_per_measurement self)
        (classify_measurement batch classification_scores valid_measurements
           event_type_mask_per_measurement)
        ([], [], [])
  end.

(** *** get_regression_outputs *)

Record regression_outputs : Type := {
  regression_loss_values_of : dict (option F);
  regression_dists_of : dict (regression_dist_t K);
  regression_labels_of : option (dict (tensor3 F));
  regression_indices_of : option (dict (tensor3 Z))
}.

Definition regression_acc : Type :=
  (dict (option F) * dict (regression_dist_t K) * dict (tensor3 F) * dict (tensor3 Z))%type.

(** The body of the loop over the regression measurements. *)
Definition regress_measurement (batch : Batch) (encoded : tensor3 F)
  (valid_measurements : list string) (is_generation : bool)
  (event_type_mask_per_measurement : option (dict (tensor2 bool)))
  (measurement : string) (acc : regression_acc) : result regression_acc :=
  if negb (str_in measurement valid_measurements) then ret acc else
  event_mask <- event_mask_for batch event_type_mask_per_measurement measurement ;;
  measurement_idx <- dict_item (Config.measurements_idxmap cfg) measurement ;;
  vocab_start <- dict_item (Config.vocab_offsets_by_measurement cfg) measurement ;;
  let tensor_idx :=
    Tensor.zip_with3 (fun i (m : bool) => (i =? measurement_idx) && m)
      (dynamic_measurement_indices batch) (dynamic_values_mask batch) in
  let indices_measured_or_zero :=
    Tensor.zip_with3 (fun (b : bool) i => if b then wrap64 (i - vocab_start) else 0)
      tensor_idx (dynamic_indices batch) in
  _ <- dict_item (Layer.regression_layers self) measurement ;;
  regr_dist <-
    regression_layer_forward K measurement encoded
      (if is_generation then None else Some indices_measured_or_zero) ;;
  let values_observed_or_zero :=
    Tensor.zip_with3 (fun (b : bool) v => if b then v else fzero)
      tensor_idx (dynamic_values batch) in
  loss_overall <-
    (if is_generation then ret None
     else
       log_prob <- regression_log_prob K regr_dist values_observed_or_zero ;;
       let loss_per_label := Tensor.map3 fneg log_prob in
       loss_per_event <- safe_weighted_avg K loss_per_label tensor_idx ;;
       let events_with_label :=
         Tensor.zip_with2 andb event_mask (Tensor.map2 (existsb (fun b => b)) tensor_idx) in
       loss <- weighted_loss K loss_per_event events_with_label ;;
       ret (Some loss)) ;;
  ret (dict_set (fst (fst (fst acc))) measurement loss_overall,
       dict_set (snd (fst (fst acc))) measurement regr_dist,
       dict_set (snd (fst acc)) measurement values_observed_or_zero,
       dict_set (snd acc) measurement indices_measured_or_zero).

Definition get_regression_outputs (batch : Batch) (encoded : tensor3 F)
  (valid_measurements : list string) (is_generation : bool)
  (event_type_mask_per_measurement : option (dict (tensor2 bool)))
  : result regression_outputs :=
  match valid_measurements with
  | [] =>
      ret {| regression_loss_values_of := []; regression_dists_of := [];
             regression_labels_of := Some []; regression_indices_of := Some [] |}
  | _ =>
      measurements <-
        Layer.modes_item (Config.measurements_per_generative_mode cfg)
          MULTIVARIATE_REGRESSION ;;
      acc <-
        for_each measurements
          (regress_measurement batch encoded valid_measurements is_generation
             event_type_mask_per_measurement)
          ([], [], [], []) ;;
      ret {| regression_loss_values_of := fst (fst (fst acc));
             regression_dists_of := snd (fst (fst acc));
             regression_labels_of := if is_generation then None else Some (snd (fst acc));
             regression_indices_of := if is_generation then None else Some (snd acc) |}
  end.

(** *** forward *)

(** The encoder's output: [B,S,H], or [B,S,L,H] with L dependency-graph elements.
    B and S are positive, so that L can be read off the first event. *)
Inductive Encoded : Type :=
| Enc3 (t : tensor3 F)
| Enc4 (t : tensor4 F).

Definition dep_graph_len_of (encoded : tensor4 F) : nat :=
  match encoded with
  | (levels :: _) :: _ => List.length levels
  | _ => 0%nat
  end.

(** The containers [forward] fills. *)
Record Containers : Type := {
  classification_dists_by_measurement : dict (classification_dist_t K);
  classification_losses_by_measurement : option (dict F);
  classification_labels_by_measurement : option (dict ClassificationLabels);
  regression_dists : dict (regression_dist_t K);
  regression_loss_values : option (dict (option F));
  regression_labels : option (dict (tensor3 F));
  regression_indices : option (dict (tensor3 Z))
}.

Definition empty_containers (is_generation : bool) : Containers :=
  {| classification_dists_by_measurement := [];
     classification_losses_by_measurement := if is_generation then None else Some [];
     classification_labels_by_measurement := if is_generation then None else Some [];
     regression_dists := [];
     regression_loss_values := if is_generation then None else Some [];
     regression_labels := if is_generation then None else Some [];
     regression_indices := if is_generation then None else Some [] |}.

(** [target.update(source)] on containers that may be [None] *)
Definition update_container {V} (target : option (dict V)) (source : option (dict V))
  : result (option (dict V)) :=
  match target, source with
  | Some d, Some e => ret (Some (dict_update d e))
  | None, _ => raise AttributeError
  | Some _, None => raise TypeError
  end.

(** Lines 480-497 and again lines 543-561: both heads on one input, then the
    updates of the containers. *)
Definition run_heads (batch : Batch) (is_generation : bool)
  (event_type_mask_per_measurement : option (dict (tensor2 bool)))
  (input : tensor3 F) (classification_measurements regression_measurements : list string)
  (c : Containers) : result Containers :=
  classification_out <-
    get_classification_outputs batch input classification_measurements
      event_type_mask_per_measurement ;;
  let dists := dict_update (classification_dists_by_measurement c)
                 (snd (fst classification_out)) in
  cl <-
    (if is_generation
     then ret (classification_losses_by_measurement c, classification_labels_by_measurement c)
     else
       losses <- update_container (classification_losses_by_measurement c)
                   (Some (fst (fst classification_out))) ;;
       labels <- update_container (classification_labels_by_measurement c)
                   (Some (snd classification_out)) ;;
       ret (losses, labels)) ;;
  regression_out <-
    get_regression_outputs batch input regression_measurements is_generation
      event_type_mask_per_measurement ;;
  let rdists := dict_update (regression_dists c) (regression_dists_of regression_out) in
  rl <-
    (if is_generation
     then ret (regression_loss_values c, regression_labels c, regression_indices c)
     else
       losses <- update_container (regression_loss_values c)
                   (Some (regression_loss_values_of regression_out)) ;;
       labels <- update_container (regression_labels c)
                   (regression_labels_of regression_out) ;;
       indices <- update_container (regression_indices c)
                    (regression_indices_of regression_out) ;;
       ret (losses, labels, indices)) ;;
  ret {| classification_dists_by_measurement := dists;
         classification_losses_by_measurement := fst cl;
         classification_labels_by_measurement := snd cl;
         regression_dists := rdists;
         regression_loss_values := fst (fst rl);
         regression_labels := snd (fst rl);
         regression_indices := snd rl |}.

(** Lines 476-478: a zero vector in front of the encodings of all events but the
    last. *)
Definition for_event_contents_prediction_of (whole_event_encoded : tensor3 F)
  : result (tensor3 F) :=
  map_result
    (fun events =>
       first <- Tensor.first_item events ;;
       ret (map (fun _ => fzero) first :: Tensor.drop_last events))
    whole_event_encoded.

(** [encoded[:, :, -1, :]] and [encoded[:, :, j, :]] *)
Definition whole_event_encoded_of (encoded : tensor4 F) : result (tensor3 F) :=
  map_result (map_result Tensor.last_item) encoded.

Definition dep_graph_element (encoded : tensor4 F) (j : nat) : result (tensor3 F) :=
  map_result (map_result (fun levels => Tensor.item levels j)) encoded.

(** Lines 522-534 for one entry of a level: the measurement and its mode. *)
Definition level_entry (measurement : value) : result (atom * MeasIndexGroupOptions) :=
  p <-
    match measurement with
    | VTuple [m; mode] => ret (VAtom m, mode)
    | VTuple _ => raise (ValueError "not enough or too many values to unpack")
    | other => ret (other, MeasIndexGroup.to_atom CATEGORICAL_AND_NUMERICAL)
    end ;;
  mode <-
    match MeasIndexGroup.of_atom (snd p) with
    | Some mode => ret mode
    | None => raise (ValueError "Unknown mode")
    end ;;
  match fst p with
  | VAtom m => ret (m, mode)
  | _ => raise TypeError
  end.

(** Lines 519-534: the categorical and the numerical measurements of a level. *)
Definition measurements_in_level (group : list value) : result (list atom * list atom) :=
  for_each group
    (fun measurement sets =>
       e <- level_entry measurement ;;
       match snd e with
       | CATEGORICAL_AND_NUMERICAL => ret (fst e :: fst sets, fst e :: snd sets)
       | CATEGORICAL_ONLY => ret (fst e :: fst sets, snd sets)
       | NUMERICAL_ONLY => ret (fst sets, fst e :: snd sets)
       end)
    ([], []).

(** [in_level.intersection(measurements)] *)
Definition intersection (in_level : list atom) (measurements : list string) : list string :=
  filter (fun m => existsb (atom_eqb (AStr m)) in_level) measurements.

(** Lines 512-541: the measurements the two heads are asked for at level [i]. *)
Definition measurements_of_level (classification_measurements regression_measurements
  : list string) (i : nat) : result (list string * list string) :=
  match Config.measurements_per_dep_graph_level cfg with
  | None => ret (classification_measurements, regression_measurements)
  | Some levels =>
      group <- Tensor.item levels i ;;
      sets <- measurements_in_level group ;;
      ret (intersection (fst sets) classification_measurements,
           intersection (snd sets) regression_measurements)
  end.

(** One iteration of [for i in range(1, dep_graph_len)]. *)
Definition level_step (batch : Batch) (is_generation : bool)
  (event_type_mask_per_measurement : option (dict (tensor2 bool)))
  (classification_measurements regression_measurements : list string)
  (encoded : tensor4 F) (i : nat) (c : Containers) : result Containers :=
  dep_graph_level_encoded <- dep_graph_element encoded (i - 1) ;;
  in_level <- measurements_of_level classification_measurements regression_measurements i ;;
  run_heads batch is_generation event_type_mask_per_measurement
    dep_graph_level_encoded (fst in_level) (snd in_level) c.

Record Losses : Type := {
  losses_classification : option (dict F);
  losses_regression : option (dict (option F));
  losses_time_to_event : option F
}.

Record Predictions : Type := {
  preds_classification : dict (classification_dist_t K);
  preds_regression : dict (regression_dist_t K);
  preds_regression_indices : option (dict (tensor3 Z));
  preds_time_to_event : tensor2 (TTE_dist_t K)
}.

Record Labels : Type := {
  labels_classification : option (dict ClassificationLabels);
  labels_regression : option (dict (tensor3 F));
  labels_regression_indices : option (dict (tensor3 Z));
  labels_time_to_event : option (tensor2 F)
}.

(** [EventStreamTransformerForGenerativeSequenceModelOutput] *)
Record Output : Type := {
  loss : option F;
  losses : Losses;
  preds : Predictions;
  labels : Labels;
  out_event_type_mask_per_measurement : option (dict (tensor2 bool));
  out_event_mask : tensor2 bool;
  out_dynamic_values_mask : tensor3 bool
}.

(** [sum(d.values())] over values that may be [None] *)
Definition py_sum_values (values : list (option F)) : result F :=
  for_each values
    (fun v acc =>
       match v with
       | Some x => ret (fadd acc x)
       | None => raise TypeError
       end)
    fzero.

(** The value of the ['loss'] entry, lines 567-570. *)
Definition total_loss (is_generation : bool) (c : Containers) (TTE_LL : F)
  : result (option F) :=
  if is_generation then ret None
  else
    match classification_losses_by_measurement c, regression_loss_values c with
    | Some classification, Some regression =>
        r <- py_sum_values (dict_values regression) ;;
        ret (Some (fsub (fadd (py_sum (dict_values classification)) r) TTE_LL))
    | _, _ => raise AttributeError
    end.

(** Lines 462-561: the encodings routed to the heads, and the whole-event encoding. *)
Definition route (batch : Batch) (encoded : Encoded) (is_generation : bool)
  (event_type_mask_per_measurement : option (dict (tensor2 bool)))
  (classification_measurements regression_measurements : list string)
  : result (Containers * tensor3 F) :=
  if String.eqb (Config.structured_event_processing_mode cfg) "conditionally_independent"
  then
    match encoded with
    | Enc3 whole_event_encoded =>
        for_event_contents_prediction <-
          for_event_contents_prediction_of whole_event_encoded ;;
        c <- run_heads batch is_generation event_type_mask_per_measurement
               for_event_contents_prediction classification_measurements
               regression_measurements (empty_containers is_generation) ;;
        ret (c, whole_event_encoded)
    | Enc4 _ => raise (ValueError "too many values to unpack")
    end
  else
    match encoded with
    | Enc4 encoded =>
        let dep_graph_len := dep_graph_len_of encoded in
        whole_event_encoded <- whole_event_encoded_of encoded ;;
        c <- for_each (range_from_1 dep_graph_len)
               (level_step batch is_generation event_type_mask_per_measurement
                  classification_measurements regression_measurements encoded)
               (empty_containers is_generation) ;;
        ret (c, whole_event_encoded)
    | Enc3 _ => raise (ValueError "not enough values to unpack")
    end.

Definition forward (batch : Batch) (encoded : Encoded) (is_generation : bool)
  : result Output :=
  let classification_measurements :=
    dict_keys (Layer.classification_mode_per_measurement self) in
  regression_measurements <-
    Layer.modes_item (Config.measurements_per_generative_mode cfg)
      MULTIVARIATE_REGRESSION ;;
  event_type_mask_per_measurement <- get_event_type_mask_per_measurement batch ;;
  routed <- route batch encoded is_generation event_type_mask_per_measurement
              classification_measurements regression_measurements ;;
  let c := fst routed in
  tte <- get_TTE_outputs batch (snd routed) ;;
  total <- total_loss is_generation c (TTE_LL_overall tte) ;;
  ret {|
    loss := total;
    losses := {|
      losses_classification := classification_losses_by_measurement c;
      losses_regression := regression_loss_values c;
      losses_time_to_event :=
        if is_generation then None else Some (fneg (TTE_LL_overall tte)) |};
    preds := {|
      preds_classification := classification_dists_by_measurement c;
      preds_regression := regression_dists c;
      preds_regression_indices := regression_indices c;
      preds_time_to_event := TTE_dist tte |};
    labels := {|
      labels_classification := classification_labels_by_measurement c;
      labels_regression := regression_labels c;
      labels_regression_indices := regression_indices c;
      labels_time_to_event := if is_generation then None else Some (TTE_true tte) |};
    out_event_type_mask_per_measurement := event_type_mask_per_measurement;
    out_event_mask := event_mask batch;
    out_dynamic_values_mask := dynamic_values_mask batch
  |}.

End Methods.

Arguments run_heads {SC} K.
Arguments level_step {SC} K.
Arguments total_loss {SC} K.
Arguments regress_measurement {SC} K.
Arguments classify_measurement {SC} K.

(* ===================================================================== *)
(** ** model.py: StructuredEventStreamTransformerForStreamClassification *)
(* ===================================================================== *)

Module StreamClassification.

(** [torch.nn.BCEWithLogitsLoss()] and [torch.nn.CrossEntropyLoss()] *)
Inductive StreamCriterion : Type :=
| BCEWithLogitsLoss
| CrossEntropyLoss.

(** The attributes [__init__] sets.  [out_features] is the second argument of
    [torch.nn.Linear]. *)
Record t : Type := {
  config : Config.t;
  task : option string;
  pooling_method : string;
  out_features : option Z;
  criteria : StreamCriterion
}.

(** [config.id2label == {0: False, 1: True}]: equal dictionaries have the same keys
    with equal values. *)
Definition id2label_get (d : list (Z * Dataset.label)) (k : Z) : option Dataset.label :=
  option_map snd (find (fun iv => fst iv =? k) d).

Definition is_binary_of (id2label : option (list (Z * Dataset.label))) : bool :=
  match id2label with
  | None => false
  | Some d =>
      (List.length d =? 2)%nat
      && match id2label_get d 0, id2label_get d 1 with
         | Some v0, Some v1 =>
             Dataset.label_eqb v0 (Dataset.LBool false)
             && Dataset.label_eqb v1 (Dataset.LBool true)
         | _, _ => false
         end
  end.

Section WithKernels.
Context {SC : Scalar}.

(** What the classifier calls but does not define: the encoder, the linear layer,
    the criterion, the pooling helpers of [utils.py], and torch on an encoding whose
    rank the processing mode does not announce.  Every call may raise. *)
Record Kernels : Type := {
  stream_labels_t : Type;
  logits_t : Type;
  (** [StructuredEventStreamTransformer(config)], [torch.nn.Linear(hidden_size, n)]
      and [self.post_init()] *)
  encoder_init : Config.t -> result unit;
  Linear_init : Z -> option Z -> result unit;
  post_init : result unit;
  (** [self.encoder(batch, **kwargs).last_hidden_state] *)
  encoder_forward : Batch -> result (@Encoded SC);
  (** [safe_masked_max] and the first component of [safe_weighted_avg], on the
      transposed encodings [B,H,S] and the event mask *)
  safe_masked_max : tensor3 F -> tensor2 bool -> result (tensor2 F);
  safe_weighted_avg : tensor3 F -> tensor2 bool -> result (tensor2 F);
  (** [self.logit_layer(stream_encoded).squeeze(-1)] *)
  logit_layer_squeezed : option Z -> tensor2 F -> result logits_t;
  (** the pooling and the logits of an encoding [B,S,L,H] outside the
      nested-attention mode, for a supported pooling method *)
  logits_of_rank4 : string -> tensor4 F -> tensor2 bool -> result logits_t;
  criteria_forward : StreamCriterion -> logits_t -> stream_labels_t -> result F
}.

Variable K : Kernels.

(** Lines 618-636. *)
Definition init (config : Config.t) (task_attributes : Task.t)
  (task_specific_params : option (dict string)) : result t :=
  _ <- encoder_init K config ;;
  pooling_method <-
    match task_specific_params with
    | None => raise TypeError
    | Some params => dict_item params "pooling_method"
    end ;;
  let is_binary := is_binary_of (Task.id2label task_attributes) in
  layer <-
    (if is_binary
     then
       _ <- py_assert (match Task.num_labels task_attributes with
                       | Some n => n =? 2
                       | None => false
                       end) ;;
       _ <- Linear_init K (Config.hidden_size config) (Some 1) ;;
       ret (Some 1, BCEWithLogitsLoss)
     else
       _ <- Linear_init K (Config.hidden_size config) (Task.num_labels task_attributes) ;;
       ret (Task.num_labels task_attributes, CrossEntropyLoss)) ;;
  _ <- post_init K ;;
  ret {| config := config;
         task := Task.finetuning_task task_attributes;
         pooling_method := pooling_method;
         out_features := fst layer;
         criteria := snd layer |}.

(** Lines 641-643. *)
Definition uses_dep_graph (self : t) : bool :=
  String.eqb (Config.structured_event_processing_mode (config self))
    StructuredEventProcessingMode.NESTED_ATTENTION.

(** [EventStreamTransformerForStreamClassificationModelOutput] *)
Record Output : Type := {
  loss : F;
  preds : logits_t K;
  labels : stream_labels_t K
}.

(** [x.transpose(0, 1)] of the encodings [S,H] of one sequence *)
Definition transpose (events : tensor2 F) : tensor2 F :=
  match events with
  | [] => []
  | first :: _ =>
      map (fun h => map (fun event => nth h event fzero) events)
        (seq 0 (List.length first))
  end.

(** [event_encoded[:, :, 0]] and [event_encoded[:, :, -1]] on the transposed
    encodings [B,H,S]: the index is out of range when the sequences hold no event,
    whatever the other dimensions. *)
Definition select_event (pick : list F -> result F) (event_encoded : tensor3 F)
  (seq_len : nat) : result (tensor2 F) :=
  if (seq_len =? 0)%nat then raise IndexError
  else map_result (map_result pick) event_encoded.

Definition supported_pooling_methods : list string := ["cls"; "last"; "max"; "mean"].

(** Lines 655-662 on an encoding [B,S,H]. *)
Definition pool (self : t) (batch : Batch) (event_encoded : tensor3 F)
  : result (tensor2 F) :=
  let seq_len := match event_encoded with [] => O | events :: _ => List.length events end in
  let event_encoded := map transpose event_encoded in
  if String.eqb (pooling_method self) "cls"
  then select_event Tensor.first_item event_encoded seq_len
  else if String.eqb (pooling_method self) "last"
  then select_event Tensor.last_item event_encoded seq_len
  else if String.eqb (pooling_method self) "max"
  then safe_masked_max K event_encoded (event_mask batch)
  else if String.eqb (pooling_method self) "mean"
  then safe_weighted_avg K event_encoded (event_mask batch)
  else raise (ValueError (pooling_method self ++ " is not a supported pooling method.")).

(** Lines 645-671; [stream_labels] is [batch['stream_labels']]. *)
Definition forward (self : t) (batch : Batch)
  (stream_labels : option (dict (stream_labels_t K))) : result Output :=
  encoded <- encoder_forward K batch ;;
  logits <-
    (if uses_dep_graph self
     then
       match encoded with
       | Enc4 encoded =>
           event_encoded <- whole_event_encoded_of encoded ;;
           stream_encoded <- pool self batch event_encoded ;;
           logit_layer_squeezed K (out_features self) stream_encoded
       | Enc3 _ => raise IndexError
       end
     else
       match encoded with
       | Enc3 event_encoded =>
           stream_encoded <- pool self batch event_encoded ;;
           logit_layer_squeezed K (out_features self) stream_encoded
       | Enc4 encoded =>
           if str_in (pooling_method self) supported_pooling_methods
           then logits_of_rank4 K (pooling_method self) encoded (event_mask batch)
           else raise (ValueError
                         (pooling_method self ++ " is not a supported pooling method."))
       end) ;;
  labels <-
    match stream_labels with
    | None => raise TypeError
    | Some stream_labels =>
        match task self with
        | Some task => dict_item stream_labels task
        | None => raise (KeyError "None")
        end
    end ;;
  loss <- criteria_forward K (criteria self) logits labels ;;
  ret {| loss := loss; preds := logits; labels := labels |}.

End WithKernels.

End StreamClassification.


(* ===================================================================== *)
(** ** Basic facts: the exception monad, loops and dictionaries *)
(* ===================================================================== *)

Unset Implicit Arguments.

Lemma bind_inr {A B} (c : result A) (k : A -> result B) (y : B) :
  bind c k = inr y -> exists x, c = inr x /\ k x = inr y.
Proof.
  destruct c as [e | x]; simpl; intros H; [discriminate | eauto].
Qed.

Lemma bind_inl {A B} (c : result A) (k : A -> result B) (e : exn) :
  bind c k = inl e -> c = inl e \/ exists x, c = inr x /\ k x = inl e.
Proof.
  destruct c as [e' | x]; simpl; intros H; [left; congruence | right; eauto].
Qed.

Lemma py_assert_inr (b : bool) (u : unit) : py_assert b = inr u -> b = true.
Proof.
  destruct b; unfold py_assert, raise, ret; [reflexivity | discriminate].
Qed.

Lemma py_assert_inl (b : bool) (e : exn) : py_assert b = inl e -> e = AssertionError.
Proof.
  destruct b; unfold py_assert, raise, ret; intros H; [discriminate | congruence].
Qed.

(** Inversion of hypotheses built from [bind], [ret] and [raise]. *)
Ltac inv_bind H :=
  let x := fresh "x" in
  let Hx := fresh "Hx" in
  apply bind_inr in H; destruct H as [x [Hx H]].

Lemma for_each_app {A St} (xs ys : list A) (body : A -> St -> result St) (st : St) :
  for_each (xs ++ ys)%list body st = bind (for_each xs body st) (for_each ys body).
Proof.
  revert st; induction xs as [| x xs IH]; intros st; simpl; [reflexivity |].
  destruct (body x st) as [e | st']; simpl; [reflexivity | apply IH].
Qed.

(** A loop invariant that every iteration preserves holds when the loop returns. *)
Lemma for_each_invariant {A St} (P : St -> Prop) (xs : list A)
  (body : A -> St -> result St) :
  (forall x st st', In x xs -> P st -> body x st = inr st' -> P st') ->
  forall st st', P st -> for_each xs body st = inr st' -> P st'.
Proof.
  induction xs as [| x xs IH]; intros Hbody st st' HP H; simpl in H.
  - inversion H; subst; exact HP.
  - inv_bind H.
    apply (IH (fun y s s' Hy => Hbody y s s' (or_intror Hy)) x0 st');
      [| exact H].
    apply (Hbody x st x0); [left; reflexivity | exact HP | exact Hx].
Qed.

Lemma map_result_length {A B} (f : A -> result B) (xs : list A) (ys : list B) :
  map_result f xs = inr ys -> List.length ys = List.length xs.
Proof.
  revert ys; induction xs as [| x xs IH]; intros ys H; simpl in H.
  - inversion H; reflexivity.
  - inv_bind H. inv_bind H. inversion H; subst; simpl.
    f_equal; apply IH; assumption.
Qed.

Lemma map_result_nth {A B} (f : A -> result B) (xs : list A) (ys : list B) (i : nat) (x : A) :
  map_result f xs = inr ys -> nth_error xs i = Some x ->
  exists y, nth_error ys i = Some y /\ f x = inr y.
Proof.
  revert ys i; induction xs as [| a xs IH]; intros ys i H Hi.
  - destruct i; discriminate.
  - simpl in H. inv_bind H. inv_bind H. inversion H; subst.
    destruct i as [| i]; simpl in *.
    + inversion Hi; subst; eauto.
    + eapply IH; eauto.
Qed.

(** A comprehension whose element expression never raises is a [map]. *)
Lemma map_result_total {A B} (f : A -> result B) (g : A -> B) (xs : list A) :
  (forall x, In x xs -> f x = inr (g x)) -> map_result f xs = inr (map g xs).
Proof.
  induction xs as [| x xs IH]; intros H; simpl; [reflexivity |].
  rewrite (H x (or_introl eq_refl)); simpl.
  rewrite IH; [reflexivity | intros y Hy; apply H; right; exact Hy].
Qed.

Section DictFacts.
Variable V : Type.
Implicit Types (d : dict V) (k : string) (v : V).

Lemma dict_get_set d k v k' :
  dict_get (dict_set d k v) k' = if String.eqb k' k then Some v else dict_get d k'.
Proof.
  induction d as [| [k0 v0] d IH]; simpl.
  - reflexivity.
  - destruct (String.eqb k k0) eqn:E; simpl.
    + apply String.eqb_eq in E; subst k0.
      destruct (String.eqb k' k); reflexivity.
    + destruct (String.eqb k' k0) eqn:E0.
      * apply String.eqb_eq in E0; subst k0.
        rewrite String.eqb_sym, E; reflexivity.
      * exact IH.
Qed.

Lemma dict_get_set_same d k v : dict_get (dict_set d k v) k = Some v.
Proof.
  rewrite dict_get_set, String.eqb_refl; reflexivity.
Qed.

Lemma dict_get_set_other d k v k' :
  k' <> k -> dict_get (dict_set d k v) k' = dict_get d k'.
Proof.
  intros H; rewrite dict_get_set.
  destruct (String.eqb k' k) eqn:E; [apply String.eqb_eq in E; contradiction | reflexivity].
Qed.

Lemma dict_get_In_keys d k : dict_get d k <> None <-> In k (dict_keys d).
Proof.
  induction d as [| [k0 v0] d IH]; simpl.
  - split; [congruence | tauto].
  - destruct (String.eqb k k0) eqn:E.
    + apply String.eqb_eq in E; subst; split; [auto | congruence].
    + apply String.eqb_neq in E. rewrite IH. split; [auto | intros [H | H]; congruence].
Qed.

Lemma dict_mem_In_keys d k : dict_mem d k = true <-> In k (dict_keys d).
Proof.
  rewrite <- dict_get_In_keys. unfold dict_mem.
  destruct (dict_get d k); split; congruence.
Qed.

Lemma dict_keys_set d k v :
  dict_keys (dict_set d k v)
  = if dict_mem d k then dict_keys d else (dict_keys d ++ [k])%list.
Proof.
  unfold dict_mem. induction d as [| [k0 v0] d IH]; simpl.
  - reflexivity.
  - destruct (String.eqb k k0) eqn:E; simpl; [reflexivity |].
    rewrite IH. destruct (dict_get d k); reflexivity.
Qed.

Lemma dict_keys_set_NoDup d k v :
  NoDup (dict_keys d) -> NoDup (dict_keys (dict_set d k v)).
Proof.
  intros H. rewrite dict_keys_set.
  destruct (dict_mem d k) eqn:E; [exact H |].
  apply NoDup_app; repeat split.
  - exact H.
  - repeat constructor; simpl; tauto.
  - intros x Hx [Hk | []]; subst x.
    apply dict_mem_In_keys in Hx; congruence.
Qed.

Lemma dict_In_keys_set d k v k' :
  In k' (dict_keys (dict_set d k v)) <-> k' = k \/ In k' (dict_keys d).
Proof.
  rewrite <- !dict_get_In_keys, dict_get_set.
  destruct (String.eqb k' k) eqn:E.
  - apply String.eqb_eq in E; subst; split; [auto | congruence].
  - apply String.eqb_neq in E; split; [auto | intros [H | H]; congruence].
Qed.

Lemma dict_get_update d e k :
  dict_get (dict_update d e) k
  = match dict_get (rev e) k with Some v => Some v | None => dict_get d k end.
Proof.
  unfold dict_update. revert d.
  induction e as [| [k0 v0] e IH] using rev_ind; intros d; simpl.
  - reflexivity.
  - rewrite fold_left_app, rev_app_distr; simpl.
    rewrite dict_get_set. destruct (String.eqb k k0); [reflexivity | apply IH].
Qed.

Lemma dict_In_keys_update d e k :
  In k (dict_keys (dict_update d e)) <-> In k (dict_keys e) \/ In k (dict_keys d).
Proof.
  unfold dict_update. revert d.
  induction e as [| [k0 v0] e IH]; intros d; simpl.
  - tauto.
  - rewrite IH, dict_In_keys_set. intuition congruence.
Qed.

End DictFacts.


(* ===================================================================== *)
(** ** The constructor of the output layer *)
(* ===================================================================== *)

Lemma str_in_In (s : string) (l : list string) : str_in s l = true <-> In s l.
Proof.
  unfold str_in. rewrite existsb_exists. split.
  - intros [x [Hx E]]. apply String.eqb_eq in E; subst; exact Hx.
  - intros H. exists s. split; [exact H | apply String.eqb_refl].
Qed.

Lemma DataModality_eqb_eq (a b : DataModality) : DataModality_eqb a b = true <-> a = b.
Proof.
  destruct a, b; simpl; split; intros H; try reflexivity; discriminate.
Qed.

(** The inner loop records every measurement of the list under the mode, touches no
    other key, and returns only if none of them was recorded before. *)
Lemma add_modes_spec (gm : DataModality) (ms : list string) (acc d : dict DataModality) :
  Layer.add_modes gm ms acc = inr d ->
  (forall m, In m ms -> dict_get acc m = None /\ dict_get d m = Some gm)
  /\ (forall m, ~ In m ms -> dict_get d m = dict_get acc m)
  /\ (NoDup (dict_keys acc) -> NoDup (dict_keys d)).
Proof.
  unfold Layer.add_modes. revert acc.
  induction ms as [| m0 ms IH]; intros acc H; simpl in H.
  - inversion H; subst. split; [intros m [] | split; tauto].
  - inv_bind H. inv_bind Hx. apply py_assert_inr in Hx0.
    inversion Hx; subst x; clear Hx.
    destruct (IH _ H) as [I1 [I2 I3]].
    assert (Hacc : dict_get acc m0 = None).
    { unfold dict_mem in Hx0. destruct (dict_get acc m0); [discriminate | reflexivity]. }
    assert (Hstep : forall m, In m ms -> m <> m0).
    { intros m Hm E; subst m. destruct (I1 m0 Hm) as [N _].
      rewrite dict_get_set_same in N; discriminate. }
    split; [| split].
    + intros m H0. split.
      * destruct H0 as [E | Hm]; [subst; exact Hacc |].
        destruct (I1 m Hm) as [N _].
        rewrite dict_get_set_other in N; [exact N | apply Hstep; exact Hm].
      * destruct (in_dec string_dec m ms) as [Hm | Hm].
        -- apply I1; exact Hm.
        -- destruct H0 as [E | Hm']; [subst m | contradiction].
           rewrite (I2 m0 Hm). apply dict_get_set_same.
    + intros m Hm. rewrite I2 by (intros C; apply Hm; right; exact C).
      apply dict_get_set_other. intros E; apply Hm; left; congruence.
    + intros N. apply I3. apply dict_keys_set_NoDup; exact N.
Qed.

Lemma add_modes_error (gm : DataModality) (ms : list string) (acc : dict DataModality)
  (e : exn) : Layer.add_modes gm ms acc = inl e -> e = AssertionError.
Proof.
  unfold Layer.add_modes. revert acc.
  induction ms as [| m0 ms IH]; intros acc H; simpl in H; [discriminate |].
  apply bind_inl in H. destruct H as [H | [x [Hx H]]].
  - apply bind_inl in H. destruct H as [H | [u [_ H]]].
    + eapply py_assert_inl; exact H.
    + discriminate.
  - eapply IH; exact H.
Qed.

(** Whether some classification entry of the mode dictionary lists the measurement. *)
Definition listed_for_classification (m : string)
  (modes : list (DataModality * list string)) : bool :=
  existsb (fun entry =>
             negb (DataModality_eqb (fst entry) MULTIVARIATE_REGRESSION)
             && str_in m (snd entry)) modes.

Lemma listed_for_classification_spec m modes :
  listed_for_classification m modes = true
  <-> exists mode ms, In (mode, ms) modes /\ mode <> MULTIVARIATE_REGRESSION /\ In m ms.
Proof.
  unfold listed_for_classification. rewrite existsb_exists. split.
  - intros [[mode ms] [Hin H]]. simpl in H.
    apply andb_true_iff in H. destruct H as [H1 H2].
    exists mode, ms. repeat split; [exact Hin | | apply str_in_In; exact H2].
    intros E; subst. discriminate.
  - intros [mode [ms [Hin [Hne Hm]]]]. exists (mode, ms). split; [exact Hin |].
    simpl. apply andb_true_iff. split; [| apply str_in_In; exact Hm].
    destruct mode; simpl; congruence.
Qed.

Lemma build_modes_spec (modes : list (DataModality * list string))
  (acc d : dict DataModality) :
  for_each modes
    (fun entry acc =>
       if DataModality_eqb (fst entry) MULTIVARIATE_REGRESSION then ret acc
       else Layer.add_modes (fst entry) (snd entry) acc) acc = inr d ->
  (forall mode ms m, In (mode, ms) modes -> mode <> MULTIVARIATE_REGRESSION -> In m ms ->
     dict_get acc m = None /\ dict_get d m = Some mode)
  /\ (forall m, listed_for_classification m modes = false -> dict_get d m = dict_get acc m)
  /\ (NoDup (dict_keys acc) -> NoDup (dict_keys d)).
Proof.
  revert acc. induction modes as [| [gm ms0] modes IH]; intros acc H; simpl in H.
  - inversion H; subst. split; [intros ? ? ? [] | split; tauto].
  - inv_bind H. simpl in Hx. destruct (IH _ H) as [I1 [I2 I3]].
    destruct (DataModality_eqb gm MULTIVARIATE_REGRESSION) eqn:E.
    + inversion Hx; subst x; clear Hx. apply DataModality_eqb_eq in E.
      split; [| split].
      * intros mode ms m H0 H1 H2.
        destruct H0 as [H0 | H0]; [congruence | eapply I1; eauto].
      * intros m Hm. apply I2. simpl in Hm. apply orb_false_iff in Hm. tauto.
      * exact I3.
    + destruct (add_modes_spec _ _ _ _ Hx) as [A1 [A2 A3]].
      assert (Hlater : forall mode ms m, In (mode, ms) modes ->
                mode <> MULTIVARIATE_REGRESSION -> In m ms -> ~ In m ms0).
      { intros mode ms m Hin Hne Hm C. destruct (I1 _ _ _ Hin Hne Hm) as [N _].
        destruct (A1 m C) as [_ S1]. congruence. }
      split; [| split].
      * intros mode ms m H0 H1 H2. split.
        -- destruct H0 as [H0 | H0].
           ++ inversion H0; subst. apply A1; exact H2.
           ++ destruct (I1 _ _ _ H0 H1 H2) as [N _].
              rewrite A2 in N by (eapply Hlater; eauto). exact N.
        -- destruct H0 as [H0 | H0].
           ++ inversion H0; subst.
              destruct (listed_for_classification m modes) eqn:L.
              ** apply listed_for_classification_spec in L.
                 destruct L as [mode' [ms' [Hin [Hne Hm]]]].
                 exfalso. eapply Hlater; eauto.
              ** rewrite (I2 m L). apply A1; exact H2.
           ++ eapply I1; eauto.
      * intros m Hm. simpl in Hm. apply orb_false_iff in Hm. destruct Hm as [Hm1 Hm2].
        rewrite (I2 m Hm2). apply A2. intros C.
        rewrite E in Hm1. simpl in Hm1. apply str_in_In in C. congruence.
      * intros N. apply I3, A3, N.
Qed.

Lemma build_modes_error (modes : list (DataModality * list string)) (e : exn) :
  Layer.build_classification_mode_per_measurement modes = inl e -> e = AssertionError.
Proof.
  unfold Layer.build_classification_mode_per_measurement.
  generalize (@nil (string * DataModality)) as acc.
  induction modes as [| [gm ms0] modes IH]; intros acc H; simpl in H; [discriminate |].
  apply bind_inl in H. destruct H as [H | [x [Hx H]]].
  - destruct (DataModality_eqb gm MULTIVARIATE_REGRESSION); [discriminate |].
    eapply add_modes_error; exact H.
  - eapply IH; exact H.
Qed.

(** What a constructed layer's [classification_mode_per_measurement] holds. *)
Lemma init_classification_modes (config : Config.t) (layer : Layer.t) :
  Layer.init config = inr layer ->
  Layer.config layer = config
  /\ NoDup (dict_keys (Layer.classification_mode_per_measurement layer))
  /\ forall m mode,
       dict_get (Layer.classification_mode_per_measurement layer) m = Some mode
       <-> (mode <> MULTIVARIATE_REGRESSION
            /\ exists ms, In (mode, ms) (Config.measurements_per_generative_mode config)
                          /\ In m ms).
Proof.
  unfold Layer.init. intros H. inv_bind H. inv_bind H. inversion H; subst; clear H. simpl.
  unfold Layer.build_classification_mode_per_measurement in Hx0.
  destruct (build_modes_spec _ _ _ Hx0) as [B1 [B2 B3]].
  split; [reflexivity |]. split; [apply B3; constructor |].
  intros m mode. split.
  - intros G.
    destruct (listed_for_classification m (Config.measurements_per_generative_mode config))
      eqn:L.
    + apply listed_for_classification_spec in L.
      destruct L as [mode' [ms [Hin [Hne Hm]]]].
      destruct (B1 _ _ _ Hin Hne Hm) as [_ G'].
      assert (mode' = mode) by congruence. subst. eauto.
    + rewrite (B2 m L) in G. discriminate.
  - intros [Hne [ms [Hin Hm]]]. eapply B1; eauto.
Qed.

(** C10. A configuration that lists one measurement under both the single-label and
    the multi-label classification mode cannot be turned into an output layer:
    [__init__] raises, and when the lines before the loop of lines 72-77 pass it is the
    assertion of line 76 that fails.  For every layer that [__init__] does return,
    [classification_mode_per_measurement] has each key once and maps a measurement to a
    mode exactly when the configuration lists it under that (classification) mode, so
    every classification measurement has exactly one generative mode; the methods of
    the layer return outputs only and leave this dictionary as constructed. *)
Theorem C10_classification_mode_unique (config : Config.t) :
  (forall m single multi,
      In (SINGLE_LABEL_CLASSIFICATION, single)
         (Config.measurements_per_generative_mode config) ->
      In (MULTI_LABEL_CLASSIFICATION, multi)
         (Config.measurements_per_generative_mode config) ->
      In m single -> In m multi ->
      (exists e, Layer.init config = inl e)
      /\ (forall heads, Layer.build_heads config = inr heads ->
            Layer.init config = inl AssertionError))
  /\ (forall layer, Layer.init config = inr layer ->
        NoDup (dict_keys (Layer.classification_mode_per_measurement layer))
        /\ (forall m mode,
              dict_get (Layer.classification_mode_per_measurement layer) m = Some mode
              <-> (mode <> MULTIVARIATE_REGRESSION
                   /\ exists ms,
                        In (mode, ms) (Config.measurements_per_generative_mode config)
                        /\ In m ms))
        /\ (forall m mode mode',
              dict_get (Layer.classification_mode_per_measurement layer) m = Some mode ->
              dict_get (Layer.classification_mode_per_measurement layer) m = Some mode' ->
              mode = mode')).
Proof.
  split.
  - intros m single multi Hs Hm Ms Mm.
    assert (Hno : forall layer, Layer.init config <> inr layer).
    { intros layer H. destruct (init_classification_modes _ _ H) as [_ [_ I]].
      assert (G1 : dict_get (Layer.classification_mode_per_measurement layer) m
                   = Some SINGLE_LABEL_CLASSIFICATION).
      { apply I. split; [discriminate | eauto]. }
      assert (G2 : dict_get (Layer.classification_mode_per_measurement layer) m
                   = Some MULTI_LABEL_CLASSIFICATION).
      { apply I. split; [discriminate | eauto]. }
      congruence. }
    split.
    + destruct (Layer.init config) as [e | layer] eqn:E; [eauto |].
      exfalso. eapply Hno; reflexivity.
    + intros heads Hh.
      destruct (Layer.init config) as [e | layer] eqn:E;
        [| exfalso; eapply Hno; reflexivity].
      unfold Layer.init in E. rewrite Hh in E. simpl in E.
      apply bind_inl in E. destruct E as [E | [x [_ E]]]; [| discriminate].
      apply build_modes_error in E. congruence.
  - intros layer H. destruct (init_classification_modes _ _ H) as [_ [N I]].
    split; [exact N | split; [exact I |]].
    intros m mode mode' G1 G2. congruence.
Qed.


(* ===================================================================== *)
(** ** A concrete instance: binary64 scalars, a small registry and a batch *)
(* ===================================================================== *)

Module Example.

(** Scalars as binary64 numbers, with left-to-right reductions. *)
Definition float_of_count (n : nat) : float := PrimFloat.of_uint63 (Uint63.of_Z (Z.of_nat n)).

Definition float_sum (l : list float) : float := fold_left PrimFloat.add l 0%float.

#[export] Instance float_scalar : Scalar := {|
  F := float;
  fzero := 0%float;
  fone := 1%float;
  fadd := PrimFloat.add;
  fsub := PrimFloat.sub;
  fmul := PrimFloat.mul;
  fdiv := PrimFloat.div;
  fneg := PrimFloat.opp;
  fsum := float_sum;
  fmean := fun l => PrimFloat.div (float_sum l) (float_of_count (List.length l));
  of_count := float_of_count;
  isnan := PrimFloat.is_nan
|}.

(** The average of the entries a mask selects, 0 when it selects none. *)
Definition masked_average (l : list float) (mask : list bool) : float :=
  match Tensor.count_true mask with
  | O => 0%float
  | n => PrimFloat.div
           (float_sum (Tensor.zip_with (fun x (b : bool) => if b then x else 0%float) l mask))
           (float_of_count n)
  end.

(** A classification distribution, by its logits. *)
Inductive LogitsDist : Type :=
| CategoricalLogits (logits : tensor3 float)
| BernoulliLogits (logits : tensor3 float).

(** Kernels with all weights zero: every score is 0, the TTE head is an exponential
    distribution of rate 1 (log-density [log 1 - 1 * x]) that accepts the durations
    of its support [x >= 0] only, the criteria are those of uniform predictions up to
    their constant, and the regression head has log-density 0. *)
Definition kernels (vocab_size : nat) : Kernels := {|
  TTE_dist_t := float;
  TTE_layer_forward := fun _ => ret 1%float;
  TTE_log_prob := fun rate x =>
    if PrimFloat.leb 0%float x
    then ret (PrimFloat.sub 0%float (PrimFloat.mul rate x))
    else raise (ValueError "Expected value argument to be within the support");
  ClassificationLayer := fun _ => ret (repeat 0%float vocab_size);
  classification_dist_t := LogitsDist;
  Categorical := fun scores => ret (CategoricalLogits scores);
  Bernoulli := fun scores => ret (BernoulliLogits scores);
  criterion_on_indices := fun _ _ labels => ret (Tensor.map2 (fun _ => 0%float) labels);
  criterion_on_targets := fun _ scores _ => ret (Tensor.map3 (fun _ => 0%float) scores);
  weighted_loss := fun loss mask =>
    ret (PrimFloat.div (float_sum (Tensor.zip_with masked_average loss mask))
                       (float_of_count (List.length loss)));
  safe_weighted_avg := fun loss mask => ret (Tensor.zip_with2 masked_average loss mask);
  regression_dist_t := option (tensor3 Z);
  regression_layer_forward := fun _ _ index => ret index;
  regression_log_prob := fun _ values => ret (Tensor.map3 (fun _ => 0%float) values);
  batch_repr := fun _ => "EventStreamPytorchBatch(...)"
|}.

(** Three measurements: the event type (single label), diagnoses (multi label) and
    laboratory values (regression, with the tests observed as multi-label targets). *)
Definition nested_args : Args.t := {|
  Args.vocab_sizes_by_measurement := Some [("event_type", 2); ("diagnosis", 3); ("lab", 2)];
  Args.vocab_offsets_by_measurement := Some [("event_type", 1); ("diagnosis", 3); ("lab", 6)];
  Args.measurements_idxmap := Some [("event_type", 1); ("diagnosis", 2); ("lab", 3)];
  Args.measurements_per_generative_mode :=
    Some [(SINGLE_LABEL_CLASSIFICATION, ["event_type"]);
          (MULTI_LABEL_CLASSIFICATION, ["diagnosis"; "lab"]);
          (MULTIVARIATE_REGRESSION, ["lab"])];
  Args.event_types_per_measurement :=
    Some [("event_type", ["admission"; "visit"]);
          ("diagnosis", ["visit"]);
          ("lab", Config.event_types_for None [("admission", 0); ("visit", 1)])];
  Args.event_types_idxmap := Some [("admission", 0); ("visit", 1)];
  Args.measurements_per_dep_graph_level :=
    Some [[];
          [VAtom (AStr "event_type")];
          [VAtom (AStr "diagnosis"); VTuple [AStr "lab"; AStr "categorical_only"]];
          [VTuple [AStr "lab"; AStr "numerical_only"]]];
  Args.max_seq_len := 256;
  Args.categorical_embedding_dim := None;
  Args.numerical_embedding_dim := None;
  Args.structured_event_processing_mode := "nested_attention";
  Args.hidden_size := Some 2;
  Args.head_dim := Some 1;
  Args.num_hidden_layers := 2;
  Args.num_attention_heads := 2;
  Args.seq_attention_types := None;
  Args.seq_window_size := 32;
  Args.dep_graph_attention_types := None;
  Args.dep_graph_window_size := Some 2;
  Args.do_full_block_in_dep_graph_attention := Some true;
  Args.do_full_block_in_seq_attention := Some false;
  Args.do_add_temporal_position_embeddings_to_data_embeddings := Some false;
  Args.TTE_generation_layer_type := "exponential";
  Args.TTE_lognormal_generation_num_components := None;
  Args.mean_log_inter_event_time_min := None;
  Args.std_log_inter_event_time_min := None;
  Args.is_encoder_decoder := false
|}.

(** The same registry for the conditionally independent mode. *)
Definition independent_args : Args.t := {|
  Args.vocab_sizes_by_measurement := Args.vocab_sizes_by_measurement nested_args;
  Args.vocab_offsets_by_measurement := Args.vocab_offsets_by_measurement nested_args;
  Args.measurements_idxmap := Args.measurements_idxmap nested_args;
  Args.measurements_per_generative_mode := Args.measurements_per_generative_mode nested_args;
  Args.event_types_per_measurement := Args.event_types_per_measurement nested_args;
  Args.event_types_idxmap := Args.event_types_idxmap nested_args;
  Args.measurements_per_dep_graph_level := None;
  Args.max_seq_len := 256;
  Args.categorical_embedding_dim := None;
  Args.numerical_embedding_dim := None;
  Args.structured_event_processing_mode := "conditionally_independent";
  Args.hidden_size := Some 2;
  Args.head_dim := Some 1;
  Args.num_hidden_layers := 2;
  Args.num_attention_heads := 2;
  Args.seq_attention_types := None;
  Args.seq_window_size := 32;
  Args.dep_graph_attention_types := None;
  Args.dep_graph_window_size := None;
  Args.do_full_block_in_dep_graph_attention := None;
  Args.do_full_block_in_seq_attention := None;
  Args.do_add_temporal_position_embeddings_to_data_embeddings := None;
  Args.TTE_generation_layer_type := "exponential";
  Args.TTE_lognormal_generation_num_components := None;
  Args.mean_log_inter_event_time_min := None;
  Args.std_log_inter_event_time_min := None;
  Args.is_encoder_decoder := false
|}.

(** The configuration and the layer the constructors return, with a fallback that is
    never taken for the arguments above. *)
Definition empty_config : Config.t := {|
  Config.event_types_per_measurement := None;
  Config.event_types_idxmap := [];
  Config.structured_event_processing_mode := "";
  Config.seq_attention_layers := [];
  Config.dep_graph_attention_layers := None;
  Config.TTE_generation_layer_type := "";
  Config.TTE_lognormal_generation_num_components := None;
  Config.mean_log_inter_event_time_min := None;
  Config.std_log_inter_event_time_min := None;
  Config.max_seq_len := 0;
  Config.vocab_sizes_by_measurement := [];
  Config.vocab_offsets_by_measurement := [];
  Config.measurements_idxmap := [];
  Config.measurements_per_generative_mode := [];
  Config.measurements_per_dep_graph_level := None;
  Config.vocab_size := 0;
  Config.head_dim := 0;
  Config.hidden_size := 0;
  Config.num_attention_heads := 0;
  Config.num_hidden_layers := 0
|}.

Definition config_of (a : Args.t) : Config.t :=
  match Config.init a with
  | inr c => c
  | inl _ => empty_config
  end.

Definition layer_of (c : Config.t) : Layer.t :=
  match Layer.init c with
  | inr l => l
  | inl _ =>
      {| Layer.config := c; Layer.TTE_layer := Layer.ExponentialTTELayer;
         Layer.classification_criteria := []; Layer.regression_layers := [];
         Layer.classification_mode_per_measurement := [] |}
  end.

Definition nested_config : Config.t := config_of nested_args.
Definition nested_layer : Layer.t := layer_of nested_config.
Definition independent_config : Config.t := config_of independent_args.
Definition independent_layer : Layer.t := layer_of independent_config.

(** One sequence of three events with two slots each: an admission, a visit with a
    laboratory value, and a padding event. *)
Definition batch : Batch := {|
  dynamic_indices := [[[1; 0]; [2; 6]; [0; 0]]];
  dynamic_measurement_indices := [[[1; 0]; [1; 3]; [0; 0]]];
  dynamic_values := [[[0; 0]; [0; 0.5]; [0; 0]]]%float;
  dynamic_values_mask := [[[false; false]; [false; true]; [false; false]]];
  event_mask := [[true; true; false]];
  time := [[0; 1.5; 0]]%float
|}.

(** Encodings of this batch for the two modes, H = 2 and L = 4. *)
Definition encoded3 : tensor3 F := [[[1; 2]; [3; 4]; [5; 6]]]%float.

Definition encoded4 : tensor4 F :=
  [[[[1; 2]; [3; 4]; [5; 6]; [7; 8]];
    [[9; 10]; [11; 12]; [13; 14]; [15; 16]];
    [[17; 18]; [19; 20]; [21; 22]; [23; 24]]]]%float.

End Example.

(** A configuration that lists "diagnosis" under both classification modes. *)
Definition clashing_config : Config.t := {|
  Config.event_types_per_measurement :=
    Config.event_types_per_measurement Example.nested_config;
  Config.event_types_idxmap := Config.event_types_idxmap Example.nested_config;
  Config.structured_event_processing_mode := "nested_attention";
  Config.seq_attention_layers := ["local"; "global"];
  Config.dep_graph_attention_layers := Some ["global"; "global"];
  Config.TTE_generation_layer_type := "exponential";
  Config.TTE_lognormal_generation_num_components := None;
  Config.mean_log_inter_event_time_min := None;
  Config.std_log_inter_event_time_min := None;
  Config.max_seq_len := 256;
  Config.vocab_sizes_by_measurement := [("event_type", 2); ("diagnosis", 3); ("lab", 2)];
  Config.vocab_offsets_by_measurement := [("event_type", 1); ("diagnosis", 3); ("lab", 6)];
  Config.measurements_idxmap := [("event_type", 1); ("diagnosis", 2); ("lab", 3)];
  Config.measurements_per_generative_mode :=
    [(SINGLE_LABEL_CLASSIFICATION, ["event_type"; "diagnosis"]);
     (MULTI_LABEL_CLASSIFICATION, ["diagnosis"; "lab"]);
     (MULTIVARIATE_REGRESSION, ["lab"])];
  Config.measurements_per_dep_graph_level := None;
  Config.vocab_size := 7;
  Config.head_dim := 1;
  Config.hidden_size := 2;
  Config.num_attention_heads := 2;
  Config.num_hidden_layers := 2
|}.

Lemma C10_witness :
  Layer.init clashing_config = inl AssertionError
  /\ NoDup (dict_keys (Layer.classification_mode_per_measurement Example.nested_layer)).
Proof.
  split.
  - refine (proj2 (proj1 (C10_classification_mode_unique clashing_config)
                     "diagnosis" ["event_type"; "diagnosis"] ["diagnosis"; "lab"]
                     _ _ _ _)
              (Layer.ExponentialTTELayer,
               [("event_type", CrossEntropy); ("diagnosis", BCEWithLogits);
                ("lab", BCEWithLogits)],
               [("lab", 2)]) _);
      simpl; auto.
  - exact (proj1 (proj2 (C10_classification_mode_unique Example.nested_config)
                    Example.nested_layer eq_refl)).
Defined.


(* ===================================================================== *)
(** ** The vocabulary offsets are never validated *)
(* ===================================================================== *)

(** The same constructor arguments with other vocabulary offsets. *)
Definition with_vocab_offsets (a : Args.t) (offsets : option (dict Z)) : Args.t := {|
  Args.vocab_sizes_by_measurement := Args.vocab_sizes_by_measurement a;
  Args.vocab_offsets_by_measurement := offsets;
  Args.measurements_idxmap := Args.measurements_idxmap a;
  Args.measurements_per_generative_mode := Args.measurements_per_generative_mode a;
  Args.event_types_per_measurement := Args.event_types_per_measurement a;
  Args.event_types_idxmap := Args.event_types_idxmap a;
  Args.measurements_per_dep_graph_level := Args.measurements_per_dep_graph_level a;
  Args.max_seq_len := Args.max_seq_len a;
  Args.categorical_embedding_dim := Args.categorical_embedding_dim a;
  Args.numerical_embedding_dim := Args.numerical_embedding_dim a;
  Args.structured_event_processing_mode := Args.structured_event_processing_mode a;
  Args.hidden_size := Args.hidden_size a;
  Args.head_dim := Args.head_dim a;
  Args.num_hidden_layers := Args.num_hidden_layers a;
  Args.num_attention_heads := Args.num_attention_heads a;
  Args.seq_attention_types := Args.seq_attention_types a;
  Args.seq_window_size := Args.seq_window_size a;
  Args.dep_graph_attention_types := Args.dep_graph_attention_types a;
  Args.dep_graph_window_size := Args.dep_graph_window_size a;
  Args.do_full_block_in_dep_graph_attention := Args.do_full_block_in_dep_graph_attention a;
  Args.do_full_block_in_seq_attention := Args.do_full_block_in_seq_attention a;
  Args.do_add_temporal_position_embeddings_to_data_embeddings :=
    Args.do_add_temporal_position_embeddings_to_data_embeddings a;
  Args.TTE_generation_layer_type := Args.TTE_generation_layer_type a;
  Args.TTE_lognormal_generation_num_components :=
    Args.TTE_lognormal_generation_num_components a;
  Args.mean_log_inter_event_time_min := Args.mean_log_inter_event_time_min a;
  Args.std_log_inter_event_time_min := Args.std_log_inter_event_time_min a;
  Args.is_encoder_decoder := Args.is_encoder_decoder a
|}.

(** The same configuration object with its [vocab_offsets_by_measurement] replaced. *)
Definition config_with_vocab_offsets (c : Config.t) (offsets : dict Z) : Config.t := {|
  Config.event_types_per_measurement := Config.event_types_per_measurement c;
  Config.event_types_idxmap := Config.event_types_idxmap c;
  Config.structured_event_processing_mode := Config.structured_event_processing_mode c;
  Config.seq_attention_layers := Config.seq_attention_layers c;
  Config.dep_graph_attention_layers := Config.dep_graph_attention_layers c;
  Config.TTE_generation_layer_type := Config.TTE_generation_layer_type c;
  Config.TTE_lognormal_generation_num_components :=
    Config.TTE_lognormal_generation_num_components c;
  Config.mean_log_inter_event_time_min := Config.mean_log_inter_event_time_min c;
  Config.std_log_inter_event_time_min := Config.std_log_inter_event_time_min c;
  Config.max_seq_len := Config.max_seq_len c;
  Config.vocab_sizes_by_measurement := Config.vocab_sizes_by_measurement c;
  Config.vocab_offsets_by_measurement := offsets;
  Config.measurements_idxmap := Config.measurements_idxmap c;
  Config.measurements_per_generative_mode := Config.measurements_per_generative_mode c;
  Config.measurements_per_dep_graph_level := Config.measurements_per_dep_graph_level c;
  Config.vocab_size := Config.vocab_size c;
  Config.head_dim := Config.head_dim c;
  Config.hidden_size := Config.hidden_size c;
  Config.num_attention_heads := Config.num_attention_heads c;
  Config.num_hidden_layers := Config.num_hidden_layers c
|}.

Definition layer_with_config (l : Layer.t) (c : Config.t) : Layer.t := {|
  Layer.config := c;
  Layer.TTE_layer := Layer.TTE_layer l;
  Layer.classification_criteria := Layer.classification_criteria l;
  Layer.regression_layers := Layer.regression_layers l;
  Layer.classification_mode_per_measurement := Layer.classification_mode_per_measurement l
|}.

Definition result_map {A B} (f : A -> B) (c : result A) : result B :=
  match c with
  | inl e => inl e
  | inr x => inr (f x)
  end.

(** The half-open vocabulary ranges of two registry entries intersect. *)
Definition ranges_overlap (sizes offsets : dict Z) (m1 m2 : string) : bool :=
  match dict_get offsets m1, dict_get sizes m1, dict_get offsets m2, dict_get sizes m2 with
  | Some o1, Some s1, Some o2, Some s2 => (o1 <? o2 + s2) && (o2 <? o1 + s1)
  | _, _, _, _ => false
  end.

(** The offsets do not increase along the registry. *)
Fixpoint non_monotonic (offsets : list Z) : bool :=
  match offsets with
  | x :: (y :: _) as rest => (y <? x) || non_monotonic rest
  | _ => false
  end.

(** Registries that overlap, and that are not monotonic. *)
Definition overlapping_offsets : dict Z := [("event_type", 1); ("diagnosis", 2); ("lab", 6)].
Definition unordered_offsets : dict Z := [("event_type", 9); ("diagnosis", 3); ("lab", 6)].

Lemma config_init_ignores_offsets (a : Args.t) (offsets : option (dict Z)) :
  Config.init (with_vocab_offsets a offsets)
  = result_map (fun c => config_with_vocab_offsets c (Config.or_default offsets []))
      (Config.init a).
Proof.
  unfold Config.init, with_vocab_offsets; simpl.
  repeat match goal with
         | |- context [bind ?c _] => destruct c; simpl
         end;
    reflexivity.
Qed.

Lemma layer_init_ignores_offsets (c : Config.t) (offsets : dict Z) :
  Layer.init (config_with_vocab_offsets c offsets)
  = result_map (fun l => layer_with_config l (config_with_vocab_offsets c offsets))
      (Layer.init c).
Proof.
  unfold Layer.init, Layer.build_heads, config_with_vocab_offsets; simpl.
  repeat match goal with
         | |- context [bind ?c _] => destruct c; simpl
         end;
    reflexivity.
Qed.

Lemma fold_left_min_spec (l : list Z) (x : Z) :
  In (fold_left Z.min l x) (x :: l)
  /\ forall y, In y (x :: l) -> fold_left Z.min l x <= y.
Proof.
  revert x; induction l as [| z l IH]; intros x; simpl.
  - split; [auto | intros y [E | []]; lia].
  - destruct (IH (Z.min x z)) as [I1 I2]. split.
    + destruct I1 as [E | I1]; [| auto].
      rewrite <- E. destruct (Z.min_spec x z) as [[_ M] | [_ M]]; rewrite M; auto.
    + intros y [E | [E | Hy]].
      * subst. etransitivity; [apply I2; left; reflexivity | lia].
      * subst. etransitivity; [apply I2; left; reflexivity | lia].
      * apply I2; right; exact Hy.
Qed.

Lemma vocab_end_of_spec (self : Layer.t) (vocab_start : Z) :
  let candidates :=
    (dict_values (Config.vocab_offsets_by_measurement (Layer.config self))
       ++ [Config.vocab_size (Layer.config self)])%list in
  ((forall o, In o candidates -> o <= vocab_start) ->
   vocab_end_of self vocab_start = inl (ValueError "min() arg is an empty sequence"))
  /\ ((exists o, In o candidates /\ vocab_start < o) ->
      exists vocab_end,
        vocab_end_of self vocab_start = inr vocab_end
        /\ In vocab_end candidates /\ vocab_start < vocab_end
        /\ forall o, In o candidates -> vocab_start < o -> vocab_end <= o).
Proof.
  intros candidates. unfold vocab_end_of. fold candidates.
  set (above := filter (fun o => o >? vocab_start) candidates).
  assert (Habove : forall o, In o above <-> In o candidates /\ vocab_start < o).
  { intros o. unfold above. rewrite filter_In. rewrite Z.gtb_ltb, Z.ltb_lt. tauto. }
  split.
  - intros Hall. destruct above as [| x rest] eqn:E; [reflexivity |].
    exfalso. assert (Hx : In x (x :: rest)) by (left; reflexivity).
    apply Habove in Hx. destruct Hx as [Hc Hlt]. specialize (Hall x Hc). lia.
  - intros [o [Hc Hlt]]. destruct above as [| x rest] eqn:E.
    + exfalso. apply (proj2 (Habove o)); auto.
    + simpl. eexists. split; [reflexivity |].
      destruct (fold_left_min_spec rest x) as [M1 M2].
      apply Habove in M1. destruct M1 as [M1a M1b].
      repeat split; try assumption.
      intros o' Ho' Hlt'. apply M2. apply Habove. auto.
Qed.

(** C7 (as the code has it). Neither constructor reads the vocabulary offsets: with
    any other offsets the configuration constructor raises the same exception or
    returns the same configuration with the offsets stored as given, and so does the
    constructor of the output layer; no error is raised for overlapping or unordered
    offsets at model-build time.  At batch-processing time a measurement's slice ends
    at the least offset (or the vocabulary size) above its own offset, and [min]
    raises a ValueError exactly when there is none. *)
Theorem C7_offsets_not_validated (a : Args.t) (offsets : option (dict Z)) :
  Config.init (with_vocab_offsets a offsets)
  = result_map (fun c => config_with_vocab_offsets c (Config.or_default offsets []))
      (Config.init a)
  /\ (forall c o,
        Layer.init (config_with_vocab_offsets c o)
        = result_map (fun l => layer_with_config l (config_with_vocab_offsets c o))
            (Layer.init c))
  /\ (forall self vocab_start,
        let candidates :=
          (dict_values (Config.vocab_offsets_by_measurement (Layer.config self))
             ++ [Config.vocab_size (Layer.config self)])%list in
        ((forall o, In o candidates -> o <= vocab_start) ->
         vocab_end_of self vocab_start = inl (ValueError "min() arg is an empty sequence"))
        /\ ((exists o, In o candidates /\ vocab_start < o) ->
            exists vocab_end,
              vocab_end_of self vocab_start = inr vocab_end
              /\ In vocab_end candidates /\ vocab_start < vocab_end
              /\ forall o, In o candidates -> vocab_start < o -> vocab_end <= o)).
Proof.
  split; [apply config_init_ignores_offsets |].
  split; [apply layer_init_ignores_offsets |].
  intros self vocab_start. apply vocab_end_of_spec.
Qed.

Lemma C7_witness :
  vocab_end_of Example.nested_layer 9 = inl (ValueError "min() arg is an empty sequence")
  /\ exists vocab_end, vocab_end_of Example.nested_layer 3 = inr vocab_end.
Proof.
  destruct (C7_offsets_not_validated Example.nested_args None) as [_ [_ H]].
  destruct (H Example.nested_layer 9) as [H9 _].
  destruct (H Example.nested_layer 3) as [_ H3].
  split.
  - apply H9. vm_compute. intros o Ho.
    repeat (destruct Ho as [Ho | Ho]; [subst o; discriminate |]). destruct Ho.
  - destruct H3 as [vocab_end [E _]].
    + exists 6. split; [vm_compute; tauto | reflexivity].
    + exists vocab_end. exact E.
Defined.

(** C7 fails as stated: a registry whose ranges overlap ("event_type" holds 1-2,
    "diagnosis" 2-4), and one whose offsets are not monotonic, both build a
    configuration and an output layer without any error; with the second one the
    error comes at batch-processing time, from [forward]. *)
Lemma C7_counterexample :
  ranges_overlap [("event_type", 2); ("diagnosis", 3); ("lab", 2)] overlapping_offsets
    "event_type" "diagnosis" = true
  /\ non_monotonic (dict_values unordered_offsets) = true
  /\ (exists c l,
        Config.init (with_vocab_offsets Example.nested_args (Some overlapping_offsets)) = inr c
        /\ Config.vocab_offsets_by_measurement c = overlapping_offsets
        /\ Layer.init c = inr l)
  /\ (exists c l,
        Config.init (with_vocab_offsets Example.nested_args (Some unordered_offsets)) = inr c
        /\ Layer.init c = inr l
        /\ forward (Example.kernels 7) l Example.batch (Enc4 Example.encoded4) false
           = inl (ValueError "min() arg is an empty sequence")).
Proof.
  split; [reflexivity |]. split; [reflexivity |]. split.
  - eexists. eexists. split; [vm_compute; reflexivity |].
    split; [reflexivity | vm_compute; reflexivity].
  - eexists. eexists. split; [vm_compute; reflexivity |].
    split; [vm_compute; reflexivity | vm_compute; reflexivity].
Qed.


(* ===================================================================== *)
(** ** The per-level partition *)
(* ===================================================================== *)

(** The same constructor arguments with another [measurements_per_dep_graph_level]. *)
Definition with_levels (a : Args.t) (levels : option (list (list value))) : Args.t := {|
  Args.vocab_sizes_by_measurement := Args.vocab_sizes_by_measurement a;
  Args.vocab_offsets_by_measurement := Args.vocab_offsets_by_measurement a;
  Args.measurements_idxmap := Args.measurements_idxmap a;
  Args.measurements_per_generative_mode := Args.measurements_per_generative_mode a;
  Args.event_types_per_measurement := Args.event_types_per_measurement a;
  Args.event_types_idxmap := Args.event_types_idxmap a;
  Args.measurements_per_dep_graph_level := levels;
  Args.max_seq_len := Args.max_seq_len a;
  Args.categorical_embedding_dim := Args.categorical_embedding_dim a;
  Args.numerical_embedding_dim := Args.numerical_embedding_dim a;
  Args.structured_event_processing_mode := Args.structured_event_processing_mode a;
  Args.hidden_size := Args.hidden_size a;
  Args.head_dim := Args.head_dim a;
  Args.num_hidden_layers := Args.num_hidden_layers a;
  Args.num_attention_heads := Args.num_attention_heads a;
  Args.seq_attention_types := Args.seq_attention_types a;
  Args.seq_window_size := Args.seq_window_size a;
  Args.dep_graph_attention_types := Args.dep_graph_attention_types a;
  Args.dep_graph_window_size := Args.dep_graph_window_size a;
  Args.do_full_block_in_dep_graph_attention := Args.do_full_block_in_dep_graph_attention a;
  Args.do_full_block_in_seq_attention := Args.do_full_block_in_seq_attention a;
  Args.do_add_temporal_position_embeddings_to_data_embeddings :=
    Args.do_add_temporal_position_embeddings_to_data_embeddings a;
  Args.TTE_generation_layer_type := Args.TTE_generation_layer_type a;
  Args.TTE_lognormal_generation_num_components :=
    Args.TTE_lognormal_generation_num_components a;
  Args.mean_log_inter_event_time_min := Args.mean_log_inter_event_time_min a;
  Args.std_log_inter_event_time_min := Args.std_log_inter_event_time_min a;
  Args.is_encoder_decoder := Args.is_encoder_decoder a
|}.

(** The entries the configuration constructor lets pass: a string, or a pair (tuple
    or list) of a string and a member of [MeasIndexGroupOptions]. *)
Definition entry_accepted (v : value) : bool :=
  match v with
  | VAtom (AStr _) => true
  | VTuple [AStr _; mode] | VList [AStr _; mode] => MeasIndexGroup.mem mode
  | _ => false
  end.

(** A level's list names the measurement for its categorical, or for its numerical,
    values: by its bare name, or in a tuple with a mode that includes them. *)
Definition names_with (modes : list MeasIndexGroupOptions -> bool) (m : string) (v : value)
  : bool :=
  match v with
  | VAtom (AStr s) => String.eqb s m
  | VTuple [AStr s; mode] =>
      String.eqb s m
      && match MeasIndexGroup.of_atom mode with
         | Some k => modes [k]
         | None => false
         end
  | _ => false
  end.

Definition is_categorical (ks : list MeasIndexGroupOptions) : bool :=
  existsb (fun k => match k with NUMERICAL_ONLY => false | _ => true end) ks.

Definition is_numerical (ks : list MeasIndexGroupOptions) : bool :=
  existsb (fun k => match k with CATEGORICAL_ONLY => false | _ => true end) ks.

Definition declares_categorical (group : list value) (m : string) : bool :=
  existsb (names_with is_categorical m) group.

Definition declares_numerical (group : list value) (m : string) : bool :=
  existsb (names_with is_numerical m) group.

(** A partition that lists "diagnosis" at two levels. *)
Definition duplicated_levels : list (list value) :=
  [[];
   [VAtom (AStr "event_type"); VAtom (AStr "diagnosis")];
   [VAtom (AStr "diagnosis"); VTuple [AStr "lab"; AStr "categorical_only"]];
   [VTuple [AStr "lab"; AStr "numerical_only"]]].

Lemma check_meas_index_accepts (v : value) :
  Config.check_meas_index v = inr tt <-> entry_accepted v = true.
Proof.
  unfold Config.check_meas_index, entry_accepted, py_assert, bind, ret, raise.
  destruct v as [[s | z |] | items | items]; simpl;
    try (destruct items as [| [s | z |] [| mode [| x rest]]]; simpl);
    try (destruct (MeasIndexGroup.mem mode); simpl);
    split; intros H; try reflexivity; try discriminate.
Qed.

Lemma for_all_do_ok {A} (check : A -> result unit) (xs : list A) :
  for_all_do xs check = inr tt <-> forall x, In x xs -> check x = inr tt.
Proof.
  unfold for_all_do. induction xs as [| x xs IH]; simpl.
  - split; [intros _ y [] | reflexivity].
  - destruct (check x) as [e | []] eqn:E; simpl.
    + split; [discriminate |]. intros H. specialize (H x (or_introl eq_refl)). congruence.
    + rewrite IH. split.
      * intros H y [Hy | Hy]; [subst; exact E | apply H; exact Hy].
      * intros H y Hy. apply H. right; exact Hy.
Qed.

Lemma check_levels_accepts (levels : list (list value)) :
  Config.check_measurements_per_dep_graph_level levels = inr tt
  <-> forallb (forallb entry_accepted) levels = true.
Proof.
  unfold Config.check_measurements_per_dep_graph_level.
  rewrite for_all_do_ok, forallb_forall. split.
  - intros H group Hg. apply forallb_forall. intros v Hv.
    apply check_meas_index_accepts. specialize (H group Hg).
    apply (proj1 (for_all_do_ok _ _) H v Hv).
  - intros H group Hg. apply for_all_do_ok. intros v Hv.
    apply check_meas_index_accepts.
    specialize (H group Hg). rewrite forallb_forall in H. apply H; exact Hv.
Qed.

Lemma level_entry_names (modes : list MeasIndexGroupOptions -> bool) (m : string)
  (v : value) (a : atom) (k : MeasIndexGroupOptions) :
  level_entry v = inr (a, k) ->
  atom_eqb (AStr m) a && modes [k] = names_with modes m v
  \/ (exists s, v = VAtom (AStr s)) /\ k = CATEGORICAL_AND_NUMERICAL
     /\ atom_eqb (AStr m) a = names_with modes m v.
Proof.
  destruct v as [[s | z |] | items | items]; intros H.
  - vm_compute in H. inversion H; subst; clear H.
    right. split; [eauto |]. split; [reflexivity |]. simpl. apply String.eqb_sym.
  - vm_compute in H. inversion H; subst. left. reflexivity.
  - vm_compute in H. inversion H; subst. left. reflexivity.
  - destruct items as [| x [| mode [| y rest]]]; try discriminate H.
    unfold level_entry, bind, ret, raise in H. simpl in H.
    destruct (MeasIndexGroup.of_atom mode) as [k' |] eqn:E; [| discriminate].
    inversion H; subst; clear H. left. unfold names_with. rewrite E.
    destruct a as [s | z |]; simpl; [| reflexivity | reflexivity].
    rewrite String.eqb_sym. reflexivity.
  - vm_compute in H. discriminate.
Qed.

Lemma measurements_in_level_acc (m : string) (group : list value) :
  forall c0 n0 cats nums,
    for_each group
      (fun measurement sets =>
         e <- level_entry measurement ;;
         match snd e with
         | CATEGORICAL_AND_NUMERICAL => ret (fst e :: fst sets, fst e :: snd sets)
         | CATEGORICAL_ONLY => ret (fst e :: fst sets, snd sets)
         | NUMERICAL_ONLY => ret (fst sets, fst e :: snd sets)
         end) (c0, n0) = inr (cats, nums) ->
    existsb (atom_eqb (AStr m)) cats
    = existsb (names_with is_categorical m) group || existsb (atom_eqb (AStr m)) c0
    /\ existsb (atom_eqb (AStr m)) nums
       = existsb (names_with is_numerical m) group || existsb (atom_eqb (AStr m)) n0.
Proof.
  induction group as [| v group IH]; intros c0 n0 cats nums H; simpl in H.
  - inversion H; subst. simpl. split; reflexivity.
  - inv_bind H. inv_bind Hx. destruct x0 as [a k]. simpl in Hx.
    assert (Hc : names_with is_categorical m v
                 = atom_eqb (AStr m) a && is_categorical [k]).
    { destruct (level_entry_names is_categorical m v a k Hx0) as [E | [_ [Ek E]]].
      - symmetry; exact E.
      - subst k. simpl. rewrite andb_true_r. symmetry; exact E. }
    assert (Hn : names_with is_numerical m v
                 = atom_eqb (AStr m) a && is_numerical [k]).
    { destruct (level_entry_names is_numerical m v a k Hx0) as [E | [_ [Ek E]]].
      - symmetry; exact E.
      - subst k. simpl. rewrite andb_true_r. symmetry; exact E. }
    cbn [existsb]. rewrite Hc, Hn.
    destruct k; inversion Hx; subst x; clear Hx;
      destruct (IH _ _ _ _ H) as [I1 I2]; rewrite I1, I2; cbn [existsb is_categorical is_numerical fst snd];
      split; destruct (atom_eqb (AStr m) a); cbn [orb andb];
      repeat rewrite orb_true_r; reflexivity.
Qed.

(** The sets a level's loop builds hold exactly the measurements its list names. *)
Lemma measurements_in_level_spec (group : list value) (cats nums : list atom) (m : string) :
  measurements_in_level group = inr (cats, nums) ->
  existsb (atom_eqb (AStr m)) cats = declares_categorical group m
  /\ existsb (atom_eqb (AStr m)) nums = declares_numerical group m.
Proof.
  unfold measurements_in_level, declares_categorical, declares_numerical.
  intros H. destruct (measurements_in_level_acc m group [] [] cats nums H) as [G1 G2].
  rewrite G1, G2. simpl. rewrite !orb_false_r. split; reflexivity.
Qed.

Lemma intersection_In (in_level : list atom) (measurements : list string) (m : string) :
  In m (intersection in_level measurements)
  <-> In m measurements /\ existsb (atom_eqb (AStr m)) in_level = true.
Proof.
  unfold intersection. apply filter_In.
Qed.

(** C8 (as the code has it). The configuration constructor checks the form of each
    entry of [measurements_per_dep_graph_level] and nothing else: the check passes
    exactly when every entry is a string or a pair of a string and a value kind, so a
    measurement listed at two levels is accepted.  In [forward] the measurements
    handed to the heads at level [i] are read off the list of level [i] alone: a
    classification (regression) measurement is dispatched at every level whose list
    names it for its categorical (numerical) values. *)
Theorem C8_duplicates_accepted_and_dispatched :
  (forall levels,
      Config.check_measurements_per_dep_graph_level levels = inr tt
      <-> forallb (forallb entry_accepted) levels = true)
  /\ (forall (self : Layer.t) classification_measurements regression_measurements
             levels i group in_level m,
        Config.measurements_per_dep_graph_level (Layer.config self) = Some levels ->
        nth_error levels i = Some group ->
        measurements_of_level self classification_measurements regression_measurements i
        = inr in_level ->
        (In m (fst in_level)
         <-> In m classification_measurements /\ declares_categorical group m = true)
        /\ (In m (snd in_level)
            <-> In m regression_measurements /\ declares_numerical group m = true)).
Proof.
  split; [exact check_levels_accepts |].
  intros self cls reg levels i group in_level m Hl Hg H.
  unfold measurements_of_level in H. rewrite Hl in H.
  unfold Tensor.item in H. rewrite Hg in H. simpl in H.
  inv_bind H. destruct x as [cats nums]. inversion H; subst; clear H. simpl.
  destruct (measurements_in_level_spec group cats nums m Hx) as [S1 S2].
  rewrite !intersection_In, S1, S2. tauto.
Qed.

Lemma C8_witness :
  In "diagnosis" ["event_type"; "diagnosis"; "lab"]
  /\ declares_categorical
       [VAtom (AStr "diagnosis"); VTuple [AStr "lab"; AStr "categorical_only"]] "diagnosis"
     = true.
Proof.
  refine (proj1 (proj1 (proj2 C8_duplicates_accepted_and_dispatched
                          Example.nested_layer ["event_type"; "diagnosis"; "lab"] ["lab"]
                          _ 2%nat _ (["diagnosis"; "lab"], []) "diagnosis"
                          eq_refl eq_refl eq_refl)) _).
  simpl. auto.
Defined.

(** C8 fails as stated: with "diagnosis" listed at levels 1 and 2 the configuration
    and the layer are built without an error, [forward] returns, and the measurement
    is handed to the classification head at both levels. *)
Lemma C8_counterexample :
  exists c l out,
    Config.init (with_levels Example.nested_args (Some duplicated_levels)) = inr c
    /\ Layer.init c = inr l
    /\ forward (Example.kernels 7) l Example.batch (Enc4 Example.encoded4) false = inr out
    /\ measurements_of_level l ["event_type"; "diagnosis"; "lab"] ["lab"] 1
       = inr (["event_type"; "diagnosis"], [])
    /\ measurements_of_level l ["event_type"; "diagnosis"; "lab"] ["lab"] 2
       = inr (["diagnosis"; "lab"], []).
Proof.
  eexists. eexists. eexists.
  split; [vm_compute; reflexivity |].
  split; [vm_compute; reflexivity |].
  split; [vm_compute; reflexivity |].
  split; vm_compute; reflexivity.
Qed.

(* ===================================================================== *)
(** ** Time-to-event outputs *)
(* ===================================================================== *)

(** [t] has shape [[B, S]] (for any type of entries, so also [[B, S, ...]]). *)
Definition shape2 {A} (B S : nat) (t : tensor2 A) : Prop :=
  List.length t = B /\ forall row, In row t -> List.length row = S.

Definition has_shape2 {A} (B S : nat) (t : tensor2 A) : bool :=
  (List.length t =? B)%nat && forallb (fun row => (List.length row =? S)%nat) t.

(** [t[b][s]], when it exists *)
Definition get2 {A} (t : tensor2 A) (b s : nat) : option A :=
  match nth_error t b with
  | Some row => nth_error row s
  | None => None
  end.

Lemma has_shape2_spec {A} (B S : nat) (t : tensor2 A) :
  has_shape2 B S t = true <-> shape2 B S t.
Proof.
  unfold has_shape2, shape2. rewrite andb_true_iff, Nat.eqb_eq, forallb_forall.
  split; intros [H1 H2]; (split; [exact H1 |]); intros row Hr;
    specialize (H2 row Hr); apply Nat.eqb_eq; exact H2.
Qed.

Lemma zip_with_length {A B C} (f : A -> B -> C) (x : list A) (y : list B) :
  List.length (Tensor.zip_with f x y) = Nat.min (List.length x) (List.length y).
Proof.
  unfold Tensor.zip_with. rewrite length_map, length_combine. reflexivity.
Qed.

Lemma zip_with_nth {A B C} (f : A -> B -> C) (x : list A) (y : list B) (i : nat) :
  nth_error (Tensor.zip_with f x y) i
  = match nth_error x i, nth_error y i with
    | Some a, Some b => Some (f a b)
    | _, _ => None
    end.
Proof.
  revert y i; induction x as [| a x IH]; intros y i.
  - destruct i; reflexivity.
  - destruct y as [| b y].
    + destruct i; simpl; [reflexivity |]. destruct (nth_error x i); reflexivity.
    + destruct i; simpl; [reflexivity | apply IH].
Qed.

Lemma zip_with_In {A B C} (f : A -> B -> C) (x : list A) (y : list B) (c : C) :
  In c (Tensor.zip_with f x y) -> exists a b, In a x /\ In b y /\ c = f a b.
Proof.
  unfold Tensor.zip_with. rewrite in_map_iff. intros [[a b] [E Hin]].
  exists a, b. split; [eapply in_combine_l; eauto |].
  split; [eapply in_combine_r; eauto | symmetry; exact E].
Qed.

Lemma drop_first_length {A} (row : list A) :
  List.length (Tensor.drop_first row) = (List.length row - 1)%nat.
Proof.
  destruct row; simpl; lia.
Qed.

Lemma drop_last_length {A} (row : list A) :
  List.length (Tensor.drop_last row) = (List.length row - 1)%nat.
Proof.
  unfold Tensor.drop_last. destruct row as [| a row] using rev_ind; [reflexivity |].
  rewrite removelast_last, length_app. simpl. lia.
Qed.

Lemma drop_first_nth {A} (row : list A) (i : nat) :
  nth_error (Tensor.drop_first row) i = nth_error row (S i).
Proof.
  destruct row; simpl; [destruct i; reflexivity | reflexivity].
Qed.

Lemma drop_last_nth {A} (row : list A) (i : nat) :
  (S i < List.length row)%nat -> nth_error (Tensor.drop_last row) i = nth_error row i.
Proof.
  unfold Tensor.drop_last. destruct row as [| a row] using rev_ind; intros H.
  - simpl in H. lia.
  - rewrite removelast_last. rewrite length_app in H. simpl in H.
    rewrite nth_error_app1 by lia. reflexivity.
Qed.

Lemma last_item_nonempty {A} (row : list A) :
  row <> [] -> exists x, Tensor.last_item row = inr x.
Proof.
  unfold Tensor.last_item. intros H. destruct (rev row) as [| x r] eqn:E.
  - apply (f_equal (@rev A)) in E. rewrite rev_involutive in E. simpl in E. contradiction.
  - eauto.
Qed.

Lemma append_column_total {A} (fill : A) (t : tensor2 A) :
  (forall row, In row t -> row <> []) ->
  append_column fill t = inr (map (fun row => row ++ [fill])%list t).
Proof.
  intros H. unfold append_column. apply map_result_total.
  intros row Hr. destruct (last_item_nonempty row (H row Hr)) as [x E].
  rewrite E. reflexivity.
Qed.

Lemma append_column_empty_row {A} (fill : A) (t : tensor2 A) :
  In [] t -> append_column fill t = inl IndexError.
Proof.
  unfold append_column. induction t as [| row t IH]; intros H; [destruct H |].
  simpl. destruct row as [| a row].
  - reflexivity.
  - destruct H as [H | H]; [discriminate |].
    destruct (last_item_nonempty (a :: row)) as [x E]; [discriminate |].
    rewrite E. simpl. rewrite (IH H). reflexivity.
Qed.

Lemma count_true_app_false (row : list bool) :
  Tensor.count_true (row ++ [false]) = Tensor.count_true row.
Proof.
  unfold Tensor.count_true. rewrite filter_app, length_app. simpl. lia.
Qed.

Lemma shape2_same {A B} (n s : nat) (x : tensor2 A) (y : tensor2 B) :
  shape2 n s x -> shape2 n s y -> Tensor.same_shape2 x y = true.
Proof.
  intros [X1 X2] [Y1 Y2]. unfold Tensor.same_shape2.
  apply andb_true_iff. split; [apply Nat.eqb_eq; congruence |].
  apply forallb_forall. intros [a b] Hin. simpl. apply Nat.eqb_eq.
  rewrite (X2 a (in_combine_l _ _ _ _ Hin)), (Y2 b (in_combine_r _ _ _ _ Hin)).
  reflexivity.
Qed.

Lemma shape2_map_rows {A B} (n s s' : nat) (g : list A -> list B) (t : tensor2 A) :
  shape2 n s t -> (forall row, List.length row = s -> List.length (g row) = s') ->
  shape2 n s' (map g t).
Proof.
  intros [H1 H2] Hg. split; [rewrite length_map; exact H1 |].
  intros row Hr. apply in_map_iff in Hr. destruct Hr as [r [E Hr]]. subst row.
  apply Hg. apply H2. exact Hr.
Qed.

Lemma shape2_zip_with2 {A B C} (n s : nat) (f : A -> B -> C) (x : tensor2 A) (y : tensor2 B) :
  shape2 n s x -> shape2 n s y -> shape2 n s (Tensor.zip_with2 f x y).
Proof.
  intros [X1 X2] [Y1 Y2]. unfold Tensor.zip_with2. split.
  - rewrite zip_with_length, X1, Y1. apply Nat.min_id.
  - intros row Hr. apply zip_with_In in Hr. destruct Hr as [a [b [Ha [Hb E]]]].
    subst row. rewrite zip_with_length, (X2 a Ha), (Y2 b Hb). apply Nat.min_id.
Qed.

Lemma shape2_map2 {A B} (n s : nat) (f : A -> B) (t : tensor2 A) :
  shape2 n s t -> shape2 n s (Tensor.map2 f t).
Proof.
  intros H. unfold Tensor.map2. eapply shape2_map_rows; [exact H |].
  intros row Hr. rewrite length_map. exact Hr.
Qed.

Lemma get2_zip_with2 {A B C} (f : A -> B -> C) (x : tensor2 A) (y : tensor2 B) (b s : nat) :
  get2 (Tensor.zip_with2 f x y) b s
  = match get2 x b s, get2 y b s with
    | Some a, Some c => Some (f a c)
    | _, _ => None
    end.
Proof.
  unfold get2, Tensor.zip_with2. rewrite zip_with_nth.
  destruct (nth_error x b) as [r1 |]; [| reflexivity].
  destruct (nth_error y b) as [r2 |].
  - apply zip_with_nth.
  - destruct (nth_error r1 s); reflexivity.
Qed.

Lemma get2_map_rows {A B} (g : list A -> list B) (t : tensor2 A) (b s : nat) :
  get2 (map g t) b s
  = match nth_error t b with
    | Some row => nth_error (g row) s
    | None => None
    end.
Proof.
  unfold get2. rewrite nth_error_map. destruct (nth_error t b); reflexivity.
Qed.

(** An entry of the difference of neighbours along a row. *)
Lemma neighbours_nth {A C} (f : A -> A -> C) (row : list A) (s : nat) (x0 x1 : A) :
  nth_error row s = Some x0 -> nth_error row (S s) = Some x1 ->
  nth_error (Tensor.zip_with f (Tensor.drop_first row) (Tensor.drop_last row)) s
  = Some (f x1 x0).
Proof.
  intros H0 H1. rewrite zip_with_nth, drop_first_nth, H1.
  rewrite drop_last_nth, H0; [reflexivity |].
  apply nth_error_Some. congruence.
Qed.

Lemma neighbours_length {A C} (f : A -> A -> C) (row : list A) :
  List.length (Tensor.zip_with f (Tensor.drop_first row) (Tensor.drop_last row))
  = (List.length row - 1)%nat.
Proof.
  rewrite zip_with_length, drop_first_length, drop_last_length. apply Nat.min_id.
Qed.

Lemma get2_append_last {A} (t : tensor2 A) (x : A) (n s b : nat) :
  shape2 n s t -> (b < n)%nat ->
  get2 (map (fun row => row ++ [x])%list t) b s = Some x.
Proof.
  intros [H1 H2] Hb. rewrite get2_map_rows.
  destruct (nth_error t b) as [row |] eqn:E.
  - assert (Hl : List.length row = s) by (apply H2; eapply nth_error_In; eauto).
    rewrite nth_error_app2 by lia. rewrite Hl, Nat.sub_diag. reflexivity.
  - apply nth_error_None in E. lia.
Qed.

Lemma get2_append_before {A} (t : tensor2 A) (x : A) (n s b i : nat) :
  shape2 n s t -> (i < s)%nat ->
  get2 (map (fun row => row ++ [x])%list t) b i = get2 t b i.
Proof.
  intros [H1 H2] Hi. rewrite get2_map_rows. unfold get2.
  destruct (nth_error t b) as [row |] eqn:E; [| reflexivity].
  assert (Hl : List.length row = s) by (apply H2; eapply nth_error_In; eauto).
  apply nth_error_app1. lia.
Qed.

Lemma count_true_zero (row : list bool) :
  Tensor.count_true row = 0%nat <-> forall i v, nth_error row i = Some v -> v = false.
Proof.
  unfold Tensor.count_true. induction row as [| x row IH]; simpl.
  - split; [intros _ i v H; destruct i; discriminate | reflexivity].
  - destruct x; simpl.
    + split; [discriminate |]. intros H. specialize (H 0%nat true eq_refl). discriminate.
    + rewrite IH. split.
      * intros H i v Hi. destruct i; [inversion Hi; reflexivity | eapply H; exact Hi].
      * intros H i v Hi. apply (H (S i)). exact Hi.
Qed.


Lemma get2_In {A} (t : tensor2 A) (b s : nat) (x : A) :
  get2 t b s = Some x -> exists row, In row t /\ In x row.
Proof.
  unfold get2. destruct (nth_error t b) as [row |] eqn:E; [| discriminate].
  intros H. exists row. split; eapply nth_error_In; eassumption.
Qed.

Lemma In_get2 {A} (t : tensor2 A) (row : list A) (x : A) :
  In row t -> In x row -> exists b s, get2 t b s = Some x.
Proof.
  intros Hr Hx. destruct (In_nth_error _ _ Hr) as [b Eb].
  destruct (In_nth_error _ _ Hx) as [s Es].
  exists b, s. unfold get2. rewrite Eb. exact Es.
Qed.

Lemma get2_lt {A} (n s0 : nat) (t : tensor2 A) (b s : nat) (x : A) :
  shape2 n s0 t -> get2 t b s = Some x -> (b < n)%nat /\ (s < s0)%nat.
Proof.
  intros [H1 H2] G. unfold get2 in G.
  destruct (nth_error t b) as [row |] eqn:E; [| discriminate].
  split.
  - rewrite <- H1. apply nth_error_Some. congruence.
  - rewrite <- (H2 row (nth_error_In _ _ E)). apply nth_error_Some. congruence.
Qed.

Lemma get2_Some {A} (n s0 : nat) (t : tensor2 A) (b s : nat) :
  shape2 n s0 t -> (b < n)%nat -> (s < s0)%nat -> exists x, get2 t b s = Some x.
Proof.
  intros [H1 H2] Hb Hs. unfold get2.
  destruct (nth_error t b) as [row |] eqn:E.
  - destruct (nth_error row s) as [x |] eqn:Ex; [eauto |].
    apply nth_error_None in Ex. rewrite (H2 row (nth_error_In _ _ E)) in Ex. lia.
  - apply nth_error_None in E. lia.
Qed.

Lemma any2_exists {A} (p : A -> bool) (t : tensor2 A) :
  Tensor.any2 p t = true <-> exists b s x, get2 t b s = Some x /\ p x = true.
Proof.
  unfold Tensor.any2. rewrite existsb_exists. split.
  - intros [row [Hr Hp]]. apply existsb_exists in Hp. destruct Hp as [x [Hx Hp]].
    destruct (In_get2 t row x Hr Hx) as [b [s G]]. eauto.
  - intros [b [s [x [G Hp]]]]. destruct (get2_In t b s x G) as [row [Hr Hx]].
    exists row. split; [exact Hr |]. apply existsb_exists. eauto.
Qed.

(** *** Comprehensions that may raise, over one and two dimensions *)

Lemma map_result_inl {A B} (f : A -> result B) (xs : list A) (e : exn) :
  map_result f xs = inl e -> exists x, In x xs /\ f x = inl e.
Proof.
  induction xs as [| x xs IH]; simpl; [discriminate |].
  unfold bind. destruct (f x) as [e' | y] eqn:E.
  - intros H. inversion H; subst. exists x. split; [left; reflexivity | exact E].
  - destruct (map_result f xs) as [e' | ys]; [| discriminate].
    intros H. inversion H; subst. destruct (IH eq_refl) as [x' [Hin Hx]].
    exists x'. split; [right; exact Hin | exact Hx].
Qed.

Lemma map_result_raises {A B} (f : A -> result B) (xs : list A) (x : A) (e : exn) :
  In x xs -> f x = inl e -> exists e', map_result f xs = inl e'.
Proof.
  induction xs as [| x0 xs IH]; intros Hin Hx; [destruct Hin |].
  simpl. unfold bind. destruct (f x0) as [e0 | y] eqn:E; [eauto |].
  destruct Hin as [Hin | Hin]; [subst x0; congruence |].
  destruct (IH Hin Hx) as [e' He']. rewrite He'. eauto.
Qed.

Lemma map_result_ext {A B} (f g : A -> result B) (xs : list A) :
  (forall x, In x xs -> f x = g x) -> map_result f xs = map_result g xs.
Proof.
  induction xs as [| x xs IH]; intros H; simpl; [reflexivity |].
  rewrite (H x (or_introl eq_refl)), IH; [reflexivity |].
  intros y Hy. apply H. right. exact Hy.
Qed.

Lemma map_result_map {A B C} (g : A -> B) (f : B -> result C) (xs : list A) :
  map_result f (map g xs) = map_result (fun x => f (g x)) xs.
Proof.
  induction xs as [| x xs IH]; simpl; [reflexivity |]. rewrite IH. reflexivity.
Qed.

Lemma map_result_exists {A B} (f : A -> result B) (xs : list A) :
  (forall x, In x xs -> exists y, f x = inr y) -> exists ys, map_result f xs = inr ys.
Proof.
  induction xs as [| x xs IH]; intros H; simpl; [eexists; reflexivity |].
  destruct (H x (or_introl eq_refl)) as [y Hy]. rewrite Hy. simpl.
  destruct IH as [ys Hys]; [intros x' Hx'; apply H; right; exact Hx' |].
  rewrite Hys. simpl. eexists; reflexivity.
Qed.

Lemma map_result2_shape {A B} (f : A -> result B) (t : tensor2 A) (r : tensor2 B)
  (n s : nat) :
  map_result (map_result f) t = inr r -> shape2 n s t -> shape2 n s r.
Proof.
  intros H [H1 H2]. split.
  - rewrite (map_result_length _ _ _ H). exact H1.
  - intros row Hr. destruct (In_nth_error _ _ Hr) as [b Eb].
    destruct (nth_error t b) as [row0 |] eqn:E0.
    + destruct (map_result_nth _ _ _ b row0 H E0) as [y [Ey Hy]].
      rewrite Eb in Ey. inversion Ey; subst y.
      rewrite (map_result_length _ _ _ Hy). apply H2. eapply nth_error_In; exact E0.
    + apply nth_error_None in E0. rewrite <- (map_result_length _ _ _ H) in E0.
      apply nth_error_None in E0. congruence.
Qed.

Lemma map_result2_get2 {A B} (f : A -> result B) (t : tensor2 A) (r : tensor2 B)
  (b s : nat) (x : A) :
  map_result (map_result f) t = inr r -> get2 t b s = Some x ->
  exists y, get2 r b s = Some y /\ f x = inr y.
Proof.
  intros H G. unfold get2 in G.
  destruct (nth_error t b) as [row |] eqn:E; [| discriminate].
  destruct (map_result_nth _ _ _ b row H E) as [rrow [Er Hr]].
  destruct (map_result_nth _ _ _ s x Hr G) as [y [Ey Hy]].
  exists y. split; [| exact Hy]. unfold get2. rewrite Er. exact Ey.
Qed.

Lemma map_result2_inl {A B} (f : A -> result B) (t : tensor2 A) (e : exn) :
  map_result (map_result f) t = inl e -> exists b s x, get2 t b s = Some x /\ f x = inl e.
Proof.
  intros H. destruct (map_result_inl _ _ _ H) as [row [Hr Hrow]].
  destruct (map_result_inl _ _ _ Hrow) as [x [Hx Hf]].
  destruct (In_get2 t row x Hr Hx) as [b [s G]]. eauto.
Qed.

Lemma map_result2_exists {A B} (f : A -> result B) (t : tensor2 A) :
  (forall b s x, get2 t b s = Some x -> exists y, f x = inr y) ->
  exists r, map_result (map_result f) t = inr r.
Proof.
  intros H. apply map_result_exists. intros row Hr.
  apply map_result_exists. intros x Hx.
  destruct (In_get2 t row x Hr Hx) as [b [s G]]. eapply H; exact G.
Qed.

Lemma map_result2_raises {A B} (f : A -> result B) (t : tensor2 A) (b s : nat) (x : A)
  (e : exn) :
  get2 t b s = Some x -> f x = inl e -> exists e', map_result (map_result f) t = inl e'.
Proof.
  intros G Hf. destruct (get2_In t b s x G) as [row [Hr Hx]].
  destruct (map_result_raises f row x e Hx Hf) as [e1 H1].
  exact (map_result_raises (map_result f) t row e1 Hr H1).
Qed.

Section TTEFacts.
Context {SC : Scalar}.

(** The tensors that [get_TTE_outputs] scores: the true durations and the
    observation mask with the column for the last event appended (lines 121-124). *)
Definition TTE_true_exp_of (batch : Batch) : tensor2 F :=
  map (fun row => row ++ [fone])%list (TTE_true_of batch).

Definition TTE_obs_mask_exp_of (batch : Batch) : tensor2 bool :=
  map (fun row => row ++ [false])%list (TTE_obs_mask_of batch).

(** The condition of line 136 on the mask before the column is appended. *)
Definition some_sequence_unobserved (batch : Batch) : bool :=
  existsb (fun row => (Tensor.count_true row =? 0)%nat) (TTE_obs_mask_of batch).

End TTEFacts.

Section TTELemmas.
Context {SC : Scalar}.
Variable K : Kernels.

Lemma TTE_obs_mask_shape (batch : Batch) (B S : nat) :
  shape2 B S (event_mask batch) -> shape2 B (S - 1) (TTE_obs_mask_of batch).
Proof.
  intros H. unfold TTE_obs_mask_of. eapply shape2_map_rows; [exact H |].
  intros row Hr. rewrite neighbours_length, Hr. reflexivity.
Qed.

Lemma TTE_true_shape (batch : Batch) (B S : nat) :
  shape2 B S (event_mask batch) -> shape2 B S (time batch) ->
  shape2 B (S - 1) (TTE_true_of batch).
Proof.
  intros Hm Ht. unfold TTE_true_of. apply shape2_zip_with2.
  - apply TTE_obs_mask_shape; exact Hm.
  - unfold TTE_delta_of. eapply shape2_map_rows; [exact Ht |].
    intros row Hr. rewrite neighbours_length, Hr. reflexivity.
Qed.

(** Lines 115-117, entry by entry. *)
Lemma TTE_true_entry (batch : Batch) (b s : nat) (m0 m1 : bool) (t0 t1 : F) :
  get2 (event_mask batch) b s = Some m0 -> get2 (event_mask batch) b (S s) = Some m1 ->
  get2 (time batch) b s = Some t0 -> get2 (time batch) b (S s) = Some t1 ->
  get2 (TTE_obs_mask_of batch) b s = Some (m1 && m0)
  /\ get2 (TTE_true_of batch) b s = Some (if m1 && m0 then fsub t1 t0 else fone).
Proof.
  intros M0 M1 T0 T1.
  assert (Hmask : get2 (TTE_obs_mask_of batch) b s = Some (m1 && m0)).
  { unfold TTE_obs_mask_of. rewrite get2_map_rows. unfold get2 in M0, M1.
    destruct (nth_error (event_mask batch) b) as [row |]; [| discriminate].
    apply neighbours_nth; assumption. }
  split; [exact Hmask |].
  unfold TTE_true_of. rewrite get2_zip_with2, Hmask.
  unfold TTE_delta_of. rewrite get2_map_rows. unfold get2 in T0, T1.
  destruct (nth_error (time batch) b) as [row |]; [| discriminate].
  rewrite (neighbours_nth fsub row s t0 t1 T0 T1). reflexivity.
Qed.

Lemma any2_never {A} (t : tensor2 A) : Tensor.any2 (fun _ : A => false) t = false.
Proof.
  unfold Tensor.any2. induction t as [| row t IH]; simpl; [reflexivity |].
  rewrite IH, orb_false_r. induction row; simpl; auto.
Qed.


Lemma unobserved_exp (batch : Batch) :
  existsb (fun row => (Tensor.count_true row =? 0)%nat) (TTE_obs_mask_exp_of batch)
  = some_sequence_unobserved batch.
Proof.
  unfold TTE_obs_mask_exp_of, some_sequence_unobserved.
  induction (TTE_obs_mask_of batch) as [| row t IH]; simpl; [reflexivity |].
  rewrite count_true_app_false, IH. reflexivity.
Qed.

Lemma TTE_true_exp_shape (batch : Batch) (B S : nat) :
  shape2 B S (event_mask batch) -> shape2 B S (time batch) -> (2 <= S)%nat ->
  shape2 B S (TTE_true_exp_of batch).
Proof.
  intros Hm Ht HS. unfold TTE_true_exp_of.
  eapply shape2_map_rows; [exact (TTE_true_shape batch B S Hm Ht) |].
  intros row Hr. rewrite length_app, Hr. simpl. lia.
Qed.

Lemma TTE_obs_mask_exp_shape (batch : Batch) (B S : nat) :
  shape2 B S (event_mask batch) -> (2 <= S)%nat ->
  shape2 B S (TTE_obs_mask_exp_of batch).
Proof.
  intros Hm HS. unfold TTE_obs_mask_exp_of.
  eapply shape2_map_rows; [exact (TTE_obs_mask_shape batch B S Hm) |].
  intros row Hr. rewrite length_app, Hr. simpl. lia.
Qed.

(** Lines 115-124, entry by entry. *)
Lemma TTE_exp_entry (batch : Batch) (B S b s : nat) (m0 m1 : bool) (t0 t1 : F) :
  shape2 B S (event_mask batch) -> shape2 B S (time batch) ->
  get2 (event_mask batch) b s = Some m0 -> get2 (event_mask batch) b (Datatypes.S s) = Some m1 ->
  get2 (time batch) b s = Some t0 -> get2 (time batch) b (Datatypes.S s) = Some t1 ->
  get2 (TTE_true_exp_of batch) b s = Some (if m1 && m0 then fsub t1 t0 else fone)
  /\ get2 (TTE_obs_mask_exp_of batch) b s = Some (m1 && m0).
Proof.
  intros Hm Ht M0 M1 T0 T1.
  destruct (TTE_true_entry batch b s m0 m1 t0 t1 M0 M1 T0 T1) as [E1 E2].
  destruct (get2_lt B S _ b (Datatypes.S s) m1 Hm M1) as [_ Hs].
  split.
  - unfold TTE_true_exp_of.
    rewrite (get2_append_before _ fone B (S - 1) b s (TTE_true_shape batch B S Hm Ht));
      [exact E2 | lia].
  - unfold TTE_obs_mask_exp_of.
    rewrite (get2_append_before _ false B (S - 1) b s (TTE_obs_mask_shape batch B S Hm));
      [exact E1 | lia].
Qed.

Lemma TTE_exp_last (batch : Batch) (B S b : nat) :
  shape2 B S (event_mask batch) -> shape2 B S (time batch) -> (b < B)%nat ->
  get2 (TTE_true_exp_of batch) b (S - 1) = Some fone
  /\ get2 (TTE_obs_mask_exp_of batch) b (S - 1) = Some false.
Proof.
  intros Hm Ht Hb. split.
  - unfold TTE_true_exp_of.
    eapply get2_append_last; [exact (TTE_true_shape batch B S Hm Ht) | exact Hb].
  - unfold TTE_obs_mask_exp_of.
    eapply get2_append_last; [exact (TTE_obs_mask_shape batch B S Hm) | exact Hb].
Qed.

(** [log_prob] position by position, on tensors of one shape. *)
Lemma TTE_log_likelihood_eq (dists : tensor2 (TTE_dist_t K)) (x : tensor2 F) (B S : nat) :
  shape2 B S dists -> shape2 B S x ->
  TTE_log_likelihood K dists x
  = map_result (map_result (fun p => TTE_log_prob K (fst p) (snd p)))
      (Tensor.zip_with2 pair dists x).
Proof.
  intros Hd Hx. unfold TTE_log_likelihood. rewrite (shape2_same B S dists x Hd Hx).
  unfold Tensor.zip_with2. unfold Tensor.zip_with at 1.
  rewrite map_result_map. apply map_result_ext. intros rows _.
  unfold Tensor.zip_with. rewrite map_result_map. apply map_result_ext.
  intros p _. reflexivity.
Qed.

(** On tensors of one shape [[B, S]] with S >= 2, [get_TTE_outputs] is the TTE head,
    [log_prob], the chain of checks of lines 130-137 and the averages of lines
    139-140. *)
Lemma get_TTE_outputs_eq (batch : Batch) (encoded : tensor3 F) (B S : nat) :
  shape2 B S (event_mask batch) -> shape2 B S (time batch) -> shape2 B S encoded ->
  (2 <= S)%nat ->
  get_TTE_outputs K batch encoded
  = (dists <- map_result (map_result (TTE_layer_forward K)) encoded ;;
     TTE_LL <- map_result (map_result (fun p => TTE_log_prob K (fst p) (snd p)))
                 (Tensor.zip_with2 pair dists (TTE_true_exp_of batch)) ;;
     if Tensor.any2 isnan (TTE_true_exp_of batch) then
       inl (ValueError ("NaNs in TTE_true_exp: " ++ batch_repr K batch))
     else if Tensor.any2 isnan TTE_LL then
       inl (ValueError ("NaNs in TTE_LL: " ++ batch_repr K batch))
     else if some_sequence_unobserved batch then
       inl (ValueError ("No observed time-to-event for >= 1 patient in batch: "
                        ++ batch_repr K batch))
     else
       inr {| TTE_LL_overall :=
                fmean (Tensor.zip_with (TTE_LL_of_patient) TTE_LL
                         (TTE_obs_mask_exp_of batch));
              TTE_dist := dists;
              TTE_true := TTE_true_of batch |}).
Proof.
  intros Hm Ht He HS.
  pose proof (TTE_true_shape batch B S Hm Ht) as Htrue.
  pose proof (TTE_obs_mask_shape batch B S Hm) as Hobs.
  unfold get_TTE_outputs.
  destruct (map_result (map_result (TTE_layer_forward K)) encoded) as [e | dists] eqn:Ed;
    [reflexivity |].
  cbn [bind].
  rewrite (append_column_total fone (TTE_true_of batch)).
  2:{ intros row Hr E. destruct Htrue as [_ Hrow]. specialize (Hrow row Hr).
      subst row. simpl in Hrow. lia. }
  rewrite (append_column_total false (TTE_obs_mask_of batch)).
  2:{ intros row Hr E. destruct Hobs as [_ Hrow]. specialize (Hrow row Hr).
      subst row. simpl in Hrow. lia. }
  cbn [bind]. fold (TTE_true_exp_of batch). fold (TTE_obs_mask_exp_of batch).
  rewrite (TTE_log_likelihood_eq dists (TTE_true_exp_of batch) B S).
  2:{ exact (map_result2_shape _ _ _ B S Ed He). }
  2:{ exact (TTE_true_exp_shape batch B S Hm Ht HS). }
  destruct (map_result _ (Tensor.zip_with2 pair dists (TTE_true_exp_of batch)))
    as [e | LL]; [reflexivity |].
  cbn [bind]. rewrite any2_never, unobserved_exp. reflexivity.
Qed.

End TTELemmas.

Section TTEClaims.
Context {SC : Scalar}.
Variable K : Kernels.

(** A sequence has no observed duration when no two neighbouring events of it are
    both unmasked. *)
Lemma some_sequence_unobserved_spec (batch : Batch) (B S : nat) :
  shape2 B S (event_mask batch) ->
  (some_sequence_unobserved batch = true
   <-> exists b, (b < B)%nat
         /\ forall s m0 m1,
              get2 (event_mask batch) b s = Some m0 ->
              get2 (event_mask batch) b (Datatypes.S s) = Some m1 ->
              m1 && m0 = false).
Proof.
  intros Hm. pose proof (TTE_obs_mask_shape batch B S Hm) as [O1 O2].
  unfold some_sequence_unobserved. rewrite existsb_exists. split.
  - intros [row [Hr Hc]]. apply Nat.eqb_eq in Hc.
    destruct (In_nth_error _ _ Hr) as [b Hb].
    exists b. split.
    { rewrite <- O1. apply nth_error_Some. congruence. }
    intros s m0 m1 M0 M1.
    assert (G : get2 (TTE_obs_mask_of batch) b s = Some (m1 && m0)).
    { unfold TTE_obs_mask_of. rewrite get2_map_rows. unfold get2 in M0, M1.
      destruct (nth_error (event_mask batch) b) as [r |]; [| discriminate].
      apply neighbours_nth; assumption. }
    unfold get2 in G. rewrite Hb in G.
    eapply (proj1 (count_true_zero row) Hc); exact G.
  - intros [b [Hb Hall]].
    destruct (nth_error (TTE_obs_mask_of batch) b) as [row |] eqn:E.
    2:{ apply nth_error_None in E. lia. }
    exists row. split; [eapply nth_error_In; exact E |].
    apply Nat.eqb_eq. apply count_true_zero. intros i v Hi.
    unfold TTE_obs_mask_of in E. rewrite nth_error_map in E.
    destruct (nth_error (event_mask batch) b) as [r |] eqn:Er; [| discriminate].
    simpl in E. inversion E; subst row; clear E.
    rewrite zip_with_nth, drop_first_nth in Hi.
    destruct (nth_error r (Datatypes.S i)) as [m1 |] eqn:E1; [| discriminate].
    assert (Hlt : (Datatypes.S i < List.length r)%nat).
    { apply nth_error_Some. congruence. }
    rewrite drop_last_nth in Hi by exact Hlt.
    destruct (nth_error r i) as [m0 |] eqn:E0; [| discriminate].
    inversion Hi; subst v. apply (Hall i m0 m1); unfold get2; rewrite Er; assumption.
Qed.

(** C3. On a batch of S >= 2 events per sequence on which [get_TTE_outputs] returns:
    the returned TTE distribution covers exactly the S positions of every sequence
    (one distribution of the TTE head per encoded event); the true durations that are
    scored, [TTE_true_exp], have S entries per sequence, entry [s < S - 1] being
    [time[s+1] - time[s]] where both events are unmasked and the placeholder 1.0
    otherwise, and the last entry being the placeholder; the observation mask
    [TTE_obs_mask_exp] is [True] exactly where both events are unmasked and [False] at
    the last entry, so that the last entry enters the likelihood sum with the weight
    0 and is not counted: the log-likelihood of a sequence is the sum of
    [log_prob * mask] over its S entries divided by the number of observed durations,
    and [TTE_LL_overall] is the mean of these over the batch.  The returned labels
    [TTE_true] are the first S - 1 entries of [TTE_true_exp]. *)
Theorem C3_TTE_shape_and_alignment (batch : Batch) (encoded : tensor3 F) (B S : nat) :
  has_shape2 B S (event_mask batch) = true ->
  has_shape2 B S (time batch) = true ->
  has_shape2 B S encoded = true ->
  (2 <= S)%nat ->
  forall out,
    get_TTE_outputs K batch encoded = inr out ->
    shape2 B S (TTE_dist out)
    /\ (forall b s h, get2 encoded b s = Some h ->
          exists d, get2 (TTE_dist out) b s = Some d /\ TTE_layer_forward K h = inr d)
    /\ exists TTE_true_exp TTE_obs_mask_exp TTE_LL,
         shape2 B S TTE_true_exp
         /\ shape2 B S TTE_obs_mask_exp
         /\ shape2 B S TTE_LL
         /\ (forall b s m0 m1 t0 t1,
               get2 (event_mask batch) b s = Some m0 ->
               get2 (event_mask batch) b (Datatypes.S s) = Some m1 ->
               get2 (time batch) b s = Some t0 ->
               get2 (time batch) b (Datatypes.S s) = Some t1 ->
               get2 TTE_true_exp b s = Some (if m1 && m0 then fsub t1 t0 else fone)
               /\ get2 TTE_obs_mask_exp b s = Some (m1 && m0))
         /\ (forall b, (b < B)%nat ->
               get2 TTE_true_exp b (S - 1) = Some fone
               /\ get2 TTE_obs_mask_exp b (S - 1) = Some false)
         /\ (forall b s d x,
               get2 (TTE_dist out) b s = Some d -> get2 TTE_true_exp b s = Some x ->
               exists ll, get2 TTE_LL b s = Some ll /\ TTE_log_prob K d x = inr ll)
         /\ TTE_LL_overall out
            = fmean (Tensor.zip_with
                       (fun ll mask =>
                          fdiv (fsum (Tensor.zip_with fmul ll (map bool_to_float mask)))
                               (of_count (Tensor.count_true mask)))
                       TTE_LL TTE_obs_mask_exp)
         /\ (forall b ll mask,
               nth_error TTE_LL b = Some ll -> nth_error TTE_obs_mask_exp b = Some mask ->
               exists last,
                 nth_error ll (S - 1) = Some last
                 /\ nth_error (Tensor.zip_with fmul ll (map bool_to_float mask)) (S - 1)
                    = Some (fmul last fzero))
         /\ shape2 B (S - 1) (TTE_true out)
         /\ (forall b s, (s < S - 1)%nat ->
               get2 (TTE_true out) b s = get2 TTE_true_exp b s).
Proof.
  intros Hm Ht He HS out H.
  apply has_shape2_spec in Hm, Ht, He.
  rewrite (get_TTE_outputs_eq K batch encoded B S Hm Ht He HS) in H.
  destruct (map_result (map_result (TTE_layer_forward K)) encoded) as [e | dists] eqn:Ed;
    [discriminate |].
  cbn [bind] in H.
  destruct (map_result _ (Tensor.zip_with2 pair dists (TTE_true_exp_of batch)))
    as [e | LL] eqn:El; [discriminate |].
  cbn [bind] in H.
  destruct (Tensor.any2 isnan (TTE_true_exp_of batch)); [discriminate |].
  destruct (Tensor.any2 isnan LL); [discriminate |].
  destruct (some_sequence_unobserved batch); [discriminate |].
  inversion H; subst out; clear H. cbn [TTE_dist TTE_true TTE_LL_overall].
  pose proof (map_result2_shape _ _ _ B S Ed He) as Hd.
  pose proof (TTE_true_exp_shape batch B S Hm Ht HS) as Hx.
  pose proof (TTE_obs_mask_exp_shape batch B S Hm HS) as Ho.
  pose proof (map_result2_shape _ _ _ B S El (shape2_zip_with2 B S pair _ _ Hd Hx)) as Hl.
  split; [exact Hd |].
  split; [intros b s h G; exact (map_result2_get2 _ _ _ b s h Ed G) |].
  exists (TTE_true_exp_of batch), (TTE_obs_mask_exp_of batch), LL.
  split; [exact Hx |]. split; [exact Ho |]. split; [exact Hl |].
  split; [intros b s m0 m1 t0 t1 M0 M1 T0 T1;
          exact (TTE_exp_entry batch B S b s m0 m1 t0 t1 Hm Ht M0 M1 T0 T1) |].
  split; [intros b Hb; exact (TTE_exp_last batch B S b Hm Ht Hb) |].
  split.
  { intros b s d x Gd Gx.
    destruct (map_result2_get2 _ _ _ b s (d, x) El) as [ll [G1 G2]].
    - rewrite get2_zip_with2, Gd, Gx. reflexivity.
    - exists ll. split; [exact G1 | exact G2]. }
  split; [reflexivity |].
  split.
  { intros b ll mask El' Em.
    assert (Hb : (b < B)%nat).
    { destruct Hl as [L1 _]. rewrite <- L1. apply nth_error_Some. congruence. }
    assert (Hlen : List.length ll = S).
    { destruct Hl as [_ L2]. apply L2. eapply nth_error_In; exact El'. }
    destruct (nth_error ll (S - 1)) as [last |] eqn:Elast.
    2:{ apply nth_error_None in Elast. lia. }
    exists last. split; [reflexivity |].
    destruct (TTE_exp_last batch B S b Hm Ht Hb) as [_ Gm].
    unfold get2 in Gm. rewrite Em in Gm.
    rewrite zip_with_nth, Elast, nth_error_map, Gm. reflexivity. }
  split; [exact (TTE_true_shape batch B S Hm Ht) |].
  intros b s Hs. unfold TTE_true_exp_of. symmetry.
  eapply get2_append_before; [exact (TTE_true_shape batch B S Hm Ht) | exact Hs].
Qed.

(** C4 (as the code has it). On a batch of S >= 2 events per sequence, with
    [TTE_true_exp] the durations that are scored: an exception of the TTE head or of
    [log_prob] is raised as it is, without the batch; once both have returned,
    [get_TTE_outputs] raises a ValueError whose message ends with the text of the
    batch when [TTE_true_exp] holds a NaN, else when the log-likelihood holds a NaN,
    else when some sequence has no observed duration (no two neighbouring events both
    unmasked); in every other case it returns.  The checks are NaN checks: a duration
    or a log-likelihood that is infinite passes them. *)
Theorem C4_TTE_data_integrity (batch : Batch) (encoded : tensor3 F) (B S : nat) :
  has_shape2 B S (event_mask batch) = true ->
  has_shape2 B S (time batch) = true ->
  has_shape2 B S encoded = true ->
  (2 <= S)%nat ->
  exists TTE_true_exp,
    shape2 B S TTE_true_exp
    /\ (forall b s m0 m1 t0 t1,
          get2 (event_mask batch) b s = Some m0 ->
          get2 (event_mask batch) b (Datatypes.S s) = Some m1 ->
          get2 (time batch) b s = Some t0 ->
          get2 (time batch) b (Datatypes.S s) = Some t1 ->
          get2 TTE_true_exp b s = Some (if m1 && m0 then fsub t1 t0 else fone))
    /\ (forall b, (b < B)%nat -> get2 TTE_true_exp b (S - 1) = Some fone)
    /\ (forall e,
          map_result (map_result (TTE_layer_forward K)) encoded = inl e ->
          get_TTE_outputs K batch encoded = inl e)
    /\ (forall dists,
          map_result (map_result (TTE_layer_forward K)) encoded = inr dists ->
          let log_prob_raises (e : exn) :=
            exists b s d x,
              get2 dists b s = Some d /\ get2 TTE_true_exp b s = Some x
              /\ TTE_log_prob K d x = inl e in
          let log_prob_returns :=
            forall b s d x,
              get2 dists b s = Some d -> get2 TTE_true_exp b s = Some x ->
              exists ll, TTE_log_prob K d x = inr ll in
          let nan_in_TTE_true_exp :=
            exists b s x, get2 TTE_true_exp b s = Some x /\ isnan x = true in
          let nan_in_TTE_LL :=
            exists b s d x ll,
              get2 dists b s = Some d /\ get2 TTE_true_exp b s = Some x
              /\ TTE_log_prob K d x = inr ll /\ isnan ll = true in
          let some_sequence_unobserved :=
            exists b, (b < B)%nat
              /\ forall s m0 m1,
                   get2 (event_mask batch) b s = Some m0 ->
                   get2 (event_mask batch) b (Datatypes.S s) = Some m1 ->
                   m1 && m0 = false in
          ((exists e, log_prob_raises e) ->
           exists e, log_prob_raises e /\ get_TTE_outputs K batch encoded = inl e)
          /\ (log_prob_returns ->
              (nan_in_TTE_true_exp ->
               get_TTE_outputs K batch encoded
               = inl (ValueError ("NaNs in TTE_true_exp: " ++ batch_repr K batch)))
              /\ (~ nan_in_TTE_true_exp -> nan_in_TTE_LL ->
                  get_TTE_outputs K batch encoded
                  = inl (ValueError ("NaNs in TTE_LL: " ++ batch_repr K batch)))
              /\ (~ nan_in_TTE_true_exp -> ~ nan_in_TTE_LL -> some_sequence_unobserved ->
                  get_TTE_outputs K batch encoded
                  = inl (ValueError
                           ("No observed time-to-event for >= 1 patient in batch: "
                            ++ batch_repr K batch)))
              /\ (~ nan_in_TTE_true_exp -> ~ nan_in_TTE_LL ->
                  ~ some_sequence_unobserved ->
                  exists out, get_TTE_outputs K batch encoded = inr out))).
Proof.
  intros Hm Ht He HS.
  apply has_shape2_spec in Hm, Ht, He.
  pose proof (TTE_true_exp_shape batch B S Hm Ht HS) as Hx.
  exists (TTE_true_exp_of batch).
  split; [exact Hx |].
  split; [intros b s m0 m1 t0 t1 M0 M1 T0 T1;
          exact (proj1 (TTE_exp_entry batch B S b s m0 m1 t0 t1 Hm Ht M0 M1 T0 T1)) |].
  split; [intros b Hb; exact (proj1 (TTE_exp_last batch B S b Hm Ht Hb)) |].
  rewrite (get_TTE_outputs_eq K batch encoded B S Hm Ht He HS).
  split; [intros e Ee; rewrite Ee; reflexivity |].
  intros dists Ed. rewrite Ed. cbn [bind].
  pose proof (map_result2_shape _ _ _ B S Ed He) as Hd.
  pose proof (shape2_zip_with2 B S pair _ _ Hd Hx) as Hz.
  cbv zeta. split.
  - intros [e [b [s [d [x [Gd [Gx Hf]]]]]]].
    destruct (map_result2_raises (fun p => TTE_log_prob K (fst p) (snd p))
                (Tensor.zip_with2 pair dists (TTE_true_exp_of batch)) b s (d, x) e)
      as [e' He'].
    { rewrite get2_zip_with2, Gd, Gx. reflexivity. }
    { exact Hf. }
    rewrite He'. cbn [bind]. exists e'. split; [| reflexivity].
    destruct (map_result2_inl _ _ _ He') as [b' [s' [[d' x'] [G' Hf']]]].
    rewrite get2_zip_with2 in G'.
    destruct (get2 dists b' s') as [d0 |] eqn:Gd'; [| discriminate].
    destruct (get2 (TTE_true_exp_of batch) b' s') as [x0 |] eqn:Gx'; [| discriminate].
    inversion G'; subst d0 x0. exists b', s', d', x'. auto.
  - intros Hret.
    destruct (map_result2_exists (fun p => TTE_log_prob K (fst p) (snd p))
                (Tensor.zip_with2 pair dists (TTE_true_exp_of batch))) as [LL El].
    { intros b s [d x] G. rewrite get2_zip_with2 in G.
      destruct (get2 dists b s) as [d0 |] eqn:Gd; [| discriminate].
      destruct (get2 (TTE_true_exp_of batch) b s) as [x0 |] eqn:Gx; [| discriminate].
      inversion G; subst d0 x0. exact (Hret b s d x Gd Gx). }
    rewrite El. cbn [bind].
    pose proof (map_result2_shape _ _ _ B S El Hz) as Hl.
    assert (Hnan1 : Tensor.any2 isnan (TTE_true_exp_of batch) = true
                    <-> exists b s x, get2 (TTE_true_exp_of batch) b s = Some x
                                      /\ isnan x = true)
      by apply any2_exists.
    assert (Hnan2 : Tensor.any2 isnan LL = true
                    <-> exists b s d x ll,
                          get2 dists b s = Some d
                          /\ get2 (TTE_true_exp_of batch) b s = Some x
                          /\ TTE_log_prob K d x = inr ll /\ isnan ll = true).
    { rewrite any2_exists. split.
      - intros [b [s [ll [G N]]]].
        destruct (get2_lt B S LL b s ll Hl G) as [Hb Hs].
        destruct (get2_Some B S dists b s Hd Hb Hs) as [d Gd].
        destruct (get2_Some B S (TTE_true_exp_of batch) b s Hx Hb Hs) as [x Gx].
        destruct (map_result2_get2 _ _ _ b s (d, x) El) as [ll' [G1 G2]].
        { rewrite get2_zip_with2, Gd, Gx. reflexivity. }
        rewrite G in G1. inversion G1; subst ll'.
        exists b, s, d, x, ll. auto.
      - intros [b [s [d [x [ll [Gd [Gx [Hll N]]]]]]]].
        destruct (map_result2_get2 _ _ _ b s (d, x) El) as [ll' [G1 G2]].
        { rewrite get2_zip_with2, Gd, Gx. reflexivity. }
        simpl in G2. rewrite Hll in G2. inversion G2; subst ll'.
        exists b, s, ll. auto. }
    pose proof (some_sequence_unobserved_spec batch B S Hm) as Hobs.
    destruct (Tensor.any2 isnan (TTE_true_exp_of batch)).
    { split; [reflexivity |].
      split; [intros N; exfalso; apply N; apply Hnan1; reflexivity |].
      split; intros N; exfalso; apply N; apply Hnan1; reflexivity. }
    assert (N1 : ~ exists b s x, get2 (TTE_true_exp_of batch) b s = Some x
                                 /\ isnan x = true).
    { intros N. apply Hnan1 in N. discriminate. }
    split; [intros N; contradiction |].
    destruct (Tensor.any2 isnan LL).
    { split; [reflexivity |].
      split; intros _ N; exfalso; apply N; apply Hnan2; reflexivity. }
    assert (N2 : ~ exists b s d x ll,
                     get2 dists b s = Some d
                     /\ get2 (TTE_true_exp_of batch) b s = Some x
                     /\ TTE_log_prob K d x = inr ll /\ isnan ll = true).
    { intros N. apply Hnan2 in N. discriminate. }
    split; [intros _ N; contradiction |].
    destruct (some_sequence_unobserved batch).
    { split; [reflexivity |].
      intros _ _ N. exfalso. apply N. apply Hobs. reflexivity. }
    split; [| intros _ _ _; eexists; reflexivity].
    intros _ _ N. apply Hobs in N. discriminate.
Qed.

End TTEClaims.

(** Two tensors of one shape with the same entries are equal. *)
Lemma tensor2_ext {A} (n s0 : nat) (t t' : tensor2 A) :
  shape2 n s0 t -> shape2 n s0 t' ->
  (forall b s, (b < n)%nat -> (s < s0)%nat -> get2 t b s = get2 t' b s) ->
  t = t'.
Proof.
  intros [H1 H2] [H1' H2'] Hg. apply nth_error_ext. intros b.
  destruct (nth_error t b) as [row |] eqn:E, (nth_error t' b) as [row' |] eqn:E'.
  - f_equal. apply nth_error_ext. intros s.
    assert (Hb : (b < n)%nat) by (rewrite <- H1; apply nth_error_Some; congruence).
    pose proof (H2 row (nth_error_In _ _ E)) as L.
    pose proof (H2' row' (nth_error_In _ _ E')) as L'.
    destruct (Nat.lt_ge_cases s s0) as [Hs | Hs].
    + specialize (Hg b s Hb Hs). unfold get2 in Hg. rewrite E, E' in Hg. exact Hg.
    + rewrite (proj2 (nth_error_None row s)) by lia.
      rewrite (proj2 (nth_error_None row' s)) by lia. reflexivity.
  - exfalso. apply nth_error_None in E'.
    assert ((b < List.length t)%nat) by (apply nth_error_Some; congruence). lia.
  - exfalso. apply nth_error_None in E.
    assert ((b < List.length t')%nat) by (apply nth_error_Some; congruence). lia.
  - reflexivity.
Qed.

(** The example batch with an infinite time stamp, with a time stamp that is not a
    number, and with a sequence whose second and third events are padding. *)
Definition infinite_time_batch : Batch := {|
  dynamic_indices := dynamic_indices Example.batch;
  dynamic_measurement_indices := dynamic_measurement_indices Example.batch;
  dynamic_values := dynamic_values Example.batch;
  dynamic_values_mask := dynamic_values_mask Example.batch;
  event_mask := [[true; true; false]];
  time := [[0%float; PrimFloat.infinity; 0%float]]
|}.

Definition nan_time_batch : Batch := {|
  dynamic_indices := dynamic_indices Example.batch;
  dynamic_measurement_indices := dynamic_measurement_indices Example.batch;
  dynamic_values := dynamic_values Example.batch;
  dynamic_values_mask := dynamic_values_mask Example.batch;
  event_mask := [[true; true; false]];
  time := [[0%float; PrimFloat.nan; 0%float]]
|}.

Definition unobserved_batch : Batch := {|
  dynamic_indices := dynamic_indices Example.batch;
  dynamic_measurement_indices := dynamic_measurement_indices Example.batch;
  dynamic_values := dynamic_values Example.batch;
  dynamic_values_mask := dynamic_values_mask Example.batch;
  event_mask := [[true; false; false]];
  time := time Example.batch
|}.

Lemma C3_witness :
  exists out,
    get_TTE_outputs (Example.kernels 7) Example.batch Example.encoded3 = inr out
    /\ shape2 1 3 (TTE_dist out)
    /\ exists TTE_true_exp TTE_obs_mask_exp,
         shape2 1 3 TTE_true_exp
         /\ get2 TTE_true_exp 0 2 = Some 1%float
         /\ get2 TTE_obs_mask_exp 0 2 = Some false.
Proof.
  destruct (get_TTE_outputs (Example.kernels 7) Example.batch Example.encoded3)
    as [e | out] eqn:E; [vm_compute in E; discriminate |].
  assert (H : (2 <= 3)%nat) by lia.
  destruct (C3_TTE_shape_and_alignment (Example.kernels 7) Example.batch Example.encoded3
              1 3 eq_refl eq_refl eq_refl H out E)
    as [H1 [_ [x [m [ll [H2 [_ [_ [_ [H3 _]]]]]]]]]].
  exists out. split; [reflexivity |]. split; [exact H1 |].
  exists x, m. split; [exact H2 |]. apply (H3 0%nat). lia.
Defined.

Lemma C4_witness :
  get_TTE_outputs (Example.kernels 7) unobserved_batch Example.encoded3
  = inl (ValueError ("No observed time-to-event for >= 1 patient in batch: "
                     ++ batch_repr (Example.kernels 7) unobserved_batch)).
Proof.
  assert (H : (2 <= 3)%nat) by lia.
  destruct (C4_TTE_data_integrity (Example.kernels 7) unobserved_batch Example.encoded3
              1 3 eq_refl eq_refl eq_refl H)
    as [x [X1 [X2 [X3 [_ X5]]]]].
  assert (Ex : x = [[1; 1; 1]]%float).
  { apply (tensor2_ext 1 3); [exact X1 | split; [reflexivity |] |].
    - intros row [Hr | []]. subst row. reflexivity.
    - intros b s Hb Hs.
      destruct b as [| b]; [| lia].
      destruct s as [| [| [| s]]]; [| | | lia].
      + exact (X2 0%nat 0%nat true false 0%float 1.5%float
                 eq_refl eq_refl eq_refl eq_refl).
      + exact (X2 0%nat 1%nat false false 1.5%float 0%float
                 eq_refl eq_refl eq_refl eq_refl).
      + apply (X3 0%nat). lia. }
  subst x.
  destruct (X5 [[1; 1; 1]]%float eq_refl) as [_ X6].
  assert (Hget : forall (b s : nat) (v : float),
             get2 [[1; 1; 1]]%float b s = Some v -> v = 1%float).
  { intros b s v G. destruct b as [| b]; [| destruct b; discriminate].
    destruct s as [| [| [| s]]]; try (inversion G; reflexivity).
    destruct s; discriminate. }
  destruct X6 as [_ [_ [X7 _]]].
  - intros b s d v Gd Gv. apply Hget in Gd, Gv. subst d v. eexists. reflexivity.
  - apply X7.
    + intros [b [s [v [Gv N]]]]. apply Hget in Gv. subst v. discriminate.
    + intros [b [s [d [v [ll [Gd [Gv [Hll N]]]]]]]].
      apply Hget in Gd, Gv. subst d v. vm_compute in Hll. inversion Hll; subst ll.
      discriminate.
    + exists 0%nat. split; [lia |]. intros s m0 m1 G0 G1.
      destruct s as [| [| s]].
      * inversion G0; inversion G1; reflexivity.
      * inversion G0; inversion G1; reflexivity.
      * destruct s; discriminate.
Defined.

(** C4 fails as stated.  With an infinite time stamp the duration that is scored and
    its log-likelihood are not finite, yet nothing is raised: [get_TTE_outputs]
    returns an infinite log-likelihood and [forward] an infinite loss.  With a time
    stamp that is not a number and a distribution that accepts the durations of its
    support only, the error is the one of [log_prob], whose message does not hold the
    batch. *)
Lemma C4_counterexample :
  (exists out,
      get_TTE_outputs (Example.kernels 7) infinite_time_batch Example.encoded3 = inr out
      /\ TTE_true out = [[PrimFloat.infinity; 1%float]]
      /\ TTE_LL_overall out = PrimFloat.neg_infinity)
  /\ (exists out,
        forward (Example.kernels 7) Example.independent_layer infinite_time_batch
          (Enc3 Example.encoded3) false = inr out
        /\ loss out = Some PrimFloat.infinity)
  /\ PrimFloat.is_infinity PrimFloat.infinity = true
  /\ PrimFloat.is_nan PrimFloat.infinity = false
  /\ get_TTE_outputs (Example.kernels 7) nan_time_batch Example.encoded3
     = inl (ValueError "Expected value argument to be within the support")
  /\ batch_repr (Example.kernels 7) nan_time_batch = "EventStreamPytorchBatch(...)".
Proof.
  split; [eexists; split; [vm_compute; reflexivity | split; reflexivity] |].
  split; [eexists; split; [vm_compute; reflexivity | reflexivity] |].
  split; [reflexivity |]. split; [reflexivity |].
  split; [vm_compute; reflexivity | reflexivity].
Qed.


(* ===================================================================== *)
(** ** The event-type masks *)
(* ===================================================================== *)

Section EventTypeMask.
Context {SC : Scalar}.
Variable self : Layer.t.

Let cfg : Config.t := Layer.config self.

(** The mask of one measurement; it is read off the measurement's own list of event
    types. *)
Lemma event_type_masks_loop (etpm : dict (list string)) (indices : tensor3 Z)
  (entries : dict (list string)) (acc out : dict (tensor2 bool)) :
  for_each entries
    (fun entry out_masks =>
       let measurement := fst entry in
       valid_event_types <- dict_item etpm measurement ;;
       valid_event_type_indices <-
         map_result (dict_item (Config.event_types_idxmap cfg)) valid_event_types ;;
       mask <- event_type_mask_of indices valid_event_type_indices ;;
       ret (dict_set out_masks measurement mask)) acc = inr out ->
  forall m mask, dict_get out m = Some mask ->
    dict_get acc m = Some mask
    \/ exists valid_event_types ids,
         dict_get etpm m = Some valid_event_types
         /\ map_result (dict_item (Config.event_types_idxmap cfg)) valid_event_types = inr ids
         /\ event_type_mask_of indices ids = inr mask.
Proof.
  revert acc. induction entries as [| [m0 l0] entries IH]; intros acc H m mask G.
  - simpl in H. inversion H; subst. left; exact G.
  - simpl in H. inv_bind H. inv_bind Hx. inv_bind Hx. inv_bind Hx.
    inversion Hx; subst x; clear Hx.
    destruct (IH _ H m mask G) as [G' | G']; [| right; exact G'].
    rewrite dict_get_set in G'. destruct (String.eqb m m0) eqn:E.
    + apply String.eqb_eq in E. subst m0. inversion G'; subst x2. right.
      exists x0, x1. unfold dict_item in Hx0.
      destruct (dict_get etpm m); [| discriminate]. inversion Hx0; subst. auto.
    + left; exact G'.
Qed.

Lemma event_type_masks_keys (etpm : dict (list string)) (indices : tensor3 Z)
  (entries : dict (list string)) (acc out : dict (tensor2 bool)) :
  for_each entries
    (fun entry out_masks =>
       let measurement := fst entry in
       valid_event_types <- dict_item etpm measurement ;;
       valid_event_type_indices <-
         map_result (dict_item (Config.event_types_idxmap cfg)) valid_event_types ;;
       mask <- event_type_mask_of indices valid_event_type_indices ;;
       ret (dict_set out_masks measurement mask)) acc = inr out ->
  forall m, In m (dict_keys out) <-> In m (dict_keys entries) \/ In m (dict_keys acc).
Proof.
  revert acc. induction entries as [| [m0 l0] entries IH]; intros acc H m.
  - simpl in H. inversion H; subst. simpl. tauto.
  - simpl in H. inv_bind H. inv_bind Hx. inv_bind Hx. inv_bind Hx.
    inversion Hx; subst x; clear Hx.
    rewrite (IH _ H m), dict_In_keys_set. simpl. intuition congruence.
Qed.

Lemma event_type_mask_entry (indices : tensor3 Z) (ids : list Z) (mask : tensor2 bool)
  (b s : nat) (slots : list Z) :
  event_type_mask_of indices ids = inr mask ->
  get2 indices b s = Some slots ->
  get2 mask b s = Some (existsb (fun x => existsb (fun i => x =? i) ids) slots).
Proof.
  unfold event_type_mask_of. intros H G.
  destruct ids as [| i0 ids]; [discriminate |]. inversion H; subst mask; clear H.
  unfold Tensor.map2. rewrite get2_map_rows. unfold get2 in G.
  destruct (nth_error indices b) as [row |]; [| discriminate].
  rewrite nth_error_map, G. reflexivity.
Qed.

Lemma batch_event_type_indices_entry (batch : Batch) (et off : Z) (b s : nat)
  (slots_m slots_i : list Z) :
  get2 (dynamic_measurement_indices batch) b s = Some slots_m ->
  get2 (dynamic_indices batch) b s = Some slots_i ->
  get2 (batch_event_type_indices_of batch et off) b s
  = Some (Tensor.zip_with (fun mi i => if mi =? et then wrap64 (i - off) else -1) slots_m slots_i).
Proof.
  intros Gm Gi. unfold batch_event_type_indices_of.
  change (Tensor.zip_with3 ?f) with (Tensor.zip_with2 (Tensor.zip_with f)).
  rewrite get2_zip_with2, Gm, Gi. reflexivity.
Qed.

Lemma slot_carries_event_type (et off : Z) (ids : list Z) (slots_m slots_i : list Z) :
  ~ In (-1) ids ->
  (existsb (fun x => existsb (fun i => x =? i) ids)
     (Tensor.zip_with (fun mi i => if mi =? et then wrap64 (i - off) else -1) slots_m slots_i)
   = true
   <-> exists k i, nth_error slots_m k = Some et /\ nth_error slots_i k = Some i
                   /\ In (wrap64 (i - off)) ids).
Proof.
  intros Hneg. rewrite existsb_exists. split.
  - intros [x [Hx Hin]]. apply existsb_exists in Hin. destruct Hin as [i' [Hi' E]].
    apply Z.eqb_eq in E. subst i'.
    destruct (In_nth_error _ _ Hx) as [k Hk]. rewrite zip_with_nth in Hk.
    destruct (nth_error slots_m k) as [mi |] eqn:Em; [| discriminate].
    destruct (nth_error slots_i k) as [i |] eqn:Ei; [| discriminate].
    inversion Hk; subst x; clear Hk.
    destruct (mi =? et) eqn:E; [| contradiction].
    apply Z.eqb_eq in E. subst mi. exists k, i. auto.
  - intros [k [i [Em [Ei Hin]]]]. exists (wrap64 (i - off)). split.
    + apply (nth_error_In _ k). rewrite zip_with_nth, Em, Ei, Z.eqb_refl. reflexivity.
    + apply existsb_exists. exists (wrap64 (i - off)). split; [exact Hin | apply Z.eqb_refl].
Qed.

(** C9 (as the code has it). When the configuration has no
    [event_types_per_measurement] the method returns [None], not masks.  Otherwise
    every mask it returns for a measurement is computed from that measurement's own
    list of event types: [mask[b,s]] is [True] iff some slot of event [(b,s)] has the
    measurement index of "event_type" and an index that, minus the vocabulary offset
    of "event_type" (an int64 subtraction, which wraps), is the id of one of the listed
    event types (ids being other than -1).  This also holds for a measurement that lists every event type: its mask is
    [False] at an event without an event-type slot. *)
Theorem C9_event_type_mask (batch : Batch) :
  (Config.event_types_per_measurement cfg = None ->
   get_event_type_mask_per_measurement self batch = inr None)
  /\ (forall masks m mask,
        get_event_type_mask_per_measurement self batch = inr (Some masks) ->
        dict_get masks m = Some mask ->
        exists event_type_idx offset etpm valid_event_types ids,
          dict_get (Config.measurements_idxmap cfg) "event_type" = Some event_type_idx
          /\ dict_get (Config.vocab_offsets_by_measurement cfg) "event_type" = Some offset
          /\ Config.event_types_per_measurement cfg = Some etpm
          /\ dict_get etpm m = Some valid_event_types
          /\ map_result (dict_item (Config.event_types_idxmap cfg)) valid_event_types
             = inr ids
          /\ (~ In (-1) ids ->
              forall b s slots_m slots_i,
                get2 (dynamic_measurement_indices batch) b s = Some slots_m ->
                get2 (dynamic_indices batch) b s = Some slots_i ->
                exists v,
                  get2 mask b s = Some v
                  /\ (v = true
                      <-> exists k i,
                            nth_error slots_m k = Some event_type_idx
                            /\ nth_error slots_i k = Some i
                            /\ In (wrap64 (i - offset)) ids)))
  /\ (forall masks m,
        get_event_type_mask_per_measurement self batch = inr (Some masks) ->
        (In m (dict_keys masks)
         <-> exists etpm, Config.event_types_per_measurement cfg = Some etpm
                          /\ In m (dict_keys etpm))).
Proof.
  unfold get_event_type_mask_per_measurement. fold cfg.
  split; [intros E; rewrite E; reflexivity |].
  split.
  - intros masks m mask H G.
    destruct (Config.event_types_per_measurement cfg) as [etpm |] eqn:E;
      [| discriminate].
    inv_bind H. inv_bind H. inv_bind H. inversion H; subst x1; clear H.
    destruct (event_type_masks_loop _ _ _ _ _ Hx1 m mask G) as [G' | G'];
      [discriminate |].
    destruct G' as [types [ids [G1 [G2 G3]]]].
    exists x, x0, etpm, types, ids.
    unfold dict_item in Hx, Hx0.
    destruct (dict_get (Config.measurements_idxmap cfg) "event_type");
      [| discriminate].
    destruct (dict_get (Config.vocab_offsets_by_measurement cfg) "event_type");
      [| discriminate].
    inversion Hx; inversion Hx0; subst.
    repeat (split; [reflexivity || assumption |]).
    intros Hneg b s slots_m slots_i Gm Gi.
    eexists. split.
    + eapply event_type_mask_entry; [exact G3 |].
      apply batch_event_type_indices_entry; eassumption.
    + apply slot_carries_event_type; exact Hneg.
  - intros masks m H.
    destruct (Config.event_types_per_measurement cfg) as [etpm |] eqn:E;
      [| discriminate].
    inv_bind H. inv_bind H. inv_bind H. inversion H; subst x1; clear H.
    rewrite (event_type_masks_keys _ _ _ _ _ Hx1 m). simpl. split.
    + intros [Hm | []]. exists etpm. auto.
    + intros [etpm' [E' Hm]]. inversion E'; subst. left; exact Hm.
Qed.

End EventTypeMask.

Lemma C9_witness :
  exists v, get2 [[true; true; false]] 0 2 = Some v
            /\ (v = true
                <-> exists k i, nth_error [0; 0] k = Some 1 /\ nth_error [0; 0] k = Some i
                                /\ In (wrap64 (i - 1)) [0; 1]).
Proof.
  destruct (proj1 (proj2 (C9_event_type_mask Example.nested_layer Example.batch))
              [("event_type", [[true; true; false]]);
               ("diagnosis", [[false; true; false]]);
               ("lab", [[true; true; false]])]
              "lab" [[true; true; false]] eq_refl eq_refl)
    as [et [off [etpm [types [ids [H1 [H2 [H3 [H4 [H5 H6]]]]]]]]]].
  vm_compute in H1, H2, H3. inversion H1; inversion H2; inversion H3; subst; clear H1 H2 H3.
  vm_compute in H4. inversion H4; subst; clear H4.
  vm_compute in H5. inversion H5; subst; clear H5.
  apply (H6 ltac:(simpl; intuition discriminate) 0%nat 2%nat [0; 0] [0; 0]);
    reflexivity.
Defined.

(** C9 fails as stated: "lab" has no event-type restriction (its list is the one
    [set_to_dataset] stores for a measurement present in every event type), and its
    mask is [False] at the third event, a padding event without an event-type slot. *)
Lemma C9_counterexample :
  exists etpm masks mask,
    Config.event_types_per_measurement (Layer.config Example.nested_layer) = Some etpm
    /\ dict_get etpm "lab"
       = Some (Config.event_types_for None
                 (Config.event_types_idxmap (Layer.config Example.nested_layer)))
    /\ get_event_type_mask_per_measurement Example.nested_layer Example.batch
       = inr (Some masks)
    /\ dict_get masks "lab" = Some mask
    /\ get2 mask 0 2 = Some false.
Proof.
  eexists. eexists. eexists.
  split; [reflexivity |]. split; [reflexivity |].
  split; [vm_compute; reflexivity |]. split; reflexivity.
Qed.


(* ===================================================================== *)
(** ** The heads: what they compute from their input *)
(* ===================================================================== *)

Lemma dict_item_inr {V} (d : dict V) (k : string) (v : V) :
  dict_item d k = inr v <-> dict_get d k = Some v.
Proof.
  unfold dict_item. destruct (dict_get d k); unfold ret, raise; split; congruence.
Qed.

Lemma dict_get_app {V} (d e : dict V) (k : string) :
  dict_get (d ++ e)%list k
  = match dict_get d k with Some v => Some v | None => dict_get e k end.
Proof.
  induction d as [| [k0 v0] d IH]; simpl; [reflexivity |].
  destruct (String.eqb k k0); [reflexivity | exact IH].
Qed.

Lemma dict_get_rev_NoDup {V} (d : dict V) (k : string) :
  NoDup (dict_keys d) -> dict_get (rev d) k = dict_get d k.
Proof.
  induction d as [| [k0 v0] d IH]; intros H; [reflexivity |].
  simpl in H. inversion H as [| ? ? Hnot Hrest]; subst.
  simpl. rewrite dict_get_app, (IH Hrest). simpl.
  destruct (String.eqb k k0) eqn:E; [| destruct (dict_get d k); reflexivity].
  apply String.eqb_eq in E. subst k0.
  destruct (dict_get d k) eqn:G; [| reflexivity].
  exfalso. apply Hnot. apply dict_get_In_keys. congruence.
Qed.

(** [d.update(e)] read at a key. *)
Lemma dict_get_update_NoDup {V} (d e : dict V) (k : string) :
  NoDup (dict_keys e) ->
  dict_get (dict_update d e) k
  = match dict_get e k with Some v => Some v | None => dict_get d k end.
Proof.
  intros H. rewrite dict_get_update, (dict_get_rev_NoDup e k H). reflexivity.
Qed.

(** A loop whose iterations only add keys records the key of every selected item. *)
Lemma for_each_keys {A St} (key : A -> string) (selected : A -> bool)
  (keys : St -> list string) (body : A -> St -> result St) (xs : list A) :
  (forall x st st', body x st = inr st' ->
     (forall m, In m (keys st) -> In m (keys st'))
     /\ (selected x = true -> In (key x) (keys st'))) ->
  forall st st', for_each xs body st = inr st' ->
    (forall m, In m (keys st) -> In m (keys st'))
    /\ (forall x, In x xs -> selected x = true -> In (key x) (keys st')).
Proof.
  intros Hbody. induction xs as [| x xs IH]; intros st st' H; simpl in H.
  - inversion H; subst. split; [auto | intros x []].
  - inv_bind H. destruct (Hbody _ _ _ Hx) as [B1 B2].
    destruct (IH _ _ H) as [I1 I2]. split.
    + intros m Hm. apply I1, B1, Hm.
    + intros y [E | Hy] Hs; [subst y; apply I1, B2, Hs | apply I2; assumption].
Qed.


Section Heads.
Context {SC : Scalar}.
Variable K : Kernels.
Variable self : Layer.t.

Let cfg : Config.t := Layer.config self.

(** [d] is the distribution of the classification measurement [m] computed from the
    input [x]: the scores of [ClassificationLayer] at every position of [x], cut to
    the measurement's slice of the vocabulary, as a categorical or as a Bernoulli
    distribution by the measurement's mode. *)
Definition classification_dist_from (x : tensor3 F) (m : string)
  (d : classification_dist_t K) : Prop :=
  exists scores vocab_start vocab_end,
    map_result (map_result (ClassificationLayer K)) x = inr scores
    /\ dict_get (Config.vocab_offsets_by_measurement cfg) m = Some vocab_start
    /\ vocab_end_of self vocab_start = inr vocab_end
    /\ ((In (m, SINGLE_LABEL_CLASSIFICATION) (Layer.classification_mode_per_measurement self)
         /\ Categorical K (Tensor.map2 (slice vocab_start vocab_end) scores) = inr d)
        \/ (In (m, MULTI_LABEL_CLASSIFICATION)
              (Layer.classification_mode_per_measurement self)
            /\ Bernoulli K (Tensor.map2 (slice vocab_start vocab_end) scores) = inr d)).

(** [d] is the distribution of the regression measurement [m] computed from the
    input [x]: what the measurement's regression layer returns for [X = x], called
    without indices exactly in generation mode. *)
Definition regression_dist_from (is_generation : bool) (x : tensor3 F) (m : string)
  (d : regression_dist_t K) : Prop :=
  exists indices,
    regression_layer_forward K m x indices = inr d
    /\ (is_generation = true <-> indices = None).

Lemma classify_measurement_spec (batch : Batch) (scores : tensor3 F)
  (valid : list string) (etm : option (dict (tensor2 bool)))
  (entry : string * DataModality) (acc acc' : classification_outputs K) :
  classify_measurement K self batch scores valid etm entry acc = inr acc' ->
  (str_in (fst entry) valid = false /\ acc' = acc)
  \/ (str_in (fst entry) valid = true
      /\ exists l d lab vocab_start vocab_end,
           acc' = (dict_set (fst (fst acc)) (fst entry) l,
                   dict_set (snd (fst acc)) (fst entry) d,
                   dict_set (snd acc) (fst entry) lab)
           /\ dict_get (Config.vocab_offsets_by_measurement cfg) (fst entry)
              = Some vocab_start
           /\ vocab_end_of self vocab_start = inr vocab_end
           /\ ((snd entry = SINGLE_LABEL_CLASSIFICATION
                /\ Categorical K (Tensor.map2 (slice vocab_start vocab_end) scores)
                   = inr d)
               \/ (snd entry = MULTI_LABEL_CLASSIFICATION
                   /\ Bernoulli K (Tensor.map2 (slice vocab_start vocab_end) scores)
                      = inr d))).
Proof.
  unfold classify_measurement. fold cfg. intros H.
  destruct (str_in (fst entry) valid) eqn:E; simpl in H.
  2:{ left. inversion H. auto. }
  right. split; [reflexivity |].
  inv_bind H. inv_bind H. inv_bind H. inv_bind H. inv_bind H. inv_bind H.
  inversion H; subst acc'; clear H.
  apply dict_item_inr in Hx1.
  exists x4, (snd (fst x3)), (snd x3), x1, x2.
  split; [reflexivity |]. split; [exact Hx1 |]. split; [exact Hx2 |].
  destruct (snd entry).
  - left. split; [reflexivity |].
    inv_bind Hx3. inv_bind Hx3. inv_bind Hx3. inversion Hx3; subst x3. exact Hx7.
  - right. split; [reflexivity |].
    inv_bind Hx3. inv_bind Hx3. inv_bind Hx3. inv_bind Hx3.
    inversion Hx3; subst x3. exact Hx8.
  - discriminate.
Qed.

(** What [get_classification_outputs] returns: a distribution exactly for the valid
    measurements that have a classification mode, each computed from the input. *)
Lemma get_classification_outputs_spec (batch : Batch) (x : tensor3 F)
  (valid : list string) (etm : option (dict (tensor2 bool)))
  (out : classification_outputs K) :
  get_classification_outputs K self batch x valid etm = inr out ->
  NoDup (dict_keys (snd (fst out)))
  /\ (forall m, In m (dict_keys (snd (fst out)))
                <-> In m valid
                    /\ In m (dict_keys (Layer.classification_mode_per_measurement self)))
  /\ (forall m d, dict_get (snd (fst out)) m = Some d -> classification_dist_from x m d).
Proof.
  unfold get_classification_outputs. intros H.
  destruct valid as [| v0 valid].
  { inversion H; subst out. simpl. split; [constructor |].
    split; [intros m; tauto | intros m d G; discriminate]. }
  inv_bind H. rename x0 into scores.
  set (P := fun st : classification_outputs K =>
              NoDup (dict_keys (snd (fst st)))
              /\ (forall m, In m (dict_keys (snd (fst st))) ->
                    In m (v0 :: valid)
                    /\ In m (dict_keys (Layer.classification_mode_per_measurement self)))
              /\ (forall m d, dict_get (snd (fst st)) m = Some d ->
                    classification_dist_from x m d)).
  assert (HP : P out).
  { apply (for_each_invariant P (Layer.classification_mode_per_measurement self)
             (classify_measurement K self batch scores (v0 :: valid) etm)
             ) with (st := ([], [], [])); [| | exact H].
    - intros entry st st' Hin [P1 [P2 P3]] Hs.
      apply classify_measurement_spec in Hs.
      destruct Hs as [[E1 E2] | [E1 [l [d [lab [vs [ve [E2 [E3 [E4 E5]]]]]]]]]].
      + subst st'. unfold P. split; [exact P1 | split; [exact P2 | exact P3]].
      + subst st'. unfold P. cbn [fst snd]. split; [apply dict_keys_set_NoDup; exact P1 |]. split.
        * intros m Hm. apply dict_In_keys_set in Hm. destruct Hm as [Hm | Hm].
          -- subst m. split; [apply str_in_In; exact E1 |].
             unfold dict_keys. apply in_map. exact Hin.
          -- apply P2; exact Hm.
        * intros m d0 G. rewrite dict_get_set in G.
          destruct (String.eqb m (fst entry)) eqn:Em.
          -- apply String.eqb_eq in Em. subst m. inversion G; subst d0.
             exists scores, vs, ve. split; [exact Hx |]. split; [exact E3 |].
             split; [exact E4 |].
             destruct entry as [m mode]. simpl in *.
             destruct E5 as [[E5 E6] | [E5 E6]]; subst mode; [left | right]; auto.
          -- apply P3; exact G.
    - split; [constructor |]. split; [intros m [] | intros m d G; discriminate]. }
  destruct HP as [P1 [P2 P3]].
  split; [exact P1 |]. split; [| exact P3].
  intros m. split; [apply P2 |]. intros [Hv Hm].
  apply (for_each_keys (fun entry : string * DataModality => fst entry)
           (fun entry : string * DataModality => str_in (fst entry) (v0 :: valid))
           (fun st : classification_outputs K => dict_keys (snd (fst st)))) in H.
  - destruct H as [_ H]. unfold dict_keys in Hm. apply in_map_iff in Hm.
    destruct Hm as [entry [E Hin]]. subst m.
    apply (H entry Hin). apply str_in_In. exact Hv.
  - intros entry st st' Hs. apply classify_measurement_spec in Hs.
    destruct Hs as [[E1 E2] | [E1 [l [d [lab [vs [ve [E2 _]]]]]]]]; subst st'.
    + split; [auto | congruence].
    + simpl. split.
      * intros k Hk. apply dict_In_keys_set. right; exact Hk.
      * intros _. apply dict_In_keys_set. left; reflexivity.
Qed.

Lemma regress_measurement_spec (batch : Batch) (x : tensor3 F) (valid : list string)
  (is_generation : bool) (etm : option (dict (tensor2 bool))) (m : string)
  (acc acc' : regression_acc K) :
  regress_measurement K self batch x valid is_generation etm m acc = inr acc' ->
  (str_in m valid = false /\ acc' = acc)
  \/ (str_in m valid = true
      /\ exists l d lab idx,
           acc' = (dict_set (fst (fst (fst acc))) m l,
                   dict_set (snd (fst (fst acc))) m d,
                   dict_set (snd (fst acc)) m lab,
                   dict_set (snd acc) m idx)
           /\ regression_dist_from is_generation x m d
           /\ (is_generation = true -> l = None)
           /\ (is_generation = false -> exists loss, l = Some loss)).
Proof.
  unfold regress_measurement. fold cfg. intros H.
  destruct (str_in m valid) eqn:E; simpl in H.
  2:{ left. inversion H. auto. }
  right. split; [reflexivity |].
  inv_bind H. inv_bind H. inv_bind H. inv_bind H. inv_bind H. inv_bind H.
  inversion H; subst acc'; clear H.
  do 4 eexists. split; [reflexivity |]. split.
  - eexists. split; [exact Hx3 |].
    destruct is_generation; split; congruence.
  - destruct is_generation.
    + split; [intros _; inversion Hx4; reflexivity | discriminate].
    + split; [discriminate | intros _].
      inv_bind Hx4. inv_bind Hx4. inv_bind Hx4. inversion Hx4. eauto.
Qed.

(** What [get_regression_outputs] returns: a distribution exactly for the valid
    regression measurements, each computed from the input. *)
Lemma get_regression_outputs_spec (batch : Batch) (x : tensor3 F)
  (valid : list string) (is_generation : bool) (etm : option (dict (tensor2 bool)))
  (out : regression_outputs K) :
  get_regression_outputs K self batch x valid is_generation etm = inr out ->
  NoDup (dict_keys (regression_dists_of out))
  /\ (forall m, In m (dict_keys (regression_dists_of out))
                <-> In m valid
                    /\ exists measurements,
                         Layer.modes_get (Config.measurements_per_generative_mode cfg)
                           MULTIVARIATE_REGRESSION = Some measurements
                         /\ In m measurements)
  /\ (forall m d, dict_get (regression_dists_of out) m = Some d ->
        regression_dist_from is_generation x m d)
  /\ (is_generation = true ->
      forall m l, dict_get (regression_loss_values_of out) m = Some l -> l = None)
  /\ (is_generation = false ->
      forall m l, dict_get (regression_loss_values_of out) m = Some l -> l <> None).
Proof.
  unfold get_regression_outputs, Layer.modes_item. fold cfg. intros H.
  destruct valid as [| v0 valid].
  { inversion H; subst out. simpl. split; [constructor |].
    split; [intros m; split; [intros [] | intros [[] _]] |].
    split; [intros m d G; discriminate |].
    split; intros _ m l G; discriminate. }
  destruct (Layer.modes_get (Config.measurements_per_generative_mode cfg)
              MULTIVARIATE_REGRESSION) as [measurements |] eqn:Em; [| discriminate].
  simpl in H. inv_bind H. inversion H; subst out; clear H. simpl.
  rename x0 into acc.
  set (P := fun st : regression_acc K =>
              NoDup (dict_keys (snd (fst (fst st))))
              /\ (forall m, In m (dict_keys (snd (fst (fst st)))) ->
                    In m (v0 :: valid) /\ In m measurements)
              /\ (forall m d, dict_get (snd (fst (fst st))) m = Some d ->
                    regression_dist_from is_generation x m d)
              /\ (is_generation = true ->
                  forall m l, dict_get (fst (fst (fst st))) m = Some l -> l = None)
              /\ (is_generation = false ->
                  forall m l, dict_get (fst (fst (fst st))) m = Some l -> l <> None)).
  assert (HP : P acc).
  { apply (for_each_invariant P measurements
             (regress_measurement K self batch x (v0 :: valid) is_generation etm))
      with (st := ([], [], [], [])); [| | exact Hx].
    - intros m st st' Hin [P1 [P2 [P3 [P4 P5]]]] Hs.
      apply regress_measurement_spec in Hs.
      destruct Hs as [[E1 E2] | [E1 [l [d [lab [idx [E2 [E3 [E4 E5]]]]]]]]].
      + subst st'. unfold P.
        split; [exact P1 | split; [exact P2 | split; [exact P3 | split; [exact P4 | exact P5]]]].
      + subst st'. unfold P. cbn [fst snd]. split; [apply dict_keys_set_NoDup; exact P1 |]. split.
        { intros m' Hm. apply dict_In_keys_set in Hm. destruct Hm as [Hm | Hm].
          - subst m'. split; [apply str_in_In; exact E1 | exact Hin].
          - apply P2; exact Hm. }
        split.
        { intros m' d0 G. rewrite dict_get_set in G.
          destruct (String.eqb m' m) eqn:Em'.
          - apply String.eqb_eq in Em'. subst m'. inversion G; subst d0. exact E3.
          - apply P3; exact G. }
        split.
        { intros Hg m' l0 G. rewrite dict_get_set in G.
          destruct (String.eqb m' m); [inversion G; subst l0; apply E4; exact Hg |].
          eapply P4; eassumption. }
        { intros Hg m' l0 G. rewrite dict_get_set in G.
          destruct (String.eqb m' m).
          - inversion G; subst l0. destruct (E5 Hg) as [loss El]. congruence.
          - eapply P5; eassumption. }
    - split; [constructor |]. split; [intros m [] |].
      split; [intros m d G; discriminate |].
      split; intros _ m l G; discriminate. }
  destruct HP as [P1 [P2 [P3 [P4 P5]]]].
  split; [exact P1 |]. split; [| split; [exact P3 | split; [exact P4 | exact P5]]].
  intros m. split.
  - intros Hm. destruct (P2 m Hm) as [Hv Hin]. split; [exact Hv |].
    exists measurements. auto.
  - intros [Hv [ms [E Hin]]]. inversion E; subst ms.
    apply (for_each_keys (fun k : string => k)
             (fun k : string => str_in k (v0 :: valid))
             (fun st : regression_acc K => dict_keys (snd (fst (fst st))))) in Hx.
    + destruct Hx as [_ Hx]. apply (Hx m Hin). apply str_in_In. exact Hv.
    + intros k st st' Hs. apply regress_measurement_spec in Hs.
      destruct Hs as [[E1 E2] | [E1 [l [d [lab [idx [E2 _]]]]]]]; subst st'.
      * split; [auto | congruence].
      * simpl. split.
        -- intros k' Hk. apply dict_In_keys_set. right; exact Hk.
        -- intros _. apply dict_In_keys_set. left; reflexivity.
Qed.

End Heads.


(* ===================================================================== *)
(** ** Routing of the encodings to the heads *)
(* ===================================================================== *)

(** [t] has shape [[B, S, H]]. *)
Definition has_shape3 {A} (B S H : nat) (t : tensor3 A) : bool :=
  has_shape2 B S t && forallb (forallb (fun h => (List.length h =? H)%nat)) t.

Lemma has_shape3_spec {A} (B S H : nat) (t : tensor3 A) :
  has_shape3 B S H t = true
  <-> shape2 B S t /\ forall b s h, get2 t b s = Some h -> List.length h = H.
Proof.
  unfold has_shape3. rewrite andb_true_iff, has_shape2_spec, forallb_forall.
  split; intros [H1 H2]; (split; [exact H1 |]).
  - intros b s h G. unfold get2 in G.
    destruct (nth_error t b) as [row |] eqn:E; [| discriminate].
    specialize (H2 row (nth_error_In _ _ E)). rewrite forallb_forall in H2.
    apply Nat.eqb_eq. apply H2. eapply nth_error_In; exact G.
  - intros row Hr. apply forallb_forall. intros h Hh. apply Nat.eqb_eq.
    destruct (In_nth_error _ _ Hr) as [b Eb]. destruct (In_nth_error _ _ Hh) as [s Es].
    apply (H2 b s). unfold get2. rewrite Eb. exact Es.
Qed.

Lemma map_const_repeat {A B} (c : B) (l : list A) :
  map (fun _ => c) l = repeat c (List.length l).
Proof.
  induction l; simpl; [reflexivity | f_equal; assumption].
Qed.

Lemma last_item_nth {A} (row : list A) (y : A) :
  Tensor.last_item row = inr y -> nth_error row (List.length row - 1) = Some y.
Proof.
  unfold Tensor.last_item. destruct row as [| a row] using rev_ind; [discriminate |].
  rewrite rev_app_distr. simpl. intros H. inversion H; subst.
  rewrite length_app. simpl. rewrite nth_error_app2 by lia.
  replace (List.length row + 1 - 1 - List.length row)%nat with 0%nat by lia. reflexivity.
Qed.

Lemma item_nth {A} (row : list A) (j : nat) (y : A) :
  Tensor.item row j = inr y <-> nth_error row j = Some y.
Proof.
  unfold Tensor.item. destruct (nth_error row j); split; intros H;
    inversion H; reflexivity.
Qed.

(** Selecting one entry of the third dimension at every position. *)
Lemma range_from_1_In (n i : nat) :
  In i (range_from_1 n) <-> exists j, (j < n - 1)%nat /\ i = Datatypes.S j.
Proof.
  unfold range_from_1. rewrite in_seq. split.
  - intros [H1 H2]. exists (i - 1)%nat. lia.
  - intros [j [H1 H2]]. lia.
Qed.


Lemma for_event_contents_prediction_eq {SC : Scalar} (w : tensor3 F) :
  (forall events, In events w -> events <> []) ->
  for_event_contents_prediction_of w
  = inr (map (fun events =>
                map (fun _ => fzero) (hd [] events) :: Tensor.drop_last events) w).
Proof.
  intros H. unfold for_event_contents_prediction_of. apply map_result_total.
  intros events He. specialize (H events He).
  destruct events as [| first rest]; [contradiction | reflexivity].
Qed.

(** A loop over consecutive integers whose iterations each merge one dictionary into
    a container: the value found at a key in the end is the one of the last iteration
    that produced the key. *)
Lemma for_each_seq_updates {St V} (proj : St -> dict V) (produced : nat -> dict V -> Prop)
  (body : nat -> St -> result St) :
  (forall i e e', produced i e -> produced i e' -> e = e') ->
  forall n a,
    (forall i st st', (a <= i < a + n)%nat -> body i st = inr st' ->
       exists e, produced i e /\ NoDup (dict_keys e)
                 /\ proj st' = dict_update (proj st) e) ->
    forall st st', for_each (seq a n) body st = inr st' ->
      (forall i, (a <= i < a + n)%nat -> exists e, produced i e)
      /\ (forall k v, dict_get (proj st') k = Some v ->
            (dict_get (proj st) k = Some v
             /\ forall i e, (a <= i < a + n)%nat -> produced i e -> dict_get e k = None)
            \/ exists i e,
                 (a <= i < a + n)%nat /\ produced i e /\ dict_get e k = Some v
                 /\ forall i' e', (i < i' < a + n)%nat -> produced i' e' ->
                                  dict_get e' k = None)
      /\ (forall i e k, (a <= i < a + n)%nat -> produced i e -> In k (dict_keys e) ->
            In k (dict_keys (proj st'))).
Proof.
  intros Hfun. induction n as [| n IH]; intros a Hbody st st' H.
  - simpl in H. inversion H; subst st'. split; [intros i Hi; lia |].
    split; [| intros i e k Hi; lia].
    intros k v G. left. split; [exact G | intros i e Hi; lia].
  - simpl in H. inv_bind H. rename x into st1.
    destruct (Hbody a st st1 ltac:(lia) Hx) as [e0 [He0 [Hnd Hproj]]].
    destruct (IH (Datatypes.S a)
                 (fun i s s' Hi => Hbody i s s' ltac:(lia)) st1 st' H)
      as [I1 [I2 I3]].
    split; [| split].
    + intros i Hi. destruct (Nat.eq_dec i a) as [E | E].
      * subst i. eauto.
      * apply I1. lia.
    + intros k v G. destruct (I2 k v G) as [[G1 Hlater] | [i [e [Hi [Hp [Ge Hlater]]]]]].
      * rewrite Hproj, (dict_get_update_NoDup _ _ _ Hnd) in G1.
        destruct (dict_get e0 k) as [v0 |] eqn:G0.
        -- inversion G1; subst v0. right. exists a, e0.
           split; [lia |]. split; [exact He0 |]. split; [exact G0 |].
           intros i' e' Hi'. apply Hlater. lia.
        -- left. split; [exact G1 |]. intros i e Hi Hp.
           destruct (Nat.eq_dec i a) as [E | E].
           ++ subst i. rewrite (Hfun a e e0 Hp He0). exact G0.
           ++ apply (Hlater i e); [lia | exact Hp].
      * right. exists i, e. split; [lia |]. split; [exact Hp |]. split; [exact Ge |].
        intros i' e' Hi'. apply Hlater. lia.
    + intros i e k Hi Hp Hk. destruct (Nat.eq_dec i a) as [E | E].
      * subst i. rewrite (Hfun a e e0 Hp He0) in Hk.
        assert (Hk1 : In k (dict_keys (proj st1))).
        { rewrite Hproj. apply dict_In_keys_update. left; exact Hk. }
        clear - Hk1 H Hbody.
        assert (Hmono : forall m a0 s s',
                   (forall i st st', (a0 <= i < a0 + m)%nat -> body i st = inr st' ->
                      exists e, produced i e /\ NoDup (dict_keys e)
                                /\ proj st' = dict_update (proj st) e) ->
                   for_each (seq a0 m) body s = inr s' ->
                   In k (dict_keys (proj s)) -> In k (dict_keys (proj s'))).
        { induction m as [| m IHm]; intros a0 s s' Hb Hs Hin; simpl in Hs.
          - inversion Hs; subst; exact Hin.
          - inv_bind Hs. destruct (Hb a0 s x ltac:(lia) Hx) as [e [_ [_ Hpr]]].
            apply (IHm (Datatypes.S a0) x s');
              [intros i0 s0 s0' Hi0; apply Hb; lia | exact Hs |].
            rewrite Hpr. apply dict_In_keys_update. right; exact Hin. }
        apply (Hmono n (Datatypes.S a) st1 st');
          [intros i0 s0 s0' Hi0; apply Hbody; lia | exact H | exact Hk1].
      * apply (I3 i e k); [lia | exact Hp | exact Hk].
Qed.

Section Routing.
Context {SC : Scalar}.
Variable K : Kernels.
Variable self : Layer.t.

Lemma get_TTE_outputs_dist (batch : Batch) (encoded : tensor3 F) (tte : TTE_outputs K) :
  get_TTE_outputs K batch encoded = inr tte ->
  map_result (map_result (TTE_layer_forward K)) encoded = inr (TTE_dist tte).
Proof.
  unfold get_TTE_outputs. intros H.
  inv_bind H. inv_bind H. inv_bind H. inv_bind H.
  destruct (Tensor.any2 (fun _ : bool => false) x1); [discriminate |].
  destruct (Tensor.any2 isnan x0); [discriminate |].
  destruct (Tensor.any2 isnan x2); [discriminate |].
  destruct (existsb _ x1); [discriminate |].
  inversion H; subst tte. exact Hx.
Qed.

(** One call of the two heads: what it adds to the containers. *)
Lemma run_heads_spec (batch : Batch) (is_generation : bool)
  (etm : option (dict (tensor2 bool))) (x : tensor3 F) (cls reg : list string)
  (c c' : Containers K) :
  run_heads K self batch is_generation etm x cls reg c = inr c' ->
  exists cout rout,
    get_classification_outputs K self batch x cls etm = inr cout
    /\ get_regression_outputs K self batch x reg is_generation etm = inr rout
    /\ classification_dists_by_measurement c'
       = dict_update (classification_dists_by_measurement c) (snd (fst cout))
    /\ regression_dists c' = dict_update (regression_dists c) (regression_dists_of rout)
    /\ (is_generation = true ->
        classification_losses_by_measurement c' = classification_losses_by_measurement c
        /\ classification_labels_by_measurement c'
           = classification_labels_by_measurement c
        /\ regression_loss_values c' = regression_loss_values c
        /\ regression_labels c' = regression_labels c
        /\ regression_indices c' = regression_indices c).
Proof.
  unfold run_heads. intros H. inv_bind H. inv_bind H. inv_bind H. inv_bind H.
  inversion H; subst c'; clear H. cbn.
  exists x0, x2. split; [exact Hx |]. split; [exact Hx1 |].
  split; [reflexivity |]. split; [reflexivity |].
  intros Hg. subst is_generation.
  inversion Hx0; subst x1. inversion Hx2; subst x3. cbn. auto.
Qed.

(** [forward], from its result. *)
Lemma forward_inv (batch : Batch) (encoded : Encoded) (is_generation : bool)
  (out : Output K) :
  forward K self batch encoded is_generation = inr out ->
  exists reg etm c whole tte,
    Layer.modes_get (Config.measurements_per_generative_mode (Layer.config self))
      MULTIVARIATE_REGRESSION = Some reg
    /\ get_event_type_mask_per_measurement self batch = inr etm
    /\ route K self batch encoded is_generation etm
         (dict_keys (Layer.classification_mode_per_measurement self)) reg
       = inr (c, whole)
    /\ get_TTE_outputs K batch whole = inr tte
    /\ preds_classification (preds out) = classification_dists_by_measurement c
    /\ preds_regression (preds out) = regression_dists c
    /\ preds_time_to_event (preds out) = TTE_dist tte
    /\ losses_classification (losses out) = classification_losses_by_measurement c
    /\ losses_regression (losses out) = regression_loss_values c
    /\ labels_classification (labels out) = classification_labels_by_measurement c
    /\ labels_regression (labels out) = regression_labels c
    /\ labels_regression_indices (labels out) = regression_indices c
    /\ losses_time_to_event (losses out)
       = (if is_generation then None else Some (fneg (TTE_LL_overall tte)))
    /\ labels_time_to_event (labels out)
       = (if is_generation then None else Some (TTE_true tte))
    /\ (is_generation = true -> loss out = None).
Proof.
  unfold forward, Layer.modes_item. intros H.
  destruct (Layer.modes_get (Config.measurements_per_generative_mode (Layer.config self))
              MULTIVARIATE_REGRESSION) as [reg |]; [| discriminate].
  cbn [bind ret] in H. inv_bind H. inv_bind H. inv_bind H. inv_bind H.
  inversion H; subst out; clear H. cbn.
  destruct x0 as [c whole].
  exists reg, x, c, whole, x1. cbn in *.
  repeat (split; [reflexivity || assumption |]).
  intros Hg. subst is_generation. unfold total_loss in Hx2. inversion Hx2. reflexivity.
Qed.

End Routing.

Section ShiftedRouting.
Context {SC : Scalar}.
Variable K : Kernels.
Variable self : Layer.t.

(** C2. In the conditionally independent mode, for an encoding [w] of shape [B,S,H]
    with S >= 1, there is one tensor [x] of the same shape, computed from the
    encoding alone by lines 476-478 (so the same for every batch), that holds the zero vector at
    position 0 of every sequence and the encoder output of position s at position
    s+1, and that is the input of every head but the TTE head: whenever [forward]
    returns, every classification measurement has a distribution, computed from the
    scores of the classification layer on [x]; every regression measurement has a
    distribution, returned by its regression layer for [X = x]; and the TTE
    distribution is the one of the TTE head on the encoding itself, not shifted. *)
Theorem C2_shifted_encoding (w : tensor3 F) (B S H : nat) :
  Config.structured_event_processing_mode (Layer.config self)
  = "conditionally_independent" ->
  has_shape3 B S H w = true ->
  (1 <= S)%nat ->
  exists x,
    for_event_contents_prediction_of w = inr x
    /\ has_shape3 B S H x = true
    /\ (forall b, (b < B)%nat -> get2 x b 0 = Some (repeat fzero H))
    /\ (forall b s, (Datatypes.S s < S)%nat -> get2 x b (Datatypes.S s) = get2 w b s)
    /\ (forall batch is_generation out,
          forward K self batch (Enc3 w) is_generation = inr out ->
          (forall m, In m (dict_keys (preds_classification (preds out)))
                     <-> In m (dict_keys (Layer.classification_mode_per_measurement self)))
          /\ (forall m d, dict_get (preds_classification (preds out)) m = Some d ->
                classification_dist_from K self x m d)
          /\ (forall m, In m (dict_keys (preds_regression (preds out)))
                        <-> exists measurements,
                              Layer.modes_get
                                (Config.measurements_per_generative_mode
                                   (Layer.config self))
                                MULTIVARIATE_REGRESSION = Some measurements
                              /\ In m measurements)
          /\ (forall m d, dict_get (preds_regression (preds out)) m = Some d ->
                regression_dist_from K is_generation x m d)
          /\ map_result (map_result (TTE_layer_forward K)) w
             = inr (preds_time_to_event (preds out))).
Proof.
  intros Hmode Hw HS. apply has_shape3_spec in Hw. destruct Hw as [[W1 W2] W3].
  assert (Hne : forall events, In events w -> events <> []).
  { intros events He E. specialize (W2 events He). subst events. simpl in W2. lia. }
  exists (map (fun events =>
                 map (fun _ => fzero) (hd [] events) :: Tensor.drop_last events) w).
  assert (Hfirst : forall b events, nth_error w b = Some events ->
            List.length (hd [] events) = H).
  { intros b events E. pose proof (W2 events (nth_error_In _ _ E)) as L.
    destruct events as [| first rest]; [simpl in L; lia |].
    apply (W3 b 0%nat). unfold get2. rewrite E. reflexivity. }
  split; [apply for_event_contents_prediction_eq; exact Hne |].
  split; [| split; [| split]].
  - apply has_shape3_spec. split; [split |].
    + rewrite length_map. exact W1.
    + intros row Hr. apply in_map_iff in Hr. destruct Hr as [events [E He]].
      subst row. simpl. rewrite drop_last_length, (W2 events He). lia.
    + intros b s h G. rewrite get2_map_rows in G.
      destruct (nth_error w b) as [events |] eqn:E; [| discriminate].
      destruct s as [| s]; simpl in G.
      * inversion G; subst h. rewrite length_map. eapply Hfirst; exact E.
      * assert (Hlt : (s < List.length (Tensor.drop_last events))%nat)
          by (apply nth_error_Some; congruence).
        rewrite drop_last_length in Hlt.
        rewrite drop_last_nth in G by lia.
        apply (W3 b s). unfold get2. rewrite E. exact G.
  - intros b Hb. rewrite get2_map_rows.
    destruct (nth_error w b) as [events |] eqn:E.
    + simpl. rewrite map_const_repeat, (Hfirst b events E). reflexivity.
    + apply nth_error_None in E. lia.
  - intros b s Hs. rewrite get2_map_rows. unfold get2.
    destruct (nth_error w b) as [events |] eqn:E; [| reflexivity].
    simpl. apply drop_last_nth. rewrite (W2 events (nth_error_In _ _ E)). exact Hs.
  - intros batch gen out Hf.
    destruct (forward_inv K self batch (Enc3 w) gen out Hf)
      as [reg [etm [c [whole [tte [Hreg [_ [Hroute [Htte [Ec [Er [Et _]]]]]]]]]]]].
    assert (Em : String.eqb (Config.structured_event_processing_mode (Layer.config self))
                   "conditionally_independent" = true) by (rewrite Hmode; reflexivity).
    unfold route in Hroute. rewrite Em in Hroute.
    rewrite (for_event_contents_prediction_eq w Hne) in Hroute.
    cbn [bind] in Hroute. inv_bind Hroute. inversion Hroute; subst x whole; clear Hroute.
    destruct (run_heads_spec K self _ _ _ _ _ _ _ _ Hx)
      as [cout [rout [Hc [Hr [Dc [Dr _]]]]]].
    destruct (get_classification_outputs_spec K self _ _ _ _ _ Hc) as [C1 [C2 C3]].
    destruct (get_regression_outputs_spec K self _ _ _ _ _ _ Hr) as [R1 [R2 [R3 _]]].
    rewrite Ec, Er, Et, Dc, Dr. cbn [empty_containers classification_dists_by_measurement
      regression_dists].
    split; [| split; [| split; [| split]]].
    + intros m. rewrite dict_In_keys_update, C2. simpl. tauto.
    + intros m d G. rewrite (dict_get_update_NoDup _ _ _ C1) in G.
      destruct (dict_get (snd (fst cout)) m) as [d' |] eqn:G'; [| discriminate].
      inversion G; subst d'. apply C3; exact G'.
    + intros m. rewrite dict_In_keys_update, R2. simpl. split.
      * intros [[_ Hm] | []]. exact Hm.
      * intros [ms [E Hm]]. left. split; [| eauto]. congruence.
    + intros m d G. rewrite (dict_get_update_NoDup _ _ _ R1) in G.
      destruct (dict_get (regression_dists_of rout) m) as [d' |] eqn:G'; [| discriminate].
      inversion G; subst d'. apply R3; exact G'.
    + apply get_TTE_outputs_dist with (batch := batch). exact Htte.
Qed.

End ShiftedRouting.

Lemma C2_witness :
  exists x out,
    get2 x 0 0 = Some (repeat 0%float 2)
    /\ get2 x 0 1 = get2 Example.encoded3 0 0
    /\ forward (Example.kernels 7) Example.independent_layer Example.batch
         (Enc3 Example.encoded3) false = inr out
    /\ (forall m d, dict_get (preds_classification (preds out)) m = Some d ->
          classification_dist_from (Example.kernels 7) Example.independent_layer x m d).
Proof.
  assert (H : (1 <= 3)%nat) by lia.
  destruct (C2_shifted_encoding (Example.kernels 7) Example.independent_layer
              Example.encoded3 1 3 2 eq_refl eq_refl H)
    as [x [_ [_ [H3 [H4 H5]]]]].
  destruct (forward (Example.kernels 7) Example.independent_layer Example.batch
              (Enc3 Example.encoded3) false) as [e | out] eqn:E;
    [vm_compute in E; discriminate |].
  exists x, out. split; [apply H3; lia |]. split; [apply H4; lia |].
  split; [reflexivity |].
  exact (proj1 (proj2 (H5 Example.batch false out E))).
Defined.

Section NestedRouting.
Context {SC : Scalar}.
Variable K : Kernels.
Variable self : Layer.t.

Lemma dep_graph_len_of_shape (encoded : tensor4 F) (B S L : nat) :
  has_shape3 B S L encoded = true -> (1 <= B)%nat -> (1 <= S)%nat ->
  dep_graph_len_of encoded = L.
Proof.
  intros Hshape HB HS.
  apply has_shape3_spec in Hshape. destruct Hshape as [[T1 T2] T3].
  unfold dep_graph_len_of. destruct encoded as [| row rest]; [simpl in T1; lia |].
  pose proof (T2 row (or_introl eq_refl)) as Hrow.
  destruct row as [| levels row]; [simpl in Hrow; lia |].
  apply (T3 0%nat 0%nat). reflexivity.
Qed.

Lemma whole_event_encoded_spec (encoded : tensor4 F) (whole : tensor3 F) (B S L : nat) :
  has_shape3 B S L encoded = true ->
  whole_event_encoded_of encoded = inr whole ->
  shape2 B S whole
  /\ forall b s levels, get2 encoded b s = Some levels ->
       get2 whole b s = nth_error levels (L - 1).
Proof.
  intros Hshape H. apply has_shape3_spec in Hshape. destruct Hshape as [T1 T3].
  unfold whole_event_encoded_of in H.
  split; [exact (map_result2_shape _ _ _ B S H T1) |].
  intros b s levels G.
  destruct (map_result2_get2 _ _ _ b s levels H G) as [y [G1 G2]].
  rewrite G1. apply last_item_nth in G2. rewrite (T3 b s levels G) in G2.
  symmetry; exact G2.
Qed.

Lemma dep_graph_element_spec (encoded : tensor4 F) (x : tensor3 F) (j B S : nat) :
  shape2 B S encoded ->
  dep_graph_element encoded j = inr x ->
  shape2 B S x
  /\ forall b s levels, get2 encoded b s = Some levels ->
       get2 x b s = nth_error levels j.
Proof.
  intros T1 H. unfold dep_graph_element in H.
  split; [exact (map_result2_shape _ _ _ B S H T1) |].
  intros b s levels G.
  destruct (map_result2_get2 _ _ _ b s levels H G) as [y [G1 G2]].
  rewrite G1. apply item_nth in G2. symmetry; exact G2.
Qed.

(** The measurements dispatched at a level: all of them without a partition, and
    with one the measurements that the level's entry names for the head's values. *)
Lemma measurements_of_level_spec (cls reg : list string) (i : nat)
  (in_level : list string * list string) :
  measurements_of_level self cls reg i = inr in_level ->
  (Config.measurements_per_dep_graph_level (Layer.config self) = None ->
   in_level = (cls, reg))
  /\ (forall partition,
        Config.measurements_per_dep_graph_level (Layer.config self) = Some partition ->
        exists group,
          nth_error partition i = Some group
          /\ forall m,
               (In m (fst in_level) <-> In m cls /\ declares_categorical group m = true)
               /\ (In m (snd in_level)
                   <-> In m reg /\ declares_numerical group m = true))
  /\ (forall m, In m (fst in_level) -> In m cls)
  /\ (forall m, In m (snd in_level) -> In m reg).
Proof.
  unfold measurements_of_level. intros H.
  destruct (Config.measurements_per_dep_graph_level (Layer.config self))
    as [partition |] eqn:Ep.
  - unfold Tensor.item in H.
    destruct (nth_error partition i) as [group |] eqn:Eg; [| discriminate].
    cbn [bind ret] in H. inv_bind H. destruct x as [cats nums].
    inversion H; subst in_level; clear H. cbn [fst snd].
    assert (Hall : forall m,
               (In m (intersection cats cls)
                <-> In m cls /\ declares_categorical group m = true)
               /\ (In m (intersection nums reg)
                   <-> In m reg /\ declares_numerical group m = true)).
    { intros m. destruct (measurements_in_level_spec group cats nums m Hx) as [S1 S2].
      rewrite !intersection_In, S1, S2. tauto. }
    split; [discriminate |]. split.
    + intros partition' E. inversion E; subst partition'. exists group.
      split; [exact Eg | exact Hall].
    + split; intros m Hm; apply Hall in Hm; tauto.
  - inversion H; subst in_level. cbn [fst snd].
    split; [reflexivity |]. split; [discriminate |]. split; auto.
Qed.

(** What iteration [i] of the loop over the levels hands to the containers: the
    distributions that the two heads return on index [i - 1] of the encoding for the
    measurements of level [i]. *)
Definition level_classification_dists (batch : Batch)
  (etm : option (dict (tensor2 bool))) (cls reg : list string) (encoded : tensor4 F)
  (i : nat) (e : dict (classification_dist_t K)) : Prop :=
  exists x in_level cout,
    dep_graph_element encoded (i - 1) = inr x
    /\ measurements_of_level self cls reg i = inr in_level
    /\ get_classification_outputs K self batch x (fst in_level) etm = inr cout
    /\ e = snd (fst cout).

Definition level_regression_dists (batch : Batch) (is_generation : bool)
  (etm : option (dict (tensor2 bool))) (cls reg : list string) (encoded : tensor4 F)
  (i : nat) (e : dict (regression_dist_t K)) : Prop :=
  exists x in_level rout,
    dep_graph_element encoded (i - 1) = inr x
    /\ measurements_of_level self cls reg i = inr in_level
    /\ get_regression_outputs K self batch x (snd in_level) is_generation etm = inr rout
    /\ e = regression_dists_of rout.

Lemma level_step_spec (batch : Batch) (is_generation : bool)
  (etm : option (dict (tensor2 bool))) (cls reg : list string) (encoded : tensor4 F)
  (i : nat) (st st' : Containers K) :
  level_step K self batch is_generation etm cls reg encoded i st = inr st' ->
  (exists e, level_classification_dists batch etm cls reg encoded i e
             /\ NoDup (dict_keys e)
             /\ classification_dists_by_measurement st'
                = dict_update (classification_dists_by_measurement st) e)
  /\ (exists e, level_regression_dists batch is_generation etm cls reg encoded i e
                /\ NoDup (dict_keys e)
                /\ regression_dists st' = dict_update (regression_dists st) e)
  /\ (is_generation = true ->
      classification_losses_by_measurement st' = classification_losses_by_measurement st
      /\ classification_labels_by_measurement st'
         = classification_labels_by_measurement st
      /\ regression_loss_values st' = regression_loss_values st
      /\ regression_labels st' = regression_labels st
      /\ regression_indices st' = regression_indices st).
Proof.
  intros Hs. unfold level_step in Hs. inv_bind Hs. inv_bind Hs.
  destruct (run_heads_spec K self _ _ _ _ _ _ _ _ Hs)
    as [cout [rout [Hc [Hr [Dc [Dr Hg]]]]]].
  split; [| split; [| exact Hg]].
  - exists (snd (fst cout)). split; [exists x, x0, cout; auto |].
    split; [| exact Dc].
    exact (proj1 (get_classification_outputs_spec K self _ _ _ _ _ Hc)).
  - exists (regression_dists_of rout). split; [exists x, x0, rout; auto |].
    split; [| exact Dr].
    exact (proj1 (get_regression_outputs_spec K self _ _ _ _ _ _ Hr)).
Qed.

Lemma level_classification_dists_fun (batch : Batch)
  (etm : option (dict (tensor2 bool))) (cls reg : list string) (encoded : tensor4 F)
  (i : nat) (e e' : dict (classification_dist_t K)) :
  level_classification_dists batch etm cls reg encoded i e ->
  level_classification_dists batch etm cls reg encoded i e' -> e = e'.
Proof.
  intros [x [l [o [A1 [A2 [A3 A4]]]]]] [x' [l' [o' [B1 [B2 [B3 B4]]]]]].
  rewrite A1 in B1. inversion B1; subst x'. rewrite A2 in B2. inversion B2; subst l'.
  rewrite A3 in B3. inversion B3; subst o'. congruence.
Qed.

Lemma level_regression_dists_fun (batch : Batch) (is_generation : bool)
  (etm : option (dict (tensor2 bool))) (cls reg : list string) (encoded : tensor4 F)
  (i : nat) (e e' : dict (regression_dist_t K)) :
  level_regression_dists batch is_generation etm cls reg encoded i e ->
  level_regression_dists batch is_generation etm cls reg encoded i e' -> e = e'.
Proof.
  intros [x [l [o [A1 [A2 [A3 A4]]]]]] [x' [l' [o' [B1 [B2 [B3 B4]]]]]].
  rewrite A1 in B1. inversion B1; subst x'. rewrite A2 in B2. inversion B2; subst l'.
  rewrite A3 in B3. inversion B3; subst o'. congruence.
Qed.

(** C1. In the nested-attention mode, for an encoding of shape [B,S,L,H] on which
    [forward] returns.  The last index along L, unshifted, is the whole-event
    encoding: the TTE distribution is the one of the TTE head on it, and no other
    head is run on it.  The indices j = 0..L-2 are the inputs, unshifted, of the
    classification and the regression head: iteration j+1 of the loop runs the two
    heads on index j for the measurements of level j+1 of the dependency graph.
    The distribution returned for a measurement is computed from the index j of the
    last level j+1 that dispatches the measurement, and a distribution is returned
    for every measurement some level dispatches.  The measurements dispatched at
    level j+1 are the classification measurements that entry j+1 of
    [measurements_per_dep_graph_level] names for their categorical values, and the
    regression measurements it names for their numerical values (all measurements
    when no partition is configured); entry 0 stands for the time of the event, which
    the TTE head covers. *)
Theorem C1_nested_routing (encoded : tensor4 F) (B S L : nat)
  (batch : Batch) (is_generation : bool) (out : Output K) :
  String.eqb (Config.structured_event_processing_mode (Layer.config self))
    "conditionally_independent" = false ->
  has_shape3 B S L encoded = true ->
  (1 <= B)%nat -> (1 <= S)%nat ->
  forward K self batch (Enc4 encoded) is_generation = inr out ->
  let cls := dict_keys (Layer.classification_mode_per_measurement self) in
  exists reg,
    Layer.modes_get (Config.measurements_per_generative_mode (Layer.config self))
      MULTIVARIATE_REGRESSION = Some reg
    /\ (exists whole,
          shape2 B S whole
          /\ (forall b s levels, get2 encoded b s = Some levels ->
                get2 whole b s = nth_error levels (L - 1))
          /\ map_result (map_result (TTE_layer_forward K)) whole
             = inr (preds_time_to_event (preds out)))
    /\ (forall m d,
          dict_get (preds_classification (preds out)) m = Some d ->
          exists j x in_level,
            (j < L - 1)%nat
            /\ shape2 B S x
            /\ (forall b s levels, get2 encoded b s = Some levels ->
                  get2 x b s = nth_error levels j)
            /\ measurements_of_level self cls reg (Datatypes.S j) = inr in_level
            /\ In m (fst in_level)
            /\ classification_dist_from K self x m d
            /\ (forall j' in_level',
                  (j < j' < L - 1)%nat ->
                  measurements_of_level self cls reg (Datatypes.S j') = inr in_level' ->
                  ~ In m (fst in_level')))
    /\ (forall m d,
          dict_get (preds_regression (preds out)) m = Some d ->
          exists j x in_level,
            (j < L - 1)%nat
            /\ shape2 B S x
            /\ (forall b s levels, get2 encoded b s = Some levels ->
                  get2 x b s = nth_error levels j)
            /\ measurements_of_level self cls reg (Datatypes.S j) = inr in_level
            /\ In m (snd in_level)
            /\ regression_dist_from K is_generation x m d
            /\ (forall j' in_level',
                  (j < j' < L - 1)%nat ->
                  measurements_of_level self cls reg (Datatypes.S j') = inr in_level' ->
                  ~ In m (snd in_level')))
    /\ (forall j, (j < L - 1)%nat ->
          exists in_level,
            measurements_of_level self cls reg (Datatypes.S j) = inr in_level
            /\ (forall m, In m (fst in_level) ->
                  In m (dict_keys (preds_classification (preds out))))
            /\ (forall m, In m (snd in_level) ->
                  In m (dict_keys (preds_regression (preds out))))
            /\ (Config.measurements_per_dep_graph_level (Layer.config self) = None ->
                in_level = (cls, reg))
            /\ (forall partition,
                  Config.measurements_per_dep_graph_level (Layer.config self)
                  = Some partition ->
                  exists group,
                    nth_error partition (Datatypes.S j) = Some group
                    /\ forall m,
                         (In m (fst in_level)
                          <-> In m cls /\ declares_categorical group m = true)
                         /\ (In m (snd in_level)
                             <-> In m reg /\ declares_numerical group m = true))).
Proof.
  intros Hmode Hshape HB HS Hf cls.
  destruct (forward_inv K self batch (Enc4 encoded) is_generation out Hf)
    as [reg [etm [c [whole [tte [Hreg [_ [Hroute [Htte [Ec [Er [Et _]]]]]]]]]]]].
  exists reg. split; [exact Hreg |].
  unfold route in Hroute. rewrite Hmode in Hroute.
  rewrite (dep_graph_len_of_shape encoded B S L Hshape HB HS) in Hroute.
  inv_bind Hroute. inv_bind Hroute. inversion Hroute; subst x0 x; clear Hroute.
  destruct (whole_event_encoded_spec encoded whole B S L Hshape Hx) as [W1 W2].
  assert (T1 : shape2 B S encoded).
  { apply has_shape3_spec in Hshape. tauto. }
  fold cls in Hx0. unfold range_from_1 in Hx0.
  destruct (for_each_seq_updates (@classification_dists_by_measurement SC K)
              (level_classification_dists batch etm cls reg encoded)
              (level_step K self batch is_generation etm cls reg encoded)
              (level_classification_dists_fun batch etm cls reg encoded) (L - 1) 1)
    with (st := empty_containers K is_generation) (st' := c)
    as [C1 [C2 C3]]; [| exact Hx0 |].
  { intros i st st' _ Hs. exact (proj1 (level_step_spec _ _ _ _ _ _ _ _ _ Hs)). }
  destruct (for_each_seq_updates (@regression_dists SC K)
              (level_regression_dists batch is_generation etm cls reg encoded)
              (level_step K self batch is_generation etm cls reg encoded)
              (level_regression_dists_fun batch is_generation etm cls reg encoded)
              (L - 1) 1)
    with (st := empty_containers K is_generation) (st' := c)
    as [R1 [R2 R3]]; [| exact Hx0 |].
  { intros i st st' _ Hs. exact (proj1 (proj2 (level_step_spec _ _ _ _ _ _ _ _ _ Hs))). }
  rewrite Ec, Er, Et.
  split; [| split; [| split]].
  - exists whole. split; [exact W1 |]. split; [exact W2 |].
    apply get_TTE_outputs_dist with (batch := batch). exact Htte.
  - intros m d G.
    destruct (C2 m d G) as [[G0 _] | [i [e [Hi [[x [l [cout [L1 [L2 [Hc He]]]]]] [Ge Hlater]]]]]];
      [destruct is_generation; discriminate |].
    subst e.
    destruct (get_classification_outputs_spec K self _ _ _ _ _ Hc) as [_ [K2 K3]].
    destruct (dep_graph_element_spec encoded x (i - 1) B S T1 L1) as [X1 X2].
    exists (i - 1)%nat, x, l.
    replace (Datatypes.S (i - 1)) with i by lia.
    split; [lia |]. split; [exact X1 |]. split; [exact X2 |]. split; [exact L2 |].
    split.
    { apply (K2 m). apply dict_get_In_keys. congruence. }
    split; [apply K3; exact Ge |].
    intros j' l' Hj' Hl' Hin.
    destruct (C1 (Datatypes.S j') ltac:(lia)) as [e' He'].
    pose proof (Hlater (Datatypes.S j') e' ltac:(lia) He') as Hnone.
    destruct He' as [x' [l'' [cout' [L1' [L2' [Hc' He']]]]]].
    rewrite Hl' in L2'. inversion L2'; subst l''. subst e'.
    destruct (get_classification_outputs_spec K self _ _ _ _ _ Hc') as [_ [K2' _]].
    assert (Hk : In m (dict_keys (snd (fst cout')))).
    { apply K2'. split; [exact Hin |].
      exact (proj1 (proj2 (proj2 (measurements_of_level_spec cls reg _ _ Hl'))) m Hin). }
    apply dict_get_In_keys in Hk. contradiction.
  - intros m d G.
    destruct (R2 m d G) as [[G0 _] | [i [e [Hi [[x [l [rout [L1 [L2 [Hr He]]]]]] [Ge Hlater]]]]]];
      [destruct is_generation; discriminate |].
    subst e.
    destruct (get_regression_outputs_spec K self _ _ _ _ _ _ Hr) as [_ [K2 [K3 _]]].
    destruct (dep_graph_element_spec encoded x (i - 1) B S T1 L1) as [X1 X2].
    exists (i - 1)%nat, x, l.
    replace (Datatypes.S (i - 1)) with i by lia.
    split; [lia |]. split; [exact X1 |]. split; [exact X2 |]. split; [exact L2 |].
    split.
    { apply (K2 m). apply dict_get_In_keys. congruence. }
    split; [apply K3; exact Ge |].
    intros j' l' Hj' Hl' Hin.
    destruct (R1 (Datatypes.S j') ltac:(lia)) as [e' He'].
    pose proof (Hlater (Datatypes.S j') e' ltac:(lia) He') as Hnone.
    destruct He' as [x' [l'' [rout' [L1' [L2' [Hr' He']]]]]].
    rewrite Hl' in L2'. inversion L2'; subst l''. subst e'.
    destruct (get_regression_outputs_spec K self _ _ _ _ _ _ Hr') as [_ [K2' _]].
    assert (Hk : In m (dict_keys (regression_dists_of rout'))).
    { apply K2'. split; [exact Hin |]. exists reg. split; [exact Hreg |].
      exact (proj2 (proj2 (proj2 (measurements_of_level_spec cls reg _ _ Hl'))) m Hin). }
    apply dict_get_In_keys in Hk. contradiction.
  - intros j Hj.
    destruct (C1 (Datatypes.S j) ltac:(lia)) as [e [x [l [cout [L1 [L2 [Hc He]]]]]]].
    destruct (R1 (Datatypes.S j) ltac:(lia)) as [e' [x' [l' [rout [L1' [L2' [Hr He']]]]]]].
    rewrite L2 in L2'. inversion L2'; subst l'.
    destruct (measurements_of_level_spec cls reg _ _ L2) as [M1 [M2 [M3 M4]]].
    exists l. split; [exact L2 |]. split; [| split; [| split; [exact M1 | exact M2]]].
    + intros m Hm. apply (C3 (Datatypes.S j) e m ltac:(lia)).
      * exists x, l, cout. auto.
      * subst e.
        apply (proj1 (proj2 (get_classification_outputs_spec K self _ _ _ _ _ Hc)) m).
        split; [exact Hm | apply M3; exact Hm].
    + intros m Hm. apply (R3 (Datatypes.S j) e' m ltac:(lia)).
      * exists x', l, rout. auto.
      * subst e'.
        apply (proj1 (proj2 (get_regression_outputs_spec K self _ _ _ _ _ _ Hr)) m).
        split; [exact Hm |]. exists reg. split; [exact Hreg | apply M4; exact Hm].
Qed.

End NestedRouting.

Lemma C1_witness :
  exists out whole,
    forward (Example.kernels 7) Example.nested_layer Example.batch
      (Enc4 Example.encoded4) false = inr out
    /\ get2 whole 0 0 = Some [7; 8]%float
    /\ map_result (map_result (TTE_layer_forward (Example.kernels 7))) whole
       = inr (preds_time_to_event (preds out))
    /\ exists x in_level,
         get2 x 0 0 = Some [1; 2]%float
         /\ measurements_of_level Example.nested_layer
              (dict_keys (Layer.classification_mode_per_measurement Example.nested_layer))
              ["lab"] 1 = inr in_level
         /\ In "event_type" (fst in_level).
Proof.
  destruct (forward (Example.kernels 7) Example.nested_layer Example.batch
              (Enc4 Example.encoded4) false) as [e | out] eqn:E;
    [vm_compute in E; discriminate |].
  assert (H1 : (1 <= 1)%nat) by lia.
  assert (H3 : (1 <= 3)%nat) by lia.
  destruct (C1_nested_routing (Example.kernels 7) Example.nested_layer Example.encoded4
              1 3 4 Example.batch false out eq_refl eq_refl H1 H3 E)
    as [reg [Hreg [[whole [_ [W2 W3]]] [Hc _]]]].
  vm_compute in Hreg. inversion Hreg; subst reg; clear Hreg.
  exists out, whole. split; [reflexivity |].
  split; [exact (W2 0%nat 0%nat [[1; 2]; [3; 4]; [5; 6]; [7; 8]]%float eq_refl) |].
  split; [exact W3 |].
  destruct (dict_get (preds_classification (preds out)) "event_type") as [d |] eqn:G.
  2:{ vm_compute in E. inversion E; subst out. vm_compute in G. discriminate. }
  destruct (Hc "event_type" d G) as [j [x [l [Hj [_ [X2 [L2 [Hin [_ _]]]]]]]]].
  assert (Ej : j = 0%nat).
  { destruct j as [| [| [| j]]]; [reflexivity | | | lia];
      vm_compute in L2; inversion L2; subst l; simpl in Hin;
      intuition discriminate. }
  subst j. exists x, l. split; [| split; [exact L2 | exact Hin]].
  exact (X2 0%nat 0%nat [[1; 2]; [3; 4]; [5; 6]; [7; 8]]%float eq_refl).
Defined.



(* ===================================================================== *)
(** ** The aggregated output *)
(* ===================================================================== *)

Section Aggregation.
Context {SC : Scalar}.
Variable K : Kernels.
Variable self : Layer.t.

Lemma py_sum_values_acc (values : list (option F)) (acc r : F) :
  for_each values
    (fun v acc => match v with
                  | Some x => ret (fadd acc x)
                  | None => raise TypeError
                  end) acc = inr r ->
  exists l, values = map Some l /\ r = fold_left fadd l acc.
Proof.
  revert acc. induction values as [| v values IH]; intros acc H; simpl in H.
  - inversion H; subst. exists []. split; reflexivity.
  - destruct v as [x |]; [| discriminate]. simpl in H.
    destruct (IH _ H) as [l [E1 E2]]. exists (x :: l). subst. split; reflexivity.
Qed.

Lemma py_sum_values_spec (values : list (option F)) (r : F) :
  py_sum_values values = inr r -> exists l, values = map Some l /\ r = py_sum l.
Proof.
  apply py_sum_values_acc.
Qed.

(** C6. When [forward] returns in non-generation mode, the total [loss] is the sum of
    the classification losses of the output plus the sum of its regression losses
    minus the TTE log-likelihood that [get_TTE_outputs] computed (whose negation is
    the [time_to_event] loss of the output); when it returns in generation mode the
    total [loss] is [None]. *)
Theorem C6_total_loss (batch : Batch) (encoded : Encoded) :
  (forall out,
      forward K self batch encoded false = inr out ->
      exists classification regression regression_values whole_event_encoded tte,
        get_TTE_outputs K batch whole_event_encoded = inr tte
        /\ losses_classification (losses out) = Some classification
        /\ losses_regression (losses out) = Some regression
        /\ dict_values regression = map Some regression_values
        /\ losses_time_to_event (losses out) = Some (fneg (TTE_LL_overall tte))
        /\ loss out
           = Some (fsub (fadd (py_sum (dict_values classification))
                              (py_sum regression_values))
                        (TTE_LL_overall tte)))
  /\ (forall out, forward K self batch encoded true = inr out -> loss out = None).
Proof.
  split.
  - intros out H. unfold forward in H.
    inv_bind H. inv_bind H. inv_bind H. inv_bind H. inv_bind H.
    inversion H; subst out; clear H. cbn [loss losses losses_classification
      losses_regression losses_time_to_event].
    unfold total_loss in Hx3.
    destruct (classification_losses_by_measurement (fst x1)) as [cl |];
      [| discriminate].
    destruct (regression_loss_values (fst x1)) as [rl |]; [| discriminate].
    inv_bind Hx3. inversion Hx3; subst x3; clear Hx3.
    destruct (py_sum_values_spec _ _ Hx4) as [l [E1 E2]]. subst x4.
    exists cl, rl, l, (snd x1), x2. auto 10.
  - intros out H. unfold forward in H.
    inv_bind H. inv_bind H. inv_bind H. inv_bind H. inv_bind H.
    inversion H; subst out; clear H. cbn [loss].
    unfold total_loss in Hx3. inversion Hx3. reflexivity.
Qed.

End Aggregation.

Lemma C6_witness :
  exists out,
    forward (Example.kernels 7) Example.nested_layer Example.batch
      (Enc4 Example.encoded4) false = inr out
    /\ exists total, loss out = Some total.
Proof.
  destruct (forward (Example.kernels 7) Example.nested_layer Example.batch
              (Enc4 Example.encoded4) false) as [e | out] eqn:E;
    [vm_compute in E; discriminate |].
  exists out. split; [reflexivity |].
  destruct (proj1 (C6_total_loss (Example.kernels 7) Example.nested_layer Example.batch
                     (Enc4 Example.encoded4)) out E)
    as [cl [rl [l [whole [tte [_ [_ [_ [_ [_ H]]]]]]]]]].
  rewrite H. eexists. reflexivity.
Defined.


(* ===================================================================== *)
(** ** Generation mode *)
(* ===================================================================== *)

Section GenerationClaim.
Context {SC : Scalar}.
Variable K : Kernels.
Variable self : Layer.t.

(** The containers of a generation pass hold no losses and no labels. *)
Definition holds_no_labels (c : Containers K) : Prop :=
  classification_losses_by_measurement c = None
  /\ classification_labels_by_measurement c = None
  /\ regression_loss_values c = None
  /\ regression_labels c = None
  /\ regression_indices c = None.

Lemma route_generation (batch : Batch) (encoded : Encoded)
  (etm : option (dict (tensor2 bool))) (cls reg : list string)
  (c : Containers K) (whole : tensor3 F) :
  route K self batch encoded true etm cls reg = inr (c, whole) ->
  holds_no_labels c.
Proof.
  unfold route. intros H.
  assert (Hempty : holds_no_labels (empty_containers K true)).
  { unfold holds_no_labels. simpl. tauto. }
  destruct (String.eqb (Config.structured_event_processing_mode (Layer.config self))
              "conditionally_independent").
  - destruct encoded as [w | t]; [| discriminate].
    inv_bind H. inv_bind H. inversion H; subst; clear H.
    destruct (run_heads_spec K self _ _ _ _ _ _ _ _ Hx0)
      as [cout [rout [_ [_ [_ [_ Hg]]]]]].
    destruct (Hg eq_refl) as [G1 [G2 [G3 [G4 G5]]]].
    unfold holds_no_labels. rewrite G1, G2, G3, G4, G5. exact Hempty.
  - destruct encoded as [w | t]; [discriminate |].
    inv_bind H. inv_bind H. inversion H; subst; clear H.
    eapply (for_each_invariant holds_no_labels); [| exact Hempty | exact Hx0].
    intros i st st' _ Hst Hs.
    destruct (level_step_spec K self _ _ _ _ _ _ _ _ _ Hs) as [_ [_ Hg]].
    destruct (Hg eq_refl) as [G1 [G2 [G3 [G4 G5]]]].
    unfold holds_no_labels. rewrite G1, G2, G3, G4, G5. exact Hst.
Qed.

(** C5 (as the code has it). When [forward] returns in generation mode: the total
    loss, every loss entry and every label entry are [None]; the TTE distribution is
    the one of the TTE head on the whole-event encoding; in the conditionally
    independent mode the predictions hold a distribution exactly for the
    classification measurements and for the regression measurements; in the
    nested-attention mode they hold one exactly for the measurements that some level
    1..L-1 dispatches, so a configured measurement that no level names gets none.
    Generation mode does not make [forward] return: after the heads have returned,
    [get_TTE_outputs] is run on the durations of the batch as in a training pass, and
    what it raises, [forward] raises. *)
Theorem C5_generation_mode (batch : Batch) (encoded : Encoded) :
  let cls := dict_keys (Layer.classification_mode_per_measurement self) in
  (forall reg etm c whole e,
      Layer.modes_get (Config.measurements_per_generative_mode (Layer.config self))
        MULTIVARIATE_REGRESSION = Some reg ->
      get_event_type_mask_per_measurement self batch = inr etm ->
      route K self batch encoded true etm cls reg = inr (c, whole) ->
      get_TTE_outputs K batch whole = inl e ->
      forward K self batch encoded true = inl e)
  /\ forall out,
  forward K self batch encoded true = inr out ->
  loss out = None
  /\ losses_classification (losses out) = None
  /\ losses_regression (losses out) = None
  /\ losses_time_to_event (losses out) = None
  /\ labels_classification (labels out) = None
  /\ labels_regression (labels out) = None
  /\ labels_regression_indices (labels out) = None
  /\ labels_time_to_event (labels out) = None
  /\ (exists whole,
        match encoded with
        | Enc3 w => whole = w
        | Enc4 t => whole_event_encoded_of t = inr whole
        end
        /\ map_result (map_result (TTE_layer_forward K)) whole
           = inr (preds_time_to_event (preds out)))
  /\ exists reg,
       Layer.modes_get (Config.measurements_per_generative_mode (Layer.config self))
         MULTIVARIATE_REGRESSION = Some reg
       /\ (Config.structured_event_processing_mode (Layer.config self)
           = "conditionally_independent" ->
           (forall m, In m (dict_keys (preds_classification (preds out))) <-> In m cls)
           /\ (forall m, In m (dict_keys (preds_regression (preds out))) <-> In m reg))
       /\ (String.eqb (Config.structured_event_processing_mode (Layer.config self))
             "conditionally_independent" = false ->
           forall t, encoded = Enc4 t ->
             (forall m,
                In m (dict_keys (preds_classification (preds out)))
                <-> exists j in_level,
                      (j < dep_graph_len_of t - 1)%nat
                      /\ measurements_of_level self cls reg (Datatypes.S j) = inr in_level
                      /\ In m (fst in_level))
             /\ (forall m,
                   In m (dict_keys (preds_regression (preds out)))
                   <-> exists j in_level,
                         (j < dep_graph_len_of t - 1)%nat
                         /\ measurements_of_level self cls reg (Datatypes.S j)
                            = inr in_level
                         /\ In m (snd in_level))).
Proof.
  intros cls. split.
  { intros reg etm c whole e Hreg Hetm Hroute Htte.
    unfold forward, Layer.modes_item. rewrite Hreg. cbn [bind ret].
    rewrite Hetm. cbn [bind]. fold cls. rewrite Hroute. cbn [bind fst snd].
    rewrite Htte. reflexivity. }
  intros out Hf.
  destruct (forward_inv K self batch encoded true out Hf)
    as [reg [etm [c [whole [tte [Hreg [_ [Hroute [Htte [Ec [Er [Et
         [E1 [E2 [E3 [E4 [E5 [E6 [E7 E8]]]]]]]]]]]]]]]]]]].
  destruct (route_generation batch encoded etm cls reg c whole Hroute)
    as [N1 [N2 [N3 [N4 N5]]]].
  split; [exact (E8 eq_refl) |].
  split; [congruence |]. split; [congruence |]. split; [exact E6 |].
  split; [congruence |]. split; [congruence |]. split; [congruence |].
  split; [exact E7 |].
  pose proof (get_TTE_outputs_dist K batch whole tte Htte) as Hdist.
  rewrite <- Et in Hdist.
  unfold route in Hroute. fold cls in Hroute.
  destruct (String.eqb (Config.structured_event_processing_mode (Layer.config self))
              "conditionally_independent") eqn:Emode.
  - destruct encoded as [w | t]; [| discriminate].
    inv_bind Hroute. inv_bind Hroute. inversion Hroute; subst x0 whole; clear Hroute.
    split; [exists w; split; [reflexivity | exact Hdist] |].
    exists reg. split; [exact Hreg |]. split; [| discriminate].
    intros _.
    destruct (run_heads_spec K self _ _ _ _ _ _ _ _ Hx0)
      as [cout [rout [Hc [Hr [Dc [Dr _]]]]]].
    destruct (get_classification_outputs_spec K self _ _ _ _ _ Hc) as [_ [C2 _]].
    destruct (get_regression_outputs_spec K self _ _ _ _ _ _ Hr) as [_ [R2 _]].
    rewrite Ec, Er, Dc, Dr. split.
    + intros m. rewrite dict_In_keys_update, C2. simpl. tauto.
    + intros m. rewrite dict_In_keys_update, R2. simpl. split.
      * intros [[Hm _] | []]. exact Hm.
      * intros Hm. left. split; [exact Hm | eauto].
  - destruct encoded as [w | t]; [discriminate |].
    inv_bind Hroute. inv_bind Hroute. inversion Hroute; subst x0 x; clear Hroute.
    split; [exists whole; split; [exact Hx | exact Hdist] |].
    exists reg. split; [exact Hreg |].
    split; [intros Hm; rewrite Hm in Emode; discriminate |].
    intros _ t' Et'. inversion Et'; subst t'; clear Et'.
    unfold range_from_1 in Hx0.
    destruct (for_each_seq_updates (@classification_dists_by_measurement SC K)
                (level_classification_dists K self batch etm cls reg t)
                (level_step K self batch true etm cls reg t)
                (level_classification_dists_fun K self batch etm cls reg t)
                (dep_graph_len_of t - 1) 1)
      with (st := empty_containers K true) (st' := c)
      as [C1 [C2 C3]]; [| exact Hx0 |].
    { intros i st st' _ Hs. exact (proj1 (level_step_spec K self _ _ _ _ _ _ _ _ _ Hs)). }
    destruct (for_each_seq_updates (@regression_dists SC K)
                (level_regression_dists K self batch true etm cls reg t)
                (level_step K self batch true etm cls reg t)
                (level_regression_dists_fun K self batch true etm cls reg t)
                (dep_graph_len_of t - 1) 1)
      with (st := empty_containers K true) (st' := c)
      as [R1 [R2 R3]]; [| exact Hx0 |].
    { intros i st st' _ Hs.
      exact (proj1 (proj2 (level_step_spec K self _ _ _ _ _ _ _ _ _ Hs))). }
    rewrite Ec, Er. split.
    + intros m. split.
      * intros Hm. apply dict_get_In_keys in Hm.
        destruct (dict_get (classification_dists_by_measurement c) m) as [d |] eqn:G;
          [| contradiction].
        destruct (C2 m d G)
          as [[G0 _] | [i [e [Hi [[x [l [cout [L1 [L2 [Hc He]]]]]] [Ge _]]]]]];
          [discriminate |].
        subst e. exists (i - 1)%nat, l.
        replace (Datatypes.S (i - 1)) with i by lia.
        split; [lia |]. split; [exact L2 |].
        apply (proj1 (proj2 (get_classification_outputs_spec K self _ _ _ _ _ Hc)) m).
        apply dict_get_In_keys. congruence.
      * intros [j [l [Hj [Hl Hin]]]].
        destruct (C1 (Datatypes.S j) ltac:(lia)) as [e He].
        apply (C3 (Datatypes.S j) e m ltac:(lia) He).
        destruct He as [x [l' [cout [L1 [L2 [Hc He]]]]]].
        rewrite Hl in L2. inversion L2; subst l'. subst e.
        apply (proj1 (proj2 (get_classification_outputs_spec K self _ _ _ _ _ Hc)) m).
        split; [exact Hin |].
        exact (proj1 (proj2 (proj2 (measurements_of_level_spec self cls reg _ _ Hl)))
                 m Hin).
    + intros m. split.
      * intros Hm. apply dict_get_In_keys in Hm.
        destruct (dict_get (regression_dists c) m) as [d |] eqn:G; [| contradiction].
        destruct (R2 m d G)
          as [[G0 _] | [i [e [Hi [[x [l [rout [L1 [L2 [Hr He]]]]]] [Ge _]]]]]];
          [discriminate |].
        subst e. exists (i - 1)%nat, l.
        replace (Datatypes.S (i - 1)) with i by lia.
        split; [lia |]. split; [exact L2 |].
        apply (proj1 (proj2 (get_regression_outputs_spec K self _ _ _ _ _ _ Hr)) m).
        apply dict_get_In_keys. congruence.
      * intros [j [l [Hj [Hl Hin]]]].
        destruct (R1 (Datatypes.S j) ltac:(lia)) as [e He].
        apply (R3 (Datatypes.S j) e m ltac:(lia) He).
        destruct He as [x [l' [rout [L1 [L2 [Hr He]]]]]].
        rewrite Hl in L2. inversion L2; subst l'. subst e.
        apply (proj1 (proj2 (get_regression_outputs_spec K self _ _ _ _ _ _ Hr)) m).
        split; [exact Hin |]. exists reg. split; [exact Hreg |].
        exact (proj2 (proj2 (proj2 (measurements_of_level_spec self cls reg _ _ Hl)))
                 m Hin).
Qed.

End GenerationClaim.

Lemma C5_witness :
  exists out,
    forward (Example.kernels 7) Example.independent_layer Example.batch
      (Enc3 Example.encoded3) true = inr out
    /\ loss out = None
    /\ In "diagnosis" (dict_keys (preds_classification (preds out))).
Proof.
  destruct (forward (Example.kernels 7) Example.independent_layer Example.batch
              (Enc3 Example.encoded3) true) as [e | out] eqn:E;
    [vm_compute in E; discriminate |].
  exists out. split; [reflexivity |].
  destruct (proj2 (C5_generation_mode (Example.kernels 7) Example.independent_layer
                     Example.batch (Enc3 Example.encoded3)) out E)
    as [H1 [_ [_ [_ [_ [_ [_ [_ [_ [reg [_ [H10 _]]]]]]]]]]]].
  split; [exact H1 |].
  apply (proj1 (H10 eq_refl)). simpl. auto.
Defined.

(** A partition that names no level for "diagnosis". *)
Definition partial_levels : list (list value) :=
  [[];
   [VAtom (AStr "event_type")];
   [VTuple [AStr "lab"; AStr "categorical_only"]];
   [VTuple [AStr "lab"; AStr "numerical_only"]]].

(** C5 fails as stated: in the nested-attention mode with a partition that names no
    level for "diagnosis" (the constructor accepts it), a generation pass returns no
    distribution for the configured classification measurement "diagnosis"; and a
    generation pass over a sequence with a single unmasked event, which has no
    duration to serve as a label, raises. *)
Lemma C5_counterexample :
  (exists c l out,
      Config.init (with_levels Example.nested_args (Some partial_levels)) = inr c
      /\ Layer.init c = inr l
      /\ In "diagnosis" (dict_keys (Layer.classification_mode_per_measurement l))
      /\ forward (Example.kernels 7) l Example.batch (Enc4 Example.encoded4) true = inr out
      /\ dict_get (preds_classification (preds out)) "diagnosis" = None)
  /\ forward (Example.kernels 7) Example.independent_layer unobserved_batch
       (Enc3 Example.encoded3) true
     = inl (ValueError ("No observed time-to-event for >= 1 patient in batch: "
                        ++ batch_repr (Example.kernels 7) unobserved_batch)).
Proof.
  split.
  - eexists. eexists. eexists.
    split; [vm_compute; reflexivity |].
    split; [vm_compute; reflexivity |].
    split; [simpl; auto |].
    split; [vm_compute; reflexivity | reflexivity].
  - vm_compute. reflexivity.
Qed.



(* ===================================================================== *)
(** ** What a constructed configuration guarantees *)
(* ===================================================================== *)

Lemma guard_inr (b : bool) (e : exn) (u : unit) :
  (if b then raise e else ret tt) = inr u -> b = false.
Proof.
  destruct b; [discriminate | reflexivity].
Qed.

Lemma check_params_ok (present absent : list string) (params : list (string * bool)) :
  Config.check_params present absent params = inr tt
  <-> forall name val_is_none, In (name, val_is_none) params ->
        (str_in name present = true -> val_is_none = false)
        /\ (str_in name absent = true -> val_is_none = true).
Proof.
  unfold Config.check_params. rewrite for_all_do_ok. split.
  - intros H name none Hin. specialize (H (name, none) Hin). simpl in H.
    destruct (str_in name present), none, (str_in name absent); simpl in H;
      try discriminate; split; intros; congruence.
  - intros H [name none] Hin. destruct (H name none Hin) as [H1 H2]. simpl.
    destruct (str_in name present), none, (str_in name absent); simpl;
      try reflexivity; try (specialize (H1 eq_refl); discriminate);
      try (specialize (H2 eq_refl); discriminate).
Qed.

Lemma expand_attention_types_length (attention_types : list (list string * Z)) :
  List.length (Config.expand_attention_types_params attention_types)
  = fold_right (fun item n => (Z.to_nat (snd item) * List.length (fst item) + n)%nat)
      0%nat attention_types.
Proof.
  unfold Config.expand_attention_types_params.
  induction attention_types as [| [names count] rest IH]; simpl; [reflexivity |].
  rewrite length_app, IH. f_equal.
  induction (Z.to_nat count) as [| n IHn]; simpl; [reflexivity |].
  rewrite length_app, IHn. reflexivity.
Qed.

(** Everything [__init__] has checked when it returns, and what it stores. *)
Lemma config_init_inv (a : Args.t) (c : Config.t) :
  Config.init a = inr c ->
  let mode := Args.structured_event_processing_mode a in
  let tte := Args.TTE_generation_layer_type a in
  str_in mode StructuredEventProcessingMode.values = true
  /\ Config.check_params (Config.MANDATORY_PRESENT_by_mode mode)
       (Config.MANDATORY_ABSENT_by_mode mode)
       [("measurements_per_dep_graph_level",
           Config.is_none (Args.measurements_per_dep_graph_level a));
        ("do_full_block_in_seq_attention",
           Config.is_none (Args.do_full_block_in_seq_attention a));
        ("do_full_block_in_dep_graph_attention",
           Config.is_none (Args.do_full_block_in_dep_graph_attention a));
        ("dep_graph_attention_types", Config.is_none (Args.dep_graph_attention_types a));
        ("dep_graph_window_size", Config.is_none (Args.dep_graph_window_size a));
        ("do_add_temporal_position_embeddings_to_data_embeddings",
           Config.is_none (Args.do_add_temporal_position_embeddings_to_data_embeddings a))]
     = inr tt
  /\ (forall groups, Args.measurements_per_dep_graph_level a = Some groups ->
        mode = "nested_attention" ->
        Config.check_measurements_per_dep_graph_level groups = inr tt)
  /\ Config.head_dim c * Config.num_attention_heads c = Config.hidden_size c
  /\ 0 < Config.num_hidden_layers c
  /\ Z.of_nat (List.length (Config.seq_attention_layers c)) = Config.num_hidden_layers c
  /\ (Args.seq_attention_types a = None -> Config.num_hidden_layers c mod 2 = 0)
  /\ Config.seq_attention_layers c
     = Config.expand_attention_types_params
         (Config.or_default (Args.seq_attention_types a)
            [(["local"; "global"], Config.num_hidden_layers c / 2)])
  /\ (mode = "conditionally_independent" -> Config.dep_graph_attention_layers c = None)
  /\ (mode <> "conditionally_independent" ->
      exists layers, Config.dep_graph_attention_layers c = Some layers
                     /\ Z.of_nat (List.length layers) = Config.num_hidden_layers c
                     /\ layers
                        = Config.expand_attention_types_params
                            (Config.or_default (Args.dep_graph_attention_types a)
                               [(["global"], Config.num_hidden_layers c)]))
  /\ str_in tte TimeToEventGenerationHeadType.values = true
  /\ Config.check_params (Config.MANDATORY_PRESENT_by_tte_head tte)
       (Config.MANDATORY_ABSENT_by_tte_head tte)
       [("TTE_lognormal_generation_num_components",
           Config.is_none (Args.TTE_lognormal_generation_num_components a));
        ("mean_log_inter_event_time_min",
           Config.is_none (Args.mean_log_inter_event_time_min a));
        ("std_log_inter_event_time_min",
           Config.is_none (Args.std_log_inter_event_time_min a))]
     = inr tt
  /\ (tte = "log_normal_mixture" ->
      (exists n, Config.TTE_lognormal_generation_num_components c = Some n /\ 0 < n)
      /\ Config.mean_log_inter_event_time_min c
         = Some (Config.or_default (Args.mean_log_inter_event_time_min a) 0%float)
      /\ Config.std_log_inter_event_time_min c
         = Some (Config.or_default (Args.std_log_inter_event_time_min a) 1%float))
  /\ Args.is_encoder_decoder a = false
  /\ Config.structured_event_processing_mode c = mode
  /\ Config.TTE_generation_layer_type c = tte
  /\ Config.TTE_lognormal_generation_num_components c
     = Args.TTE_lognormal_generation_num_components a
  /\ (tte <> "log_normal_mixture" ->
      Config.mean_log_inter_event_time_min c = Args.mean_log_inter_event_time_min a
      /\ Config.std_log_inter_event_time_min c = Args.std_log_inter_event_time_min a)
  /\ Config.measurements_per_dep_graph_level c = Args.measurements_per_dep_graph_level a
  /\ Config.num_hidden_layers c = Args.num_hidden_layers a
  /\ Config.num_attention_heads c = Args.num_attention_heads a
  /\ Config.measurements_per_generative_mode c
     = Config.or_default (Args.measurements_per_generative_mode a) []
  /\ Config.vocab_sizes_by_measurement c
     = Config.or_default (Args.vocab_sizes_by_measurement a) []
  /\ Config.vocab_size c
     = Z.max (fold_left Z.add
                (dict_values (Config.or_default (Args.vocab_sizes_by_measurement a) [])) 0) 1
  /\ Config.event_types_per_measurement c
     = Some (Config.or_default (Args.event_types_per_measurement a) []).
Proof.
  intros H mode tte. unfold Config.init in H. fold mode tte in H.
  apply bind_inr in H. destruct H as [u1 [H1 H]].
  apply bind_inr in H. destruct H as [u2 [H2 H]].
  apply bind_inr in H. destruct H as [u3 [H3 H]].
  apply bind_inr in H. destruct H as [u4 [H4 H]].
  apply bind_inr in H. destruct H as [dims [H5 H]].
  apply bind_inr in H. destruct H as [u6 [H6 H]].
  apply bind_inr in H. destruct H as [u7 [H7 H]].
  apply bind_inr in H. destruct H as [seq_types [H8 H]].
  apply bind_inr in H. destruct H as [u9 [H9 H]].
  apply bind_inr in H. destruct H as [dgl [H10 H]].
  apply bind_inr in H. destruct H as [u11 [H11 H]].
  apply bind_inr in H. destruct H as [u12 [H12 H]].
  apply bind_inr in H. destruct H as [norm [H13 H]].
  apply bind_inr in H. destruct H as [u14 [H14 H]].
  inversion H; subst c; clear H. cbn [Config.head_dim Config.num_attention_heads
    Config.hidden_size Config.num_hidden_layers Config.seq_attention_layers
    Config.dep_graph_attention_layers Config.TTE_lognormal_generation_num_components
    Config.mean_log_inter_event_time_min Config.std_log_inter_event_time_min
    Config.structured_event_processing_mode Config.TTE_generation_layer_type
    Config.measurements_per_dep_graph_level Config.measurements_per_generative_mode
    Config.vocab_sizes_by_measurement Config.vocab_size
    Config.event_types_per_measurement].
  apply guard_inr in H2, H6, H7, H9, H11.
  apply negb_false_iff in H2, H6, H9, H11.
  destruct u3, u12.
  split; [exact H2 |]. split; [exact H3 |].
  split.
  { intros groups Hg Hm. rewrite Hg in H4. rewrite Hm in H4. simpl in H4.
    destruct u4. exact H4. }
  split; [apply Z.eqb_eq; exact H6 |].
  split; [apply Z.leb_gt in H7; exact H7 |].
  assert (Hseq : (Args.seq_attention_types a = None -> Args.num_hidden_layers a mod 2 = 0)
                 /\ seq_types
                    = Config.or_default (Args.seq_attention_types a)
                        [(["local"; "global"], Args.num_hidden_layers a / 2)]).
  { destruct (Args.seq_attention_types a) as [t |]; simpl in H8 |- *.
    - inversion H8. split; [discriminate | reflexivity].
    - apply bind_inr in H8. destruct H8 as [u8 [H8a H8]]. inversion H8.
      apply py_assert_inr in H8a. apply Z.eqb_eq in H8a. split; [auto | reflexivity]. }
  destruct Hseq as [Hseq1 Hseq2].
  split; [apply Z.eqb_eq; exact H9 |].
  split; [exact Hseq1 |].
  split; [rewrite Hseq2; reflexivity |].
  split.
  { intros Hm. rewrite Hm in H10. simpl in H10. inversion H10. reflexivity. }
  split.
  { intros Hm. apply String.eqb_neq in Hm. rewrite Hm in H10. simpl in H10.
    match type of H10 with
    | (if negb ?b then _ else _) = _ => destruct b eqn:E; simpl in H10
    end; [| discriminate].
    inversion H10; subst dgl. eexists. split; [reflexivity |].
    split; [apply Z.eqb_eq; exact E | reflexivity]. }
  split; [exact H11 |]. split; [exact H12 |].
  split.
  { intros Ht. rewrite Ht in H13. simpl in H13.
    destruct (Args.TTE_lognormal_generation_num_components a) as [n |]; [| discriminate].
    destruct (n <=? 0) eqn:E; [discriminate |]. inversion H13; subst norm. simpl.
    split; [exists n; split; [reflexivity | apply Z.leb_gt; exact E] |].
    split; reflexivity. }
  split.
  { apply py_assert_inr in H14. apply negb_true_iff in H14. exact H14. }
  repeat (split; [reflexivity |]).
  split.
  { intros Ht. apply String.eqb_neq in Ht.
    unfold TimeToEventGenerationHeadType.LOG_NORMAL_MIXTURE in H13.
    rewrite Ht in H13. inversion H13; subst norm. split; reflexivity. }
  repeat (split; [reflexivity |]). reflexivity.
Qed.

(** A configuration that [__init__] returns has a hidden size that is the head
    dimension times the number of heads, a positive number of layers, a vocabulary
    of at least one entry (the sum of the vocabulary sizes, or 1), one sequence
    attention type per layer, and one dependency-graph attention type per layer
    unless it is conditionally independent, in which case it has none. *)
Theorem config_init_dimensions (a : Args.t) (c : Config.t) :
  Config.init a = inr c ->
  Config.head_dim c * Config.num_attention_heads c = Config.hidden_size c
  /\ 0 < Config.num_hidden_layers c
  /\ 1 <= Config.vocab_size c
  /\ Config.vocab_size c
     = Z.max (fold_left Z.add (dict_values (Config.vocab_sizes_by_measurement c)) 0) 1
  /\ Z.of_nat (List.length (Config.seq_attention_layers c)) = Config.num_hidden_layers c
  /\ (Config.structured_event_processing_mode c = "conditionally_independent" ->
      Config.dep_graph_attention_layers c = None)
  /\ (Config.structured_event_processing_mode c <> "conditionally_independent" ->
      exists layers,
        Config.dep_graph_attention_layers c = Some layers
        /\ Z.of_nat (List.length layers) = Config.num_hidden_layers c).
Proof.
  intros H. pose proof (config_init_inv a c H) as I. cbv zeta in I.
  destruct I as [_ [_ [_ [I4 [I5 [I6 [_ [_ [I9 [I10 [_ [_ [_ [_ [Im [_ [_ [_ [_ [_ [_
                [_ [Isz [Iv _]]]]]]]]]]]]]]]]]]]]]]]].
  rewrite Im, Isz.
  split; [exact I4 |]. split; [exact I5 |].
  split; [rewrite Iv; lia |]. split; [exact Iv |]. split; [exact I6 |].
  split; [exact I9 |].
  intros Hm. destruct (I10 Hm) as [layers [L1 [L2 _]]]. eauto.
Qed.

Lemma config_init_dimensions_witness :
  Config.head_dim Example.nested_config * Config.num_attention_heads Example.nested_config
  = Config.hidden_size Example.nested_config.
Proof.
  exact (proj1 (config_init_dimensions Example.nested_args Example.nested_config eq_refl)).
Defined.

(** With [seq_attention_types] left unset the constructor returns only for an even
    number of layers, and the layers then alternate local and global attention; with
    [dep_graph_attention_types] left unset every dependency-graph layer is global. *)
Theorem config_init_default_attention (a : Args.t) (c : Config.t) :
  Config.init a = inr c ->
  (Args.seq_attention_types a = None ->
   Config.num_hidden_layers c mod 2 = 0
   /\ Config.seq_attention_layers c
      = List.concat (repeat ["local"; "global"]
                       (Z.to_nat (Config.num_hidden_layers c / 2))))
  /\ (Args.dep_graph_attention_types a = None ->
      Config.structured_event_processing_mode c <> "conditionally_independent" ->
      Config.dep_graph_attention_layers c
      = Some (repeat "global" (Z.to_nat (Config.num_hidden_layers c)))).
Proof.
  intros H. pose proof (config_init_inv a c H) as I. cbv zeta in I.
  destruct I as [_ [_ [_ [_ [_ [_ [I7 [I8 [_ [I10 [_ [_ [_ [_ [Im _]]]]]]]]]]]]]]].
  split.
  - intros Hnone. split; [apply I7; exact Hnone |].
    rewrite I8, Hnone. unfold Config.expand_attention_types_params. simpl.
    apply app_nil_r.
  - intros Hnone Hm. rewrite Im in Hm. destruct (I10 Hm) as [layers [L1 [_ L3]]].
    rewrite L1, L3, Hnone. unfold Config.expand_attention_types_params. simpl.
    rewrite app_nil_r. f_equal.
    induction (Z.to_nat (Config.num_hidden_layers c)) as [| n IH]; simpl;
      [reflexivity | f_equal; exact IH].
Qed.

Lemma config_init_default_attention_witness :
  Config.seq_attention_layers Example.nested_config = ["local"; "global"]
  /\ Config.dep_graph_attention_layers Example.nested_config = Some ["global"; "global"].
Proof.
  destruct (config_init_default_attention Example.nested_args Example.nested_config
              eq_refl) as [H1 H2].
  split.
  - exact (proj2 (H1 eq_refl)).
  - apply (H2 eq_refl). discriminate.
Defined.

(** The processing mode of a returned configuration is one of the two members of the
    enumeration.  A conditionally independent configuration was given none of the six
    dependency-graph parameters (so it has no per-level partition), and a
    nested-attention configuration was given the three block and embedding flags. *)
Theorem config_init_mode_parameters (a : Args.t) (c : Config.t) :
  Config.init a = inr c ->
  (Config.structured_event_processing_mode c = "conditionally_independent"
   \/ Config.structured_event_processing_mode c = "nested_attention")
  /\ (Config.structured_event_processing_mode c = "conditionally_independent" ->
      Config.measurements_per_dep_graph_level c = None
      /\ Args.do_full_block_in_seq_attention a = None
      /\ Args.do_full_block_in_dep_graph_attention a = None
      /\ Args.dep_graph_attention_types a = None
      /\ Args.dep_graph_window_size a = None
      /\ Args.do_add_temporal_position_embeddings_to_data_embeddings a = None)
  /\ (Config.structured_event_processing_mode c = "nested_attention" ->
      Args.do_full_block_in_seq_attention a <> None
      /\ Args.do_full_block_in_dep_graph_attention a <> None
      /\ Args.do_add_temporal_position_embeddings_to_data_embeddings a <> None).
Proof.
  intros H. pose proof (config_init_inv a c H) as I. cbv zeta in I.
  destruct I as [I1 [I2 [_ [_ [_ [_ [_ [_ [_ [_ [_ [_ [_ [_ [Im [_ [_ [_ [Il _]]]]]]]]]]]]]]]]]]].
  rewrite Im, Il.
  assert (Hnone : forall A (o : option A), Config.is_none o = true -> o = None).
  { intros A [x |]; simpl; [discriminate | reflexivity]. }
  assert (Hsome : forall A (o : option A), Config.is_none o = false -> o <> None).
  { intros A [x |]; simpl; [discriminate | discriminate]. }
  rewrite check_params_ok in I2.
  split.
  { apply str_in_In in I1. simpl in I1.
    destruct I1 as [E | [E | []]]; [left | right]; symmetry; exact E. }
  split.
  - intros Hm. rewrite Hm in I2.
    repeat split; apply Hnone;
      match goal with
      | |- Config.is_none ?o = true =>
          match goal with
          | H : forall name val, In (name, val) ?l -> _ |- _ =>
              let n := fresh in
              assert (n : exists name, In (name, Config.is_none o) l
                                       /\ str_in name
                                            (Config.MANDATORY_ABSENT_by_mode
                                               "conditionally_independent") = true)
                by (eexists; split; [simpl; eauto 10 | reflexivity]);
              destruct n as [name [Hin Hs]]; exact (proj2 (H _ _ Hin) Hs)
          end
      end.
  - intros Hm. rewrite Hm in I2.
    repeat split; apply Hsome;
      match goal with
      | |- Config.is_none ?o = false =>
          match goal with
          | H : forall name val, In (name, val) ?l -> _ |- _ =>
              let n := fresh in
              assert (n : exists name, In (name, Config.is_none o) l
                                       /\ str_in name
                                            (Config.MANDATORY_PRESENT_by_mode
                                               "nested_attention") = true)
                by (eexists; split; [simpl; eauto 10 | reflexivity]);
              destruct n as [name [Hin Hs]]; exact (proj1 (H _ _ Hin) Hs)
          end
      end.
Qed.

Lemma config_init_mode_parameters_witness :
  Config.measurements_per_dep_graph_level Example.independent_config = None
  /\ Args.do_full_block_in_seq_attention Example.nested_args <> None.
Proof.
  split.
  - exact (proj1 (proj1 (proj2 (config_init_mode_parameters Example.independent_args
                                 Example.independent_config eq_refl)) eq_refl)).
  - exact (proj1 (proj2 (proj2 (config_init_mode_parameters Example.nested_args
                                  Example.nested_config eq_refl)) eq_refl)).
Defined.

Lemma config_TTE_facts (a : Args.t) (c : Config.t) :
  Config.init a = inr c ->
  (Config.TTE_generation_layer_type c = "exponential"
   \/ Config.TTE_generation_layer_type c = "log_normal_mixture")
  /\ (Config.TTE_generation_layer_type c = "exponential" ->
      Config.TTE_lognormal_generation_num_components c = None
      /\ Config.mean_log_inter_event_time_min c = None
      /\ Config.std_log_inter_event_time_min c = None)
  /\ (Config.TTE_generation_layer_type c = "log_normal_mixture" ->
      (exists n, Config.TTE_lognormal_generation_num_components c = Some n /\ 0 < n)
      /\ Config.mean_log_inter_event_time_min c
         = Some (Config.or_default (Args.mean_log_inter_event_time_min a) 0%float)
      /\ Config.std_log_inter_event_time_min c
         = Some (Config.or_default (Args.std_log_inter_event_time_min a) 1%float)).
Proof.
  intros H. pose proof (config_init_inv a c H) as I. cbv zeta in I.
  destruct I as [_ [_ [_ [_ [_ [_ [_ [_ [_ [_ [I11 [I12 [I13 [_ [_ [It [Ic [In _]]]]]]]]]]]]]]]]]].
  rewrite It.
  assert (Hnone : forall A (o : option A), Config.is_none o = true -> o = None).
  { intros A [x |]; simpl; [discriminate | reflexivity]. }
  rewrite check_params_ok in I12.
  split.
  { apply str_in_In in I11. simpl in I11.
    destruct I11 as [E | [E | []]]; [left | right]; symmetry; exact E. }
  split.
  - intros Ht. rewrite Ht in I12.
    destruct In as [M1 M2]; [rewrite Ht; discriminate |].
    rewrite Ic, M1, M2.
    split; [| split]; apply Hnone.
    + apply (proj2 (I12 "TTE_lognormal_generation_num_components" _
                      (or_introl eq_refl)) eq_refl).
    + apply (proj2 (I12 "mean_log_inter_event_time_min" _
                      (or_intror (or_introl eq_refl))) eq_refl).
    + apply (proj2 (I12 "std_log_inter_event_time_min" _
                      (or_intror (or_intror (or_introl eq_refl)))) eq_refl).
  - exact I13.
Qed.

(** The TTE head type of a returned configuration is one of the two members of the
    enumeration.  An exponential configuration was given no number of components, no
    mean and no standard deviation, and stores none; a log-normal-mixture
    configuration has a positive number of components and a mean and a standard
    deviation, 0.0 and 1.0 when they were not given. *)
Theorem config_init_TTE_parameters (a : Args.t) (c : Config.t) :
  Config.init a = inr c ->
  (Config.TTE_generation_layer_type c = "exponential"
   \/ Config.TTE_generation_layer_type c = "log_normal_mixture")
  /\ (Config.TTE_generation_layer_type c = "exponential" ->
      Config.TTE_lognormal_generation_num_components c = None
      /\ Config.mean_log_inter_event_time_min c = None
      /\ Config.std_log_inter_event_time_min c = None)
  /\ (Config.TTE_generation_layer_type c = "log_normal_mixture" ->
      (exists n, Config.TTE_lognormal_generation_num_components c = Some n /\ 0 < n)
      /\ Config.mean_log_inter_event_time_min c
         = Some (Config.or_default (Args.mean_log_inter_event_time_min a) 0%float)
      /\ Config.std_log_inter_event_time_min c
         = Some (Config.or_default (Args.std_log_inter_event_time_min a) 1%float)).
Proof.
  exact (config_TTE_facts a c).
Qed.

Lemma config_init_TTE_parameters_witness :
  Config.TTE_lognormal_generation_num_components Example.nested_config = None
  /\ Config.mean_log_inter_event_time_min Example.nested_config = None
  /\ Config.std_log_inter_event_time_min Example.nested_config = None.
Proof.
  exact (proj1 (proj2 (config_init_TTE_parameters Example.nested_args
                         Example.nested_config eq_refl)) eq_refl).
Defined.

(** The same constructor arguments with another processing mode. *)
Definition with_mode (a : Args.t) (mode : string) : Args.t := {|
  Args.vocab_sizes_by_measurement := Args.vocab_sizes_by_measurement a;
  Args.vocab_offsets_by_measurement := Args.vocab_offsets_by_measurement a;
  Args.measurements_idxmap := Args.measurements_idxmap a;
  Args.measurements_per_generative_mode := Args.measurements_per_generative_mode a;
  Args.event_types_per_measurement := Args.event_types_per_measurement a;
  Args.event_types_idxmap := Args.event_types_idxmap a;
  Args.measurements_per_dep_graph_level := Args.measurements_per_dep_graph_level a;
  Args.max_seq_len := Args.max_seq_len a;
  Args.categorical_embedding_dim := Args.categorical_embedding_dim a;
  Args.numerical_embedding_dim := Args.numerical_embedding_dim a;
  Args.structured_event_processing_mode := mode;
  Args.hidden_size := Args.hidden_size a;
  Args.head_dim := Args.head_dim a;
  Args.num_hidden_layers := Args.num_hidden_layers a;
  Args.num_attention_heads := Args.num_attention_heads a;
  Args.seq_attention_types := Args.seq_attention_types a;
  Args.seq_window_size := Args.seq_window_size a;
  Args.dep_graph_attention_types := Args.dep_graph_attention_types a;
  Args.dep_graph_window_size := Args.dep_graph_window_size a;
  Args.do_full_block_in_dep_graph_attention := Args.do_full_block_in_dep_graph_attention a;
  Args.do_full_block_in_seq_attention := Args.do_full_block_in_seq_attention a;
  Args.do_add_temporal_position_embeddings_to_data_embeddings :=
    Args.do_add_temporal_position_embeddings_to_data_embeddings a;
  Args.TTE_generation_layer_type := Args.TTE_generation_layer_type a;
  Args.TTE_lognormal_generation_num_components :=
    Args.TTE_lognormal_generation_num_components a;
  Args.mean_log_inter_event_time_min := Args.mean_log_inter_event_time_min a;
  Args.std_log_inter_event_time_min := Args.std_log_inter_event_time_min a;
  Args.is_encoder_decoder := Args.is_encoder_decoder a
|}.

(** An argument for the processing mode that is not a member of the enumeration never
    produces the ValueError the constructor builds for it: formatting the message
    reads an undefined name, so a NameError is raised, unless an assertion on the
    embedding dimensions has failed before. *)
Theorem config_init_unknown_mode (a : Args.t) :
  str_in (Args.structured_event_processing_mode a) StructuredEventProcessingMode.values
  = false ->
  Config.init a = inl AssertionError
  \/ Config.init a = inl (NameError "structured_event_procvessing_mode").
Proof.
  intros H. unfold Config.init. rewrite H.
  destruct (Args.categorical_embedding_dim a) as [cdim |]; [| right; reflexivity].
  destruct (cdim >? 0); [| left; reflexivity].
  destruct (Args.numerical_embedding_dim a) as [ndim |]; [| left; reflexivity].
  destruct (ndim >? 0); [right | left]; reflexivity.
Qed.

Lemma config_init_unknown_mode_witness :
  Config.init (with_mode Example.nested_args "joint") = inl AssertionError
  \/ Config.init (with_mode Example.nested_args "joint")
     = inl (NameError "structured_event_procvessing_mode").
Proof.
  apply config_init_unknown_mode. reflexivity.
Defined.


(* ===================================================================== *)
(** ** Partition entries: what the constructor accepts and what forward reads *)
(* ===================================================================== *)

Definition is_list_value (v : value) : bool :=
  match v with VList _ => true | _ => false end.

Lemma mem_of_atom (mode : atom) :
  MeasIndexGroup.mem mode = true <-> MeasIndexGroup.of_atom mode <> None.
Proof.
  unfold MeasIndexGroup.mem, MeasIndexGroup.of_atom, MeasIndexGroup.values, str_in.
  destruct mode as [s | z |]; simpl; try (split; [discriminate | congruence]).
  destruct (String.eqb s "categorical_and_numerical") eqn:E1;
  destruct (String.eqb s "categorical_only") eqn:E2;
  destruct (String.eqb s "numerical_only") eqn:E3; simpl;
    split; intros H; try reflexivity; try discriminate; try congruence.
Qed.

Lemma level_entry_accepted (v : value) :
  entry_accepted v = true ->
  if is_list_value v then level_entry v = inl TypeError
  else exists e, level_entry v = inr e.
Proof.
  unfold entry_accepted, level_entry.
  destruct v as [[s | z |] | items | items]; simpl; try discriminate.
  - intros _. eexists. reflexivity.
  - destruct items as [| [s | z |] [| mode [| y rest]]]; try discriminate.
    intros H. apply mem_of_atom in H. simpl.
    destruct (MeasIndexGroup.of_atom mode) as [k |]; [| congruence].
    eexists. reflexivity.
  - intros _. reflexivity.
Qed.

Lemma measurements_in_level_step (v : value) (sets : list atom * list atom) :
  (forall e, level_entry v = inl e ->
     bind (level_entry v)
       (fun e => match snd e with
                 | CATEGORICAL_AND_NUMERICAL => ret (fst e :: fst sets, fst e :: snd sets)
                 | CATEGORICAL_ONLY => ret (fst e :: fst sets, snd sets)
                 | NUMERICAL_ONLY => ret (fst sets, fst e :: snd sets)
                 end) = inl e)
  /\ (forall e, level_entry v = inr e ->
        exists sets',
          bind (level_entry v)
            (fun e => match snd e with
                      | CATEGORICAL_AND_NUMERICAL =>
                          ret (fst e :: fst sets, fst e :: snd sets)
                      | CATEGORICAL_ONLY => ret (fst e :: fst sets, snd sets)
                      | NUMERICAL_ONLY => ret (fst sets, fst e :: snd sets)
                      end) = inr sets').
Proof.
  split; intros e H; rewrite H; simpl; [reflexivity |].
  destruct (snd e); eexists; reflexivity.
Qed.

(** Every entry of a nested-attention partition that the constructor returned with is
    a string or a pair of a string and a value kind.  For a level whose entries have
    this form, [forward] computes the measurements of the level when no pair is
    written as a list, and raises a TypeError at the first pair that is: the
    constructor's [match] accepts a two-element list, the add to a set of
    measurements does not. *)
Theorem partition_entries_accepted_then_read (a : Args.t) (c : Config.t) :
  Config.init a = inr c ->
  (forall partition group,
      Config.structured_event_processing_mode c = "nested_attention" ->
      Config.measurements_per_dep_graph_level c = Some partition ->
      In group partition ->
      forallb entry_accepted group = true)
  /\ (forall group,
        forallb entry_accepted group = true ->
        (existsb is_list_value group = false ->
         exists sets, measurements_in_level group = inr sets)
        /\ (existsb is_list_value group = true ->
            measurements_in_level group = inl TypeError)).
Proof.
  intros H. pose proof (config_init_inv a c H) as I. cbv zeta in I.
  destruct I as [_ [_ [I3 [_ [_ [_ [_ [_ [_ [_ [_ [_ [_ [_ [Im [_ [_ [_ [Il _]]]]]]]]]]]]]]]]]]].
  split.
  - intros partition group Hm Hp Hg. rewrite Im in Hm. rewrite Il in Hp.
    specialize (I3 partition Hp Hm). apply check_levels_accepts in I3.
    rewrite forallb_forall in I3. apply I3; exact Hg.
  - intros group. unfold measurements_in_level. generalize (@nil atom, @nil atom).
    induction group as [| v group IH]; intros sets Hacc; simpl in Hacc |- *.
    + split; [intros _; eexists; reflexivity | discriminate].
    + apply andb_true_iff in Hacc. destruct Hacc as [Hv Hrest].
      pose proof (level_entry_accepted v Hv) as Hlv.
      destruct (measurements_in_level_step v sets) as [Err Ok].
      destruct (is_list_value v) eqn:E; simpl.
      * split; [discriminate |]. intros _. rewrite (Err _ Hlv). reflexivity.
      * destruct Hlv as [e He]. destruct (Ok e He) as [sets' Hs]. rewrite Hs. simpl.
        apply IH; exact Hrest.
Qed.

Lemma partition_entries_accepted_then_read_witness :
  forallb entry_accepted [VList [AStr "lab"; AStr "numerical_only"]] = true
  /\ measurements_in_level [VList [AStr "lab"; AStr "numerical_only"]] = inl TypeError
  /\ exists sets,
       measurements_in_level [VTuple [AStr "lab"; AStr "numerical_only"]] = inr sets.
Proof.
  destruct (partition_entries_accepted_then_read Example.nested_args Example.nested_config
              eq_refl) as [H1 H2].
  split; [reflexivity |]. split.
  - apply (proj2 (H2 [VList [AStr "lab"; AStr "numerical_only"]] eq_refl)). reflexivity.
  - apply (proj1 (H2 [VTuple [AStr "lab"; AStr "numerical_only"]]
                    (H1 _ _ eq_refl eq_refl
                        (or_intror (or_intror (or_intror (or_introl eq_refl))))))).
    reflexivity.
Defined.


(* ===================================================================== *)
(** ** What a constructed output layer holds *)
(* ===================================================================== *)

(** The measurements listed under the classification modes, in the order of the
    loop of lines 73-77. *)
Definition classification_listing (modes : list (DataModality * list string))
  : list string :=
  flat_map (fun entry =>
              if DataModality_eqb (fst entry) MULTIVARIATE_REGRESSION then []
              else snd entry) modes.

Definition criterion_of (mode : DataModality) : option Criterion :=
  match mode with
  | SINGLE_LABEL_CLASSIFICATION => Some CrossEntropy
  | MULTI_LABEL_CLASSIFICATION => Some BCEWithLogits
  | MULTIVARIATE_REGRESSION => None
  end.

Lemma set_all_get {V} (d : dict V) (ms : list string) (c : V) (m : string) :
  dict_get (Layer.set_all d ms c) m = if str_in m ms then Some c else dict_get d m.
Proof.
  unfold Layer.set_all. revert d. induction ms as [| m0 ms IH]; intros d; simpl.
  - reflexivity.
  - rewrite IH, dict_get_set. unfold str_in. simpl.
    destruct (existsb (String.eqb m) ms); [destruct (String.eqb m m0); reflexivity |].
    rewrite orb_false_r. reflexivity.
Qed.

Lemma modes_get_In (modes : list (DataModality * list string)) (k : DataModality)
  (v : list string) :
  Layer.modes_get modes k = Some v -> In (k, v) modes.
Proof.
  induction modes as [| [k0 v0] modes IH]; simpl; [discriminate |].
  destruct (DataModality_eqb k k0) eqn:E.
  - apply DataModality_eqb_eq in E. intros H. inversion H; subst. left; reflexivity.
  - intros H. right. apply IH; exact H.
Qed.

Lemma In_modes_get (modes : list (DataModality * list string)) (k : DataModality)
  (v : list string) :
  NoDup (map fst modes) -> In (k, v) modes -> Layer.modes_get modes k = Some v.
Proof.
  induction modes as [| [k0 v0] modes IH]; simpl; intros N H; [destruct H |].
  inversion N; subst. destruct H as [H | H].
  - inversion H; subst. destruct k; reflexivity.
  - destruct (DataModality_eqb k k0) eqn:E.
    + apply DataModality_eqb_eq in E. subst k0. exfalso. apply H2.
      apply in_map_iff. exists (k, v). auto.
    + apply IH; assumption.
Qed.

Lemma add_modes_total (gm : DataModality) (ms : list string) (acc : dict DataModality) :
  NoDup ms -> (forall m, In m ms -> dict_get acc m = None) ->
  exists d, Layer.add_modes gm ms acc = inr d.
Proof.
  unfold Layer.add_modes. revert acc. induction ms as [| m0 ms IH]; intros acc N H; simpl.
  - eexists; reflexivity.
  - inversion N; subst. unfold dict_mem. rewrite (H m0 (or_introl eq_refl)). simpl.
    apply IH; [assumption |]. intros m Hm.
    rewrite dict_get_set_other; [apply H; right; exact Hm |].
    intros E; subst. contradiction.
Qed.

Lemma add_modes_NoDup (gm : DataModality) (ms : list string) (acc d : dict DataModality) :
  Layer.add_modes gm ms acc = inr d -> NoDup ms.
Proof.
  unfold Layer.add_modes. revert acc. induction ms as [| m0 ms IH]; intros acc H.
  - constructor.
  - simpl in H. inv_bind H. inv_bind Hx. inversion Hx; subst x; clear Hx.
    constructor; [| eapply IH; exact H].
    intros Hin. destruct (add_modes_spec gm ms _ d H) as [A1 _].
    destruct (A1 m0 Hin) as [N _]. rewrite dict_get_set_same in N. discriminate.
Qed.

Lemma NoDup_app_inv {A} (l1 l2 : list A) :
  NoDup (l1 ++ l2) -> NoDup l1 /\ NoDup l2 /\ forall a, In a l1 -> ~ In a l2.
Proof.
  induction l1 as [| x l1 IH]; simpl; intros H.
  - split; [constructor | split; [exact H | intros a []]].
  - inversion H; subst. destruct (IH H3) as [N1 [N2 N3]].
    split; [constructor; [| exact N1] |].
    + intros C. apply H2. apply in_or_app. left; exact C.
    + split; [exact N2 |]. intros a [E | Ha] C.
      * subst. apply H2. apply in_or_app. right; exact C.
      * exact (N3 a Ha C).
Qed.

Lemma build_modes_iff (modes : list (DataModality * list string)) (acc : dict DataModality) :
  (exists d,
     for_each modes
       (fun entry acc =>
          if DataModality_eqb (fst entry) MULTIVARIATE_REGRESSION then ret acc
          else Layer.add_modes (fst entry) (snd entry) acc) acc = inr d)
  <-> NoDup (classification_listing modes)
      /\ forall m, In m (classification_listing modes) -> dict_get acc m = None.
Proof.
  revert acc. induction modes as [| [gm ms] modes IH]; intros acc; simpl.
  - split; [intros _; split; [constructor | intros m []] | intros _; eexists; reflexivity].
  - destruct (DataModality_eqb gm MULTIVARIATE_REGRESSION) eqn:E; simpl.
    + apply IH.
    + split.
      * intros [d H]. inv_bind H.
        destruct (add_modes_spec gm ms acc x Hx) as [A1 [A2 _]].
        destruct (proj1 (IH x) (ex_intro _ d H)) as [N Hnone].
        split.
        -- apply NoDup_app; [eapply add_modes_NoDup; exact Hx | exact N |].
           intros m Hm Hl. specialize (Hnone m Hl). destruct (A1 m Hm) as [_ S]. congruence.
        -- intros m Hm. apply in_app_or in Hm. destruct Hm as [Hm | Hm].
           ++ apply A1; exact Hm.
           ++ pose proof (Hnone m Hm) as Hx0.
              destruct (in_dec string_dec m ms) as [I | I].
              ** apply A1; exact I.
              ** rewrite <- (A2 m I). exact Hx0.
      * intros [N Hnone]. apply NoDup_app_inv in N. destruct N as [N1 [N2 N3]].
        destruct (add_modes_total gm ms acc N1) as [x Hx].
        { intros m Hm. apply Hnone. apply in_or_app. left; exact Hm. }
        rewrite Hx. simpl. apply IH. split; [exact N2 |].
        intros m Hm. destruct (add_modes_spec gm ms acc x Hx) as [A1 [A2 _]].
        rewrite A2; [apply Hnone; apply in_or_app; right; exact Hm |].
        intros I. exact (N3 m I Hm).
Qed.

Lemma regression_layers_loop (sizes : dict Z) (regression : list string)
  (acc layers : dict Z) :
  for_each regression
    (fun measurement acc =>
       n <- dict_item sizes measurement ;; ret (dict_set acc measurement n)) acc
  = inr layers ->
  (forall m, In m regression -> dict_get sizes m <> None)
  /\ forall m, dict_get layers m
               = if str_in m regression then dict_get sizes m else dict_get acc m.
Proof.
  revert acc. induction regression as [| m0 ms IH]; intros acc H; simpl in H.
  - inversion H; subst. split; [intros m [] | reflexivity].
  - inv_bind H. inv_bind Hx. inversion Hx; subst x; clear Hx.
    unfold dict_item in Hx0. destruct (dict_get sizes m0) as [n |] eqn:E; [| discriminate].
    inversion Hx0; subst x0; clear Hx0.
    destruct (IH _ H) as [I1 I2]. split.
    + intros m [Hm | Hm]; [subst; congruence | apply I1; exact Hm].
    + intros m. rewrite I2, dict_get_set. unfold str_in. simpl.
      destruct (existsb (String.eqb m) ms) eqn:Em.
      * rewrite orb_true_r. reflexivity.
      * rewrite orb_false_r. destruct (String.eqb m m0) eqn:E0; [| reflexivity].
        apply String.eqb_eq in E0. subst. symmetry; exact E.
Qed.

Lemma regression_layers_loop_total (sizes : dict Z) (regression : list string)
  (acc : dict Z) :
  (forall m, In m regression -> dict_get sizes m <> None) ->
  exists layers,
    for_each regression
      (fun measurement acc =>
         n <- dict_item sizes measurement ;; ret (dict_set acc measurement n)) acc
    = inr layers.
Proof.
  revert acc. induction regression as [| m0 ms IH]; intros acc H; simpl.
  - eexists; reflexivity.
  - unfold dict_item. destruct (dict_get sizes m0) as [n |] eqn:E.
    + simpl. apply IH. intros m Hm. apply H. right; exact Hm.
    + exfalso. apply (H m0 (or_introl eq_refl)). exact E.
Qed.

Lemma regression_layers_loop_error (sizes : dict Z) (regression : list string)
  (acc : dict Z) (e : exn) :
  for_each regression
    (fun measurement acc =>
       n <- dict_item sizes measurement ;; ret (dict_set acc measurement n)) acc
  = inl e -> exists k, e = KeyError k.
Proof.
  revert acc. induction regression as [| m0 ms IH]; intros acc H; simpl in H;
    [discriminate |].
  unfold dict_item in H. destruct (dict_get sizes m0) as [n |].
  - simpl in H. eapply IH; exact H.
  - simpl in H. inversion H. eauto.
Qed.

(** The constructor of the output layer returns exactly when the TTE head type is a
    member of its enumeration, the three generative modes are keys of
    [measurements_per_generative_mode], every regression measurement has a
    vocabulary size, and no measurement is listed twice under the classification
    modes. *)
Theorem layer_init_succeeds_iff (config : Config.t) :
  (exists layer, Layer.init config = inr layer)
  <-> (str_in (Config.TTE_generation_layer_type config)
         TimeToEventGenerationHeadType.values = true
       /\ (exists single multi regression,
             Layer.modes_get (Config.measurements_per_generative_mode config)
               SINGLE_LABEL_CLASSIFICATION = Some single
             /\ Layer.modes_get (Config.measurements_per_generative_mode config)
                  MULTI_LABEL_CLASSIFICATION = Some multi
             /\ Layer.modes_get (Config.measurements_per_generative_mode config)
                  MULTIVARIATE_REGRESSION = Some regression
             /\ forall m, In m regression ->
                  dict_get (Config.vocab_sizes_by_measurement config) m <> None)
       /\ NoDup (classification_listing (Config.measurements_per_generative_mode config))).
Proof.
  unfold Layer.init, Layer.build_heads, Layer.build_classification_mode_per_measurement,
    Layer.modes_item.
  pose proof (build_modes_iff (Config.measurements_per_generative_mode config) []) as B.
  split.
  - intros [layer H]. inv_bind H. inv_bind H. inv_bind Hx. inv_bind Hx.
    inv_bind Hx. inv_bind Hx. inv_bind Hx.
    destruct (Layer.modes_get (Config.measurements_per_generative_mode config)
                SINGLE_LABEL_CLASSIFICATION) as [single |]; [| discriminate].
    destruct (Layer.modes_get (Config.measurements_per_generative_mode config)
                MULTI_LABEL_CLASSIFICATION) as [multi |]; [| discriminate].
    destruct (Layer.modes_get (Config.measurements_per_generative_mode config)
                MULTIVARIATE_REGRESSION) as [regression |]; [| discriminate].
    inversion Hx2; inversion Hx3; inversion Hx4; subst.
    destruct (regression_layers_loop _ _ _ _ Hx5) as [R1 _].
    clear Hx2 Hx3 Hx4.
    split; [| split].
    + unfold str_in, TimeToEventGenerationHeadType.values. simpl.
      destruct (String.eqb (Config.TTE_generation_layer_type config)
                  TimeToEventGenerationHeadType.LOG_NORMAL_MIXTURE) eqn:E1.
      * apply String.eqb_eq in E1. rewrite E1. reflexivity.
      * destruct (String.eqb (Config.TTE_generation_layer_type config)
                    TimeToEventGenerationHeadType.EXPONENTIAL) eqn:E2; [| discriminate].
        reflexivity.
    + eexists. eexists. eexists.
      split; [reflexivity |]. split; [reflexivity |]. split; [reflexivity | exact R1].
    + apply (proj1 B). eauto.
  - intros [Ht [[single [multi [regression [M1 [M2 [M3 Hsz]]]]]] N]].
    rewrite M1, M2, M3.
    assert (Htte : exists h,
               (if String.eqb (Config.TTE_generation_layer_type config)
                     TimeToEventGenerationHeadType.LOG_NORMAL_MIXTURE
                then ret (Layer.LogNormalMixtureTTELayer
                            (Config.TTE_lognormal_generation_num_components config)
                            (Config.mean_log_inter_event_time_min config)
                            (Config.std_log_inter_event_time_min config))
                else if String.eqb (Config.TTE_generation_layer_type config)
                          TimeToEventGenerationHeadType.EXPONENTIAL
                     then ret Layer.ExponentialTTELayer
                     else raise (ValueError
                             "Invalid option for `config.TTE_generation_layer_type`."))
               = inr h).
    { unfold str_in, TimeToEventGenerationHeadType.values in Ht. simpl in Ht.
      rewrite orb_false_r in Ht.
      destruct (String.eqb (Config.TTE_generation_layer_type config)
                  TimeToEventGenerationHeadType.LOG_NORMAL_MIXTURE);
        [eexists; reflexivity |].
      rewrite orb_false_r in Ht. rewrite Ht. eexists; reflexivity. }
    destruct Htte as [h Hh]. rewrite Hh. simpl.
    destruct (regression_layers_loop_total (Config.vocab_sizes_by_measurement config)
                regression [] Hsz) as [layers Hl].
    rewrite Hl. simpl.
    destruct (proj2 B) as [d Hd].
    { split; [exact N | reflexivity]. }
    rewrite Hd. simpl. eexists; reflexivity.
Qed.

Lemma layer_init_succeeds_iff_witness :
  NoDup (classification_listing
           (Config.measurements_per_generative_mode Example.nested_config)).
Proof.
  exact (proj2 (proj2 (proj1 (layer_init_succeeds_iff Example.nested_config)
                         (ex_intro _ Example.nested_layer eq_refl)))).
Defined.

Lemma layer_init_parts (config : Config.t) (layer : Layer.t) :
  Layer.init config = inr layer ->
  exists single multi regression,
    Layer.modes_get (Config.measurements_per_generative_mode config)
      SINGLE_LABEL_CLASSIFICATION = Some single
    /\ Layer.modes_get (Config.measurements_per_generative_mode config)
         MULTI_LABEL_CLASSIFICATION = Some multi
    /\ Layer.modes_get (Config.measurements_per_generative_mode config)
         MULTIVARIATE_REGRESSION = Some regression
    /\ Layer.classification_criteria layer
       = Layer.set_all (Layer.set_all [] single CrossEntropy) multi BCEWithLogits
    /\ for_each regression
         (fun measurement acc =>
            n <- dict_item (Config.vocab_sizes_by_measurement config) measurement ;;
            ret (dict_set acc measurement n)) []
       = inr (Layer.regression_layers layer)
    /\ (Layer.TTE_layer layer = Layer.ExponentialTTELayer
        /\ Config.TTE_generation_layer_type config = "exponential"
        \/ Layer.TTE_layer layer
           = Layer.LogNormalMixtureTTELayer
               (Config.TTE_lognormal_generation_num_components config)
               (Config.mean_log_inter_event_time_min config)
               (Config.std_log_inter_event_time_min config)
           /\ Config.TTE_generation_layer_type config = "log_normal_mixture").
Proof.
  unfold Layer.init, Layer.build_heads, Layer.modes_item. intros H.
  inv_bind H. inv_bind H. inv_bind Hx. inv_bind Hx. inv_bind Hx. inv_bind Hx. inv_bind Hx.
  destruct (Layer.modes_get (Config.measurements_per_generative_mode config)
              SINGLE_LABEL_CLASSIFICATION) as [single |]; [| discriminate].
  destruct (Layer.modes_get (Config.measurements_per_generative_mode config)
              MULTI_LABEL_CLASSIFICATION) as [multi |]; [| discriminate].
  destruct (Layer.modes_get (Config.measurements_per_generative_mode config)
              MULTIVARIATE_REGRESSION) as [regression |]; [| discriminate].
  inversion Hx2; inversion Hx3; inversion Hx4; subst. clear Hx2 Hx3 Hx4.
  inversion Hx; subst x; clear Hx. inversion H; subst layer; clear H. simpl.
  eexists. eexists. eexists.
  split; [reflexivity |]. split; [reflexivity |]. split; [reflexivity |].
  split; [reflexivity |]. split; [exact Hx5 |].
  destruct (String.eqb (Config.TTE_generation_layer_type config)
              TimeToEventGenerationHeadType.LOG_NORMAL_MIXTURE) eqn:E1.
  - inversion Hx1. right. split; [reflexivity | apply String.eqb_eq; exact E1].
  - destruct (String.eqb (Config.TTE_generation_layer_type config)
                TimeToEventGenerationHeadType.EXPONENTIAL) eqn:E2; [| discriminate].
    inversion Hx1. left. split; [reflexivity | apply String.eqb_eq; exact E2].
Qed.

(** In a constructed layer whose configuration keys its generative modes once, the
    loss criterion stored for a measurement is the one of its classification mode:
    cross entropy for a single-label measurement, binary cross entropy with logits for
    a multi-label one, and none for a measurement without a classification mode. *)
Theorem layer_init_criteria_match_modes (config : Config.t) (layer : Layer.t) :
  Layer.init config = inr layer ->
  NoDup (map fst (Config.measurements_per_generative_mode config)) ->
  forall m,
    dict_get (Layer.classification_criteria layer) m
    = match dict_get (Layer.classification_mode_per_measurement layer) m with
      | Some mode => criterion_of mode
      | None => None
      end.
Proof.
  intros H N m.
  destruct (layer_init_parts config layer H)
    as [single [multi [regression [M1 [M2 [M3 [Hc _]]]]]]].
  destruct (init_classification_modes config layer H) as [_ [_ I]].
  rewrite Hc, !set_all_get. simpl.
  assert (Hs : str_in m single = true
               -> dict_get (Layer.classification_mode_per_measurement layer) m
                  = Some SINGLE_LABEL_CLASSIFICATION).
  { intros Hin. apply I. split; [discriminate |]. exists single.
    split; [apply modes_get_In; exact M1 | apply str_in_In; exact Hin]. }
  assert (Hm : str_in m multi = true
               -> dict_get (Layer.classification_mode_per_measurement layer) m
                  = Some MULTI_LABEL_CLASSIFICATION).
  { intros Hin. apply I. split; [discriminate |]. exists multi.
    split; [apply modes_get_In; exact M2 | apply str_in_In; exact Hin]. }
  destruct (str_in m multi) eqn:Emulti.
  - rewrite (Hm eq_refl). reflexivity.
  - destruct (str_in m single) eqn:Esingle.
    + rewrite (Hs eq_refl). reflexivity.
    + destruct (dict_get (Layer.classification_mode_per_measurement layer) m)
        as [mode |] eqn:G; [| reflexivity].
      apply I in G. destruct G as [Hne [ms [Hin Hms]]].
      apply (In_modes_get _ _ _ N) in Hin. apply str_in_In in Hms.
      destruct mode; [congruence | congruence | contradiction].
Qed.

Lemma layer_init_criteria_match_modes_witness :
  dict_get (Layer.classification_criteria Example.nested_layer) "lab" = Some BCEWithLogits.
Proof.
  rewrite (layer_init_criteria_match_modes Example.nested_config Example.nested_layer
             eq_refl).
  - reflexivity.
  - simpl. repeat constructor; simpl; intuition discriminate.
Defined.

(** A constructed layer has a regression layer exactly for the measurements listed
    under the regression mode, each with the measurement's vocabulary size as its
    number of regression targets. *)
Theorem layer_init_regression_layers (config : Config.t) (layer : Layer.t) :
  Layer.init config = inr layer ->
  exists regression,
    Layer.modes_get (Config.measurements_per_generative_mode config)
      MULTIVARIATE_REGRESSION = Some regression
    /\ (forall m, In m regression ->
          exists n, dict_get (Config.vocab_sizes_by_measurement config) m = Some n
                    /\ dict_get (Layer.regression_layers layer) m = Some n)
    /\ (forall m, ~ In m regression -> dict_get (Layer.regression_layers layer) m = None).
Proof.
  intros H.
  destruct (layer_init_parts config layer H)
    as [single [multi [regression [_ [_ [M3 [_ [Hr _]]]]]]]].
  destruct (regression_layers_loop _ _ _ _ Hr) as [R1 R2].
  exists regression. split; [exact M3 |]. split.
  - intros m Hm. rewrite R2. rewrite (proj2 (str_in_In m regression) Hm).
    destruct (dict_get (Config.vocab_sizes_by_measurement config) m) as [n |] eqn:E.
    + eauto.
    + exfalso. exact (R1 m Hm E).
  - intros m Hm. rewrite R2. destruct (str_in m regression) eqn:E; [| reflexivity].
    apply str_in_In in E. contradiction.
Qed.

Lemma layer_init_regression_layers_witness :
  exists n, dict_get (Layer.regression_layers Example.nested_layer) "lab" = Some n.
Proof.
  destruct (layer_init_regression_layers Example.nested_config Example.nested_layer eq_refl)
    as [regression [M [H _]]].
  vm_compute in M. inversion M; subst regression.
  destruct (H "lab" (or_introl eq_refl)) as [n [_ G]]. exists n. exact G.
Defined.

(** On a configuration that the configuration constructor returned, the constructor
    of the output layer raises only a KeyError (a generative mode or a vocabulary size
    is missing) or an AssertionError (a measurement has two classification modes),
    never the ValueError for the TTE head type; and the TTE head of the layer it
    returns is fully specified: exponential, or a log-normal mixture with a positive
    number of components, a mean and a standard deviation. *)
Theorem config_init_then_layer_init (a : Args.t) (c : Config.t) :
  Config.init a = inr c ->
  (forall e, Layer.init c = inl e -> (exists k, e = KeyError k) \/ e = AssertionError)
  /\ (forall layer, Layer.init c = inr layer ->
        Layer.TTE_layer layer = Layer.ExponentialTTELayer
        \/ exists n mean std,
             Layer.TTE_layer layer
             = Layer.LogNormalMixtureTTELayer (Some n) (Some mean) (Some std)
             /\ 0 < n).
Proof.
  intros H. pose proof (config_TTE_facts a c H) as [T1 [_ T3]].
  split.
  - intros e He. unfold Layer.init in He.
    apply bind_inl in He. destruct He as [He | [heads [_ He]]].
    + unfold Layer.build_heads, Layer.modes_item in He.
      assert (Htte : exists h,
                 (if String.eqb (Config.TTE_generation_layer_type c)
                       TimeToEventGenerationHeadType.LOG_NORMAL_MIXTURE
                  then ret (Layer.LogNormalMixtureTTELayer
                              (Config.TTE_lognormal_generation_num_components c)
                              (Config.mean_log_inter_event_time_min c)
                              (Config.std_log_inter_event_time_min c))
                  else if String.eqb (Config.TTE_generation_layer_type c)
                            TimeToEventGenerationHeadType.EXPONENTIAL
                       then ret Layer.ExponentialTTELayer
                       else raise (ValueError
                               "Invalid option for `config.TTE_generation_layer_type`."))
                 = inr h).
      { destruct T1 as [E | E]; rewrite E; eexists; reflexivity. }
      destruct Htte as [h Hh]. rewrite Hh in He. simpl in He.
      destruct (Layer.modes_get (Config.measurements_per_generative_mode c)
                  SINGLE_LABEL_CLASSIFICATION); simpl in He;
        [| inversion He; left; eauto].
      destruct (Layer.modes_get (Config.measurements_per_generative_mode c)
                  MULTI_LABEL_CLASSIFICATION); simpl in He;
        [| inversion He; left; eauto].
      destruct (Layer.modes_get (Config.measurements_per_generative_mode c)
                  MULTIVARIATE_REGRESSION); simpl in He;
        [| inversion He; left; eauto].
      apply bind_inl in He. destruct He as [He | [x [_ He]]]; [| discriminate].
      left. eapply regression_layers_loop_error; exact He.
    + apply bind_inl in He. destruct He as [He | [x [_ He]]]; [| discriminate].
      right. eapply build_modes_error; exact He.
  - intros layer Hl.
    destruct (layer_init_parts c layer Hl) as [_ [_ [_ [_ [_ [_ [_ [_ Ht]]]]]]]].
    destruct Ht as [[Ht _] | [Ht Hk]]; [left; exact Ht | right].
    destruct (T3 Hk) as [[n [N1 N2]] [M S]].
    rewrite Ht, N1, M, S. eauto 6.
Qed.

Lemma config_init_then_layer_init_witness :
  Layer.TTE_layer Example.nested_layer = Layer.ExponentialTTELayer
  \/ exists n mean std,
       Layer.TTE_layer Example.nested_layer
       = Layer.LogNormalMixtureTTELayer (Some n) (Some mean) (Some std) /\ 0 < n.
Proof.
  exact (proj2 (config_init_then_layer_init Example.nested_args Example.nested_config
                  eq_refl) Example.nested_layer eq_refl).
Defined.



(* ===================================================================== *)
(** ** Edge behaviour of the TTE computation and of the event-type masks *)
(* ===================================================================== *)

(** A loop whose iterations fail, with one exception, exactly on the items a test
    selects. *)
Lemma for_each_guarded {A St} (fails : A -> bool) (e0 : exn)
  (body : A -> St -> result St) (xs : list A) :
  (forall x st, fails x = true -> body x st = inl e0) ->
  (forall x st, fails x = false -> exists st', body x st = inr st') ->
  forall st,
    (existsb fails xs = true -> for_each xs body st = inl e0)
    /\ (existsb fails xs = false -> exists st', for_each xs body st = inr st').
Proof.
  intros Hf Hs. induction xs as [| x xs IH]; intros st; simpl.
  - split; [discriminate | intros _; eexists; reflexivity].
  - destruct (fails x) eqn:E; simpl.
    + split; [intros _; rewrite (Hf x st E); reflexivity | discriminate].
    + destruct (Hs x st E) as [st' Hst]. rewrite Hst. simpl. apply IH.
Qed.

Section EdgeBehaviour.
Context {SC : Scalar}.
Variable K : Kernels.

(** With a single event per sequence (or none) there is no duration to score: once
    the TTE head has returned, indexing the last column of the empty [TTE_true]
    raises an IndexError, before [log_prob] and any of the data checks; so
    [get_TTE_outputs] never returns on such a batch. *)
Theorem get_TTE_outputs_short_sequences (batch : Batch) (encoded : tensor3 F) (B S : nat) :
  has_shape2 B S (event_mask batch) = true ->
  has_shape2 B S (time batch) = true ->
  (1 <= B)%nat -> (S <= 1)%nat ->
  (forall e, map_result (map_result (TTE_layer_forward K)) encoded = inl e ->
             get_TTE_outputs K batch encoded = inl e)
  /\ (forall dists, map_result (map_result (TTE_layer_forward K)) encoded = inr dists ->
                    get_TTE_outputs K batch encoded = inl IndexError).
Proof.
  intros Hm Ht HB HS. apply has_shape2_spec in Hm, Ht.
  destruct (TTE_true_shape batch B S Hm Ht) as [T1 T2].
  unfold get_TTE_outputs.
  split; [intros e E; rewrite E; reflexivity |].
  intros dists E. rewrite E. cbn [bind].
  rewrite (append_column_empty_row fone (TTE_true_of batch)); [reflexivity |].
  destruct (TTE_true_of batch) as [| row rest] eqn:E'; [simpl in T1; lia |].
  specialize (T2 row (or_introl eq_refl)).
  destruct row; [left; reflexivity | simpl in T2; lia].
Qed.

End EdgeBehaviour.

Definition single_event_batch : Batch := {|
  dynamic_indices := [[[1; 0]]];
  dynamic_measurement_indices := [[[1; 0]]];
  dynamic_values := ([[[0; 0]]]%float : tensor3 (@F Example.float_scalar));
  dynamic_values_mask := [[[false; false]]];
  event_mask := [[true]];
  time := [[0]]%float
|}.

Lemma get_TTE_outputs_short_sequences_witness :
  get_TTE_outputs (Example.kernels 7) single_event_batch ([[[1; 2]]]%float : tensor3 (@F Example.float_scalar))
  = inl IndexError.
Proof.
  assert (H : (1 <= 1)%nat) by lia.
  exact (proj2 (get_TTE_outputs_short_sequences (Example.kernels 7) single_event_batch
                  ([[[1; 2]]]%float : tensor3 (@F Example.float_scalar)) 1 1
                  eq_refl eq_refl H H) [[1%float]] eq_refl).
Defined.

Lemma dict_get_In {V} (d : dict V) (k : string) (v : V) :
  dict_get d k = Some v -> In (k, v) d.
Proof.
  induction d as [| [k' v'] d IH]; simpl; [discriminate |].
  destruct (String.eqb k k') eqn:E.
  - apply String.eqb_eq in E. intros H. inversion H; subst. left; reflexivity.
  - intros H. right. exact (IH H).
Qed.

Section MaskErrors.
Context {SC : Scalar}.
Variable self : Layer.t.

Let cfg : Config.t := Layer.config self.

(** When "event_type" has a measurement index and a vocabulary offset and every
    listed event type has an id, [get_event_type_mask_per_measurement] returns masks
    if every measurement lists at least one event type, and raises a RuntimeError
    (stacking an empty list of comparisons) if some measurement lists none; without a
    measurement index for "event_type" it raises a KeyError. *)
Theorem event_type_mask_errors (batch : Batch) (etpm : dict (list string)) :
  Config.event_types_per_measurement cfg = Some etpm ->
  (dict_get (Config.measurements_idxmap cfg) "event_type" = None ->
   get_event_type_mask_per_measurement self batch = inl (KeyError "event_type"))
  /\ (dict_get (Config.measurements_idxmap cfg) "event_type" <> None ->
      dict_get (Config.vocab_offsets_by_measurement cfg) "event_type" <> None ->
      (forall m types t, dict_get etpm m = Some types -> In t types ->
         dict_get (Config.event_types_idxmap cfg) t <> None) ->
      (existsb (fun entry => match dict_get etpm (fst entry) with
                             | Some [] => true
                             | _ => false
                             end) etpm = true ->
       get_event_type_mask_per_measurement self batch = inl RuntimeError)
      /\ (existsb (fun entry => match dict_get etpm (fst entry) with
                                | Some [] => true
                                | _ => false
                                end) etpm = false ->
          exists masks, get_event_type_mask_per_measurement self batch = inr (Some masks))).
Proof.
  intros He. split.
  - intros Hnone. unfold get_event_type_mask_per_measurement. fold cfg. rewrite He.
    unfold dict_item. rewrite Hnone. reflexivity.
  - intros Hidx Hoff Hknown.
    destruct (dict_get (Config.measurements_idxmap cfg) "event_type") as [et |] eqn:Eidx;
      [| congruence].
    destruct (dict_get (Config.vocab_offsets_by_measurement cfg) "event_type")
      as [off |] eqn:Eoff; [| congruence].
    set (body := fun (entry : string * list string) (out_masks : dict (tensor2 bool)) =>
                   let measurement := fst entry in
                   valid_event_types <- dict_item etpm measurement ;;
                   valid_event_type_indices <-
                     map_result (dict_item (Config.event_types_idxmap cfg))
                       valid_event_types ;;
                   mask <- event_type_mask_of
                             (batch_event_type_indices_of batch et off)
                             valid_event_type_indices ;;
                   ret (dict_set out_masks measurement mask)).
    assert (Hin : forall entries : dict (list string),
               (forall entry, In entry entries -> dict_get etpm (fst entry) <> None) ->
               forall st,
                 (existsb (fun entry => match dict_get etpm (fst entry) with
                                        | Some [] => true
                                        | _ => false
                                        end) entries = true ->
                  for_each entries body st = inl RuntimeError)
                 /\ (existsb (fun entry => match dict_get etpm (fst entry) with
                                           | Some [] => true
                                           | _ => false
                                           end) entries = false ->
                     exists st', for_each entries body st = inr st')).
    { intros entries Hkeys.
      induction entries as [| entry entries IH]; intros st; simpl.
      - split; [discriminate | intros _; eexists; reflexivity].
      - assert (Hk := Hkeys entry (or_introl eq_refl)).
        destruct (dict_get etpm (fst entry)) as [types |] eqn:E; [| congruence].
        destruct (map_result_exists (dict_item (Config.event_types_idxmap cfg)) types)
          as [ids Hids].
        { intros t Ht. unfold dict_item.
          destruct (dict_get (Config.event_types_idxmap cfg) t) eqn:Et;
            [eexists; reflexivity |].
          exfalso. exact (Hknown (fst entry) types t E Ht Et). }
        pose proof (map_result_length _ _ _ Hids) as Hlen.
        unfold body at 1 3. unfold dict_item at 1 3. rewrite E. cbn [bind ret].
        rewrite Hids. cbn [bind].
        destruct types as [| t types].
        + destruct ids; [| discriminate]. simpl.
          split; [reflexivity | discriminate].
        + destruct ids as [| i ids]; [discriminate |]. simpl.
          apply IH. intros entry' Hentry. apply Hkeys. right; exact Hentry. }
    destruct (Hin etpm) with (st := @nil (string * tensor2 bool)) as [H1 H2].
    { intros entry Hentry. apply dict_get_In_keys. unfold dict_keys.
      apply in_map. exact Hentry. }
    assert (Heq : get_event_type_mask_per_measurement self batch
                  = bind (for_each etpm body [])
                      (fun out_masks => ret (Some out_masks))).
    { unfold get_event_type_mask_per_measurement. fold cfg. rewrite He.
      unfold dict_item at 1 2. rewrite Eidx, Eoff. reflexivity. }
    rewrite Heq. split.
    + intros Hex. rewrite (H1 Hex). reflexivity.
    + intros Hex. destruct (H2 Hex) as [masks Hm]. exists masks.
      rewrite Hm. reflexivity.
Qed.

End MaskErrors.

Lemma event_type_mask_errors_witness :
  exists masks,
    get_event_type_mask_per_measurement Example.nested_layer Example.batch
    = inr (Some masks).
Proof.
  destruct (event_type_mask_errors Example.nested_layer Example.batch _ eq_refl)
    as [_ H].
  apply H; try discriminate; try reflexivity.
  intros m types t Hm Ht. apply dict_get_In in Hm.
  vm_compute in Hm.
  repeat (destruct Hm as [Hm | Hm]; [inversion Hm; subst; clear Hm |]);
    [| | | contradiction];
    simpl in Ht; intuition (subst; discriminate).
Defined.


(* ===================================================================== *)
(** ** The labels and the losses of the classification head *)
(* ===================================================================== *)

Lemma get2_map3 {A B} (f : A -> B) (t : tensor3 A) (b s : nat) :
  get2 (Tensor.map3 f t) b s = option_map (map f) (get2 t b s).
Proof.
  unfold Tensor.map3.
  etransitivity; [exact (get2_map_rows (Tensor.map2 f) t b s) |]. unfold get2.
  destruct (nth_error t b) as [row |]; [| reflexivity].
  unfold Tensor.map2. apply nth_error_map.
Qed.

Lemma get2_zip_with3 {A B C} (f : A -> B -> C) (x : tensor3 A) (y : tensor3 B) (b s : nat) :
  get2 (Tensor.zip_with3 f x y) b s
  = match get2 x b s, get2 y b s with
    | Some a, Some c => Some (Tensor.zip_with f a c)
    | _, _ => None
    end.
Proof.
  change (Tensor.zip_with3 f x y) with (Tensor.zip_with2 (Tensor.zip_with f) x y).
  apply get2_zip_with2.
Qed.

Lemma combine_nth_error {A B} (x : list A) (y : list B) (i : nat) :
  nth_error (combine x y) i
  = match nth_error x i, nth_error y i with
    | Some a, Some b => Some (a, b)
    | _, _ => None
    end.
Proof.
  revert y i. induction x as [| a x IH]; intros [| b y] [| i]; simpl; try reflexivity.
  - destruct (nth_error x i); reflexivity.
  - apply IH.
Qed.

Lemma fold_add_acc (l : list Z) (a : Z) : fold_left Z.add l a = a + fold_left Z.add l 0.
Proof.
  revert a. induction l as [| x l IH]; intros a; simpl; [lia |].
  rewrite (IH (a + x)), (IH x). lia.
Qed.

Lemma wrap64_small (z : Z) : - 2 ^ 63 <= z < 2 ^ 63 -> wrap64 z = z.
Proof.
  intros H. unfold wrap64. rewrite Z.mod_small; lia.
Qed.

(** The sum [(dynamic_indices * tensor_idx).sum(-1)] of one event. *)
Definition masked_index_sum (measurement_idx : Z) (indices meas : list Z) : Z :=
  fold_left Z.add
    (Tensor.zip_with (fun i (b : bool) => i * (if b then 1 else 0)) indices
       (map (fun i => i =? measurement_idx) meas)) 0.

Lemma masked_index_sum_cons (midx i m : Z) (indices meas : list Z) :
  masked_index_sum midx (i :: indices) (m :: meas)
  = (if m =? midx then i else 0) + masked_index_sum midx indices meas.
Proof.
  unfold masked_index_sum, Tensor.zip_with. simpl.
  rewrite fold_add_acc. destruct (m =? midx); lia.
Qed.

Lemma masked_index_sum_none (midx : Z) (indices meas : list Z) :
  ~ In midx meas -> masked_index_sum midx indices meas = 0.
Proof.
  revert meas. induction indices as [| i indices IH]; intros [| m meas] Hn;
    try reflexivity.
  rewrite masked_index_sum_cons, IH.
  - destruct (m =? midx) eqn:E; [| reflexivity].
    apply Z.eqb_eq in E. exfalso. apply Hn. left. exact E.
  - intros Hin. apply Hn. right. exact Hin.
Qed.

Lemma masked_index_sum_one (midx : Z) (indices meas : list Z) (k : nat) (i : Z) :
  nth_error meas k = Some midx ->
  nth_error indices k = Some i ->
  (forall k', k' <> k -> nth_error meas k' <> Some midx) ->
  masked_index_sum midx indices meas = i.
Proof.
  revert meas k. induction indices as [| i0 indices IH]; intros [| m meas] k Hm Hi Hu;
    try (destruct k; discriminate).
  rewrite masked_index_sum_cons. destruct k as [| k]; simpl in Hm, Hi.
  - inversion Hm; inversion Hi; subst. rewrite Z.eqb_refl.
    rewrite masked_index_sum_none; [lia |].
    intros Hin. apply In_nth_error in Hin. destruct Hin as [k' Hk'].
    apply (Hu (S k')); [discriminate | exact Hk'].
  - destruct (m =? midx) eqn:E.
    + apply Z.eqb_eq in E. subst m. exfalso. apply (Hu 0%nat); [discriminate | reflexivity].
    + rewrite (IH meas k Hm Hi); [lia |].
      intros k' Hk' H. apply (Hu (S k')); [congruence | exact H].
Qed.

Lemma existsb_matches (midx : Z) (meas : list Z) :
  existsb (fun b : bool => b) (map (fun i => i =? midx) meas) = true <-> In midx meas.
Proof.
  rewrite existsb_exists. split.
  - intros [b [Hin Hb]]. subst b. apply in_map_iff in Hin.
    destruct Hin as [m [E Hm]]. apply Z.eqb_eq in E. subst m. exact Hm.
  - intros Hin. exists true. split; [| reflexivity].
    apply in_map_iff. exists midx. split; [apply Z.eqb_refl | exact Hin].
Qed.

(** The single-label labels (lines 242-247): an event without a slot of the
    measurement gets label 0, the label of the first vocabulary element, and is told
    apart only by the event mask; an event with exactly one such slot gets the slot's
    index minus the start of the measurement's vocabulary. *)
Lemma single_label_labels_entry (dynamic_indices dynamic_measurement_indices : tensor3 Z)
  (measurement_idx vocab_start : Z) (b s : nat) (indices meas : list Z) :
  get2 dynamic_indices b s = Some indices ->
  get2 dynamic_measurement_indices b s = Some meas ->
  let labels :=
    single_label_labels dynamic_indices
      (Tensor.map3 (fun i => i =? measurement_idx) dynamic_measurement_indices)
      vocab_start in
  (~ In measurement_idx meas -> get2 labels b s = Some 0)
  /\ (forall k i,
        nth_error meas k = Some measurement_idx ->
        nth_error indices k = Some i ->
        (forall k', k' <> k -> nth_error meas k' <> Some measurement_idx) ->
        - 2 ^ 63 <= i - vocab_start < 2 ^ 63 ->
        get2 labels b s = Some (i - vocab_start)).
Proof.
  intros Hi Hm labels.
  assert (E : get2 labels b s
              = Some (wrap64 ((masked_index_sum measurement_idx indices meas - vocab_start)
                              * (if existsb (fun b : bool => b)
                                      (map (fun i => i =? measurement_idx) meas)
                                 then 1 else 0)))).
  { unfold labels, single_label_labels. rewrite get2_zip_with2, get2_map3, Hi, Hm.
    reflexivity. }
  rewrite E. split.
  - intros Hn. destruct (existsb _ _) eqn:Ex.
    + apply existsb_matches in Ex. contradiction.
    + rewrite Z.mul_0_r. reflexivity.
  - intros k i Hk Hik Hu Hr.
    rewrite (masked_index_sum_one measurement_idx indices meas k i Hk Hik Hu).
    assert (Ex : existsb (fun b : bool => b) (map (fun i => i =? measurement_idx) meas)
                 = true).
    { apply existsb_matches. apply (nth_error_In _ k). exact Hk. }
    rewrite Ex, Z.mul_1_r, wrap64_small; [reflexivity | exact Hr].
Qed.

(** [zeros(1 + width).scatter(index, 1)] entry by entry. *)
Lemma scatter_ones_spec {SC : Scalar} (width : nat) (index : list Z) (labels : list F) :
  scatter_ones width index = inr labels ->
  List.length labels = Datatypes.S width
  /\ (forall i, In i index -> 0 <= i <= Z.of_nat width)
  /\ forall j, (j <= width)%nat ->
       nth_error labels j
       = Some (if existsb (Z.eqb (Z.of_nat j)) index then fone else fzero).
Proof.
  unfold scatter_ones. intros H.
  destruct (forallb (fun i => (0 <=? i) && (i <=? Z.of_nat width)) index) eqn:E;
    [| discriminate].
  assert (Hl : labels
               = map (fun j => if existsb (Z.eqb (Z.of_nat j)) index then fone else fzero)
                   (seq 0 (Datatypes.S width))) by (unfold ret in H; congruence).
  clear H. subst labels.
  split; [rewrite length_map, length_seq; reflexivity |].
  split.
  - intros i Hi. rewrite forallb_forall in E. specialize (E i Hi).
    apply andb_true_iff in E. destruct E as [E1 E2].
    apply Z.leb_le in E1, E2. lia.
  - intros j Hj. rewrite nth_error_map.
    rewrite (nth_error_nth' (seq 0 (Datatypes.S width)) 0%nat)
      by (rewrite length_seq; lia).
    rewrite seq_nth by lia. reflexivity.
Qed.

Lemma scatter_ones_raises {SC : Scalar} (width : nat) (index : list Z) (e : exn) :
  scatter_ones width index = inl e ->
  e = RuntimeError /\ exists i, In i index /\ ~ 0 <= i <= Z.of_nat width.
Proof.
  unfold scatter_ones. intros H.
  destruct (forallb (fun i => (0 <=? i) && (i <=? Z.of_nat width)) index) eqn:E;
    [discriminate |].
  inversion H; subst e. split; [reflexivity |].
  assert (Hex : existsb (fun i => negb ((0 <=? i) && (i <=? Z.of_nat width))) index
                = true).
  { clear H. induction index as [| i index IH]; simpl in *; [discriminate |].
    destruct ((0 <=? i) && (i <=? Z.of_nat width)); simpl in *; [apply IH; exact E |].
    reflexivity. }
  apply existsb_exists in Hex. destruct Hex as [i [Hi Hn]].
  exists i. split; [exact Hi |]. intros [H1 H2].
  apply negb_true_iff in Hn. apply andb_false_iff in Hn.
  destruct Hn as [Hn | Hn]; apply Z.leb_gt in Hn; lia.
Qed.

(** The slots of one event that carry a label of the measurement: index [0] for a
    slot of another measurement, the index within the vocabulary plus one otherwise. *)
Lemma data_labels_exists (measurement_idx vocab_start : Z) (meas indices : list Z) (j : Z) :
  0 < j ->
  (existsb (Z.eqb j)
     (Tensor.zip_with (fun (b : bool) i => if b then wrap64 (i - vocab_start + 1) else 0)
        (map (fun i => i =? measurement_idx) meas) indices) = true
   <-> exists k i,
         nth_error meas k = Some measurement_idx /\ nth_error indices k = Some i
         /\ wrap64 (i - vocab_start + 1) = j).
Proof.
  intros Hj. rewrite existsb_exists. split.
  - intros [x [Hx E]]. apply Z.eqb_eq in E. subst x.
    destruct (In_nth_error _ _ Hx) as [k Hk].
    rewrite zip_with_nth, nth_error_map in Hk.
    destruct (nth_error meas k) as [m |] eqn:Em; [| discriminate].
    destruct (nth_error indices k) as [i |] eqn:Ei; [| discriminate].
    simpl in Hk. destruct (m =? measurement_idx) eqn:E.
    + apply Z.eqb_eq in E. subst m. inversion Hk. exists k, i. auto.
    + inversion Hk. lia.
  - intros [k [i [Em [Ei E]]]]. exists j. split; [| apply Z.eqb_refl].
    apply (nth_error_In _ k). rewrite zip_with_nth, nth_error_map, Em, Ei. simpl.
    rewrite Z.eqb_refl, E. reflexivity.
Qed.

Lemma multi_label_labels_eq {SC : Scalar} (scores : tensor3 F) (dynamic_indices : tensor3 Z)
  (tensor_idx : tensor3 bool) (vocab_start : Z) :
  multi_label_labels scores dynamic_indices tensor_idx vocab_start
  = map_result
      (map_result (fun p => labels <- scatter_ones (List.length (fst p)) (snd p) ;;
                            ret (tl labels)))
      (Tensor.zip_with2 pair scores
         (Tensor.zip_with3
            (fun (b : bool) i => if b then wrap64 (i - vocab_start + 1) else 0)
            tensor_idx dynamic_indices)).
Proof.
  unfold multi_label_labels, Tensor.zip_with2. unfold Tensor.zip_with at 1.
  rewrite map_result_map. apply map_result_ext. intros rows _.
  unfold Tensor.zip_with. rewrite map_result_map. apply map_result_ext.
  intros p _. reflexivity.
Qed.

(** The multi-label labels (lines 250-262) of one event: one entry per class of the
    measurement's slice, 1 exactly for the classes that a slot of the measurement
    carries. *)
Lemma multi_label_labels_entry {SC : Scalar} (scores : tensor3 F)
  (dynamic_indices dynamic_measurement_indices : tensor3 Z)
  (measurement_idx vocab_start : Z) (labels : tensor3 F) (b s : nat)
  (sc : list F) (indices meas : list Z) :
  multi_label_labels scores dynamic_indices
    (Tensor.map3 (fun i => i =? measurement_idx) dynamic_measurement_indices)
    vocab_start = inr labels ->
  get2 scores b s = Some sc ->
  get2 dynamic_indices b s = Some indices ->
  get2 dynamic_measurement_indices b s = Some meas ->
  exists row,
    get2 labels b s = Some row
    /\ List.length row = List.length sc
    /\ forall j, (j < List.length sc)%nat ->
         exists c : bool,
           nth_error row j = Some (if c then fone else fzero)
           /\ (c = true
               <-> exists k i,
                     nth_error meas k = Some measurement_idx
                     /\ nth_error indices k = Some i
                     /\ wrap64 (i - vocab_start + 1) = Z.of_nat j + 1).
Proof.
  intros H Gs Gi Gm. rewrite multi_label_labels_eq in H.
  destruct (map_result2_get2 _ _ _ b s
              (sc, Tensor.zip_with
                     (fun (b : bool) i => if b then wrap64 (i - vocab_start + 1) else 0)
                     (map (fun i => i =? measurement_idx) meas) indices) H)
    as [row [G1 G2]].
  { rewrite get2_zip_with2, Gs, get2_zip_with3, get2_map3, Gm, Gi. reflexivity. }
  cbn [fst snd] in G2. inv_bind G2. inversion G2; subst row; clear G2.
  destruct (scatter_ones_spec _ _ _ Hx) as [L1 [_ L3]].
  exists (tl x). split; [exact G1 |]. split.
  { destruct x; simpl in *; lia. }
  intros j Hj.
  exists (existsb (Z.eqb (Z.of_nat (Datatypes.S j)))
            (Tensor.zip_with
               (fun (b : bool) i => if b then wrap64 (i - vocab_start + 1) else 0)
               (map (fun i => i =? measurement_idx) meas) indices)).
  split.
  - rewrite <- (L3 (Datatypes.S j)) by lia. destruct x; [discriminate | reflexivity].
  - rewrite (data_labels_exists measurement_idx vocab_start meas indices
               (Z.of_nat (Datatypes.S j))) by lia.
    replace (Z.of_nat (Datatypes.S j)) with (Z.of_nat j + 1) by lia. reflexivity.
Qed.

Section ClassificationOutputs.
Context {SC : Scalar}.
Variable K : Kernels.
Variable self : Layer.t.

Let cfg : Config.t := Layer.config self.

(** One iteration of the loop of [get_classification_outputs] for a valid
    measurement, step by step. *)
Lemma classify_measurement_steps (batch : Batch) (scores : tensor3 F)
  (valid : list string) (etm : option (dict (tensor2 bool)))
  (m : string) (mode : DataModality) (acc acc' : classification_outputs K) :
  classify_measurement K self batch scores valid etm (m, mode) acc = inr acc' ->
  str_in m valid = true ->
  exists event_mask measurement_idx vocab_start vocab_end criterion l d lab,
    event_mask_for batch etm m = inr event_mask
    /\ dict_get (Config.measurements_idxmap cfg) m = Some measurement_idx
    /\ dict_get (Config.vocab_offsets_by_measurement cfg) m = Some vocab_start
    /\ vocab_end_of self vocab_start = inr vocab_end
    /\ dict_get (Layer.classification_criteria self) m = Some criterion
    /\ acc' = (dict_set (fst (fst acc)) m l, dict_set (snd (fst acc)) m d,
               dict_set (snd acc) m lab)
    /\ let sliced := Tensor.map2 (slice vocab_start vocab_end) scores in
       let tensor_idx :=
         Tensor.map3 (fun i => i =? measurement_idx) (dynamic_measurement_indices batch) in
       (mode = SINGLE_LABEL_CLASSIFICATION
        /\ exists loss_per_event,
             lab = LongLabels (single_label_labels (dynamic_indices batch) tensor_idx
                                 vocab_start)
             /\ criterion_on_indices K criterion sliced
                  (single_label_labels (dynamic_indices batch) tensor_idx vocab_start)
                = inr loss_per_event
             /\ Categorical K sliced = inr d
             /\ weighted_loss K loss_per_event
                  (Tensor.zip_with2 andb event_mask
                     (Tensor.map2 (existsb (fun b : bool => b)) tensor_idx))
                = inr l)
       \/ (mode = MULTI_LABEL_CLASSIFICATION
           /\ exists labels loss_per_label,
                lab = FloatLabels labels
                /\ multi_label_labels sliced (dynamic_indices batch) tensor_idx vocab_start
                   = inr labels
                /\ criterion_on_targets K criterion sliced labels = inr loss_per_label
                /\ Bernoulli K sliced = inr d
                /\ weighted_loss K (Tensor.map2 fmean loss_per_label) event_mask = inr l).
Proof.
  unfold classify_measurement. fold cfg. cbn [fst snd]. intros H E. rewrite E in H.
  cbn [negb] in H.
  inv_bind H. inv_bind H. inv_bind H. inv_bind H. inv_bind H. inv_bind H.
  inversion H; subst acc'; clear H.
  apply dict_item_inr in Hx0, Hx1.
  destruct mode.
  - inv_bind Hx3. inv_bind Hx3. inv_bind Hx3. inversion Hx3; subst x3; clear Hx3.
    apply dict_item_inr in Hx5. cbn [fst snd] in *.
    exists x, x0, x1, x2, x5, x4, x7, (LongLabels
      (single_label_labels (dynamic_indices batch)
         (Tensor.map3 (fun i => i =? x0) (dynamic_measurement_indices batch)) x1)).
    repeat (split; [assumption || reflexivity |]).
    left. split; [reflexivity |]. exists x6. auto.
  - inv_bind Hx3. inv_bind Hx3. inv_bind Hx3. inv_bind Hx3.
    inversion Hx3; subst x3; clear Hx3.
    apply dict_item_inr in Hx6. cbn [fst snd] in *.
    exists x, x0, x1, x2, x6, x4, x8, (FloatLabels x5).
    repeat (split; [assumption || reflexivity |]).
    right. split; [reflexivity |]. exists x5, x7. auto.
  - discriminate.
Qed.

(** An iteration for another measurement leaves the entries of [m] alone. *)
Lemma classification_loop_untouched (batch : Batch) (scores : tensor3 F)
  (valid : list string) (etm : option (dict (tensor2 bool))) (m : string)
  (entries : list (string * DataModality)) :
  ~ In m (map fst entries) ->
  forall acc out,
    for_each entries (classify_measurement K self batch scores valid etm) acc = inr out ->
    dict_get (fst (fst out)) m = dict_get (fst (fst acc)) m
    /\ dict_get (snd (fst out)) m = dict_get (snd (fst acc)) m
    /\ dict_get (snd out) m = dict_get (snd acc) m.
Proof.
  induction entries as [| entry entries IH]; intros Hn acc out H; simpl in H.
  - inversion H; subst. auto.
  - inv_bind H.
    destruct (IH (fun Hin => Hn (or_intror Hin)) x out H) as [I1 [I2 I3]].
    rewrite I1, I2, I3.
    apply classify_measurement_spec in Hx.
    destruct Hx as [[_ E] | [_ [l [d [lab [vs [ve [E _]]]]]]]]; subst x; [auto |].
    cbn [fst snd].
    assert (Hne : m <> fst entry) by (intros E; apply Hn; left; congruence).
    rewrite !dict_get_set_other by exact Hne. auto.
Qed.

(** With one entry per measurement, what the loop returns for a valid measurement is
    what the measurement's iteration has set. *)
Lemma classification_loop_entry (batch : Batch) (scores : tensor3 F)
  (valid : list string) (etm : option (dict (tensor2 bool))) (m : string)
  (mode : DataModality) (entries : list (string * DataModality)) :
  NoDup (map fst entries) ->
  In (m, mode) entries ->
  forall acc out,
    for_each entries (classify_measurement K self batch scores valid etm) acc = inr out ->
    exists acc0 acc1,
      classify_measurement K self batch scores valid etm (m, mode) acc0 = inr acc1
      /\ dict_get (fst (fst out)) m = dict_get (fst (fst acc1)) m
      /\ dict_get (snd (fst out)) m = dict_get (snd (fst acc1)) m
      /\ dict_get (snd out) m = dict_get (snd acc1) m.
Proof.
  induction entries as [| entry entries IH]; intros Hnd Hin acc out H; [destruct Hin |].
  simpl in H. inv_bind H. simpl in Hnd. inversion Hnd as [| ? ? Hnot Hrest]; subst.
  destruct Hin as [E | Hin].
  - subst entry. exists acc, x. split; [exact Hx |].
    exact (classification_loop_untouched batch scores valid etm m entries Hnot x out H).
  - exact (IH Hrest Hin x out H).
Qed.

End ClassificationOutputs.

Lemma get2_map2 {A B} (g : A -> B) (t : tensor2 A) (b s : nat) :
  get2 (Tensor.map2 g t) b s = option_map g (get2 t b s).
Proof.
  unfold Tensor.map2. rewrite get2_map_rows. unfold get2.
  destruct (nth_error t b) as [row |]; [| reflexivity]. apply nth_error_map.
Qed.

Lemma existsb_id_map {A} (p : A -> bool) (l : list A) :
  existsb (fun b : bool => b) (map p l) = existsb p l.
Proof. induction l as [| a l IH]; simpl; [reflexivity | now rewrite IH]. Qed.

Section ClassificationLosses.
Context {SC : Scalar}.
Variable K : Kernels.
Variable self : Layer.t.

Let cfg : Config.t := Layer.config self.

(** The mask under which the loss of a measurement is averaged over the events of
    the batch: the event mask, restricted to the event types of the measurement when
    such masks are given. *)
Lemma event_mask_for_entry (batch : Batch) (etm : option (dict (tensor2 bool)))
  (m : string) (event_mask_m : tensor2 bool) :
  event_mask_for batch etm m = inr event_mask_m ->
  (etm = None -> event_mask_m = event_mask batch)
  /\ (forall masks, etm = Some masks ->
        exists mm,
          dict_get masks m = Some mm
          /\ forall b s a e,
               get2 mm b s = Some a -> get2 (event_mask batch) b s = Some e ->
               get2 event_mask_m b s = Some (a && e)).
Proof.
  unfold event_mask_for. destruct etm as [masks |]; intros H.
  - split; [discriminate |]. intros masks' E. inversion E; subst masks'.
    inv_bind H. inversion H; subst event_mask_m. apply dict_item_inr in Hx.
    exists x. split; [exact Hx |]. intros b s a e Ha He.
    rewrite get2_zip_with2, Ha, He. reflexivity.
  - inversion H; subst. split; [reflexivity | discriminate].
Qed.

(** What [get_classification_outputs] holds for a valid measurement of the layer
    whose name is declared once, with its mode. *)
Lemma classification_output_of (batch : Batch) (x : tensor3 F) (valid : list string)
  (etm : option (dict (tensor2 bool))) (out : classification_outputs K)
  (m : string) (mode : DataModality) :
  NoDup (dict_keys (Layer.classification_mode_per_measurement self)) ->
  dict_get (Layer.classification_mode_per_measurement self) m = Some mode ->
  In m valid ->
  get_classification_outputs K self batch x valid etm = inr out ->
  exists scores acc0 acc1,
    map_result (map_result (ClassificationLayer K)) x = inr scores
    /\ classify_measurement K self batch scores valid etm (m, mode) acc0 = inr acc1
    /\ dict_get (fst (fst out)) m = dict_get (fst (fst acc1)) m
    /\ dict_get (snd (fst out)) m = dict_get (snd (fst acc1)) m
    /\ dict_get (snd out) m = dict_get (snd acc1) m.
Proof.
  intros Hnd Hm Hv H. unfold get_classification_outputs in H.
  destruct valid as [| v0 valid']; [destruct Hv |].
  inv_bind H. exists x0.
  destruct (classification_loop_entry K self batch x0 (v0 :: valid') etm m mode
              (Layer.classification_mode_per_measurement self) Hnd (dict_get_In _ _ _ Hm)
              _ _ H) as [acc0 [acc1 Hacc]].
  exists acc0, acc1. split; [exact Hx | exact Hacc].
Qed.

End ClassificationLosses.

Lemma fold_min_least (l : list Z) (x : Z) :
  In (fold_left Z.min l x) (x :: l)
  /\ forall o, In o (x :: l) -> fold_left Z.min l x <= o.
Proof.
  revert x. induction l as [| y l IH]; intros x; simpl.
  - split; [left; reflexivity |]. intros o [E | []]. subst. lia.
  - destruct (IH (Z.min x y)) as [I1 I2]. split.
    + destruct I1 as [E | I1]; [| right; right; exact I1].
      rewrite <- E. destruct (Z.min_spec x y) as [[_ E'] | [_ E']]; rewrite E'; auto.
    + intros o [E | [E | Ho]].
      * subst o. specialize (I2 (Z.min x y) (or_introl eq_refl)). lia.
      * subst o. specialize (I2 (Z.min x y) (or_introl eq_refl)). lia.
      * apply I2. right. exact Ho.
Qed.

Section ClassificationTheorems.
Context {SC : Scalar}.
Variable K : Kernels.
Variable self : Layer.t.

Let cfg : Config.t := Layer.config self.

(** The end of a measurement's slice is the least offset beyond its start, among the
    offsets of all measurements and the size of the vocabulary. *)
Lemma vocab_end_of_least (vocab_start vocab_end : Z) :
  vocab_end_of self vocab_start = inr vocab_end ->
  let ends := (dict_values (Config.vocab_offsets_by_measurement cfg)
                 ++ [Config.vocab_size cfg])%list in
  In vocab_end ends /\ vocab_start < vocab_end
  /\ forall o, In o ends -> vocab_start < o -> vocab_end <= o.
Proof.
  intros H. cbv zeta. unfold vocab_end_of in H. fold cfg in H.
  set (ends := (dict_values (Config.vocab_offsets_by_measurement cfg)
                  ++ [Config.vocab_size cfg])%list) in *.
  destruct (filter (fun o => o >? vocab_start) ends) as [| o0 rest] eqn:Ef;
    [discriminate |].
  simpl in H. assert (Hv : fold_left Z.min rest o0 = vocab_end) by (unfold ret in H; congruence).
  clear H.
  destruct (fold_min_least rest o0) as [I1 I2]. rewrite Hv in I1, I2.
  rewrite <- Ef in I1. apply filter_In in I1. destruct I1 as [I1 Hgt].
  split; [exact I1 |]. split; [lia |].
  intros o Ho Hlt. apply I2. rewrite <- Ef. apply filter_In. split; [exact Ho | lia].
Qed.

(** X: the single-label head.  For a valid measurement the layer declares once, as
    single-label classification, the labels are the measurement's index relative to
    its offset in the events that hold exactly one such index and 0 in the events
    that hold none; the loss is the weighted average of the criterion's losses on
    these labels over the events that are real, hold the measurement and, where
    event-type masks are given, are of a type of the measurement. *)
Theorem single_label_classification_loss (batch : Batch) (x : tensor3 F)
  (valid : list string) (etm : option (dict (tensor2 bool)))
  (out : classification_outputs K) (m : string) :
  NoDup (dict_keys (Layer.classification_mode_per_measurement self)) ->
  dict_get (Layer.classification_mode_per_measurement self) m
  = Some SINGLE_LABEL_CLASSIFICATION ->
  In m valid ->
  get_classification_outputs K self batch x valid etm = inr out ->
  exists scores measurement_idx vocab_start vocab_end criterion labels loss_per_event
         mask l,
    map_result (map_result (ClassificationLayer K)) x = inr scores
    /\ dict_get (Config.measurements_idxmap cfg) m = Some measurement_idx
    /\ dict_get (Config.vocab_offsets_by_measurement cfg) m = Some vocab_start
    /\ (let ends := (dict_values (Config.vocab_offsets_by_measurement cfg)
                       ++ [Config.vocab_size cfg])%list in
        In vocab_end ends /\ vocab_start < vocab_end
        /\ forall o, In o ends -> vocab_start < o -> vocab_end <= o)
    /\ dict_get (Layer.classification_criteria self) m = Some criterion
    /\ dict_get (snd out) m = Some (LongLabels labels)
    /\ (forall b s indices meas,
          get2 (dynamic_indices batch) b s = Some indices ->
          get2 (dynamic_measurement_indices batch) b s = Some meas ->
          (~ In measurement_idx meas -> get2 labels b s = Some 0)
          /\ (forall k i,
                nth_error meas k = Some measurement_idx ->
                nth_error indices k = Some i ->
                (forall k', k' <> k -> nth_error meas k' <> Some measurement_idx) ->
                - 2 ^ 63 <= i - vocab_start < 2 ^ 63 ->
                get2 labels b s = Some (i - vocab_start)))
    /\ criterion_on_indices K criterion
         (Tensor.map2 (slice vocab_start vocab_end) scores) labels = inr loss_per_event
    /\ (etm = None ->
        forall b s e meas,
          get2 (event_mask batch) b s = Some e ->
          get2 (dynamic_measurement_indices batch) b s = Some meas ->
          get2 mask b s = Some (e && existsb (fun i => i =? measurement_idx) meas))
    /\ (forall masks, etm = Some masks ->
          exists mm,
            dict_get masks m = Some mm
            /\ forall b s a e meas,
                 get2 mm b s = Some a ->
                 get2 (event_mask batch) b s = Some e ->
                 get2 (dynamic_measurement_indices batch) b s = Some meas ->
                 get2 mask b s
                 = Some ((a && e) && existsb (fun i => i =? measurement_idx) meas))
    /\ weighted_loss K loss_per_event mask = inr l
    /\ dict_get (fst (fst out)) m = Some l.
Proof.
  intros Hnd Hm Hv H.
  destruct (classification_output_of K self batch x valid etm out m _ Hnd Hm Hv H)
    as [scores [acc0 [acc1 [Hs [Hcm [G1 [_ G3]]]]]]].
  destruct (classify_measurement_steps K self batch scores valid etm m _ acc0 acc1 Hcm
              (proj2 (str_in_In m valid) Hv))
    as [em [midx [vs [ve [crit [l [d [lab [Hem [Hi [Hvs [Hve [Hc [Eacc Hmode]]]]]]]]]]]]]].
  fold cfg in Hi, Hvs.
  destruct Hmode as [[_ [lpe [Elab [Hlpe [_ Hl]]]]] | [Emode _]]; [| discriminate].
  subst acc1. cbn [fst snd] in G1, G3. rewrite dict_get_set_same in G1, G3.
  destruct (event_mask_for_entry batch etm m em Hem) as [M1 M2].
  exists scores, midx, vs, ve, crit,
    (single_label_labels (dynamic_indices batch)
       (Tensor.map3 (fun i => i =? midx) (dynamic_measurement_indices batch)) vs),
    lpe,
    (Tensor.zip_with2 andb em
       (Tensor.map2 (existsb (fun b : bool => b))
          (Tensor.map3 (fun i => i =? midx) (dynamic_measurement_indices batch)))),
    l.
  split; [exact Hs |]. split; [exact Hi |]. split; [exact Hvs |].
  split; [exact (vocab_end_of_least vs ve Hve) |]. split; [exact Hc |].
  split; [rewrite G3, Elab; reflexivity |].
  split; [intros b s indices meas Hind Hmeas;
          exact (single_label_labels_entry _ _ midx vs b s indices meas Hind Hmeas) |].
  split; [exact Hlpe |].
  split; [| split; [| split; [exact Hl | exact G1]]].
  - intros En b s e meas He Hmeas. rewrite (M1 En).
    rewrite get2_zip_with2, He, get2_map2, get2_map3, Hmeas. simpl.
    rewrite existsb_id_map. reflexivity.
  - intros masks En. destruct (M2 masks En) as [mm [Hmm Hent]].
    exists mm. split; [exact Hmm |]. intros b s a e meas Ha He Hmeas.
    rewrite get2_zip_with2, (Hent b s a e Ha He), get2_map2, get2_map3, Hmeas. simpl.
    rewrite existsb_id_map. reflexivity.
Qed.

(** X: the multi-label head.  For a valid measurement the layer declares once, as
    multi-label classification, the labels of an event mark, over the measurement's
    slice of the vocabulary, the classes of the indices the event holds for the
    measurement; the loss is the weighted average of the criterion's losses, averaged
    over the classes, over the events that are real and, where event-type masks are
    given, are of a type of the measurement, whether they hold a label or not. *)
Theorem multi_label_classification_loss (batch : Batch) (x : tensor3 F)
  (valid : list string) (etm : option (dict (tensor2 bool)))
  (out : classification_outputs K) (m : string) :
  NoDup (dict_keys (Layer.classification_mode_per_measurement self)) ->
  dict_get (Layer.classification_mode_per_measurement self) m
  = Some MULTI_LABEL_CLASSIFICATION ->
  In m valid ->
  get_classification_outputs K self batch x valid etm = inr out ->
  exists scores measurement_idx vocab_start vocab_end criterion labels loss_per_label
         mask l,
    map_result (map_result (ClassificationLayer K)) x = inr scores
    /\ dict_get (Config.measurements_idxmap cfg) m = Some measurement_idx
    /\ dict_get (Config.vocab_offsets_by_measurement cfg) m = Some vocab_start
    /\ (let ends := (dict_values (Config.vocab_offsets_by_measurement cfg)
                       ++ [Config.vocab_size cfg])%list in
        In vocab_end ends /\ vocab_start < vocab_end
        /\ forall o, In o ends -> vocab_start < o -> vocab_end <= o)
    /\ dict_get (Layer.classification_criteria self) m = Some criterion
    /\ dict_get (snd out) m = Some (FloatLabels labels)
    /\ (forall b s sc indices meas,
          get2 (Tensor.map2 (slice vocab_start vocab_end) scores) b s = Some sc ->
          get2 (dynamic_indices batch) b s = Some indices ->
          get2 (dynamic_measurement_indices batch) b s = Some meas ->
          exists row,
            get2 labels b s = Some row
            /\ List.length row = List.length sc
            /\ forall j, (j < List.length sc)%nat ->
                 exists c : bool,
                   nth_error row j = Some (if c then fone else fzero)
                   /\ (c = true
                       <-> exists k i,
                             nth_error meas k = Some measurement_idx
                             /\ nth_error indices k = Some i
                             /\ wrap64 (i - vocab_start + 1) = Z.of_nat j + 1))
    /\ criterion_on_targets K criterion
         (Tensor.map2 (slice vocab_start vocab_end) scores) labels = inr loss_per_label
    /\ (etm = None -> mask = event_mask batch)
    /\ (forall masks, etm = Some masks ->
          exists mm,
            dict_get masks m = Some mm
            /\ forall b s a e,
                 get2 mm b s = Some a ->
                 get2 (event_mask batch) b s = Some e ->
                 get2 mask b s = Some (a && e))
    /\ weighted_loss K (Tensor.map2 fmean loss_per_label) mask = inr l
    /\ dict_get (fst (fst out)) m = Some l.
Proof.
  intros Hnd Hm Hv H.
  destruct (classification_output_of K self batch x valid etm out m _ Hnd Hm Hv H)
    as [scores [acc0 [acc1 [Hs [Hcm [G1 [_ G3]]]]]]].
  destruct (classify_measurement_steps K self batch scores valid etm m _ acc0 acc1 Hcm
              (proj2 (str_in_In m valid) Hv))
    as [em [midx [vs [ve [crit [l [d [lab [Hem [Hi [Hvs [Hve [Hc [Eacc Hmode]]]]]]]]]]]]]].
  fold cfg in Hi, Hvs.
  destruct Hmode as [[Emode _] | [_ [labels [lpl [Elab [Hlabels [Hlpl [_ Hl]]]]]]]];
    [discriminate |].
  subst acc1. cbn [fst snd] in G1, G3. rewrite dict_get_set_same in G1, G3.
  destruct (event_mask_for_entry batch etm m em Hem) as [M1 M2].
  exists scores, midx, vs, ve, crit, labels, lpl, em, l.
  split; [exact Hs |]. split; [exact Hi |]. split; [exact Hvs |].
  split; [exact (vocab_end_of_least vs ve Hve) |]. split; [exact Hc |].
  split; [rewrite G3, Elab; reflexivity |].
  split; [intros b s sc indices meas Hsc Hind Hmeas;
          exact (multi_label_labels_entry _ _ _ midx vs labels b s sc indices meas
                   Hlabels Hsc Hind Hmeas) |].
  split; [exact Hlpl |]. split; [exact M1 |]. split; [exact M2 |].
  split; [exact Hl | exact G1].
Qed.

End ClassificationTheorems.

Lemma single_label_classification_loss_witness :
  exists out labels,
    get_classification_outputs (Example.kernels 7) Example.independent_layer Example.batch
      Example.encoded3 ["event_type"; "diagnosis"; "lab"] None = inr out
    /\ dict_get (snd out) "event_type" = Some (LongLabels labels)
    /\ get2 labels 0 1 = Some 1
    /\ get2 labels 0 2 = Some 0.
Proof.
  destruct (get_classification_outputs (Example.kernels 7) Example.independent_layer
              Example.batch Example.encoded3 ["event_type"; "diagnosis"; "lab"] None)
    as [e | out] eqn:E; [vm_compute in E; discriminate |].
  assert (Hnd : NoDup (dict_keys (Layer.classification_mode_per_measurement
                                    Example.independent_layer))).
  { vm_compute. repeat constructor; simpl; intuition discriminate. }
  assert (Hv : In "event_type" ["event_type"; "diagnosis"; "lab"]) by (left; reflexivity).
  destruct (single_label_classification_loss (Example.kernels 7) Example.independent_layer
              Example.batch Example.encoded3 _ None out "event_type" Hnd eq_refl Hv E)
    as [scores [midx [vs [ve [crit [labels [lpe [mask [l
         [_ [Hi [Hvs [_ [_ [Hlab [Hent _]]]]]]]]]]]]]]]].
  assert (Ei : midx = 1) by (vm_compute in Hi; congruence).
  assert (Es : vs = 1) by (vm_compute in Hvs; congruence).
  subst midx vs.
  exists out, labels. split; [reflexivity |]. split; [exact Hlab |]. split.
  - apply (proj2 (Hent 0%nat 1%nat [2; 6] [1; 3] eq_refl eq_refl) 0%nat 2);
      [reflexivity | reflexivity | | lia].
    intros [| [| k']] Hk; [contradiction | discriminate | destruct k'; discriminate].
  - apply (proj1 (Hent 0%nat 2%nat [0; 0] [0; 0] eq_refl eq_refl)).
    simpl. intuition discriminate.
Defined.

Lemma multi_label_classification_loss_witness :
  exists out labels,
    get_classification_outputs (Example.kernels 7) Example.independent_layer Example.batch
      Example.encoded3 ["event_type"; "diagnosis"; "lab"] None = inr out
    /\ dict_get (snd out) "lab" = Some (FloatLabels labels)
    /\ get2 labels 0 1 = Some [1%float].
Proof.
  destruct (get_classification_outputs (Example.kernels 7) Example.independent_layer
              Example.batch Example.encoded3 ["event_type"; "diagnosis"; "lab"] None)
    as [e | out] eqn:E; [vm_compute in E; discriminate |].
  assert (Hnd : NoDup (dict_keys (Layer.classification_mode_per_measurement
                                    Example.independent_layer))).
  { vm_compute. repeat constructor; simpl; intuition discriminate. }
  assert (Hv : In "lab" ["event_type"; "diagnosis"; "lab"]) by (right; right; left; reflexivity).
  destruct (multi_label_classification_loss (Example.kernels 7) Example.independent_layer
              Example.batch Example.encoded3 _ None out "lab" Hnd eq_refl Hv E)
    as [scores [midx [vs [ve [crit [labels [lpl [mask [l
         [_ [_ [_ [_ [_ [Hlab _]]]]]]]]]]]]]]].
  exists out, labels. split; [reflexivity |]. split; [exact Hlab |].
  clear - E Hlab. vm_compute in E. inversion E; subst out; clear E.
  vm_compute in Hlab. inversion Hlab. reflexivity.
Defined.

(* ===================================================================== *)
(** ** The labels and the losses of the regression head *)
(* ===================================================================== *)

(** The entry of a tensor of rank three. *)
Definition get3 {A} (t : tensor3 A) (b s k : nat) : option A :=
  match get2 t b s with
  | Some slots => nth_error slots k
  | None => None
  end.

Lemma get3_zip_with3 {A B C} (f : A -> B -> C) (x : tensor3 A) (y : tensor3 B)
  (b s k : nat) :
  get3 (Tensor.zip_with3 f x y) b s k
  = match get3 x b s k, get3 y b s k with
    | Some a, Some c => Some (f a c)
    | _, _ => None
    end.
Proof.
  unfold get3. rewrite get2_zip_with3.
  destruct (get2 x b s) as [r1 |]; [| reflexivity].
  destruct (get2 y b s) as [r2 |].
  - apply zip_with_nth.
  - destruct (nth_error r1 k); reflexivity.
Qed.

Section RegressionOutputs.
Context {SC : Scalar}.
Variable K : Kernels.
Variable self : Layer.t.

Let cfg : Config.t := Layer.config self.

(** One iteration of the loop of [get_regression_outputs] for a valid measurement,
    step by step. *)
Lemma regress_measurement_steps (batch : Batch) (x : tensor3 F) (valid : list string)
  (is_generation : bool) (etm : option (dict (tensor2 bool))) (m : string)
  (acc acc' : regression_acc K) :
  regress_measurement K self batch x valid is_generation etm m acc = inr acc' ->
  str_in m valid = true ->
  exists event_mask measurement_idx vocab_start d l,
    event_mask_for batch etm m = inr event_mask
    /\ dict_get (Config.measurements_idxmap cfg) m = Some measurement_idx
    /\ dict_get (Config.vocab_offsets_by_measurement cfg) m = Some vocab_start
    /\ let tensor_idx :=
         Tensor.zip_with3 (fun i (o : bool) => (i =? measurement_idx) && o)
           (dynamic_measurement_indices batch) (dynamic_values_mask batch) in
       let indices :=
         Tensor.zip_with3 (fun (o : bool) i => if o then wrap64 (i - vocab_start) else 0)
           tensor_idx (dynamic_indices batch) in
       let values :=
         Tensor.zip_with3 (fun (o : bool) v => if o then v else fzero)
           tensor_idx (dynamic_values batch) in
       regression_layer_forward K m x (if is_generation then None else Some indices) = inr d
       /\ acc' = (dict_set (fst (fst (fst acc))) m l,
                  dict_set (snd (fst (fst acc))) m d,
                  dict_set (snd (fst acc)) m values,
                  dict_set (snd acc) m indices)
       /\ (is_generation = true -> l = None)
       /\ (is_generation = false ->
           exists log_prob loss_per_event loss,
             regression_log_prob K d values = inr log_prob
             /\ safe_weighted_avg K (Tensor.map3 fneg log_prob) tensor_idx
                = inr loss_per_event
             /\ weighted_loss K loss_per_event
                  (Tensor.zip_with2 andb event_mask
                     (Tensor.map2 (existsb (fun o : bool => o)) tensor_idx))
                = inr loss
             /\ l = Some loss).
Proof.
  unfold regress_measurement. fold cfg. intros H E. rewrite E in H. cbn [negb] in H.
  inv_bind H. inv_bind H. inv_bind H. inv_bind H. inv_bind H. inv_bind H.
  inversion H; subst acc'; clear H.
  apply dict_item_inr in Hx0, Hx1.
  exists x0, x1, x2, x4, x5.
  split; [exact Hx |]. split; [exact Hx0 |]. split; [exact Hx1 |]. cbv zeta.
  split; [exact Hx3 |]. split; [reflexivity |].
  destruct is_generation.
  - split; [intros _; unfold ret in Hx4; congruence | discriminate].
  - split; [discriminate | intros _].
    inv_bind Hx4. inv_bind Hx4. inv_bind Hx4.
    exists x6, x7, x8. split; [exact Hx5 |]. split; [exact Hx6 |]. split; [exact Hx7 |].
    unfold ret in Hx4. congruence.
Qed.

Lemma regression_loop_untouched (batch : Batch) (x : tensor3 F) (valid : list string)
  (is_generation : bool) (etm : option (dict (tensor2 bool))) (m : string)
  (ms : list string) :
  ~ In m ms ->
  forall acc out,
    for_each ms (regress_measurement K self batch x valid is_generation etm) acc = inr out ->
    dict_get (fst (fst (fst out))) m = dict_get (fst (fst (fst acc))) m
    /\ dict_get (snd (fst (fst out))) m = dict_get (snd (fst (fst acc))) m
    /\ dict_get (snd (fst out)) m = dict_get (snd (fst acc)) m
    /\ dict_get (snd out) m = dict_get (snd acc) m.
Proof.
  induction ms as [| m0 ms IH]; intros Hn acc out H; simpl in H.
  - inversion H; subst. auto.
  - inv_bind H.
    destruct (IH (fun Hin => Hn (or_intror Hin)) x0 out H) as [I1 [I2 [I3 I4]]].
    rewrite I1, I2, I3, I4.
    apply regress_measurement_spec in Hx.
    destruct Hx as [[_ E] | [_ [l [d [lab [idx [E _]]]]]]]; subst x0; [auto |].
    cbn [fst snd].
    assert (Hne : m <> m0) by (intros E; apply Hn; left; congruence).
    rewrite !dict_get_set_other by exact Hne. auto.
Qed.

(** What the loop returns for a measurement of its list is what the last iteration for
    the measurement has set. *)
Lemma regression_loop_entry (batch : Batch) (x : tensor3 F) (valid : list string)
  (is_generation : bool) (etm : option (dict (tensor2 bool))) (m : string)
  (ms : list string) :
  In m ms ->
  forall acc out,
    for_each ms (regress_measurement K self batch x valid is_generation etm) acc = inr out ->
    exists acc0 acc1,
      regress_measurement K self batch x valid is_generation etm m acc0 = inr acc1
      /\ dict_get (fst (fst (fst out))) m = dict_get (fst (fst (fst acc1))) m
      /\ dict_get (snd (fst (fst out))) m = dict_get (snd (fst (fst acc1))) m
      /\ dict_get (snd (fst out)) m = dict_get (snd (fst acc1)) m
      /\ dict_get (snd out) m = dict_get (snd acc1) m.
Proof.
  induction ms as [| m0 ms IH]; intros Hin acc out H; [destruct Hin |].
  simpl in H. inv_bind H.
  destruct (in_dec string_dec m ms) as [Hrest | Hrest].
  - exact (IH Hrest x0 out H).
  - destruct Hin as [E | Hin]; [| contradiction]. subst m0.
    exists acc, x0. split; [exact Hx |].
    exact (regression_loop_untouched batch x valid is_generation etm m ms Hrest x0 out H).
Qed.

(** X: the regression head outside generation.  For a valid measurement of the
    regression list, an element of an event is observed when it belongs to the
    measurement and holds a value; the labels are the observed values and 0
    elsewhere, the indices are the observed indices relative to the measurement's
    offset and 0 elsewhere; the distribution is the one the measurement's layer
    returns for these indices, and the loss is the weighted average, over the events
    that are real, hold an observed element and, where event-type masks are given, are
    of a type of the measurement, of the averages over the observed elements of the
    negated log-density of the labels. *)
Theorem regression_loss_and_labels (batch : Batch) (x : tensor3 F)
  (valid : list string) (etm : option (dict (tensor2 bool)))
  (out : regression_outputs K) (regression : list string) (m : string) :
  Layer.modes_get (Config.measurements_per_generative_mode cfg) MULTIVARIATE_REGRESSION
  = Some regression ->
  In m regression ->
  In m valid ->
  get_regression_outputs K self batch x valid false etm = inr out ->
  exists measurement_idx vocab_start observed labels indices d log_prob loss_per_event
         mask l all_labels all_indices,
    dict_get (Config.measurements_idxmap cfg) m = Some measurement_idx
    /\ dict_get (Config.vocab_offsets_by_measurement cfg) m = Some vocab_start
    /\ (forall b s k,
          get3 observed b s k
          = match get3 (dynamic_measurement_indices batch) b s k,
                  get3 (dynamic_values_mask batch) b s k with
            | Some i, Some o => Some ((i =? measurement_idx) && o)
            | _, _ => None
            end)
    /\ regression_labels_of out = Some all_labels
    /\ dict_get all_labels m = Some labels
    /\ (forall b s k,
          get3 labels b s k
          = match get3 observed b s k, get3 (dynamic_values batch) b s k with
            | Some o, Some v => Some (if o then v else fzero)
            | _, _ => None
            end)
    /\ regression_indices_of out = Some all_indices
    /\ dict_get all_indices m = Some indices
    /\ (forall b s k,
          get3 indices b s k
          = match get3 observed b s k, get3 (dynamic_indices batch) b s k with
            | Some o, Some i => Some (if o then wrap64 (i - vocab_start) else 0)
            | _, _ => None
            end)
    /\ regression_layer_forward K m x (Some indices) = inr d
    /\ dict_get (regression_dists_of out) m = Some d
    /\ regression_log_prob K d labels = inr log_prob
    /\ safe_weighted_avg K (Tensor.map3 fneg log_prob) observed = inr loss_per_event
    /\ (etm = None ->
        forall b s e slots,
          get2 (event_mask batch) b s = Some e ->
          get2 observed b s = Some slots ->
          get2 mask b s = Some (e && existsb (fun o : bool => o) slots))
    /\ (forall masks, etm = Some masks ->
          exists mm,
            dict_get masks m = Some mm
            /\ forall b s a e slots,
                 get2 mm b s = Some a ->
                 get2 (event_mask batch) b s = Some e ->
                 get2 observed b s = Some slots ->
                 get2 mask b s = Some ((a && e) && existsb (fun o : bool => o) slots))
    /\ weighted_loss K loss_per_event mask = inr l
    /\ dict_get (regression_loss_values_of out) m = Some (Some l).
Proof.
  intros Hreg Hm Hv H. unfold get_regression_outputs, Layer.modes_item in H. fold cfg in H.
  destruct valid as [| v0 valid']; [destruct Hv |].
  rewrite Hreg in H. inv_bind H. unfold ret in Hx. injection Hx as Ex. subst x0.
  inv_bind H. unfold ret in H. injection H as Eo. subst out.
  cbn [regression_loss_values_of regression_dists_of regression_labels_of
       regression_indices_of].
  destruct (regression_loop_entry batch x (v0 :: valid') false etm m regression Hm _ _ Hx)
    as [acc0 [acc1 [Hbody [G1 [G2 [G3 G4]]]]]].
  destruct (regress_measurement_steps batch x (v0 :: valid') false etm m acc0 acc1 Hbody
              (proj2 (str_in_In m (v0 :: valid')) Hv))
    as [em [midx [vs [d [l [Hem [Hi [Hvs Hrest]]]]]]]].
  fold cfg in Hi, Hvs. cbv zeta in Hrest.
  destruct Hrest as [Hd [Eacc [_ Hloss]]].
  destruct (Hloss eq_refl) as [lp [lpe [loss [Hlp [Hlpe [Hl El]]]]]]. subst l.
  subst acc1. cbn [fst snd] in G1, G2, G3, G4.
  rewrite dict_get_set_same in G1, G2, G3, G4.
  destruct (event_mask_for_entry batch etm m em Hem) as [M1 M2].
  set (observed := Tensor.zip_with3 (fun i (o : bool) => (i =? midx) && o)
                     (dynamic_measurement_indices batch) (dynamic_values_mask batch)) in *.
  exists midx, vs, observed,
    (Tensor.zip_with3 (fun (o : bool) v => if o then v else fzero) observed
       (dynamic_values batch)),
    (Tensor.zip_with3 (fun (o : bool) i => if o then wrap64 (i - vs) else 0) observed
       (dynamic_indices batch)),
    d, lp, lpe,
    (Tensor.zip_with2 andb em (Tensor.map2 (existsb (fun o : bool => o)) observed)),
    loss, (snd (fst x0)), (snd x0).
  split; [exact Hi |]. split; [exact Hvs |].
  split; [intros b s k; apply get3_zip_with3 |].
  split; [reflexivity |]. split; [exact G3 |].
  split; [intros b s k; apply get3_zip_with3 |].
  split; [reflexivity |]. split; [exact G4 |].
  split; [intros b s k; apply get3_zip_with3 |].
  split; [exact Hd |]. split; [exact G2 |]. split; [exact Hlp |]. split; [exact Hlpe |].
  split; [| split; [| split; [exact Hl | exact G1]]].
  - intros En b s e slots He Hs. rewrite (M1 En).
    rewrite get2_zip_with2, He, get2_map2, Hs. reflexivity.
  - intros masks En. destruct (M2 masks En) as [mm [Hmm Hent]].
    exists mm. split; [exact Hmm |]. intros b s a e slots Ha He Hs.
    rewrite get2_zip_with2, (Hent b s a e Ha He), get2_map2, Hs. reflexivity.
Qed.

End RegressionOutputs.

Lemma regression_loss_and_labels_witness :
  exists out all_labels labels all_indices indices,
    get_regression_outputs (Example.kernels 7) Example.independent_layer Example.batch
      Example.encoded3 ["lab"] false None = inr out
    /\ regression_labels_of out = Some all_labels
    /\ dict_get all_labels "lab" = Some labels
    /\ get3 labels 0 1 1 = Some 0.5%float
    /\ get3 labels 0 1 0 = Some 0%float
    /\ regression_indices_of out = Some all_indices
    /\ dict_get all_indices "lab" = Some indices
    /\ get3 indices 0 1 1 = Some 0.
Proof.
  destruct (get_regression_outputs (Example.kernels 7) Example.independent_layer
              Example.batch Example.encoded3 ["lab"] false None)
    as [e | out] eqn:E; [vm_compute in E; discriminate |].
  assert (Hv : In "lab" ["lab"]) by (left; reflexivity).
  destruct (regression_loss_and_labels (Example.kernels 7) Example.independent_layer
              Example.batch Example.encoded3 ["lab"] None out ["lab"] "lab"
              eq_refl Hv Hv E)
    as [midx [vs [observed [labels [indices [d [lp [lpe [mask [l [all_labels [all_indices
         [Hi [Hvs [Hobs [Hl1 [Hl2 [Hlab [Hi1 [Hi2 [Hind _]]]]]]]]]]]]]]]]]]]]].
  assert (Ei : midx = 3) by (vm_compute in Hi; congruence).
  assert (Es : vs = 6) by (vm_compute in Hvs; congruence).
  subst midx vs.
  exists out, all_labels, labels, all_indices, indices.
  split; [reflexivity |]. split; [exact Hl1 |]. split; [exact Hl2 |].
  split; [rewrite Hlab, Hobs; reflexivity |].
  split; [rewrite Hlab, Hobs; reflexivity |].
  split; [exact Hi1 |]. split; [exact Hi2 |].
  rewrite Hind, Hobs. reflexivity.
Defined.

(* ===================================================================== *)
(** ** A configuration built without event types per measurement *)
(* ===================================================================== *)

Lemma dict_update_nil {V} (d : dict V) : dict_update d [] = d.
Proof. reflexivity. Qed.

Section WithoutEventTypes.
Context {SC : Scalar}.
Variable K : Kernels.
Variable self : Layer.t.

Let cfg : Config.t := Layer.config self.

(** With an empty dictionary of masks no measurement finds its mask. *)
Lemma event_mask_for_no_masks (batch : Batch) (m : string) (mask : tensor2 bool) :
  event_mask_for batch (Some []) m = inr mask -> False.
Proof. unfold event_mask_for, dict_item. simpl. discriminate. Qed.

Lemma get_classification_outputs_no_masks (batch : Batch) (x : tensor3 F)
  (valid : list string) (out : classification_outputs K) :
  get_classification_outputs K self batch x valid (Some []) = inr out ->
  out = ([], [], [])
  /\ forall m, In m valid ->
       In m (dict_keys (Layer.classification_mode_per_measurement self)) -> False.
Proof.
  intros H.
  assert (E : out = ([], [], [])).
  { unfold get_classification_outputs in H.
    destruct valid as [| v0 valid]; [unfold ret in H; congruence |].
    inv_bind H.
    apply (for_each_invariant (fun st : classification_outputs K => st = ([], [], []))
             _ _) with (st := ([], [], [])) (st' := out) in H; [exact H | | reflexivity].
    intros entry st st' _ Est Hs. subst st.
    destruct (str_in (fst entry) (v0 :: valid)) eqn:Ev.
    - destruct entry as [m mode].
      destruct (classify_measurement_steps K self batch x0 (v0 :: valid) (Some []) m mode
                  _ _ Hs Ev) as [em [_ [_ [_ [_ [_ [_ [_ [Hem _]]]]]]]]].
      destruct (event_mask_for_no_masks batch m em Hem).
    - apply classify_measurement_spec in Hs.
      destruct Hs as [[_ E] | [E _]]; [exact E | congruence]. }
  split; [exact E |]. intros m Hv Hm.
  destruct (get_classification_outputs_spec K self batch x valid (Some []) out H)
    as [_ [Hkeys _]].
  subst out. exact (proj2 (Hkeys m) (conj Hv Hm)).
Qed.

Lemma get_regression_outputs_no_masks (batch : Batch) (x : tensor3 F)
  (valid : list string) (is_generation : bool) (out : regression_outputs K) :
  get_regression_outputs K self batch x valid is_generation (Some []) = inr out ->
  regression_loss_values_of out = []
  /\ regression_dists_of out = []
  /\ (is_generation = false ->
      regression_labels_of out = Some [] /\ regression_indices_of out = Some [])
  /\ forall m measurements,
       In m valid ->
       Layer.modes_get (Config.measurements_per_generative_mode cfg)
         MULTIVARIATE_REGRESSION = Some measurements ->
       In m measurements -> False.
Proof.
  intros H.
  assert (E : regression_loss_values_of out = []
              /\ regression_dists_of out = []
              /\ (is_generation = false ->
                  regression_labels_of out = Some []
                  /\ regression_indices_of out = Some [])).
  { unfold get_regression_outputs in H.
    destruct valid as [| v0 valid].
    { unfold ret in H. injection H as Eo. subst out. simpl. auto. }
    inv_bind H. inv_bind H. unfold ret in H. injection H as Eo. subst out.
    cbn [regression_loss_values_of regression_dists_of regression_labels_of
         regression_indices_of].
    apply (for_each_invariant (fun st : regression_acc K => st = ([], [], [], []))
             _ _) with (st := ([], [], [], [])) (st' := x1) in Hx0;
      [subst x1; simpl; split; [reflexivity | split; [reflexivity |]];
       intros Eg; rewrite Eg; auto | | reflexivity].
    intros m st st' _ Est Hs. subst st.
    destruct (str_in m (v0 :: valid)) eqn:Ev.
    - destruct (regress_measurement_steps K self batch x (v0 :: valid) is_generation
                  (Some []) m _ _ Hs Ev) as [em [_ [_ [_ [_ [Hem _]]]]]].
      destruct (event_mask_for_no_masks batch m em Hem).
    - apply regress_measurement_spec in Hs.
      destruct Hs as [[_ E] | [E _]]; [exact E | congruence]. }
  destruct E as [E1 [E2 E3]].
  split; [exact E1 |]. split; [exact E2 |]. split; [exact E3 |].
  intros m measurements Hv Hm Hin.
  destruct (get_regression_outputs_spec K self batch x valid is_generation (Some []) out H)
    as [_ [Hkeys _]].
  fold cfg in Hkeys.
  assert (Hk : In m (dict_keys (regression_dists_of out))).
  { apply Hkeys. split; [exact Hv |]. exists measurements. auto. }
  rewrite E2 in Hk. exact Hk.
Qed.

(** With an empty dictionary of masks the heads leave the empty containers as they
    are, and they are asked for no measurement of theirs. *)
Lemma run_heads_no_masks (batch : Batch) (is_generation : bool) (x : tensor3 F)
  (cls reg : list string) (c : Containers K) :
  run_heads K self batch is_generation (Some []) x cls reg
    (empty_containers K is_generation) = inr c ->
  c = empty_containers K is_generation
  /\ (forall m, In m cls ->
        In m (dict_keys (Layer.classification_mode_per_measurement self)) -> False)
  /\ (forall m measurements,
        In m reg ->
        Layer.modes_get (Config.measurements_per_generative_mode cfg)
          MULTIVARIATE_REGRESSION = Some measurements ->
        In m measurements -> False).
Proof.
  unfold run_heads. intros H. inv_bind H. inv_bind H. inv_bind H. inv_bind H.
  destruct (get_classification_outputs_no_masks batch x cls x0 Hx) as [E0 N0].
  destruct (get_regression_outputs_no_masks batch x reg is_generation x2 Hx1)
    as [R1 [R2 [R3 N1]]].
  split; [| split; [exact N0 | exact N1]].
  subst x0. cbn [fst snd] in *. rewrite R2 in H.
  destruct is_generation.
  - unfold ret in Hx0, Hx2, H. injection Hx0 as E1. injection Hx2 as E2. subst x1 x3.
    injection H as Ec. subst c. reflexivity.
  - destruct (R3 eq_refl) as [R4 R5]. rewrite R1, R4, R5 in Hx2.
    unfold empty_containers, update_container in Hx0, Hx2.
    cbn in Hx0, Hx2. unfold ret in Hx0, Hx2, H.
    injection Hx0 as E1. injection Hx2 as E2. subst x1 x3.
    injection H as Ec. subst c. reflexivity.
Qed.

End WithoutEventTypes.

Lemma config_init_event_types (a : Args.t) (c : Config.t) :
  Config.init a = inr c ->
  Config.event_types_per_measurement c
  = Some (Config.or_default (Args.event_types_per_measurement a) []).
Proof.
  intros H. pose proof (config_init_inv a c H) as I. cbv zeta in I.
  repeat match type of I with _ /\ _ => destruct I as [_ I] end. exact I.
Qed.

Section ForwardWithoutEventTypes.
Context {SC : Scalar}.
Variable K : Kernels.
Variable self : Layer.t.

Let cfg : Config.t := Layer.config self.

(** X: the constructor of the configuration replaces a missing
    [event_types_per_measurement] by an empty dictionary, so that the layer computes
    an empty dictionary of masks instead of no masks, in which no measurement finds
    its mask.  On such a configuration [forward] returns only when no head is asked
    for a measurement of its own: the output holds no classification and no
    regression distribution, and in the conditionally independent mode the layer has
    no classification and no regression measurement at all. *)
Theorem forward_without_event_types (a : Args.t) (batch : Batch) (encoded : Encoded)
  (is_generation : bool) (out : Output K) :
  Config.init a = inr (Layer.config self) ->
  Args.event_types_per_measurement a = None ->
  forward K self batch encoded is_generation = inr out ->
  get_event_type_mask_per_measurement self batch = inr (Some [])
  /\ preds_classification (preds out) = []
  /\ preds_regression (preds out) = []
  /\ (Config.structured_event_processing_mode cfg = "conditionally_independent" ->
      Layer.classification_mode_per_measurement self = []
      /\ Layer.modes_get (Config.measurements_per_generative_mode cfg)
           MULTIVARIATE_REGRESSION = Some []).
Proof.
  intros Hinit Hnone Hf.
  pose proof (config_init_event_types a _ Hinit) as Hetpm. rewrite Hnone in Hetpm.
  simpl in Hetpm.
  destruct (forward_inv K self batch encoded is_generation out Hf)
    as [reg [etm [c [whole [tte [Hreg [Hetm [Hroute [_ [Ec [Er _]]]]]]]]]]].
  assert (Em : etm = Some []).
  { pose proof Hetm as Hetm'.
    unfold get_event_type_mask_per_measurement in Hetm'. rewrite Hetpm in Hetm'.
    inv_bind Hetm'. inv_bind Hetm'. simpl in Hetm'. unfold ret in Hetm'.
    injection Hetm' as E. symmetry. exact E. }
  subst etm. split; [exact Hetm |].
  rewrite Ec, Er. unfold route in Hroute. fold cfg in Hroute.
  destruct (String.eqb (Config.structured_event_processing_mode cfg)
              "conditionally_independent") eqn:Emode.
  - destruct encoded as [w | t]; [| discriminate].
    inv_bind Hroute. inv_bind Hroute. unfold ret in Hroute. injection Hroute as E1 E2.
    subst x0 whole.
    destruct (run_heads_no_masks K self batch is_generation _ _ _ _ Hx0) as [Ec' [N0 N1]].
    subst c. split; [reflexivity |]. split; [reflexivity |]. intros _. split.
    + destruct (Layer.classification_mode_per_measurement self) as [| [m mode] rest] eqn:El;
        [reflexivity |].
      exfalso. apply (N0 m); left; reflexivity.
    + fold cfg in Hreg. rewrite Hreg. destruct reg as [| m reg]; [reflexivity |].
      exfalso. apply (N1 m (m :: reg)); [left; reflexivity | exact Hreg | left; reflexivity].
  - destruct encoded as [w | t]; [discriminate |].
    inv_bind Hroute. inv_bind Hroute. unfold ret in Hroute. injection Hroute as E1 E2.
    subst x0 whole.
    apply (for_each_invariant (fun st : Containers K => st = empty_containers K is_generation)
             _ _) with (st := empty_containers K is_generation) (st' := c) in Hx0;
      [| | reflexivity].
    + subst c. split; [reflexivity |]. split; [reflexivity |].
      intros E. rewrite E in Emode. discriminate.
    + intros i st st' _ Est Hs. subst st. unfold level_step in Hs.
      inv_bind Hs. inv_bind Hs.
      exact (proj1 (run_heads_no_masks K self batch is_generation _ _ _ _ Hs)).
Qed.

End ForwardWithoutEventTypes.

(** The arguments of the example without event types per measurement, and an
    encoding with the whole-event element only. *)
Definition without_event_types (a : Args.t) : Args.t := {|
  Args.vocab_sizes_by_measurement := Args.vocab_sizes_by_measurement a;
  Args.vocab_offsets_by_measurement := Args.vocab_offsets_by_measurement a;
  Args.measurements_idxmap := Args.measurements_idxmap a;
  Args.measurements_per_generative_mode := Args.measurements_per_generative_mode a;
  Args.event_types_per_measurement := None;
  Args.event_types_idxmap := Args.event_types_idxmap a;
  Args.measurements_per_dep_graph_level := Args.measurements_per_dep_graph_level a;
  Args.max_seq_len := Args.max_seq_len a;
  Args.categorical_embedding_dim := Args.categorical_embedding_dim a;
  Args.numerical_embedding_dim := Args.numerical_embedding_dim a;
  Args.structured_event_processing_mode := Args.structured_event_processing_mode a;
  Args.hidden_size := Args.hidden_size a;
  Args.head_dim := Args.head_dim a;
  Args.num_hidden_layers := Args.num_hidden_layers a;
  Args.num_attention_heads := Args.num_attention_heads a;
  Args.seq_attention_types := Args.seq_attention_types a;
  Args.seq_window_size := Args.seq_window_size a;
  Args.dep_graph_attention_types := Args.dep_graph_attention_types a;
  Args.dep_graph_window_size := Args.dep_graph_window_size a;
  Args.do_full_block_in_dep_graph_attention := Args.do_full_block_in_dep_graph_attention a;
  Args.do_full_block_in_seq_attention := Args.do_full_block_in_seq_attention a;
  Args.do_add_temporal_position_embeddings_to_data_embeddings :=
    Args.do_add_temporal_position_embeddings_to_data_embeddings a;
  Args.TTE_generation_layer_type := Args.TTE_generation_layer_type a;
  Args.TTE_lognormal_generation_num_components :=
    Args.TTE_lognormal_generation_num_components a;
  Args.mean_log_inter_event_time_min := Args.mean_log_inter_event_time_min a;
  Args.std_log_inter_event_time_min := Args.std_log_inter_event_time_min a;
  Args.is_encoder_decoder := Args.is_encoder_decoder a
|}.

Lemma forward_without_event_types_witness :
  exists out,
    forward (Example.kernels 7)
      (Example.layer_of (Example.config_of (without_event_types Example.nested_args)))
      Example.batch (Enc4 ([[[[1; 2]]; [[3; 4]]; [[5; 6]]]]%float
                           : tensor4 (@F Example.float_scalar))) false = inr out
    /\ preds_classification (preds out) = []
    /\ preds_regression (preds out) = [].
Proof.
  destruct (forward (Example.kernels 7)
              (Example.layer_of (Example.config_of (without_event_types Example.nested_args)))
              Example.batch (Enc4 ([[[[1; 2]]; [[3; 4]]; [[5; 6]]]]%float
                                   : tensor4 (@F Example.float_scalar))) false)
    as [e | out] eqn:E; [vm_compute in E; discriminate |].
  assert (Hinit : Config.init (without_event_types Example.nested_args)
                  = inr (Layer.config
                           (Example.layer_of
                              (Example.config_of
                                 (without_event_types Example.nested_args)))))
    by (vm_compute; reflexivity).
  exists out. split; [reflexivity |].
  destruct (forward_without_event_types (Example.kernels 7)
              (Example.layer_of (Example.config_of (without_event_types Example.nested_args)))
              (without_event_types Example.nested_args) _ _ _ out Hinit eq_refl E)
    as [_ [H1 [H2 _]]].
  split; [exact H1 | exact H2].
Defined.

(* ===================================================================== *)
(** ** The rank of the encoding *)
(* ===================================================================== *)

Section EncodingRank.
Context {SC : Scalar}.
Variable K : Kernels.
Variable self : Layer.t.

Let cfg : Config.t := Layer.config self.

(** X: [forward] unpacks the shape of the encoding by the processing mode of the
    configuration: once the regression measurements are found and the event-type
    masks computed, an encoding with a dependency-graph dimension in the
    conditionally independent mode, and one without it in any other mode, raises a
    ValueError before any head is run, whatever the kernels do. *)
Theorem forward_rank_mismatch (batch : Batch) (is_generation : bool)
  (regression : list string) (etm : option (dict (tensor2 bool))) :
  Layer.modes_get (Config.measurements_per_generative_mode cfg) MULTIVARIATE_REGRESSION
  = Some regression ->
  get_event_type_mask_per_measurement self batch = inr etm ->
  (Config.structured_event_processing_mode cfg = "conditionally_independent" ->
   forall t : tensor4 F,
     exists msg, forward K self batch (Enc4 t) is_generation = inl (ValueError msg))
  /\ (Config.structured_event_processing_mode cfg <> "conditionally_independent" ->
      forall w : tensor3 F,
        exists msg, forward K self batch (Enc3 w) is_generation = inl (ValueError msg)).
Proof.
  intros Hreg Hetm. split.
  - intros Hmode t. eexists. unfold forward, Layer.modes_item. fold cfg.
    rewrite Hreg. cbn [bind ret]. rewrite Hetm. cbn [bind].
    unfold route. fold cfg. rewrite Hmode. cbn. reflexivity.
  - intros Hmode w. eexists. unfold forward, Layer.modes_item. fold cfg.
    rewrite Hreg. cbn [bind ret]. rewrite Hetm. cbn [bind].
    unfold route. fold cfg.
    destruct (String.eqb (Config.structured_event_processing_mode cfg)
                "conditionally_independent") eqn:E.
    + apply String.eqb_eq in E. contradiction.
    + cbn. reflexivity.
Qed.

End EncodingRank.

Lemma forward_rank_mismatch_witness :
  exists msg,
    forward (Example.kernels 7) Example.independent_layer Example.batch
      (Enc4 Example.encoded4) false = inl (ValueError msg).
Proof.
  destruct (get_event_type_mask_per_measurement Example.independent_layer Example.batch)
    as [e | etm] eqn:E; [vm_compute in E; discriminate |].
  exact (proj1 (forward_rank_mismatch (Example.kernels 7) Example.independent_layer
                  Example.batch false ["lab"] etm eq_refl E) eq_refl Example.encoded4).
Defined.

(* ===================================================================== *)
(** ** set_to_dataset: the task attributes *)
(* ===================================================================== *)

(** Labels are compared through the integer a bool stands for. *)
Definition label_key (l : Dataset.label) : Z + string :=
  match l with
  | Dataset.LBool b => inl (if b then 1 else 0)
  | Dataset.LInt z => inl z
  | Dataset.LStr s => inr s
  end.

Lemma label_eqb_key (a b : Dataset.label) :
  Dataset.label_eqb a b = true <-> label_key a = label_key b.
Proof.
  destruct a as [[|] | x | s], b as [[|] | y | t]; simpl;
    try (split; [reflexivity | reflexivity]);
    try (split; [discriminate | discriminate]);
    try (rewrite Z.eqb_eq; split; intros H; [subst; reflexivity | congruence]);
    try (rewrite String.eqb_eq; split; intros H; [subst; reflexivity | congruence]).
Qed.

Lemma label_eqb_trans_l (a b w : Dataset.label) :
  Dataset.label_eqb a b = true -> Dataset.label_eqb w a = Dataset.label_eqb w b.
Proof.
  intros H. apply label_eqb_key in H.
  destruct (Dataset.label_eqb w a) eqn:E1, (Dataset.label_eqb w b) eqn:E2; try reflexivity.
  - apply label_eqb_key in E1.
    assert (E : Dataset.label_eqb w b = true) by (apply label_eqb_key; congruence).
    congruence.
  - apply label_eqb_key in E2.
    assert (E : Dataset.label_eqb w a = true) by (apply label_eqb_key; congruence).
    congruence.
Qed.

Lemma label_eqb_disjoint (v v' w : Dataset.label) :
  Dataset.label_eqb v v' = false -> Dataset.label_eqb w v' = true ->
  Dataset.label_eqb w v = false.
Proof.
  intros H1 H2. destruct (Dataset.label_eqb w v) eqn:E; [| reflexivity].
  apply label_eqb_key in H2, E.
  assert (E' : Dataset.label_eqb v v' = true) by (apply label_eqb_key; congruence).
  congruence.
Qed.

Lemma label_dict_get_set (d : list (Dataset.label * Z)) (v w : Dataset.label) (i : Z) :
  Task.label_dict_get (Task.label_dict_set d v i) w
  = if Dataset.label_eqb w v then Some i else Task.label_dict_get d w.
Proof.
  induction d as [| [v' i'] d IH]; simpl; [reflexivity |].
  destruct (Dataset.label_eqb v v') eqn:E; simpl.
  - rewrite (label_eqb_trans_l v v' w E).
    destruct (Dataset.label_eqb w v'); reflexivity.
  - rewrite IH. destruct (Dataset.label_eqb w v') eqn:E'; [| reflexivity].
    rewrite (label_eqb_disjoint v v' w E E'). reflexivity.
Qed.

Lemma find_app {A} (p : A -> bool) (l l' : list A) :
  find p (l ++ l')%list = match find p l with Some x => Some x | None => find p l' end.
Proof.
  induction l as [| a l IH]; simpl; [reflexivity |]. destruct (p a); [reflexivity | exact IH].
Qed.

(** The inverted dictionary maps a label to the index of the last element equal to
    it. *)
Lemma invert_get (id2label : list (Z * Dataset.label)) (w : Dataset.label) :
  Task.label_dict_get (Task.invert id2label) w
  = option_map fst (find (fun iv => Dataset.label_eqb w (snd iv)) (rev id2label)).
Proof.
  unfold Task.invert.
  assert (G : forall acc,
             Task.label_dict_get
               (fold_left (fun acc iv => Task.label_dict_set acc (snd iv) (fst iv))
                  id2label acc) w
             = match find (fun iv => Dataset.label_eqb w (snd iv)) (rev id2label) with
               | Some iv => Some (fst iv)
               | None => Task.label_dict_get acc w
               end).
  { induction id2label as [| [i v] l IH]; intros acc; simpl; [reflexivity |].
    rewrite IH, find_app.
    destruct (find (fun iv => Dataset.label_eqb w (snd iv)) (rev l)); [reflexivity |].
    simpl. rewrite label_dict_get_set.
    destruct (Dataset.label_eqb w v); reflexivity. }
  rewrite G. destruct (find _ (rev id2label)); reflexivity.
Qed.

Lemma combine_fst_snd {A B} (x : list A) (y : list B) :
  List.length x = List.length y ->
  map fst (combine x y) = x /\ map snd (combine x y) = y.
Proof.
  revert y. induction x as [| a x IH]; intros [| b y] H; simpl in *;
    try discriminate; [split; reflexivity |].
  injection H as H. destruct (IH y H) as [I1 I2]. rewrite I1, I2. split; reflexivity.
Qed.

Lemma enumerate_spec (vocab : list Dataset.label) :
  map snd (Task.enumerate vocab) = vocab
  /\ map fst (Task.enumerate vocab) = map Z.of_nat (seq 0 (List.length vocab))
  /\ List.length (Task.enumerate vocab) = List.length vocab.
Proof.
  unfold Task.enumerate.
  assert (L : List.length (map Z.of_nat (seq 0 (List.length vocab))) = List.length vocab)
    by (rewrite length_map, length_seq; reflexivity).
  destruct (combine_fst_snd _ _ L) as [I1 I2].
  split; [exact I2 |]. split; [exact I1 |].
  rewrite length_combine, L. apply Nat.min_id.
Qed.

Lemma forallb_eqb (s : string) (l : list string) :
  forallb (fun ty => String.eqb ty s) l = true <-> forall ty, In ty l -> ty = s.
Proof.
  rewrite forallb_forall. split; intros H ty Hin.
  - apply String.eqb_eq. exact (H ty Hin).
  - apply String.eqb_eq. exact (H ty Hin).
Qed.

(** X: what [set_to_dataset] infers from the tasks of a dataset that has tasks.
    With one task the task becomes the fine-tuning task; a binary or multi-class task
    gives the problem type single_label_classification with the task's vocabulary
    enumerated in [id2label], one label per element, and [label2id] sending a value
    to the index of the last element equal to it; a regression task gives regression
    with one label; a task of any other type leaves problem type and number of labels
    as they were.  With another number of tasks, task types that are all binary give
    multi_label_classification and task types that are all regression give
    regression, with one label per task, and mixed types change nothing.  The only
    failures are the KeyErrors of a single task without type or without
    vocabulary. *)
Theorem set_to_dataset_task (c : Config.t) (t : Task.t) (d : Dataset.t) :
  Dataset.has_task d = true ->
  (forall c' t',
     SetToDataset.set_to_dataset c t d = inr (c', t') ->
     (forall task,
        Dataset.tasks d = [task] ->
        Task.finetuning_task t' = Some task
        /\ exists task_type,
             dict_get (Dataset.task_types d) task = Some task_type
             /\ (task_type = "binary_classification"
                 \/ task_type = "multi_class_classification" ->
                 Task.problem_type t' = Some "single_label_classification"
                 /\ exists vocab id2label label2id,
                      dict_get (Dataset.task_vocabs d) task = Some vocab
                      /\ Task.num_labels t' = Some (Z.of_nat (List.length vocab))
                      /\ Task.id2label t' = Some id2label
                      /\ map snd id2label = vocab
                      /\ map fst id2label = map Z.of_nat (seq 0 (List.length vocab))
                      /\ Task.label2id t' = Some label2id
                      /\ forall v,
                           Task.label_dict_get label2id v
                           = option_map fst
                               (find (fun iv => Dataset.label_eqb v (snd iv))
                                  (rev id2label)))
             /\ (task_type = "regression" ->
                 Task.problem_type t' = Some "regression"
                 /\ Task.num_labels t' = Some 1)
             /\ (task_type <> "binary_classification" ->
                 task_type <> "multi_class_classification" ->
                 task_type <> "regression" ->
                 Task.problem_type t' = Task.problem_type t
                 /\ Task.num_labels t' = Task.num_labels t))
     /\ (List.length (Dataset.tasks d) <> 1%nat ->
         let all_are := fun s => forall ty, In ty (dict_values (Dataset.task_types d)) ->
                                            ty = s in
         Task.finetuning_task t' = Task.finetuning_task t
         /\ (all_are "binary_classification" ->
             Task.problem_type t' = Some "multi_label_classification"
             /\ Task.num_labels t' = Some (Z.of_nat (List.length (Dataset.tasks d))))
         /\ (~ all_are "binary_classification" -> all_are "regression" ->
             Task.problem_type t' = Some "regression"
             /\ Task.num_labels t' = Some (Z.of_nat (List.length (Dataset.tasks d))))
         /\ (~ all_are "binary_classification" -> ~ all_are "regression" -> t' = t)))
  /\ (forall e,
        SetToDataset.set_to_dataset c t d = inl e ->
        exists task,
          Dataset.tasks d = [task]
          /\ e = KeyError task
          /\ (dict_get (Dataset.task_types d) task = None
              \/ dict_get (Dataset.task_vocabs d) task = None)).
Proof.
  intros Hhas.
  assert (Eq : SetToDataset.set_to_dataset c t d
               = bind (if (List.length (Dataset.tasks d) =? 1)%nat
                       then SetToDataset.set_single_task t d
                       else if forallb (fun ty => String.eqb ty "binary_classification")
                                 (dict_values (Dataset.task_types d))
                       then ret {| Task.finetuning_task := Task.finetuning_task t;
                                   Task.id2label := Task.id2label t;
                                   Task.label2id := Task.label2id t;
                                   Task.num_labels :=
                                     Some (Z.of_nat (List.length (Dataset.tasks d)));
                                   Task.problem_type := Some "multi_label_classification" |}
                       else if forallb (fun ty => String.eqb ty "regression")
                                 (dict_values (Dataset.task_types d))
                       then ret {| Task.finetuning_task := Task.finetuning_task t;
                                   Task.id2label := Task.id2label t;
                                   Task.label2id := Task.label2id t;
                                   Task.num_labels :=
                                     Some (Z.of_nat (List.length (Dataset.tasks d)));
                                   Task.problem_type := Some "regression" |}
                       else ret t)
                   (fun t' => ret (SetToDataset.set_registry c d, t'))).
  { unfold SetToDataset.set_to_dataset, SetToDataset.set_task. rewrite Hhas. reflexivity. }
  rewrite Eq. clear Eq.
  destruct (List.length (Dataset.tasks d) =? 1)%nat eqn:Elen.
  - apply Nat.eqb_eq in Elen.
    destruct (Dataset.tasks d) as [| task [| task2 rest]] eqn:Etasks; try discriminate.
    unfold SetToDataset.set_single_task. rewrite Etasks. cbn [Tensor.first_item bind ret].
    unfold dict_item.
    destruct (dict_get (Dataset.task_types d) task) as [ty |] eqn:Ety.
    2:{ cbn. split; [intros c' t' H; discriminate |].
        intros e H. exists task. split; [reflexivity |].
        split; [unfold raise in H; congruence | left; exact Ety]. }
    cbn [bind ret].
    destruct (String.eqb ty "binary_classification"
              || String.eqb ty "multi_class_classification") eqn:Ecls.
    + destruct (dict_get (Dataset.task_vocabs d) task) as [vocab |] eqn:Evocab.
      2:{ cbn. split; [intros c' t' H; discriminate |].
          intros e H. exists task. split; [reflexivity |].
          split; [unfold raise in H; congruence | right; exact Evocab]. }
      cbn [bind ret]. split; [| intros e H; discriminate].
      intros c' t' H. injection H as Ec Et. subst c' t'. cbn.
      split; [| intros Hne; exfalso; apply Hne; reflexivity].
      intros task0 E0. injection E0 as E0. subst task0.
      split; [reflexivity |]. exists ty. split; [exact Ety |].
      destruct (enumerate_spec vocab) as [S1 [S2 S3]].
      split; [| split].
      * intros _. split; [reflexivity |].
        exists vocab, (Task.enumerate vocab), (Task.invert (Task.enumerate vocab)).
        split; [exact Evocab |]. split; [rewrite S3; reflexivity |].
        split; [reflexivity |]. split; [exact S1 |]. split; [exact S2 |].
        split; [reflexivity |]. intros v. apply invert_get.
      * intros E. subst ty. discriminate.
      * intros N1 N2 _. apply orb_true_iff in Ecls.
        destruct Ecls as [E | E]; apply String.eqb_eq in E; contradiction.
    + apply orb_false_iff in Ecls. destruct Ecls as [N1 N2].
      apply String.eqb_neq in N1, N2.
      destruct (String.eqb ty "regression") eqn:Ereg.
      * apply String.eqb_eq in Ereg. cbn [bind ret].
        split; [| intros e H; discriminate].
        intros c' t' H. injection H as Ec Et. subst c' t'. cbn.
        split; [| intros Hne; exfalso; apply Hne; reflexivity].
        intros task0 E0. injection E0 as E0. subst task0.
        split; [reflexivity |]. exists ty. split; [exact Ety |].
        split; [intros [E | E]; contradiction |].
        split; [intros _; split; reflexivity | intros _ _ N3; contradiction].
      * apply String.eqb_neq in Ereg. cbn [bind ret].
        split; [| intros e H; discriminate].
        intros c' t' H. injection H as Ec Et. subst c' t'. cbn.
        split; [| intros Hne; exfalso; apply Hne; reflexivity].
        intros task0 E0. injection E0 as E0. subst task0.
        split; [reflexivity |]. exists ty. split; [exact Ety |].
        split; [intros [E | E]; contradiction |].
        split; [intros E; contradiction | intros _ _ _; split; reflexivity].
  - apply Nat.eqb_neq in Elen.
    assert (Hnot1 : forall task, Dataset.tasks d <> [task]).
    { intros task E. rewrite E in Elen. apply Elen. reflexivity. }
    destruct (forallb (fun ty => String.eqb ty "binary_classification")
                (dict_values (Dataset.task_types d))) eqn:Eb.
    + pose proof (proj1 (forallb_eqb _ _) Eb) as Eb'. cbn [bind ret]. split; [| intros e H; discriminate].
      intros c' t' H. injection H as Ec Et. subst c' t'. cbn.
      split; [intros task E; destruct (Hnot1 task E) |].
      intros _. split; [reflexivity |].
      split; [intros _; split; reflexivity |].
      split; [intros N; contradiction | intros N; contradiction].
    + assert (Nb : ~ (forall ty, In ty (dict_values (Dataset.task_types d)) ->
                                 ty = "binary_classification")).
      { intros A. pose proof (proj2 (forallb_eqb _ _) A) as A'. congruence. }
      destruct (forallb (fun ty => String.eqb ty "regression")
                  (dict_values (Dataset.task_types d))) eqn:Er.
      * pose proof (proj1 (forallb_eqb _ _) Er) as Er'. cbn [bind ret]. split; [| intros e H; discriminate].
        intros c' t' H. injection H as Ec Et. subst c' t'. cbn.
        split; [intros task E; destruct (Hnot1 task E) |].
        intros _. split; [reflexivity |].
        split; [intros A; contradiction |].
        split; [intros _ _; split; reflexivity | intros _ N; contradiction].
      * assert (Nr : ~ (forall ty, In ty (dict_values (Dataset.task_types d)) ->
                                   ty = "regression")).
        { intros A. pose proof (proj2 (forallb_eqb _ _) A) as A'. congruence. }
        cbn [bind ret]. split; [| intros e H; discriminate].
        intros c' t' H. injection H as Ec Et. subst c' t'.
        split; [intros task E; destruct (Hnot1 task E) |].
        intros _. split; [reflexivity |].
        split; [intros A; contradiction |].
        split; [intros _ A; contradiction | intros _ _; reflexivity].
Qed.

(** A dataset with one binary task. *)
Definition task_dataset : Dataset.t := {|
  Dataset.measurements_idxmap := [("event_type", 1); ("diagnosis", 2); ("lab", 3)];
  Dataset.measurements_per_generative_mode :=
    [(SINGLE_LABEL_CLASSIFICATION, ["event_type"]);
     (MULTI_LABEL_CLASSIFICATION, ["diagnosis"; "lab"]);
     (MULTIVARIATE_REGRESSION, ["lab"])];
  Dataset.event_types_idxmap := [("admission", 0); ("visit", 1)];
  Dataset.measurement_configs :=
    [("diagnosis", {| Dataset.is_dropped := false; Dataset.is_dynamic := true;
                      Dataset.present_in_event_types := Some ["visit"] |});
     ("lab", {| Dataset.is_dropped := false; Dataset.is_dynamic := true;
                Dataset.present_in_event_types := None |});
     ("age", {| Dataset.is_dropped := false; Dataset.is_dynamic := false;
                Dataset.present_in_event_types := None |})];
  Dataset.measurement_vocab_offsets :=
    [("event_type", 1); ("diagnosis", 3); ("lab", 6); ("age", 8)];
  Dataset.measurement_vocabs :=
    [("diagnosis", ["UNK"; "flu"; "asthma"]); ("lab", ["UNK"; "glucose"])];
  Dataset.total_vocab_size := 9;
  Dataset.max_seq_len := 256;
  Dataset.do_normalize_log_inter_event_times := true;
  Dataset.mean_log_inter_event_time_min := None;
  Dataset.std_log_inter_event_time_min := None;
  Dataset.has_task := true;
  Dataset.tasks := ["readmission"];
  Dataset.task_types := [("readmission", "binary_classification")];
  Dataset.task_vocabs := [("readmission", [Dataset.LBool false; Dataset.LBool true])]
|}.

Definition no_task : Task.t := {|
  Task.finetuning_task := None;
  Task.id2label := None;
  Task.label2id := None;
  Task.num_labels := None;
  Task.problem_type := None
|}.

Lemma set_to_dataset_task_witness :
  exists c' t',
    SetToDataset.set_to_dataset Example.nested_config no_task task_dataset = inr (c', t')
    /\ Task.finetuning_task t' = Some "readmission"
    /\ Task.problem_type t' = Some "single_label_classification"
    /\ Task.num_labels t' = Some 2.
Proof.
  destruct (SetToDataset.set_to_dataset Example.nested_config no_task task_dataset)
    as [e | [c' t']] eqn:E; [vm_compute in E; discriminate |].
  exists c', t'. split; [reflexivity |].
  destruct (proj1 (proj1 (set_to_dataset_task Example.nested_config no_task task_dataset
                            eq_refl) c' t' E) "readmission" eq_refl)
    as [H1 [ty [Hty [Hcls _]]]].
  split; [exact H1 |].
  assert (Ety : ty = "binary_classification") by (vm_compute in Hty; congruence).
  destruct (Hcls (or_introl Ety)) as [H2 [vocab [i2l [l2i [Hv [Hn _]]]]]].
  split; [exact H2 |].
  assert (Ev : vocab = [Dataset.LBool false; Dataset.LBool true])
    by (vm_compute in Hv; congruence).
  rewrite Hn, Ev. reflexivity.
Defined.

(* ===================================================================== *)
(** ** set_to_dataset: the registry of measurements *)
(* ===================================================================== *)

Lemma dict_get_not_key {V} (d : dict V) (k : string) :
  ~ In k (dict_keys d) -> dict_get d k = None.
Proof.
  intros H. destruct (dict_get d k) eqn:E; [| reflexivity].
  exfalso. apply H. apply dict_get_In_keys. congruence.
Qed.

(** A loop that sets the entries of the items it does not skip, read at a key. *)
Lemma fold_dict_set_get {A V} (skip : string * A -> bool) (g : string * A -> V)
  (l : dict A) (k : string) :
  NoDup (dict_keys l) ->
  forall acc,
    dict_get (fold_left (fun acc e => if skip e then acc else dict_set acc (fst e) (g e))
                l acc) k
    = match dict_get l k with
      | Some a => if skip (k, a) then dict_get acc k else Some (g (k, a))
      | None => dict_get acc k
      end.
Proof.
  induction l as [| [k0 a0] l IH]; intros Hnd acc; simpl; [reflexivity |].
  simpl in Hnd. inversion Hnd as [| ? ? Hnot Hrest]; subst.
  rewrite (IH Hrest).
  destruct (String.eqb k k0) eqn:E.
  - apply String.eqb_eq in E. subst k0.
    rewrite (dict_get_not_key l k Hnot).
    destruct (skip (k, a0)); [reflexivity |]. simpl. apply dict_get_set_same.
  - apply String.eqb_neq in E.
    destruct (skip (k0, a0)); [reflexivity |]. simpl.
    rewrite dict_get_set_other by exact E. reflexivity.
Qed.

Lemma fold_dict_set_const_get {V} (v : V) (ks : list string) (k : string) :
  forall acc,
    dict_get (fold_left (fun acc k' => dict_set acc k' v) ks acc) k
    = if str_in k ks then Some v else dict_get acc k.
Proof.
  induction ks as [| k0 ks IH]; intros acc; simpl; [reflexivity |].
  rewrite IH. unfold str_in in *. simpl.
  destruct (existsb (String.eqb k) ks); [rewrite orb_true_r; reflexivity |].
  rewrite orb_false_r. rewrite dict_get_set.
  destruct (String.eqb k k0); reflexivity.
Qed.

Lemma dict_get_map_values {A V} (f : A -> V) (d : dict A) (k : string) :
  dict_get (map (fun kv => (fst kv, f (snd kv))) d) k = option_map f (dict_get d k).
Proof.
  induction d as [| [k0 a0] d IH]; simpl; [reflexivity |].
  destruct (String.eqb k k0); [reflexivity | exact IH].
Qed.

Lemma dict_keys_map_values {A V} (f : A -> V) (d : dict A) :
  dict_keys (map (fun kv => (fst kv, f (snd kv))) d) = dict_keys d.
Proof.
  unfold dict_keys. rewrite map_map. reflexivity.
Qed.

Lemma str_in_filter (p : string -> bool) (ks : list string) (k : string) :
  str_in k (filter p ks) = str_in k ks && p k.
Proof.
  unfold str_in. induction ks as [| k0 ks IH]; simpl; [reflexivity |].
  destruct (p k0) eqn:Ep; simpl; rewrite IH.
  - destruct (String.eqb k k0) eqn:E; simpl; [| reflexivity].
    apply String.eqb_eq in E. subst k0. rewrite Ep. reflexivity.
  - destruct (String.eqb k k0) eqn:E; simpl; [| reflexivity].
    apply String.eqb_eq in E. subst k0. rewrite Ep.
    rewrite andb_false_r. reflexivity.
Qed.

(** X: the registry [set_to_dataset] leaves in the configuration, for a dataset
    whose dictionaries have distinct keys.  The offsets are the dataset's; a
    measurement with a vocabulary has the length of the vocabulary as its size,
    [event_type] without one the number of event types, any other measurement with an
    offset the size 1, and no other measurement has a size; the vocabulary size is
    the dataset's total, whatever the sizes add up to.  The event types recorded are
    those of every dynamic measurement that is not dropped, its own when it declares
    them and all event types otherwise, and all event types for [event_type]. *)
Theorem set_to_dataset_registry (c c' : Config.t) (t t' : Task.t) (d : Dataset.t) :
  SetToDataset.set_to_dataset c t d = inr (c', t') ->
  NoDup (dict_keys (Dataset.measurement_vocabs d)) ->
  NoDup (dict_keys (Dataset.measurement_configs d)) ->
  Config.vocab_offsets_by_measurement c' = Dataset.measurement_vocab_offsets d
  /\ (forall k,
        dict_get (Config.vocab_sizes_by_measurement c') k
        = match dict_get (Dataset.measurement_vocabs d) k with
          | Some vocab => Some (Z.of_nat (List.length vocab))
          | None =>
              if String.eqb k "event_type"
              then Some (Z.of_nat (List.length (Dataset.event_types_idxmap d)))
              else match dict_get (Dataset.measurement_vocab_offsets d) k with
                   | Some _ => Some 1
                   | None => None
                   end
          end)
  /\ Config.vocab_size c' = Dataset.total_vocab_size d
  /\ exists etpm,
       Config.event_types_per_measurement c' = Some etpm
       /\ forall m,
            dict_get etpm m
            = match dict_get (Dataset.measurement_configs d) m with
              | Some cfg =>
                  if Dataset.is_dropped cfg || negb (Dataset.is_dynamic cfg)
                  then (if String.eqb m "event_type"
                        then Some (dict_keys (Dataset.event_types_idxmap d))
                        else None)
                  else
                    match Dataset.present_in_event_types cfg with
                    | Some types => Some types
                    | None => Some (dict_keys (Dataset.event_types_idxmap d))
                    end
              | None =>
                  if String.eqb m "event_type"
                  then Some (dict_keys (Dataset.event_types_idxmap d))
                  else None
              end.
Proof.
  intros H Hv Hc. unfold SetToDataset.set_to_dataset in H. inv_bind H.
  unfold ret in H. injection H as Ec Et. subst c' t'. cbn.
  split; [reflexivity |]. split; [| split; [reflexivity |]].
  - intros k. unfold SetToDataset.vocab_sizes_by_measurement_of.
    rewrite fold_dict_set_const_get, str_in_filter.
    unfold dict_mem.
    rewrite dict_get_update_NoDup
      by (rewrite (dict_keys_map_values (fun v : list string => Z.of_nat (List.length v)));
          exact Hv).
    rewrite (dict_get_map_values (fun v : list string => Z.of_nat (List.length v))).
    destruct (dict_get (Dataset.measurement_vocabs d) k) as [vocab |]; simpl.
    + rewrite andb_false_r. reflexivity.
    + destruct (String.eqb k "event_type"); simpl.
      * rewrite andb_false_r. reflexivity.
      * rewrite andb_true_r.
        destruct (dict_get (Dataset.measurement_vocab_offsets d) k) as [o |] eqn:Eo.
        -- assert (Hin : str_in k (dict_keys (Dataset.measurement_vocab_offsets d)) = true).
           { apply str_in_In. apply dict_get_In_keys. congruence. }
           rewrite Hin. reflexivity.
        -- assert (Hin : str_in k (dict_keys (Dataset.measurement_vocab_offsets d)) = false).
           { destruct (str_in k (dict_keys (Dataset.measurement_vocab_offsets d))) eqn:Es;
               [| reflexivity].
             apply str_in_In in Es. apply dict_get_In_keys in Es. congruence. }
           rewrite Hin. reflexivity.
  - exists (SetToDataset.event_types_per_measurement_of d). split; [reflexivity |].
    intros m. unfold SetToDataset.event_types_per_measurement_of.
    rewrite (fold_dict_set_get
               (fun e : string * Dataset.MeasurementConfig =>
                  Dataset.is_dropped (snd e) || negb (Dataset.is_dynamic (snd e)))
               (fun e : string * Dataset.MeasurementConfig =>
                  Config.event_types_for (Dataset.present_in_event_types (snd e))
                    (Dataset.event_types_idxmap d))
               (Dataset.measurement_configs d) m Hc).
    simpl.
    destruct (dict_get (Dataset.measurement_configs d) m) as [cfg |]; simpl.
    + destruct (Dataset.is_dropped cfg || negb (Dataset.is_dynamic cfg)); [reflexivity |].
      unfold Config.event_types_for.
      destruct (Dataset.present_in_event_types cfg); reflexivity.
    + reflexivity.
Qed.

Lemma set_to_dataset_registry_witness :
  exists c' t',
    SetToDataset.set_to_dataset Example.nested_config no_task task_dataset = inr (c', t')
    /\ dict_get (Config.vocab_sizes_by_measurement c') "age" = Some 1
    /\ dict_get (Config.vocab_sizes_by_measurement c') "event_type" = Some 2
    /\ Config.vocab_size c' = 9.
Proof.
  destruct (SetToDataset.set_to_dataset Example.nested_config no_task task_dataset)
    as [e | [c' t']] eqn:E; [vm_compute in E; discriminate |].
  assert (Hv : NoDup (dict_keys (Dataset.measurement_vocabs task_dataset))).
  { vm_compute. repeat constructor; simpl; intuition discriminate. }
  assert (Hc : NoDup (dict_keys (Dataset.measurement_configs task_dataset))).
  { vm_compute. repeat constructor; simpl; intuition discriminate. }
  destruct (set_to_dataset_registry Example.nested_config c' no_task t' task_dataset
              E Hv Hc) as [_ [Hs [Ht _]]].
  exists c', t'. split; [reflexivity |].
  split; [rewrite Hs; reflexivity |]. split; [rewrite Hs; reflexivity | exact Ht].
Defined.
